(* ===== verification/_CoqProject ===== *)
-Q . S2P
Prelude.v
Float32.v
Vec3.v
Matrix.v
Text.v
IStream.v
Cloud.v
PtsParser.v
PlyParser.v
PlyHeader.v
PlyBody.v
ViewportParameters.v
Renderer.v
ViewportObject.v
Registry.v
MainWindow.v
Refinement.v
PlyAscii.v
PlyLines.v
Overlay.v
PtsFile.v
Shaders.v
VertexBuffer.v
Main.v
Lifetime.v
Camera.v
PtsWords.v
OpenGL.v
Session.v
FloatOrder.v
Projection.v
Validity.v
EndToEnd.v
Members.v
PlyLayout.v
PlyElements.v
