(* ===== verification/Prelude.v ===== *)
(** * A point-cloud viewer: loaders, camera, viewport snapshots

    This library models the C++/Qt point-cloud viewer of this repository
    (src/) as Rocq functions and proves what makes its core correct: the
    two file loaders and the bounding box they maintain, the camera state
    of the renderer and its matrix, the viewport snapshots and the list the
    main window keeps of them.  Every definition is a translation of
    lines of the sources and keeps their names; what the sources only
    call (Qt strings, C++ streams, float arithmetic, matrices) is modelled
    as far as the calls need it.

    ** The program and the files that model it

    - [Float32]: the [float] of the program is IEEE binary32 on
      [SpecFloat] (precision 24, emax 128, round to nearest even);
      [double] (used inside [QVector3D::length] and by the input dialogs)
      is binary64.  [std_min]/[std_max] are the C++ definitions
      ([(b < a) ? b : a]), so their behaviour on NaN is the program's.
      [std::pow] is the class [Libm].  The file proves the order theory of
      the comparison ([fle] is transitive on numbers) and the clamp lemma.
    - [Vec3], [Matrix]: [QVector3D] as a record of three floats;
      [QMatrix4x4] as the class [Matrix4x4] of the four operations the
      program builds matrices with, and [MatrixMap] for the one place
      where it reads one ([map], in the overlay).  The instance
      [SymMatrix] is the sequence of operations applied to the identity:
      two matrices built by the same calls are equal, which is all the
      theorems need.  [f32_to_int] is the conversion of a [float]
      argument to an [int] parameter.
    - [Text]: [QString::trimmed] (which removes the white space of
      [QChar::isSpace]: [qchar_isSpace]), [split] on the white space of
      the regular expression [\s] ([is_space]), [startsWith],
      [endsWith] without case, [toFloat] (class [TokenToFloat], instance
      [QtTokenToFloat] for decimal notation, [nan] and [inf]),
      [QTextStream] lines, and [QString::arg] of an unsigned number.
    - [IStream]: [std::istream] on a string: buffer, eofbit, failbit;
      [getline], [operator>>] for words, [int] and [float] (class [NumGet],
      instance [StdNumGet]), [read].  An extraction returns [None] when it
      writes nothing to its target (the stream was not good): a program
      that then reads the target reads an uninitialised variable.
    - [Cloud]: the members a loader rebuilds ([m_vertices], the two box
      corners), the reset to the sentinels, the append-and-extend step of
      pointcloudrenderer.cpp lines 270-279, and the invariant [cloud_inv].
    - [PtsParser]: the loop of [PointCloudRenderer::loadPtsFile] as a fold
      of [pts_step] over the lines.
    - [PlyParser]: [PointCloudRenderer::loadPlyFile] up to the end of its
      record loops: the locals as the record [PlyLocals], the header loop
      [header_loop], the test [header_valid], the loops [ascii_body] and
      [binary_body], and the four ways of leaving ([PlyOutcome]).
    - [PlyHeader]: a header as the format describes it ([print_header])
      and the locals it should leave ([expected]); the proof that the
      header loop reads a printed header back.
    - [PlyBody]: what the bytes of a binary record mean ([decode_values])
      and the cloud a list of records encodes ([add_records]); the proof
      that the binary loop builds that cloud.
    - [PlyAscii]: what the words of an ASCII record mean
      ([token_values]); the proof that the ASCII loop reads them, for
      every [num_get] that stops at white space ([NumGetLocal]), and that
      the two record loops agree.
    - [PlyLayout]: the ASCII record loop on lines in any layout: the
      words of a line ([split_ws]) however they are spaced, and the
      words no property reads ([words_ok], [line_ok]).
    - [PlyElements]: the body of the header loop as a function of the
      words of the line ([header_words]) and the lines the loop does
      nothing with ([ignored]).
    - [PlyLines]: the header loop and the ASCII record loop as structural
      recursions on the lines of the text ([header_fold], [ascii_fold],
      [ply_of_lines]), equivalent to the stream code; the [int] typing of
      the header's variables.
    - [PtsFile]: a [.pts] file written one record per line and the proof
      that the loop of [loadPtsFile] reads it back.
    - [PtsWords]: the loop body of [loadPtsFile] decided on the words of
      the untrimmed line ([pts_step_words]), and the proof that this is
      what the loop computes on the lines where the two classes of white
      space cannot be told apart at the ends ([plain]).
    - [ViewportParameters]: the struct [ViewportObject::ViewportParameters],
      the matrix [view_matrix] that [updateModelViewMatrix] computes, and
      the contract [ViewportTarget] between a snapshot and a renderer.
    - [Renderer]: the members of [PointCloudRenderer] that its handlers use
      (the record keeps the member names), one function per handler of
      pointcloudrenderer.cpp ([initializeGL], [resizeGL], [paintGL],
      [loadPtsFile], [loadPlyFile], [setViewport], [resetView],
      [getViewportParameters], the mouse and wheel handlers), the step
      function [handle] and the states [reachable] from [initializeGL].
      The content of the GPU buffer is the member [m_vbo]; Qt's [update()]
      sets the flag [m_updatePending]; files are read through a
      [FileSystem] (a path gives the content, or does not open).
      [setupVertexBuffers] uploads with the [int] byte count the call
      computes ([allocate_count], [allocate]).
    - [VertexBuffer]: the two vertex attributes [setupVertexBuffers]
      declares, the buffer as the [float]s of the [Vertex] array, and the
      attribute fetch that feeds the vertex shader.
    - [Overlay]: [paintEvent] and [drawCoordinateSystem]; the calls on the
      [QPainter] are a list of commands, the widget size and the flag
      [m_showCoordinateSystem] are arguments.
    - [Shaders]: [setupShaders] on the state of [m_program], the OpenGL
      driver being the class [GLCompiler]; the [main] of the fragment
      shader.
    - [OpenGL]: the background colour the constructor builds
      ([m_backgroundColor], through [QColor(int, int, int, int)]), and
      the OpenGL side of the renderer: every function of
      pointcloudrenderer.cpp that calls OpenGL is the list of its calls
      in source order ([initializeGL_calls], [setupShaders_calls],
      [setupVertexBuffers_calls], [paintGL_calls], [paintEvent_calls],
      [loaded_calls] for the bracket [makeCurrent] ... [doneCurrent] of
      the loaders, [destructor_calls]), and the context of the widget is
      a state machine that executes the calls ([gl_step]): current
      context, resolved functions, clear colour, enabled capabilities,
      the program and its uniforms, the vertex array and its pointers,
      the buffer and its content, and a log of cleared frames, draws and
      refused calls.  [gl_session] runs the renderer and its context
      together.  The machine is written after the documentation of Qt
      and OpenGL 3.3 core; the one behaviour taken from the
      implementation of Qt is that the OpenGL paint engine of a
      [QPainter] disables the depth test when it begins and when it
      ends ([painter_state]).
    - [ViewportObject]: the class of viewportobject.h/.cpp; [applyViewport]
      is written against [ViewportTarget].
    - [Registry]: the snapshot registry as the specification describes
      it (capture under the next automatic name, list, replay), as
      operations ([RegOp], [reg_exec], [reg_run]), with the guarantees
      that follow from the description alone.
    - [MainWindow]: the slots of mainwindow.cpp on the members they use
      and the counter [s_viewportIndex]; what a dialog returns is an
      argument of the slot, message boxes are logged in [shown], and a
      [ViewportObject*] is a position in [m_viewportList].  [ui_handle] is
      the table of connections of [setupActions]; [ui_reachable] are the
      states of a session.
    - [Refinement]: the session [abs] a state of the window holds, the
      table [implements] of the operations of [Registry] each user action
      stands for in a state, and the proof that every slot executes the
      operations of the table, up to the matrices of the stored
      parameters ([session_equiv]).
    - [Main]: the surface format [main] requests and the event loop
      ([exec]) that dispatches to [ui_handle] until the Exit action.
    - [Session]: the calls the slots of the window make on the renderer,
      as events of the renderer ([slot_calls], [ui_trace]), and the
      context of the renderer when [main] has dispatched its events
      ([main_context]).
    - [Camera]: what the matrix of [updateModelViewMatrix] does to a
      point: Qt's [translate] and [rotate] multiply the matrix from the
      right, so the calls act on a point in the reverse order
      ([mat_point]); values are the exact real values of the [float]s,
      angles are in degrees.
    - [FloatOrder]: the values a [float] variable can hold
      ([f32_valid]) and the comparison of [float] on their exact values.
    - [Projection]: [gl_Position] of the vertex shader, the product of
      [m_projection] and [m_modelView] with [vec4(position, 1.0)]
      ([mat_vec4], [op_vec4]), the matrix [QMatrix4x4::perspective]
      builds for [resizeGL] with its early returns ([perspective_vec4],
      [resized]) and the clip volume of OpenGL ([in_clip_volume],
      [in_depth]), with the same exact reading of the [float]s.
    - [Validity]: the values the binary loader stores, by the type of
      their property ([typed_value]); the range of the colours
      ([unit_range]); the box of a binary file in the real numbers.
      [f32_valid] and [cloud_valid] say that a value of the model is an
      encoding of a [float]; they have no counterpart in the program,
      where every [float] is one, and are what the order lemma [fle_R]
      needs.
    - [EndToEnd]: the layers between a file and the frame in one
      statement: the load event ([loads]), the draw call of the frame
      after it ([framed_draw]) and [main] of the vertex shader on a
      vertex of the buffer ([vertex_output]).
    - [Members]: the object with every member pointcloudrenderer.h
      declares ([Object]), an indeterminate value for each scalar member
      without an initialiser, the enumerations, the inline getters, and
      the handlers on the object ([object_handle]) with [paintEvent],
      scene and overlay, in the place of [paintGL].
    - [Lifetime]: the same slots with the snapshots where the program
      keeps them: objects created with [new] on a free store (a finite
      map from addresses, stdpp's [gmap]), pointers as addresses in
      [m_viewportList] and in the tree items, and the destructor of the
      window ([qDeleteAll]).  The allocator is a parameter; following or
      deleting an address that is not live is undefined.

    ** What is proved

    - Loaders: the box bounds every loaded coordinate that is a number and
      is attained ([pts_parse_bounds], [pts_parse_box_attained],
      [ply_parse_cloud]); the vertices are those of the accepted lines, in
      order ([pts_parse_vertices]); the header loop terminates
      ([ply_header_terminates]) and reads a well-formed header back, with
      the properties and indices it declares ([ply_header_reads_back]); a
      well-formed header is refused exactly when x, y or z is missing
      ([ply_parse_refuses]); an accepted header makes every index into
      the values in range ([ply_accesses_in_range]); the binary loop adds
      exactly the complete records and reports truncation
      ([binary_body_truncation]); a well-formed binary file is loaded as
      the cloud its records encode, byte for byte
      ([ply_binary_reads_back]), and so is a well-formed ASCII file
      ([ply_ascii_reads_back]), whatever white space stands around the
      words of its lines and whatever follows the last word a property
      reads ([ply_ascii_layout]); the header loop is a function of the
      words of each line ([header_line_words]) and keeps no current
      element, so a file with an [element] line of another element is
      loaded as the file without it and the properties of that element
      count as properties of the vertices ([ignored_line_removed],
      [face_colours_bound]); the two record loops agree on files that
      denote the same values ([ply_ascii_binary_agree]); the stream code
      of the ASCII loader is equivalent to the reference on the list of
      lines ([ply_parse_lines]); the [int] variables of the header loop
      hold [int] values ([ply_header_ints]); a written [.pts] file is
      read back ([pts_reads_back]); on a text of plain lines the
      simple-format loader computes what the words of the lines decide,
      so white space before, between and after the words never matters
      ([pts_parse_by_words], [pts_step_layout]); on a line that begins
      with a no-break space the loop and the words disagree
      ([nbsp_comment_skipped], [nbsp_record_not_read_back]).
    - Camera: the model-view matrix is consistent with distance, rotation
      and centre in every reachable state ([reachable_view_consistent]);
      the wheel keeps the distance in [0.1, 1000], NaN included
      ([wheelEvent_distance_bounds]); parameters survive the trip through
      [setViewport] ([viewport_roundtrip]); loading replaces the cloud and
      frames it, and failures are described member by member
      ([loadPtsFile_success], [loadPtsFile_open_failure],
      [loadPlyFile_invalid_header_clears],
      [loadPlyFile_read_error_keeps_partial]); a paint draws exactly the
      cloud the renderer holds, the vertex shader receiving position and
      colour of each vertex through the declared attributes, as long as
      no binary load was cut short and the byte count of the upload fits
      an [int] ([paint_within_buffer], [shader_input_vertex],
      [paint_draws_cloud]; [allocate_overflow] for the first size that
      does not fit); a handler that changes what is drawn leaves a repaint
      requested ([repaint_on_change]).
    - Camera geometry: the model-view matrix of a consistent state maps
      the model centre onto the view axis at the camera distance and
      keeps the distance of every point to the centre, so a drag turns
      the cloud about its centre and a point nearer to the centre than
      the camera is in front of it ([view_point],
      [camera_orbits_centre]); after [resetView] the view is a
      translation ([resetView_translation]).
    - Projection: the fourth clip coordinate of a vertex is its depth in
      front of the camera, and the vertex passes the clipping on [z]
      exactly when the depth is between the planes 0.01f and 1000 of
      [resizeGL] ([vertex_in_depth_range]); the model centre is drawn on
      the view axis ([center_on_axis]); a cloud within [r] of its centre
      is drawn whole when the camera distance is between [near + r] and
      [far - r] and [r] is at most the distance times the sine of 22.5
      degrees, in a window at least as wide as high, and not at all when
      the distance is above [far + r] ([cloud_in_view]); these states are
      those of the sessions after a resize ([session_projection]).  On
      valid finite values [<=] of [float] is [<=] of the values
      ([fle_R]), so the distance [wheelEvent] leaves is a number between
      one tenth and one thousand and the model centre stays within the
      depth range however far the wheel is turned
      ([wheelEvent_center_in_depth]).  The
      loaders do not clamp the distance they choose: the file of two
      points 1000 apart is drawn beyond the far plane
      ([far_cloud_is_clipped]).
    - Values: the box [loadPlyFile] computes for a binary file bounds
      the vertices it stored as real numbers, when their coordinates are
      numbers ([ply_binary_bounds_R], through [f32_of_bits_valid] and
      [box_bounds_R]); the binary loop reports a read error exactly
      when it has copied a value no read had written
      ([binary_read_error_unwritten]); the room asked of the vector is
      the count the header announces, whatever the file holds
      ([reserve_unbounded]); the colours of
      [uchar] properties are between 0 and 1 ([binary_uchar_colours]),
      which neither a header of mixed colour types nor a .pts line
      guarantees ([mixed_colour_types], [pts_colour_above_one]).
    - From the file to the frame: after any session, a load that
      succeeds, a resize and a paint end in one draw call of all the
      vertices of the file, each at the clip position the framed camera
      and the projection of the new size give it, with its colour
      ([file_on_screen]); the same holds from the Open action of the
      window, after any session of the window, without a message box
      ([open_file_on_screen]); the box of the loader decides the
      clipping of the whole cloud on [z] ([box_decides_depth]); a file
      of one point is framed at distance zero and its point is clipped
      ([one_point_clipped]); the sum of the corners in the model centre
      overflows for coordinates above half the range of [float]
      ([framed_center_overflows]).
    - Members: the handlers on the object act on the members of
      [Renderer] as its state machine does ([object_run_state]) and leave
      the others ([object_run_unassigned]); from the constructor every
      session that paints reads [m_showCoordinateSystem] while it is
      indeterminate ([paint_undefined]); on a machine the storage of the
      flag decides for the whole session, and with [false] no frame has
      the overlay ([machine_overlay_never]).
    - Overlay and shaders: the painter calls of the overlay come in a
      fixed order and start at the centre of the overlay
      ([drawCoordinateSystem_calls]); after [resetView] the axes are
      drawn unrotated ([drawCoordinateSystem_reset]); the scale bar lies
      inside the widget ([draw_scale_inside]); [setupShaders] is silent
      exactly when every step succeeds ([setupShaders_quiet]).
    - OpenGL: between two handlers the context is in a known state
      ([gl_session_steady]): its buffer object holds [m_vbo] of
      [Renderer], the vertex array has the two attributes of
      [VertexBuffer], and neither program nor vertex array is bound
      ([gl_buffer_is_m_vbo]); no call is made without a current context
      or before the functions are resolved, also after a load has left
      the context not current ([gl_calls_in_context]); when
      [setupShaders] prints no message the log of the context is what
      [Renderer] predicts, event by event: the draw call of [paintGL] for
      every paint, the refused second [m_vao.create()] for every load
      that succeeds, and nothing else ([gl_log_is_expected]); the depth
      test, enabled in [initializeGL] alone, is disabled by the painter
      of the first [paintEvent] and stays so
      ([depth_test_until_painted]); the background is black with an
      alpha of 1 of 255, not the colour the constructor names
      ([background_is_black]); the destructor destroys buffer and vertex
      array with the context current ([destructor_releases]); a load
      before the widget is shown calls OpenGL without a context
      ([load_before_show]); with a program that does not link every
      paint is refused ([paint_log_unlinked]).
    - Application: the window the event loop returns is a reachable
      state of the session ([exec_reachable]); the shaders ask for the
      OpenGL version [main] requests ([shaders_match_format]); the
      window changes the renderer through its handlers only, so the
      renderer of the application is always a reachable state of
      [Renderer] ([ui_trace_run], [ui_reachable_renderer]);
      when [main] returns, the context holds the buffer of the renderer,
      no call was made without a context, and the destructor of the
      renderer releases buffer and vertex array
      ([main_releases_context]).
    - Object lifetime: the session on the free store does what the
      position-based session of [MainWindow] does, for every allocator
      that returns addresses that are not live: the addresses of the
      list are pairwise distinct and hold the snapshots in order, nothing
      else is live, every tree item points to the snapshot it names, and
      no slot follows a dangling pointer ([session_on_free_store]); when
      [main] returns the destructor has deleted every snapshot exactly
      once ([main_frees_all]; [stuck_allocator_double_delete] shows what
      happens without the allocator's promise).
    - Snapshots: against the contract, applying a snapshot sets its
      parameters and requests a repaint ([applyViewport_parameters]) and
      capture followed by apply is the identity on consistent parameters
      ([capture_apply_roundtrip]).
    - Session: the invariant [window_inv] in every reachable state
      ([ui_reachable_inv]); the list is append-only and its objects do not
      change ([snapshots_immutable]); capture and replay by slot
      ([capture_effect], [double_click_replays], [capture_then_replay]);
      names are distinct below 2^32 captures ([names_distinct]); slots
      that change what is drawn request a repaint
      ([slot_repaint_on_change]).
    - Refinement: every session of the window is, event by event, the
      run of the registry the table [implements] names, while the
      counter has room, up to the stored matrices
      ([session_refines_registry]); with them it is not
      ([stale_session_not_registry]).
    - Behaviour the specification does not describe, or describes
      otherwise.  In general: a coordinate that is not a number never
      enters the box ([cloud_add_nan]); the record loops ignore the byte
      order ([ply_body_ignores_byte_order]); a binary load that is cut
      short leaves vertices and buffer out of step, and the next paint
      draws from the old buffer ([read_error_draws_stale_buffer]).  On
      concrete files: [bbox_misses_nan],
      [ply_unrecognised_property_shifts], [ply_ascii_short_line_undefined],
      [ply_ascii_missing_lines_repeat], [load_distance_not_clamped],
      [paint_after_failed_load_overruns_buffer],
      [user_coords_snapshot_stale_matrix], [replay_after_load_breaks_box].
    - The scenarios A to D of the specification ([pts_scenario_A],
      [ply_scenario_B], [ply_scenario_C], [scenario_D]).

    ** Bounds and fuel

    The only loop that is not a fold or a structural recursion is the
    header loop of [loadPlyFile].  [header_loop] takes a fuel;
    [header_fuel] gives it the number of characters of the file plus two:
    every iteration that does not leave the loop consumes at least one
    character ([cut_line_length], [getline_progress]), so the fuel is never used up
    ([header_loop_enough], [ply_header_terminates]), and the result does
    not depend on the fuel ([header_loop_agree]).  Integers keep their
    C++ range where the program can reach its ends: [int] extraction
    saturates at [INT_MIN]/[INT_MAX], the counter [s_viewportIndex] wraps
    at 2^32, the byte count of the buffer upload is converted to [int]
    modulo 2^32 ([to_int]), a [float] converted to [int] has no value
    outside [int] ([f32_to_int]).  The variables of the header loop are
    [Z] without a bound, and [ply_header_ints] shows that they hold [int]
    values on every file of at most [INT_MAX] characters.  Widget sizes
    and mouse positions are [Z]: Qt keeps them far from the ends of
    [int].  Addresses on the free store are [positive] numbers without a
    bound: the theorems of [Lifetime] hold for every allocator, and one
    that runs out of memory does not return.  The machine of [OpenGL]
    has no bound: the number of calls of a session is that of its
    events, and the tactic [gl_eval] runs a handler's calls by
    computation.  [Projection] has no bound either: its numbers are real
    numbers, and [f32_R_eval] turns a closed [float] into its fraction.

    ** Not modelled

    The rasterisation of a draw (what the depth test, the point size and
    the fragment shader make of the vertices on the screen), the
    compilation of the shaders ([GLCompiler] is a parameter) and the
    drawing the paint engine of [QPainter] does for the overlay; the
    rounding of the matrix products Qt and the vertex shader compute in
    [float] ([Camera] and [Projection] read the matrices with exact
    arithmetic, so their theorems hold up to that rounding), the
    viewport transformation from clip space to pixels, and the aspect
    ratio [resizeGL] computes for a widget without width or height, with
    which Qt does not call it; that the results of the [float]
    operations are values of the type, which needs the correctness of
    the rounding of [SpecFloat] that the Standard Library does not prove
    (the theorems in the real numbers keep it as a hypothesis on the
    centre, the distance and the aspect ratio), and with it the error
    between the centre and distance the loaders compute and the exact
    bounding sphere; the
    operations pointcloudrenderer.h declares without defining (nothing
    calls them, and there is no code to model); the construction of the
    widgets, which is in the generated ui_mainwindow.h and not among
    the sources, and their destruction by their parent ([delete ui]
    frees the table of widget pointers, of which the model keeps none);
    text encodings and
    locales (a text is the sequence of characters below U+0100 the
    stream decoded, a line ends at a line feed; the white space of
    Unicode from U+0100 on, which [trimmed] also removes, is not in the
    model); the exhaustion of memory ([m_vertices.reserve] and [append]
    succeed); the sign and payload of a NaN; [QVector3D::length] of
    Qt 6 (the model has the one of Qt 5); big-endian hosts.  In the
    binary record loop the copy of a [val] that the failed read did not
    write is given a placeholder, as the compiled program drops it;
    by the language standard it is undefined.  Reference instances ([QtTokenToFloat],
    [StdNumGet], [LibmUnitSteps], [SymMatrix]) are used only to evaluate
    the concrete scenarios; the general theorems hold for every instance.

    ** This file

    The tactics, the hint databases [pcv] and [pcv_rw], and the loop
    principles shared by the other files. *)

From Stdlib Require Import List ZArith Lia Bool String Ascii.
Import ListNotations.

(** ** Shared tactics *)

Ltac inv H := inversion H; subst; clear H.

(** ** Hint database of the development *)

Create HintDb pcv discriminated.

(** ** Loops as folds

    Every [while]/[for] loop of the program that walks a sequence once is
    modelled as a [fold_left] of its body.  The two principles below are the
    loop-invariant rule and the unfolding of the last iteration. *)

Section Folds.
Context {A B : Type} (f : A -> B -> A).

Lemma fold_left_snoc (l : list B) (x : B) (a : A) :
  fold_left f (l ++ [x]) a = f (fold_left f l a) x.
Proof. now rewrite fold_left_app. Qed.

Lemma fold_left_invariant (P : A -> Prop) (l : list B) (a : A) :
  P a -> (forall s x, In x l -> P s -> P (f s x)) -> P (fold_left f l a).
Proof.
  revert a; induction l as [|x l IH]; intros a Ha Hstep; simpl; auto.
  apply IH; [apply Hstep; simpl; auto | intros; apply Hstep; simpl; auto].
Qed.

End Folds.

Create Rewrite HintDb pcv_rw.
#[export] Hint Rewrite @fold_left_snoc : pcv_rw.
