(* ===== verification/Float32.v ===== *)
(** * Float32: the single-precision arithmetic the program computes with

    Every coordinate, colour channel, distance and angle of the program is a
    C++ [float].  This file fixes its model: IEEE-754 binary32 values as
    [SpecFloat.spec_float] at precision 24 and maximal exponent 128, with the
    Standard Library's round-to-nearest-even operations.  NaNs carry no
    payload and comparisons with a NaN are false, as in C++.

    It holds
    - the arithmetic ([f32_add] ...), the comparison [f32_lt] and the
      C++ library functions [std_min] and [std_max] with their exact
      argument order;
    - decimal literals ([f32_of_decimal]) and the constants of the sources;
    - [f32_of_bits], the decoding of a 32-bit pattern, and [f32_to_int],
      the conversion to [int];
    - the order theory of [f32_le]: a total preorder on the values that are
      not NaN, obtained from a lexicographic key ([f32_key]);
    - min/max and clamp lemmas used by the bounding box and by the zoom. *)

From Stdlib Require Import ZArith Lia Bool List SpecFloat RelationClasses.
From S2P Require Import Prelude.

Local Open Scope Z_scope.

(** ** Values and operations *)

Definition f32 : Type := spec_float.

Definition prec32 : Z := 24.
Definition emax32 : Z := 128.
Definition prec64 : Z := 53.
Definition emax64 : Z := 1024.

Definition f32_add : f32 -> f32 -> f32 := SFadd prec32 emax32.
Definition f32_sub : f32 -> f32 -> f32 := SFsub prec32 emax32.
Definition f32_mul : f32 -> f32 -> f32 := SFmul prec32 emax32.
Definition f32_div : f32 -> f32 -> f32 := SFdiv prec32 emax32.
Definition f32_neg : f32 -> f32 := SFopp.

(** [a < b], [a <= b] and [a == b] on floats: false as soon as one side is
    a NaN. *)
Definition f32_lt : f32 -> f32 -> bool := SFltb.
Definition f32_le : f32 -> f32 -> bool := SFleb.

Definition f32_is_nan (x : f32) : bool :=
  match x with S754_nan => true | _ => false end.

(** [std::min(a, b)] is [(b < a) ? b : a] and [std::max(a, b)] is
    [(a < b) ? b : a]: with a NaN on either side the first argument is
    returned. *)
Definition std_min (a b : f32) : f32 := if f32_lt b a then b else a.
Definition std_max (a b : f32) : f32 := if f32_lt a b then b else a.

(** [static_cast<float>(n)] for an integer [n]. *)
Definition f32_of_Z (z : Z) : f32 := binary_normalize prec32 emax32 z 0 false.

(** The value [(-1)^s * m * 10^e10] rounded once to the format
    [(prec, emax)]: the correctly rounded reading of a decimal numeral. *)
Definition sf_of_decimal (prec emax : Z) (s : bool) (m : N) (e10 : Z) : spec_float :=
  match m with
  | N0 => S754_zero s
  | Npos p =>
      if 0 <=? e10
      then binary_normalize prec emax (cond_Zopp s (Zpos p * 10 ^ e10)) 0 s
      else SFdiv prec emax (S754_finite s p 0)
                           (S754_finite false (Z.to_pos (10 ^ (- e10))) 0)
  end.

(** A [float] literal of the sources, such as [0.9f] = [f32_of_decimal false 9 (-1)]. *)
Definition f32_of_decimal : bool -> N -> Z -> f32 := sf_of_decimal prec32 emax32.

(** Widening to [double] (exact) and narrowing back (rounded). *)
Definition f64_of_f32 (x : f32) : spec_float :=
  match x with
  | S754_finite s m e => binary_normalize prec64 emax64 (cond_Zopp s (Zpos m)) e s
  | _ => x
  end.

Definition f32_of_f64 (x : spec_float) : f32 :=
  match x with
  | S754_finite s m e => binary_normalize prec32 emax32 (cond_Zopp s (Zpos m)) e s
  | _ => x
  end.

(** The value a 32-bit pattern denotes (sign, 8 exponent bits, 23 fraction
    bits), as a [float] object read from four bytes of memory.  The model
    has one NaN: the sign and the payload of a NaN pattern are not kept;
    the program only compares and draws its values, to which they make no
    difference except in the bytes sent to the vertex buffer. *)
Definition f32_of_bits (w : Z) : f32 :=
  let s := Z.testbit w 31 in
  let e := Z.land (Z.shiftr w 23) 255 in
  let m := Z.land w (2 ^ 23 - 1) in
  if e =? 255 then (if m =? 0 then S754_infinity s else S754_nan)
  else if e =? 0 then
    match m with Zpos p => S754_finite s p (-149) | _ => S754_zero s end
  else
    match Z.lor m (2 ^ 23) with
    | Zpos p => S754_finite s p (e - 150)
    | _ => S754_nan
    end.

(** The conversion of a [float] to [int]: the value truncated toward zero.
    [None] when the truncated value is not an [int], and for NaN and the
    infinities: the conversion is then undefined. *)
Definition f32_to_int (x : f32) : option Z :=
  match x with
  | S754_zero _ => Some 0
  | S754_finite s m e =>
      let a := if 0 <=? e then Zpos m * 2 ^ e else Zpos m / 2 ^ (- e) in
      let z := if s then - a else a in
      if (-2147483648 <=? z) && (z <=? 2147483647) then Some z else None
  | _ => None
  end.

(** The platform's single-precision power function, [std::pow(float,
    float)].  It is not computable here; the program is stated for every
    such function. *)
Class Libm : Type := { powf : f32 -> f32 -> f32 }.

(** A stand-in that is defined where IEEE arithmetic determines the result
    of [powf]: exponents 1, 0 and -1 (the wheel moved by one notch or not at
    all).  It is NaN elsewhere and serves to run examples only. *)
Definition powf_unit_steps (x y : f32) : f32 :=
  if SFeqb y (binary_normalize prec32 emax32 1 0 false) then x
  else if SFeqb y (S754_zero false) then binary_normalize prec32 emax32 1 0 false
  else if SFeqb y (binary_normalize prec32 emax32 (-1) 0 false)
       then SFdiv prec32 emax32 (binary_normalize prec32 emax32 1 0 false) x
  else S754_nan.

Definition LibmUnitSteps : Libm := {| powf := powf_unit_steps |}.

(** ** Constants of the sources *)

Definition f32_zero : f32 := S754_zero false.
Definition f32_one : f32 := f32_of_Z 1.
Definition f32_half : f32 := f32_of_decimal false 5 (-1).
Definition f32_1_5 : f32 := f32_of_decimal false 15 (-1).
Definition f32_255 : f32 := f32_of_Z 255.
Definition f32_0_1 : f32 := f32_of_decimal false 1 (-1).
Definition f32_0_9 : f32 := f32_of_decimal false 9 (-1).
Definition f32_1000 : f32 := f32_of_Z 1000.
Definition f32_120 : f32 := f32_of_Z 120.
Definition f32_2 : f32 := f32_of_Z 2.
Definition f32_5 : f32 := f32_of_Z 5.
Definition f32_45 : f32 := f32_of_Z 45.
Definition f32_0_01 : f32 := f32_of_decimal false 1 (-2).

(** [std::numeric_limits<float>::max()] and [lowest()]. *)
Definition FLT_MAX : f32 := SFmax_float prec32 emax32.
Definition FLT_LOWEST : f32 := SFopp FLT_MAX.

(** ** The order as a key

    [SFcompare] compares two values that are not NaN as the lexicographic
    comparison of their keys: class (-inf, negative, zero, positive, +inf),
    then exponent, then mantissa, the last two negated for negative values. *)

Definition lex3 (a b : Z * Z * Z) : comparison :=
  let '(a1, a2, a3) := a in
  let '(b1, b2, b3) := b in
  match a1 ?= b1 with
  | Eq => match a2 ?= b2 with Eq => a3 ?= b3 | c => c end
  | c => c
  end.

Definition f32_key (x : f32) : Z * Z * Z :=
  match x with
  | S754_infinity true => (-2, 0, 0)
  | S754_finite true m e => (-1, - e, Zneg m)
  | S754_zero _ | S754_nan => (0, 0, 0)
  | S754_finite false m e => (1, e, Zpos m)
  | S754_infinity false => (2, 0, 0)
  end.

(** [fle a b]: both are numbers and [a <= b]. *)
Definition fle (a b : f32) : Prop := f32_le a b = true.

Ltac lex3_tac :=
  unfold lex3; intros;
  repeat match goal with p : (_ * _)%type |- _ => destruct p end;
  repeat match goal with
  | H : context [Z.compare ?a ?b] |- _ =>
      destruct (Z.compare_spec a b); try discriminate
  | |- context [Z.compare ?a ?b] =>
      destruct (Z.compare_spec a b); try discriminate
  end; try reflexivity; try congruence; try lia.

Lemma lex3_refl a : lex3 a a = Eq.
Proof. lex3_tac. Qed.

Lemma lex3_trans_le a b c :
  lex3 a b <> Gt -> lex3 b c <> Gt -> lex3 a c <> Gt.
Proof. lex3_tac. Qed.

Lemma lex3_antisym a b : lex3 b a = CompOpp (lex3 a b).
Proof. lex3_tac. Qed.

Lemma SFcompare_key (x y : f32) :
  SFcompare x y =
  if f32_is_nan x || f32_is_nan y then None
  else Some (lex3 (f32_key x) (f32_key y)).
Proof.
  destruct x as [[]|[]| |[] m1 e1], y as [[]|[]| |[] m2 e2];
    try reflexivity; simpl.
  all: rewrite ?Z.compare_opp, ?(Z.compare_antisym e1 e2).
  all: destruct (e1 ?= e2); reflexivity.
Qed.

(** The three comparisons in terms of the key. *)
Lemma f32_le_key a b :
  f32_le a b = negb (f32_is_nan a || f32_is_nan b) &&
               match lex3 (f32_key a) (f32_key b) with Gt => false | _ => true end.
Proof.
  unfold f32_le, SFleb. rewrite SFcompare_key.
  destruct (f32_is_nan a || f32_is_nan b); simpl; [reflexivity|].
  now destruct (lex3 _ _).
Qed.

Lemma f32_lt_key a b :
  f32_lt a b = negb (f32_is_nan a || f32_is_nan b) &&
               match lex3 (f32_key a) (f32_key b) with Lt => true | _ => false end.
Proof.
  unfold f32_lt, SFltb. rewrite SFcompare_key.
  destruct (f32_is_nan a || f32_is_nan b); simpl; [reflexivity|].
  now destruct (lex3 _ _).
Qed.

(** ** Order theory of [fle] *)
Lemma fle_not_nan a b : fle a b -> f32_is_nan a = false /\ f32_is_nan b = false.
Proof.
  unfold fle; rewrite f32_le_key; intros H.
  apply andb_true_iff in H as [H _]. now apply negb_true_iff, orb_false_iff in H.
Qed.

Lemma fle_refl a : f32_is_nan a = false -> fle a a.
Proof.
  intros Ha; unfold fle; rewrite f32_le_key, Ha, lex3_refl. reflexivity.
Qed.

Lemma fle_trans a b c : fle a b -> fle b c -> fle a c.
Proof.
  intros Hab Hbc.
  destruct (fle_not_nan _ _ Hab) as [Ha _], (fle_not_nan _ _ Hbc) as [Hb Hc].
  unfold fle in *; rewrite f32_le_key in *; rewrite Ha, Hb, Hc in *; simpl in *.
  pose proof (lex3_trans_le (f32_key a) (f32_key b) (f32_key c)) as T.
  destruct (lex3 (f32_key a) (f32_key b)), (lex3 (f32_key b) (f32_key c)),
    (lex3 (f32_key a) (f32_key c)); try reflexivity; try discriminate;
    exfalso; apply T; congruence.
Qed.

#[export] Instance fle_Transitive : Transitive fle := fle_trans.

Lemma f32_lt_fle a b : f32_lt a b = true -> fle a b.
Proof.
  unfold fle; rewrite f32_lt_key, f32_le_key.
  destruct (negb _); simpl; [|discriminate]. now destruct (lex3 _ _).
Qed.

(** Totality on numbers: when [a < b] is false, [b <= a]. *)
Lemma f32_lt_false_fle a b :
  f32_is_nan a = false -> f32_is_nan b = false ->
  f32_lt a b = false -> fle b a.
Proof.
  intros Ha Hb; unfold fle; rewrite f32_lt_key, f32_le_key, Ha, Hb; simpl.
  rewrite (lex3_antisym (f32_key a) (f32_key b)).
  now destruct (lex3 _ _).
Qed.

Lemma f32_lt_nan_l a b : f32_is_nan a = true -> f32_lt a b = false.
Proof. intros Ha; rewrite f32_lt_key, Ha; reflexivity. Qed.

Lemma f32_lt_nan_r a b : f32_is_nan b = true -> f32_lt a b = false.
Proof. intros Hb; rewrite f32_lt_key, Hb, orb_true_r; reflexivity. Qed.

Lemma f32_lt_irrefl a : f32_lt a a = false.
Proof. rewrite f32_lt_key, lex3_refl. apply andb_false_r. Qed.

(** ** [std_min] and [std_max] *)
Lemma std_min_cases a b : std_min a b = a \/ std_min a b = b.
Proof. unfold std_min; destruct (f32_lt b a); auto. Qed.

Lemma std_max_cases a b : std_max a b = a \/ std_max a b = b.
Proof. unfold std_max; destruct (f32_lt a b); auto. Qed.

(** A NaN second argument is ignored. *)
Lemma std_min_nan_r a b : f32_is_nan b = true -> std_min a b = a.
Proof. intros Hb; unfold std_min; now rewrite f32_lt_nan_l. Qed.

Lemma std_max_nan_r a b : f32_is_nan b = true -> std_max a b = a.
Proof. intros Hb; unfold std_max; now rewrite f32_lt_nan_r. Qed.

(** A running minimum that is a number stays a number, whatever is offered. *)
Lemma std_min_not_nan a b : f32_is_nan a = false -> f32_is_nan (std_min a b) = false.
Proof.
  intros Ha; unfold std_min; destruct (f32_lt b a) eqn:E; [|exact Ha].
  apply f32_lt_fle, fle_not_nan in E. tauto.
Qed.

Lemma std_max_not_nan a b : f32_is_nan a = false -> f32_is_nan (std_max a b) = false.
Proof.
  intros Ha; unfold std_max; destruct (f32_lt a b) eqn:E; [|exact Ha].
  apply f32_lt_fle, fle_not_nan in E. tauto.
Qed.

Lemma std_min_le_l a b : f32_is_nan a = false -> fle (std_min a b) a.
Proof.
  intros Ha; unfold std_min; destruct (f32_lt b a) eqn:E.
  - now apply f32_lt_fle.
  - now apply fle_refl.
Qed.

Lemma std_min_le_r a b :
  f32_is_nan a = false -> f32_is_nan b = false -> fle (std_min a b) b.
Proof.
  intros Ha Hb; unfold std_min; destruct (f32_lt b a) eqn:E.
  - now apply fle_refl.
  - now apply f32_lt_false_fle.
Qed.

Lemma std_max_ge_l a b : f32_is_nan a = false -> fle a (std_max a b).
Proof.
  intros Ha; unfold std_max; destruct (f32_lt a b) eqn:E.
  - now apply f32_lt_fle.
  - now apply fle_refl.
Qed.

Lemma std_max_ge_r a b :
  f32_is_nan a = false -> f32_is_nan b = false -> fle b (std_max a b).
Proof.
  intros Ha Hb; unfold std_max; destruct (f32_lt a b) eqn:E.
  - now apply fle_refl.
  - now apply f32_lt_false_fle.
Qed.

(** [std::max(lo, std::min(x, hi))] lies in [[lo, hi]] for every [x], a NaN
    included (it is replaced by [lo]). *)
Lemma std_clamp_bounds lo hi x :
  fle lo hi ->
  fle lo (std_max lo (std_min x hi)) /\ fle (std_max lo (std_min x hi)) hi.
Proof.
  intros Hlh. destruct (fle_not_nan _ _ Hlh) as [Hlo Hhi].
  split; [now apply std_max_ge_l|].
  unfold std_max. destruct (f32_lt lo (std_min x hi)) eqn:E; [|exact Hlh].
  unfold std_min in *. destruct (f32_lt hi x) eqn:E'; [now apply fle_refl|].
  apply f32_lt_false_fle; auto. apply f32_lt_fle, fle_not_nan in E. tauto.
Qed.

#[export] Hint Resolve fle_refl fle_trans f32_lt_fle f32_lt_false_fle
  std_min_le_l std_min_le_r std_max_ge_l std_max_ge_r
  std_min_not_nan std_max_not_nan : pcv.

(** ** Concrete values *)
Lemma FLT_MAX_value : FLT_MAX = S754_finite false 16777215 104.
Proof. reflexivity. Qed.

Lemma f32_0_1_value : f32_0_1 = S754_finite false 13421773 (-27).
Proof. reflexivity. Qed.

Lemma fle_0_1_1000 : fle f32_0_1 f32_1000.
Proof. reflexivity. Qed.

Lemma FLT_sentinels_not_nan :
  f32_is_nan FLT_MAX = false /\ f32_is_nan FLT_LOWEST = false.
Proof. split; reflexivity. Qed.

(** Conversions to [int]: truncation toward zero, and the values that
    have none. *)
Lemma f32_to_int_examples :
  f32_to_int (f32_of_decimal false 25 (-1)) = Some 2 /\
  f32_to_int (f32_of_decimal true 25 (-1)) = Some (-2) /\
  f32_to_int (f32_of_Z 776) = Some 776 /\
  f32_to_int (f32_of_Z 2147483647) = None /\
  f32_to_int (f32_of_Z (-2147483648)) = Some (-2147483648) /\
  f32_to_int S754_nan = None.
Proof. repeat split; reflexivity. Qed.

(** The bit patterns of 1.0f, -2.0f, +infinity and the smallest subnormal. *)
Lemma f32_of_bits_examples :
  f32_of_bits 0x3F800000 = f32_one /\
  f32_of_bits 0xC0000000 = f32_neg (f32_of_Z 2) /\
  f32_of_bits 0x7F800000 = S754_infinity false /\
  f32_of_bits 1 = S754_finite false 1 (-149) /\
  f32_of_bits 0x3DCCCCCD = f32_0_1.
Proof. repeat split; reflexivity. Qed.
