(* ===== verification/Vec3.v ===== *)
(** * Vec3: Qt's [QVector3D] as the program uses it

    A vector of three [float]s with the operations the sources call:
    component access and update ([x()], [setX] ...), [+], binary and unary
    [-], scaling by a [float] and [length()].  [QVector3D] is library code;
    the definitions follow Qt's documented behaviour, component-wise in
    single precision.  [length()] is the one of Qt 5: it accumulates the
    squares in [double] and narrows the square root.  Qt 6 computes
    [qHypot] of the three [float]s instead, which can differ in the last
    place; the theorems that name a length as a value (the scenarios, and
    the distance of a box without extent) are theorems of the Qt 5
    function, the others hold for any. *)

From Stdlib Require Import ZArith List SpecFloat.
From S2P Require Import Prelude Float32.

Record QVector3D : Type := mkVec3 { vx : f32; vy : f32; vz : f32 }.

Definition setX (v : QVector3D) (x : f32) : QVector3D := mkVec3 x (vy v) (vz v).
Definition setY (v : QVector3D) (y : f32) : QVector3D := mkVec3 (vx v) y (vz v).
Definition setZ (v : QVector3D) (z : f32) : QVector3D := mkVec3 (vx v) (vy v) z.

(** The default-constructed vector and [QVector3D(0.0f, 0.0f, 0.0f)]. *)
Definition vec3_zero : QVector3D := mkVec3 f32_zero f32_zero f32_zero.

Definition vec3_add (a b : QVector3D) : QVector3D :=
  mkVec3 (f32_add (vx a) (vx b)) (f32_add (vy a) (vy b)) (f32_add (vz a) (vz b)).

Definition vec3_sub (a b : QVector3D) : QVector3D :=
  mkVec3 (f32_sub (vx a) (vx b)) (f32_sub (vy a) (vy b)) (f32_sub (vz a) (vz b)).

Definition vec3_scale (a : QVector3D) (k : f32) : QVector3D :=
  mkVec3 (f32_mul (vx a) k) (f32_mul (vy a) k) (f32_mul (vz a) k).

Definition vec3_neg (a : QVector3D) : QVector3D :=
  mkVec3 (f32_neg (vx a)) (f32_neg (vy a)) (f32_neg (vz a)).

(** [length()]: [float(sqrt(double(x)*x + double(y)*y + double(z)*z))]. *)
Definition vec3_length (a : QVector3D) : f32 :=
  let sq c := SFmul prec64 emax64 (f64_of_f32 c) (f64_of_f32 c) in
  let sum := SFadd prec64 emax64
               (SFadd prec64 emax64 (sq (vx a)) (sq (vy a))) (sq (vz a)) in
  f32_of_f64 (SFsqrt prec64 emax64 sum).

(** A component by axis number (0, 1, 2), for statements over all axes. *)
Inductive axis : Type := AxisX | AxisY | AxisZ.

Definition coord (ax : axis) (v : QVector3D) : f32 :=
  match ax with AxisX => vx v | AxisY => vy v | AxisZ => vz v end.

Lemma vec3_eta v : mkVec3 (vx v) (vy v) (vz v) = v.
Proof. now destruct v. Qed.

Lemma coord_setX ax v x :
  coord ax (setX v x) = match ax with AxisX => x | _ => coord ax v end.
Proof. now destruct ax. Qed.

Lemma coord_setY ax v y :
  coord ax (setY v y) = match ax with AxisY => y | _ => coord ax v end.
Proof. now destruct ax. Qed.

Lemma coord_setZ ax v z :
  coord ax (setZ v z) = match ax with AxisZ => z | _ => coord ax v end.
Proof. now destruct ax. Qed.

(** The length of the (3, 4, 12) vector is exactly 13, and the length of a
    vector with an infinite component is infinite. *)
Lemma vec3_length_examples :
  vec3_length (mkVec3 (f32_of_Z 3) (f32_of_Z 4) (f32_of_Z 12)) = f32_of_Z 13 /\
  vec3_length (mkVec3 (S754_infinity true) f32_zero f32_zero) = S754_infinity false.
Proof. split; reflexivity. Qed.
