(* ===== verification/Matrix.v ===== *)
(** * Matrix: the interface to Qt's [QMatrix4x4]

    The program builds the model-view and projection matrices with
    [setToIdentity], [translate], [rotate] and [perspective], stores them,
    copies them into snapshots and hands them to the shader; it reads a
    matrix at one place only, the [map] of the three axes in
    [drawCoordinateSystem] ([MatrixMap]).  [QMatrix4x4] is library code whose [rotate] and
    [perspective] call the platform's trigonometric functions, so the
    development states the program against the interface [Matrix4x4] below
    and proves its theorems for every implementation of it.

    [SymMatrix] is the free implementation: a matrix is the list of
    operations that built it.  Two symbolic matrices are equal exactly when
    they were built by the same calls with the same arguments, so an
    equation between symbolic matrices holds under every other
    implementation, through [sym_eval]. *)

From Stdlib Require Import ZArith Bool List SpecFloat.
From S2P Require Import Prelude Float32 Vec3.
Import ListNotations.

Class Matrix4x4 (M : Type) : Type := {
  (** the identity matrix, the result of [setToIdentity()] (and the
      default-constructed matrix) *)
  mat_identity : M;
  (** [m.translate(x, y, z)] *)
  mat_translate : M -> f32 -> f32 -> f32 -> M;
  (** [m.rotate(angle, x, y, z)], the angle in degrees *)
  mat_rotate : M -> f32 -> f32 -> f32 -> f32 -> M;
  (** [m.perspective(verticalAngle, aspectRatio, nearPlane, farPlane)] *)
  mat_perspective : M -> f32 -> f32 -> f32 -> f32 -> M
}.

(** [m.map(v)], the image of a point.  The interface states what the
    program relies on: the identity maps a point to itself, and [rotate]
    by an angle that compares equal to zero leaves the matrix as it is. *)
Class MatrixMap (M : Type) `{Matrix4x4 M} : Type := {
  mat_map : M -> QVector3D -> QVector3D;
  mat_map_identity : forall v, mat_map mat_identity v = v;
  mat_map_rotate_zero : forall m a x y z v,
    SFeqb a f32_zero = true -> mat_map (mat_rotate m a x y z) v = mat_map m v
}.

(** [m.translate(v)] for a vector. *)
Definition mat_translate_vec {M} `{Matrix4x4 M} (m : M) (v : QVector3D) : M :=
  mat_translate m (vx v) (vy v) (vz v).

(** ** The free implementation *)

Inductive mat_op : Type :=
| OpTranslate (x y z : f32)
| OpRotate (angle x y z : f32)
| OpPerspective (fov aspect near far : f32).

(** The operations applied to the identity, the first one first. *)
Definition SymMatrix : Type := list mat_op.

#[export] Instance SymMatrix_ops : Matrix4x4 SymMatrix := {
  mat_identity := [];
  mat_translate m x y z := m ++ [OpTranslate x y z];
  mat_rotate m a x y z := m ++ [OpRotate a x y z];
  mat_perspective m f a n r := m ++ [OpPerspective f a n r]
}.

(** A stand-in for [map] on symbolic matrices, defined where the result
    does not depend on the platform's trigonometric functions: on a matrix
    built by rotations of angle zero only.  It is NaN elsewhere and serves
    to run examples only. *)
Definition zero_rotation (op : mat_op) : bool :=
  match op with
  | OpRotate a _ _ _ => SFeqb a f32_zero
  | _ => false
  end.

Definition sym_map (m : SymMatrix) (v : QVector3D) : QVector3D :=
  if forallb zero_rotation m then v else mkVec3 S754_nan S754_nan S754_nan.

#[export, refine] Instance SymMatrix_map : MatrixMap SymMatrix := {
  mat_map := sym_map
}.
Proof.
  - reflexivity.
  - intros m a x y z v E; unfold sym_map; simpl.
    now rewrite forallb_app; simpl; rewrite E, !andb_true_r.
Defined.

(** Interpretation of a symbolic matrix in any implementation. *)
Definition sym_apply {M} `{Matrix4x4 M} (m : M) (op : mat_op) : M :=
  match op with
  | OpTranslate x y z => mat_translate m x y z
  | OpRotate a x y z => mat_rotate m a x y z
  | OpPerspective f a n r => mat_perspective m f a n r
  end.

Definition sym_eval {M} `{Matrix4x4 M} (s : SymMatrix) : M :=
  fold_left sym_apply s mat_identity.

Section SymEval.
Context {M : Type} `{Matrix4x4 M}.

Lemma sym_eval_identity : sym_eval (mat_identity : SymMatrix) = (mat_identity : M).
Proof. reflexivity. Qed.

Lemma sym_eval_translate (s : SymMatrix) x y z :
  sym_eval (mat_translate s x y z) = mat_translate (sym_eval s : M) x y z.
Proof. unfold sym_eval; simpl; now rewrite fold_left_snoc. Qed.

Lemma sym_eval_rotate (s : SymMatrix) a x y z :
  sym_eval (mat_rotate s a x y z) = mat_rotate (sym_eval s : M) a x y z.
Proof. unfold sym_eval; simpl; now rewrite fold_left_snoc. Qed.

Lemma sym_eval_perspective (s : SymMatrix) f a n r :
  sym_eval (mat_perspective s f a n r) = mat_perspective (sym_eval s : M) f a n r.
Proof. unfold sym_eval; simpl; now rewrite fold_left_snoc. Qed.

End SymEval.

#[export] Hint Rewrite @sym_eval_translate @sym_eval_rotate
  @sym_eval_perspective : pcv_rw.
