(* ===== verification/Text.v ===== *)
(** * Text: the string operations the loaders rely on

    The loaders read text through Qt ([QTextStream::readLine],
    [QString::trimmed], [split] on the regular expression [\s+], [toFloat],
    [QString::arg]) and through the C++ standard library ([std::getline]).
    None of that is code of the repository; it is modelled here from the
    libraries' documented behaviour.

    A text is the sequence of characters the stream decoded, one [ascii]
    value per character, for texts whose characters are below U+0100; for
    [std::ifstream] it is the bytes of the file.  Texts with characters
    from U+0100 on, among them the Unicode separators that
    [QString::trimmed] also removes, are outside the model.

    - [is_space]: the characters [\s] matches in a regular expression
      without Unicode properties, and [std::isspace] accepts in the C
      locale (tab, LF, VT, FF, CR, space);
    - [qchar_isSpace]: the characters [QChar::isSpace] accepts, which are
      those of [is_space], U+0085 and the no-break space U+00A0;
    - [text_lines]: the lines a read-line loop sees;
    - [trimmed] (by [qchar_isSpace]), [split_ws] (by [is_space]),
      [startsWith_char];
    - [plain]: the lines on which the two classes of white space cannot be
      told apart at the ends, with [trimmed_plain];
    - [parse_decimal] and [qt_toFloat]: the float a token denotes, 0 when
      it is not a number;
    - [decimal_of_N]: the digits [QString::arg] prints for a number;
    - [record_line], [lines_of]: a text written as lines of words.

    The loaders take the token-to-float conversion through the class
    [TokenToFloat], so their theorems hold for every conversion; [qt_toFloat]
    is the instance the scenarios run with. *)

From Stdlib Require Import ZArith NArith Lia Bool List String Ascii SpecFloat.
From Stdlib Require Import DecimalString DecimalN.
From S2P Require Import Prelude Float32.
Import ListNotations.
Local Open Scope string_scope.

(** ** Characters *)

Definition is_space (c : ascii) : bool :=
  let n := N_of_ascii c in ((9 <=? n) && (n <=? 13) || (n =? 32))%N.

(** [QChar::isSpace]: the white space [QString::trimmed] removes and
    [QString::toFloat] skips. *)
Definition qchar_isSpace (c : ascii) : bool :=
  let n := N_of_ascii c in (is_space c || (n =? 133)%N || (n =? 160)%N).

Definition is_digit (c : ascii) : bool :=
  let n := N_of_ascii c in ((48 <=? n) && (n <=? 57))%N.

Definition digit_val (c : ascii) : N := (N_of_ascii c - 48)%N.

Definition newline : ascii := ascii_of_N 10.

(** ** Lines *)

(** [snoc s c] appends a character. *)
Definition snoc (s : string) (c : ascii) : string := s ++ String c EmptyString.

Fixpoint lines_from (s cur : string) : list string :=
  match s with
  | EmptyString => if String.eqb cur EmptyString then [] else [cur]
  | String c s' =>
      if Ascii.eqb c newline then cur :: lines_from s' EmptyString
      else lines_from s' (snoc cur c)
  end.

(** The successive results of reading a line until the end of the text: the
    text split at line feeds, without a last empty line. *)
Definition text_lines (s : string) : list string := lines_from s EmptyString.

(** ** Trimming and splitting *)

Fixpoint ltrim (s : string) : string :=
  match s with
  | String c s' => if is_space c then ltrim s' else s
  | EmptyString => EmptyString
  end.

Definition string_rev (s : string) : string :=
  string_of_list_ascii (rev (list_ascii_of_string s)).

(** The text without the characters of [QChar::isSpace] it starts with. *)
Fixpoint qtrim (s : string) : string :=
  match s with
  | String c s' => if qchar_isSpace c then qtrim s' else s
  | EmptyString => EmptyString
  end.

(** [QString::trimmed()]. *)
Definition trimmed (s : string) : string :=
  string_rev (qtrim (string_rev (qtrim s))).

(** The same with the white space of [is_space] only. *)
Definition trimmed_ascii (s : string) : string :=
  string_rev (ltrim (string_rev (ltrim s))).

(** The text is empty or starts with a character [QChar::isSpace] rejects. *)
Definition starts_plain (s : string) : bool :=
  match s with String c _ => negb (qchar_isSpace c) | EmptyString => true end.

(** The first and the last character of the line that [is_space] rejects
    are rejected by [QChar::isSpace] too: there is no U+0085 or U+00A0
    where the text of the line begins or ends. *)
Definition plain (s : string) : bool :=
  starts_plain (ltrim s) && starts_plain (ltrim (string_rev (ltrim s))).

Definition startsWith_char (s : string) (c : ascii) : bool :=
  match s with String d _ => Ascii.eqb d c | EmptyString => false end.

Definition isEmpty (s : string) : bool :=
  match s with EmptyString => true | _ => false end.

Fixpoint split_from (s cur : string) : list string :=
  match s with
  | EmptyString => if isEmpty cur then [] else [cur]
  | String c s' =>
      if is_space c
      then (if isEmpty cur then split_from s' EmptyString
            else cur :: split_from s' EmptyString)
      else split_from s' (snoc cur c)
  end.

(** [s.split(QRegularExpression("\\s+"), Qt::SkipEmptyParts)]. *)
Definition split_ws (s : string) : list string := split_from s EmptyString.

(** ** Decimal numerals *)

(** Leading digits of [s]: their value after [acc], how many, and the rest. *)
Fixpoint take_digits (s : string) (acc : N) (n : nat) : N * nat * string :=
  match s with
  | String c s' =>
      if is_digit c then take_digits s' (acc * 10 + digit_val c)%N (S n)
      else (acc, n, s)
  | EmptyString => (acc, n, s)
  end.

Definition take_sign (s : string) : bool * string :=
  match s with
  | String "-" s' => (true, s')
  | String "+" s' => (false, s')
  | _ => (false, s)
  end.

(** The exponent part [e<sign><digits>] of a numeral; [None] when the text
    is not one.  The empty text is the exponent 0. *)
Definition parse_exponent (s : string) : option Z :=
  match s with
  | EmptyString => Some 0%Z
  | String c s' =>
      if Ascii.eqb c "e" || Ascii.eqb c "E" then
        let '(neg, s1) := take_sign s' in
        match take_digits s1 0 0 with
        | (_, O, _) => None
        | (v, _, EmptyString) => Some (cond_Zopp neg (Z.of_N v))
        | _ => None
        end
      else None
  end.

(** [sign digits [. digits] [exponent]] with at least one digit before the
    exponent: sign, the digits as one number, and the power of ten. *)
Definition parse_decimal (s : string) : option (bool * N * Z) :=
  let '(neg, s0) := take_sign s in
  let '(ip, ni, s1) := take_digits s0 0 0 in
  let '(m, nf, s2) :=
    match s1 with
    | String "." s1' => take_digits s1' ip 0
    | _ => (ip, O, s1)
    end in
  match (ni + nf)%nat with
  | O => None
  | _ =>
      match parse_exponent s2 with
      | Some e => Some (neg, m, (e - Z.of_nat nf)%Z)
      | None => None
      end
  end.

(** The narrowing [toFloat] applies to the [double] it parsed: values beyond
    the [float] range become infinite, values that underflow become 0. *)
Definition convertDoubleToFloat (d : spec_float) : f32 :=
  match d with
  | S754_finite s _ _ =>
      if SFltb FLT_MAX (SFabs d) then S754_infinity s
      else match f32_of_f64 d with
           | S754_zero _ => f32_zero
           | r => r
           end
  | _ => d
  end.

(** [QString::toFloat()] in the C locale: white space around the numeral
    is skipped, the numeral is rounded to [double], then narrowed; [inf] and [nan] are read as such; anything else
    gives 0. *)
Definition qt_toFloat (token : string) : f32 :=
  let s := trimmed token in
  if String.eqb s "nan" then S754_nan
  else if String.eqb s "inf" || String.eqb s "+inf" then S754_infinity false
  else if String.eqb s "-inf" then S754_infinity true
  else match parse_decimal s with
       | Some (neg, m, e) => convertDoubleToFloat (sf_of_decimal prec64 emax64 neg m e)
       | None => f32_zero
       end.

(** The interface of the loaders to the numeric reading of a token. *)
Class TokenToFloat : Type := { toFloat : string -> f32 }.

Definition QtTokenToFloat : TokenToFloat := {| toFloat := qt_toFloat |}.

(** ** Printing a number *)

(** The decimal digits of [n], as [QString::arg] prints an unsigned value. *)
Definition decimal_of_N (n : N) : string :=
  NilZero.string_of_uint (N.to_uint n).

(** ** Lemmas *)
Lemma isEmpty_true s : isEmpty s = true <-> s = EmptyString.
Proof. destruct s; simpl; split; congruence. Qed.

Lemma snoc_not_empty s c : isEmpty (snoc s c) = false.
Proof. now destruct s. Qed.

(** Every part [split_ws] returns is non-empty. *)
Lemma split_from_nonempty s : forall cur t,
  In t (split_from s cur) -> isEmpty t = false.
Proof.
  induction s as [|c s IH]; intros cur t; simpl.
  - destruct (isEmpty cur) eqn:E; simpl; [tauto|]. now intros [<-|[]].
  - destruct (is_space c).
    + destruct (isEmpty cur) eqn:E; simpl; [apply IH|].
      intros [<-|Hin]; [exact E|now apply IH in Hin].
    + apply IH.
Qed.

Lemma split_ws_nonempty s t : In t (split_ws s) -> isEmpty t = false.
Proof. apply split_from_nonempty. Qed.

Lemma is_space_qchar c : is_space c = true -> qchar_isSpace c = true.
Proof. unfold qchar_isSpace; now intros ->. Qed.

(** Where the text begins with a character that is no white space of either
    class, the two trims remove the same characters. *)
Lemma qtrim_ltrim s : starts_plain (ltrim s) = true -> qtrim s = ltrim s.
Proof.
  induction s as [|c s IH]; [reflexivity|]; simpl.
  destruct (is_space c) eqn:C.
  - now rewrite (is_space_qchar c C).
  - simpl; intros P; apply negb_true_iff in P; now rewrite P.
Qed.

(** On a plain line [trimmed] removes the white space of [is_space] and
    nothing else. *)
Lemma trimmed_plain s : plain s = true -> trimmed s = trimmed_ascii s.
Proof.
  unfold plain, trimmed, trimmed_ascii; intros P; apply andb_prop in P as [P1 P2].
  now rewrite (qtrim_ltrim s P1), (qtrim_ltrim _ P2).
Qed.

(** Examples of the text operations. *)
Lemma text_ops_examples :
  text_lines (String "a" (String newline (String newline (String "b" "")))) = ["a"; ""; "b"] /\
  text_lines (String "a" (String newline "")) = ["a"] /\
  trimmed "  1 2	3  " = "1 2	3" /\
  trimmed (String (ascii_of_N 160) "# 1") = "# 1" /\
  split_ws (String (ascii_of_N 160) "# 1") = [String (ascii_of_N 160) "#"; "1"] /\
  plain "  1 2	3  " = true /\
  plain (String (ascii_of_N 160) "# 1") = false /\
  split_ws " 1.5   2	3 " = ["1.5"; "2"; "3"] /\
  split_ws "   " = [] /\
  decimal_of_N 0 = "0" /\ decimal_of_N 12 = "12".
Proof. repeat split; reflexivity. Qed.

(** Examples of [qt_toFloat]: exact values, a rounded one, an exponent,
    the lenient 0 and the special names. *)
Lemma qt_toFloat_examples :
  qt_toFloat "1.0" = f32_one /\
  qt_toFloat "255" = f32_255 /\
  qt_toFloat "-2.5e1" = f32_neg (f32_of_Z 25) /\
  qt_toFloat "0.1" = f32_0_1 /\
  qt_toFloat ".5" = f32_half /\
  qt_toFloat (String (ascii_of_N 160) "1.0") = f32_one /\
  qt_toFloat "abc" = f32_zero /\
  qt_toFloat "1e" = f32_zero /\
  qt_toFloat "1e39" = S754_infinity false /\
  qt_toFloat "1e-60" = f32_zero /\
  qt_toFloat "nan" = S754_nan.
Proof. repeat split; vm_compute; reflexivity. Qed.

(** ** Case-insensitive suffix test *)

Definition to_lower (c : ascii) : ascii :=
  let n := N_of_ascii c in
  if ((65 <=? n) && (n <=? 90))%N then ascii_of_N (n + 32) else c.

Fixpoint lower (s : string) : string :=
  match s with
  | EmptyString => EmptyString
  | String c s' => String (to_lower c) (lower s')
  end.

(** [s.endsWith(suffix, Qt::CaseInsensitive)]. *)
Definition endsWith_ci (s suffix : string) : bool :=
  let n := String.length s in
  let k := String.length suffix in
  (k <=? n)%nat && String.eqb (lower (substring (n - k) k s)) (lower suffix).

Lemma endsWith_ci_examples :
  endsWith_ci "scan.PTS" ".pts" = true /\
  endsWith_ci "scan.ply" ".pts" = false /\
  endsWith_ci "ts" ".pts" = false /\
  endsWith_ci ".Ply" ".ply" = true.
Proof. repeat split; reflexivity. Qed.

(** ** Reading a printed number back *)

Definition N_of_decimal (s : string) : option N :=
  option_map N.of_uint (NilZero.uint_of_string s).

Lemma N_to_uint_not_nil n : N.to_uint n <> Decimal.Nil.
Proof.
  intros E. pose proof (f_equal N.of_uint E) as E'.
  rewrite DecimalN.Unsigned.of_to in E'. subst n. discriminate E.
Qed.

Lemma N_of_decimal_of_N n : N_of_decimal (decimal_of_N n) = Some n.
Proof.
  unfold N_of_decimal, decimal_of_N.
  rewrite NilZero.usu by apply N_to_uint_not_nil.
  simpl; now rewrite DecimalN.Unsigned.of_to.
Qed.

(** Different numbers print differently. *)
Lemma decimal_of_N_inj a b : decimal_of_N a = decimal_of_N b -> a = b.
Proof.
  intros E. apply (f_equal N_of_decimal) in E.
  rewrite !N_of_decimal_of_N in E. congruence.
Qed.

(** ** Concatenation *)
Lemma string_app_assoc (a b c : string) : (a ++ b) ++ c = a ++ (b ++ c).
Proof. induction a as [|x a IH]; simpl; [reflexivity | now rewrite IH]. Qed.

(** A printed number is digits only, and at least one. *)
Lemma string_of_uint_digits d :
  forallb is_digit (list_ascii_of_string (NilEmpty.string_of_uint d)) = true.
Proof. induction d; simpl; auto. Qed.

Lemma decimal_of_N_digits n :
  forallb is_digit (list_ascii_of_string (decimal_of_N n)) = true /\
  isEmpty (decimal_of_N n) = false.
Proof.
  unfold decimal_of_N, NilZero.string_of_uint.
  pose proof (string_of_uint_digits (N.to_uint n)) as D.
  destruct (N.to_uint n); auto.
Qed.

Lemma is_digit_not_space c : is_digit c = true -> is_space c = false.
Proof.
  unfold is_digit, is_space; intros E; apply andb_prop in E as [E1 E2].
  apply N.leb_le in E1, E2.
  destruct (N.leb_spec 9 (N_of_ascii c)), (N.leb_spec (N_of_ascii c) 13),
    (N.eqb_spec (N_of_ascii c) 32); simpl; try reflexivity; lia.
Qed.

(** ** Reading the digits of a printed number *)

(** The digits of a numeral, with an accumulator that is not zero. *)
Lemma take_digits_uint_acc d : forall (acc : positive) k,
  take_digits (NilEmpty.string_of_uint d) (N.pos acc) k =
  (N.pos (Pos.of_uint_acc d acc), (k + Decimal.nb_digits d)%nat, EmptyString).
Proof.
  induction d; intros acc k; cbn [NilEmpty.string_of_uint take_digits Decimal.nb_digits];
    [now rewrite Nat.add_0_r | ..];
    change (is_digit _) with true; cbn iota;
    rewrite Nat.add_succ_r, <- Nat.add_succ_l; cbn [Pos.of_uint_acc];
    rewrite <- IHd; f_equal; unfold digit_val;
    match goal with |- context [(?a - 48)%N] =>
      let v := eval vm_compute in (a - 48)%N in change (a - 48)%N with v
    end; lia.
Qed.

(** The digits of a numeral, leading zeros included. *)
Lemma take_digits_uint d : forall k,
  take_digits (NilEmpty.string_of_uint d) 0 k =
  (N.of_uint d, (k + Decimal.nb_digits d)%nat, EmptyString).
Proof.
  induction d; intros k; cbn [NilEmpty.string_of_uint take_digits Decimal.nb_digits];
    [now rewrite Nat.add_0_r | ..];
    change (is_digit _) with true; cbn iota;
    rewrite Nat.add_succ_r, <- Nat.add_succ_l;
    first [ apply IHd
          | unfold N.of_uint; cbn [Pos.of_uint];
            rewrite <- take_digits_uint_acc; f_equal ].
Qed.

(** [take_digits] reads a printed number back completely. *)
Lemma take_digits_printed n :
  exists k, take_digits (decimal_of_N n) 0 0 = (n, S k, EmptyString).
Proof.
  unfold decimal_of_N, NilZero.string_of_uint.
  pose proof (take_digits_uint (N.to_uint n) 0) as T.
  rewrite DecimalN.Unsigned.of_to in T.
  destruct (N.to_uint n) eqn:E; try (eexists; exact T).
  exists 0%nat. apply (f_equal N.of_uint) in E.
  rewrite DecimalN.Unsigned.of_to in E. now subst n.
Qed.

(** ** Lines of words *)

(** The words of a line after the first, each after one space. *)
Fixpoint spaced (toks : list string) : string :=
  match toks with
  | [] => EmptyString
  | t :: ts => String " " (t ++ spaced ts)
  end.

(** The line of a record: its words separated by one space. *)
Definition record_line (toks : list string) : string :=
  match toks with
  | [] => EmptyString
  | t :: ts => t ++ spaced ts
  end.

(** The lines of a sequence of records, each ended by a line feed. *)
Fixpoint lines_of (records : list (list string)) : string :=
  match records with
  | [] => EmptyString
  | r :: rs => record_line r ++ String newline (lines_of rs)
  end.

Lemma string_app_empty (s : string) : s ++ "" = s.
Proof. induction s as [|c s IH]; simpl; [reflexivity | now rewrite IH]. Qed.

(** Strings and the lists of their characters. *)
Lemma string_of_list_ascii_app_string (l1 l2 : list ascii) :
  string_of_list_ascii (l1 ++ l2) = string_of_list_ascii l1 ++ string_of_list_ascii l2.
Proof. induction l1 as [|c l1 IH]; simpl; [reflexivity | now rewrite IH]. Qed.

Lemma list_ascii_of_string_app (a b : string) :
  list_ascii_of_string (a ++ b) = (list_ascii_of_string a ++ list_ascii_of_string b)%list.
Proof. induction a as [|c a IH]; simpl; [reflexivity | now rewrite IH]. Qed.

(** ** Numerals followed by white space

    The digit and sign scanners never look past a white space: on a text
    followed by one they return what they return on the text alone, with
    the white space and what follows it left unread. *)
Lemma is_space_not_digit c : is_space c = true -> is_digit c = false.
Proof.
  intros S; destruct (is_digit c) eqn:D; [|reflexivity].
  now rewrite (is_digit_not_space c D) in S.
Qed.

Section FollowedBySpace.
Variables (sp : ascii) (rest : string).
Hypothesis Hsp : is_space sp = true.

Lemma take_digits_app s : forall acc n,
  take_digits (s ++ String sp rest) acc n =
  let '(v, k, r) := take_digits s acc n in (v, k, r ++ String sp rest).
Proof.
  induction s as [|c s IH]; intros acc n; simpl.
  - now rewrite (is_space_not_digit sp Hsp).
  - destruct (is_digit c); [apply IH | reflexivity].
Qed.

Lemma take_sign_space : take_sign (String sp rest) = (false, String sp rest).
Proof.
  revert Hsp; destruct sp as [[] [] [] [] [] [] [] []]; intros E;
    try discriminate E; reflexivity.
Qed.

Lemma take_sign_app s :
  take_sign (s ++ String sp rest) =
  let '(neg, r) := take_sign s in (neg, r ++ String sp rest).
Proof.
  destruct s as [|c s]; [apply take_sign_space|].
  destruct c as [[] [] [] [] [] [] [] []]; reflexivity.
Qed.

End FollowedBySpace.
