(* ===== verification/IStream.v ===== *)
(** * IStream: C++ input streams as the PLY loader uses them

    [std::ifstream] (opened in binary mode) and [std::istringstream] are
    library code; this file models the operations the loader calls, from
    the behaviour the C++ standard gives them, on a stream that is its
    unread characters and its [eofbit] and [failbit]:

    - [getline]: unformatted; on a stream that is not good it sets
      [failbit] and leaves the line variable as it was;
    - [extract_word], [extract_float], [extract_int]: the formatted
      [operator>>], which first skips white space; when the stream is not
      good, or ends before a character is found, nothing is stored in the
      target variable ([None]);
    - [stream_read]: [read(buffer, n)], which fails unless [n] characters
      are left.

    The numeric parsing proper ([num_get]) is the interface [NumGet];
    [StdNumGet] is an implementation for decimal numerals.  The last part
    of the file gives the results of [getline] and of the extractions on a
    text whose lines and words are known, the law [NumGetLocal] ([num_get]
    stops at white space and stores an [int]) with its proof for
    [StdNumGet], and the correspondence between a [getline] loop and the
    lines of the text ([getline_lines]). *)

From Stdlib Require Import ZArith NArith Lia Bool List String Ascii SpecFloat.
From S2P Require Import Prelude Float32 Text.
Import ListNotations.
Local Open Scope string_scope.

Record istream : Type := mkStream {
  is_buf : string;
  is_eof : bool;
  is_fail : bool
}.

(** A stream just opened on [s]. *)
Definition stream_of (s : string) : istream := mkStream s false false.

Definition good (s : istream) : bool := negb (is_eof s) && negb (is_fail s).

(** The stream in a boolean context: [!fail()]. *)
Definition stream_ok (s : istream) : bool := negb (is_fail s).

Definition set_failbit (s : istream) : istream := mkStream (is_buf s) (is_eof s) true.

(** The characters before the first line feed, and what follows it
    ([None] when there is no line feed). *)
Fixpoint cut_line (s : string) : string * option string :=
  match s with
  | EmptyString => (EmptyString, None)
  | String c s' =>
      if Ascii.eqb c newline then (EmptyString, Some s')
      else let '(l, r) := cut_line s' in (String c l, r)
  end.

(** [std::getline(s, line)]: the stream after the call and the value of
    [line] after it. *)
Definition getline (s : istream) (line : string) : istream * string :=
  if good s then
    match cut_line (is_buf s) with
    | (l, Some rest) => (mkStream rest false false, l)
    | (l, None) => (mkStream EmptyString true (isEmpty l), l)
    end
  else (set_failbit s, line).

(** The sentry of a formatted extraction: white space is skipped; the
    extraction proceeds only if the stream was good and a character is
    left. *)
Definition sentry (s : istream) : istream * bool :=
  if good s then
    match ltrim (is_buf s) with
    | EmptyString => (mkStream EmptyString true true, false)
    | b => (mkStream b false false, true)
    end
  else (set_failbit s, false).

(** The characters before the first white space, and the rest. *)
Fixpoint cut_word (s : string) : string * string :=
  match s with
  | EmptyString => (EmptyString, EmptyString)
  | String c s' =>
      if is_space c then (EmptyString, s)
      else let '(w, r) := cut_word s' in (String c w, r)
  end.

(** [s >> word] for a [std::string]. *)
Definition extract_word (s : istream) : istream * option string :=
  let '(s, ok) := sentry s in
  if ok then
    let '(w, rest) := cut_word (is_buf s) in
    (mkStream rest (isEmpty rest) false, Some w)
  else (s, None).

(** The result of parsing a number at the head of a text: the value that is
    stored, whether the parse succeeded, and the unread rest. *)
Definition num_result (A : Type) : Type := A * bool * string.

Class NumGet : Type := {
  get_float : string -> num_result f32;
  get_int : string -> num_result Z
}.

Definition extract_num {A} (get : string -> num_result A) (s : istream)
    : istream * option A :=
  let '(s, ok) := sentry s in
  if ok then
    let '(v, parsed, rest) := get (is_buf s) in
    (mkStream rest (isEmpty rest) (negb parsed), Some v)
  else (s, None).

Section Extract.
Context {NG : NumGet}.

(** [s >> val] for a [float] and for an [int]. *)
Definition extract_float : istream -> istream * option f32 := extract_num get_float.
Definition extract_int : istream -> istream * option Z := extract_num get_int.

End Extract.

(** The first [n] characters and the rest, when there are [n]. *)
Fixpoint take_bytes (n : nat) (s : string) : option (list ascii * string) :=
  match n with
  | O => Some ([], s)
  | S n' =>
      match s with
      | EmptyString => None
      | String c s' =>
          match take_bytes n' s' with
          | Some (l, r) => Some (c :: l, r)
          | None => None
          end
      end
  end.

(** [s.read(buffer, n)]: the [n] characters read, or a failed stream at its
    end. *)
Definition stream_read (n : nat) (s : istream) : istream * option (list ascii) :=
  if good s then
    match take_bytes n (is_buf s) with
    | Some (l, rest) => (mkStream rest false false, Some l)
    | None => (mkStream EmptyString true true, None)
    end
  else (set_failbit s, None).

(** ** Decimal numerals for [num_get] *)

Definition INT_MAX : Z := 2147483647.
Definition INT_MIN : Z := -2147483648.

(** An optional sign and digits; without a digit the parse fails and 0 is
    stored; a value outside [int] is stored as the nearest bound and the
    parse fails. *)
Definition std_get_int (s : string) : num_result Z :=
  let '(neg, s1) := take_sign s in
  match take_digits s1 0 0 with
  | (_, O, _) => (0%Z, false, s)
  | (v, _, rest) =>
      let z := cond_Zopp neg (Z.of_N v) in
      if (z <? INT_MIN)%Z then (INT_MIN, false, rest)
      else if (INT_MAX <? z)%Z then (INT_MAX, false, rest)
      else (z, true, rest)
  end.

(** The exponent of a numeral at the head of [s]: its value and the rest;
    [None] when an [e] is not followed by digits. *)
Definition scan_exponent (s : string) : option (Z * string) :=
  match s with
  | String c s' =>
      if Ascii.eqb c "e" || Ascii.eqb c "E" then
        let '(neg, s1) := take_sign s' in
        match take_digits s1 0 0 with
        | (_, O, _) => None
        | (v, _, rest) => Some (cond_Zopp neg (Z.of_N v), rest)
        end
      else Some (0%Z, s)
  | EmptyString => Some (0%Z, s)
  end.

(** Sign, digits with an optional point, optional exponent, rounded to
    [float]; a value beyond the range is stored as [FLT_MAX] with the sign
    and the parse fails. *)
Definition std_get_float (s : string) : num_result f32 :=
  let '(neg, s0) := take_sign s in
  let '(ip, ni, s1) := take_digits s0 0 0 in
  let '(m, nf, s2) :=
    match s1 with
    | String "." s1' => take_digits s1' ip 0
    | _ => (ip, O, s1)
    end in
  match (ni + nf)%nat with
  | O => (f32_zero, false, s)
  | _ =>
      match scan_exponent s2 with
      | None => (f32_zero, false, s2)
      | Some (e, rest) =>
          match f32_of_decimal neg m (e - Z.of_nat nf) with
          | S754_infinity sg => (if sg then FLT_LOWEST else FLT_MAX, false, rest)
          | v => (v, true, rest)
          end
      end
  end.

Definition StdNumGet : NumGet :=
  {| get_float := std_get_float; get_int := std_get_int |}.

(** ** Lemmas *)
Lemma good_stream_of s : good (stream_of s) = true.
Proof. reflexivity. Qed.

Lemma cut_line_length s :
  match cut_line s with
  | (_, Some rest) => (String.length rest < String.length s)%nat
  | (l, None) => l = s
  end.
Proof.
  induction s as [|c s IH]; simpl; [reflexivity|].
  destruct (Ascii.eqb c newline); [lia|].
  destruct (cut_line s) as [l [rest|]]; simpl in *; [lia | now subst].
Qed.

(** A successful [getline] leaves strictly fewer characters, or the stream
    at its end. *)
Lemma getline_progress s line :
  stream_ok (fst (getline s line)) = true ->
  (String.length (is_buf (fst (getline s line))) < String.length (is_buf s))%nat \/
  is_eof (fst (getline s line)) = true.
Proof.
  unfold getline. destruct (good s); [|discriminate].
  pose proof (cut_line_length (is_buf s)) as L.
  destruct (cut_line (is_buf s)) as [l [rest|]]; simpl; auto.
Qed.

(** Once the stream is not good, [getline] keeps the line variable. *)
Lemma getline_not_good s line :
  good s = false -> getline s line = (set_failbit s, line).
Proof. unfold getline; now intros ->. Qed.

(** Examples: lines with and without a final line feed, words, numbers. *)
Lemma istream_examples :
  getline (stream_of (String "a" (String newline "b"))) "old"
    = (stream_of "b", "a") /\
  getline (stream_of "b") "old" = (mkStream "" true false, "b") /\
  getline (mkStream "" true false) "old" = (mkStream "" true true, "old") /\
  getline (stream_of "") "old" = (mkStream "" true true, "") /\
  extract_word (stream_of "  element vertex 8") = (stream_of " vertex 8", Some "element") /\
  extract_word (stream_of "   ") = (mkStream "" true true, None) /\
  stream_read 2 (stream_of "abc") = (stream_of "c", Some ["a"; "b"]%char) /\
  stream_read 4 (stream_of "abc") = (mkStream "" true true, None).
Proof. repeat split; reflexivity. Qed.

Lemma std_num_get_examples :
  std_get_int "128 7" = (128%Z, true, " 7") /\
  std_get_int "-5" = ((-5)%Z, true, "") /\
  std_get_int "x" = (0%Z, false, "x") /\
  std_get_int "99999999999" = (INT_MAX, false, "") /\
  std_get_int "12.5" = (12%Z, true, ".5") /\
  std_get_float "0.5 1" = (f32_half, true, " 1") /\
  std_get_float "1e3" = (f32_1000, true, "") /\
  std_get_float "nan" = (f32_zero, false, "nan") /\
  std_get_float "1e99" = (FLT_MAX, false, "").
Proof. repeat split; vm_compute; reflexivity. Qed.

(** ** Lines and words of a text that is known *)

(** A word: not empty, no white space in it. *)
Definition is_word (w : string) : bool :=
  negb (isEmpty w) && forallb (fun c => negb (is_space c)) (list_ascii_of_string w).

Lemma is_word_cons w :
  is_word w = true ->
  exists c w', w = String c w' /\ is_space c = false /\
    forallb (fun c => negb (is_space c)) (list_ascii_of_string w') = true.
Proof.
  destruct w as [|c w']; [discriminate|]; unfold is_word; simpl.
  intros E; apply andb_prop in E as [E1 E2]. apply negb_true_iff in E1. eauto.
Qed.

Lemma decimal_of_N_word n : is_word (decimal_of_N n) = true.
Proof.
  destruct (decimal_of_N_digits n) as [D E]; unfold is_word; rewrite E; simpl.
  rewrite forallb_forall in *; intros c Hc.
  now rewrite (is_digit_not_space c (D c Hc)).
Qed.

(** The text holds no line feed. *)
Definition no_newline (l : string) : bool :=
  forallb (fun c => negb (Ascii.eqb c newline)) (list_ascii_of_string l).

Lemma word_no_newline w : is_word w = true -> no_newline w = true.
Proof.
  unfold is_word, no_newline; intros E; apply andb_prop in E as [_ E].
  rewrite forallb_forall in *; intros c Hc. specialize (E c Hc).
  destruct (Ascii.eqb_spec c newline) as [->|]; [discriminate E | reflexivity].
Qed.

Lemma no_newline_app a b :
  no_newline a = true -> no_newline b = true -> no_newline (a ++ b) = true.
Proof.
  unfold no_newline; intros A B; induction a as [|c a IH]; simpl in *; [exact B|].
  apply andb_prop in A as [A1 A2]. now rewrite A1, IH.
Qed.

Lemma spaced_no_newline toks :
  forallb is_word toks = true -> no_newline (spaced toks) = true.
Proof.
  induction toks as [|t ts IH]; intros W; [reflexivity|].
  simpl in W; apply andb_prop in W as [W1 W2].
  change (spaced (t :: ts)) with (" " ++ (t ++ spaced ts)).
  auto using no_newline_app, word_no_newline.
Qed.

(** A line of words is one line. *)
Lemma record_line_one_line toks :
  forallb is_word toks = true -> no_newline (record_line toks) = true.
Proof.
  destruct toks as [|t ts]; [reflexivity|]; intros W.
  simpl in W; apply andb_prop in W as [W1 W2]. unfold record_line.
  apply no_newline_app; [now apply word_no_newline | now apply spaced_no_newline].
Qed.

(** A line, then a line feed, then the rest. *)
Lemma cut_line_app l rest :
  forallb (fun c => negb (Ascii.eqb c newline)) (list_ascii_of_string l) = true ->
  cut_line (l ++ String newline rest) = (l, Some rest).
Proof.
  induction l as [|c l IH]; simpl; [reflexivity|].
  intros E; apply andb_prop in E as [E1 E2]. apply negb_true_iff in E1.
  now rewrite E1, IH.
Qed.

Lemma getline_app l rest old :
  forallb (fun c => negb (Ascii.eqb c newline)) (list_ascii_of_string l) = true ->
  getline (stream_of (l ++ String newline rest)) old = (stream_of rest, l).
Proof. intros E; unfold getline; simpl. now rewrite cut_line_app. Qed.

(** The characters of a word, up to the white space after it. *)
Lemma cut_word_app w c rest :
  forallb (fun c => negb (is_space c)) (list_ascii_of_string w) = true ->
  is_space c = true ->
  cut_word (w ++ String c rest) = (w, String c rest).
Proof.
  intros Hw Hc; induction w as [|d w IH]; simpl in *; [now rewrite Hc|].
  apply andb_prop in Hw as [E1 E2]. apply negb_true_iff in E1.
  now rewrite E1, IH.
Qed.

Lemma cut_word_all w :
  forallb (fun c => negb (is_space c)) (list_ascii_of_string w) = true ->
  cut_word w = (w, EmptyString).
Proof.
  induction w as [|d w IH]; simpl; [reflexivity|].
  intros Hw; apply andb_prop in Hw as [E1 E2]. apply negb_true_iff in E1.
  now rewrite E1, IH.
Qed.

(** [>>] reads the word after the white space at the head of the stream,
    and stops before the white space that follows it. *)
Lemma extract_word_next sp w c rest :
  is_space sp = true -> is_word w = true -> is_space c = true ->
  extract_word (stream_of (String sp (w ++ String c rest))) =
  (stream_of (String c rest), Some w).
Proof.
  intros Hsp Hw Hc; destruct (is_word_cons w Hw) as (d & w' & -> & Hd & Hw').
  unfold extract_word, sentry; simpl. rewrite Hsp; simpl. rewrite Hd; simpl.
  now rewrite Hd, cut_word_app.
Qed.

(** The last word of a line: the stream is then at its end. *)
Lemma extract_word_last sp w :
  is_space sp = true -> is_word w = true ->
  extract_word (stream_of (String sp w)) = (mkStream EmptyString true false, Some w).
Proof.
  intros Hsp Hw; destruct (is_word_cons w Hw) as (d & w' & -> & Hd & Hw').
  unfold extract_word, sentry; simpl. rewrite Hsp; simpl. rewrite Hd; simpl.
  now rewrite Hd, cut_word_all.
Qed.

(** A number at the end of a line, after white space. *)
Lemma extract_num_last {A} (get : string -> num_result A) sp d v :
  is_space sp = true -> is_word d = true -> get d = (v, true, EmptyString) ->
  extract_num get (stream_of (String sp d)) = (mkStream EmptyString true false, Some v).
Proof.
  intros Hsp Hd G; destruct (is_word_cons d Hd) as (c & d' & -> & Hc & _).
  unfold extract_num, sentry; simpl. rewrite Hsp; simpl. rewrite Hc; simpl.
  now rewrite G.
Qed.

(** ** The decimal [num_get] on printed numbers *)
Lemma take_sign_digit c s : is_digit c = true -> take_sign (String c s) = (false, String c s).
Proof.
  destruct c as [[] [] [] [] [] [] [] []]; intros D; try discriminate D; reflexivity.
Qed.

(** [std_get_int] reads a printed number that fits an [int] back, and
    leaves nothing. *)
Lemma std_get_int_printed n :
  (n <= 2147483647)%N ->
  std_get_int (decimal_of_N n) = (Z.of_N n, true, EmptyString).
Proof.
  intros B. destruct (take_digits_printed n) as [k T].
  destruct (decimal_of_N_digits n) as [D E]. unfold std_get_int.
  destruct (decimal_of_N n) as [|c s] eqn:P; [discriminate E|].
  simpl in D; apply andb_prop in D as [Dc _].
  rewrite (take_sign_digit c s Dc), T; simpl.
  unfold INT_MIN, INT_MAX.
  destruct (Z.ltb_spec (Z.of_N n) (-2147483648)); [lia|].
  destruct (Z.ltb_spec 2147483647 (Z.of_N n)); [lia | reflexivity].
Qed.

(** ** Numbers followed by white space

    [num_get] stops at the first character that cannot continue the
    numeral, and a white space never can: what it does on a text followed
    by a white space is what it does on the text alone.  [NumGetLocal] is
    that law, and the range of the [int] it stores. *)
Definition leave {A} (r : num_result A) (t : string) : num_result A :=
  let '(v, parsed, rest) := r in (v, parsed, rest ++ t).

Class NumGetLocal (NG : NumGet) : Prop := {
  get_float_local : forall tok sp rest, is_space sp = true ->
    get_float (tok ++ String sp rest) = leave (get_float tok) (String sp rest);
  get_int_local : forall tok sp rest, is_space sp = true ->
    get_int (tok ++ String sp rest) = leave (get_int tok) (String sp rest);
  get_int_range : forall s,
    (INT_MIN <= fst (fst (get_int s)) <= INT_MAX)%Z
}.

Section StdLocal.
Variables (sp : ascii) (rest : string).
Hypothesis Hsp : is_space sp = true.

Lemma space_not_exponent :
  Ascii.eqb sp "e" || Ascii.eqb sp "E" = false /\ Ascii.eqb sp "." = false.
Proof.
  revert Hsp; destruct sp as [[] [] [] [] [] [] [] []]; intros E;
    try discriminate E; split; reflexivity.
Qed.

Lemma scan_exponent_app s :
  scan_exponent (s ++ String sp rest) =
  option_map (fun '(e, r) => (e, r ++ String sp rest)) (scan_exponent s).
Proof.
  destruct s as [|c s]; simpl.
  - now rewrite (proj1 space_not_exponent).
  - destruct (Ascii.eqb c "e" || Ascii.eqb c "E"); [|reflexivity].
    rewrite (take_sign_app sp rest Hsp). destruct (take_sign s) as [neg s1].
    rewrite (take_digits_app sp rest Hsp).
    now destruct (take_digits s1 0 0) as [[v [|k]] r].
Qed.

(** The digits after the point, when there is one. *)
Lemma fraction_app s ip :
  match s ++ String sp rest with
  | String "." s' => take_digits s' ip 0
  | _ => (ip, O, s ++ String sp rest)
  end =
  let '(m, nf, r) := match s with
                     | String "." s' => take_digits s' ip 0
                     | _ => (ip, O, s)
                     end in
  (m, nf, r ++ String sp rest).
Proof.
  destruct s as [|c s].
  - revert Hsp; simpl; destruct sp as [[] [] [] [] [] [] [] []]; intros E;
      try discriminate E; reflexivity.
  - destruct c as [[] [] [] [] [] [] [] []]; try reflexivity.
    apply (take_digits_app sp rest Hsp).
Qed.

Lemma std_get_int_app s :
  std_get_int (s ++ String sp rest) = leave (std_get_int s) (String sp rest).
Proof.
  unfold std_get_int. rewrite (take_sign_app sp rest Hsp).
  destruct (take_sign s) as [neg s1]. rewrite (take_digits_app sp rest Hsp).
  destruct (take_digits s1 0 0) as [[v [|k]] r]; [reflexivity|]; simpl.
  destruct (_ <? INT_MIN)%Z; [reflexivity|]. now destruct (INT_MAX <? _)%Z.
Qed.

Lemma std_get_float_app s :
  std_get_float (s ++ String sp rest) = leave (std_get_float s) (String sp rest).
Proof.
  unfold std_get_float. rewrite (take_sign_app sp rest Hsp).
  destruct (take_sign s) as [neg s0]. rewrite (take_digits_app sp rest Hsp).
  destruct (take_digits s0 0 0) as [[ip ni] s1]. rewrite fraction_app.
  destruct (match s1 with String "." s' => take_digits s' ip 0 | _ => (ip, O, s1) end)
    as [[m nf] s2].
  destruct (ni + nf)%nat; [reflexivity|]. rewrite scan_exponent_app.
  destruct (scan_exponent s2) as [[e r]|]; simpl; [|reflexivity].
  now destruct (f32_of_decimal neg m (e - Z.of_nat nf)) as [| [] | |].
Qed.

End StdLocal.

Lemma std_get_int_range s :
  (INT_MIN <= fst (fst (std_get_int s)) <= INT_MAX)%Z.
Proof.
  unfold std_get_int, INT_MIN, INT_MAX. destruct (take_sign s) as [neg s1].
  destruct (take_digits s1 0 0) as [[v [|k]] r]; simpl; [lia|].
  destruct (Z.ltb_spec (cond_Zopp neg (Z.of_N v)) (-2147483648)); simpl; [lia|].
  destruct (Z.ltb_spec 2147483647 (cond_Zopp neg (Z.of_N v))); simpl; lia.
Qed.

#[export] Instance StdNumGetLocal : NumGetLocal StdNumGet := {
  get_float_local tok sp rest H := std_get_float_app sp rest H tok;
  get_int_local tok sp rest H := std_get_int_app sp rest H tok;
  get_int_range := std_get_int_range
}.

(** ** [getline] and the lines of a text

    The lines a [getline] loop reads from a stream are the lines of its
    text; once they are read, a further [getline] fails, and its line
    variable is emptied when the text ended with a line feed (the stream
    was still good) and kept otherwise. *)

(** The text is empty or ends with a line feed. *)
Fixpoint ends_nl (s : string) : bool :=
  match s with
  | EmptyString => true
  | String c EmptyString => Ascii.eqb c newline
  | String _ s' => ends_nl s'
  end.

(** The lines still to be read from a stream, and whether the stream will
    be good once they are read. *)
Definition stream_lines (s : istream) : list string :=
  if good s then text_lines (is_buf s) else [].

Definition stream_nl (s : istream) : bool := good s && ends_nl (is_buf s).

(** What a [getline] that finds no line leaves in the line variable. *)
Definition no_line (nl : bool) (old : string) : string :=
  if nl then EmptyString else old.

Lemma snoc_app cur c l : snoc cur c ++ l = cur ++ String c l.
Proof. unfold snoc; now rewrite string_app_assoc. Qed.

Lemma lines_from_cut_line s : forall cur,
  lines_from s cur =
  match cut_line s with
  | (l, Some rest) => (cur ++ l) :: text_lines rest
  | (l, None) => if isEmpty (cur ++ l) then [] else [cur ++ l]
  end.
Proof.
  induction s as [|c s IH]; intros cur; simpl.
  - rewrite string_app_empty; now destruct cur.
  - destruct (Ascii.eqb c newline); [now rewrite string_app_empty|].
    rewrite IH. destruct (cut_line s) as [l [rest|]]; now rewrite snoc_app.
Qed.

Lemma ends_nl_cut_line s :
  match cut_line s with
  | (_, Some rest) => ends_nl s = ends_nl rest
  | (l, None) => isEmpty l = false -> ends_nl s = false
  end.
Proof.
  induction s as [|c s IH]; [discriminate|]. cbn [cut_line].
  destruct (Ascii.eqb c newline) eqn:E; [destruct s; [exact E | reflexivity]|].
  destruct s as [|d s]; [intros _; exact E|].
  change (ends_nl (String c (String d s))) with (ends_nl (String d s)).
  pose proof (cut_line_length (String d s)) as L.
  destruct (cut_line (String d s)) as [l [rest|]]; [exact IH|].
  intros _; apply IH; now subst l.
Qed.

(** One [getline] against the lines that are left. *)
Lemma getline_lines s old :
  exists s',
    match stream_lines s with
    | l :: ls =>
        getline s old = (s', l) /\ stream_ok s' = true /\
        stream_lines s' = ls /\ stream_nl s' = stream_nl s
    | [] =>
        getline s old = (s', no_line (stream_nl s) old) /\ stream_ok s' = false /\
        stream_lines s' = [] /\ stream_nl s' = false
    end.
Proof.
  unfold stream_lines, stream_nl, getline, text_lines.
  assert (F : good (set_failbit s) = false) by (unfold good; simpl; apply andb_false_r).
  destruct (good s) eqn:G; [|now exists (set_failbit s); rewrite F].
  rewrite lines_from_cut_line. pose proof (ends_nl_cut_line (is_buf s)) as N.
  pose proof (cut_line_length (is_buf s)) as L.
  destruct (cut_line (is_buf s)) as [l [rest|]]; cbn [append andb].
  - now exists (mkStream rest false false).
  - exists (mkStream EmptyString true (isEmpty l)). destruct (isEmpty l) eqn:E.
    + apply isEmpty_true in E; subst l. now rewrite <- L.
    + now rewrite (N eq_refl).
Qed.
