(* ===== verification/Cloud.v ===== *)
(** * Cloud: the vertex buffer and its bounding box

    The three fields both loaders rebuild ([m_vertices], [m_boundingBoxMin],
    [m_boundingBoxMax] of [PointCloudRenderer]) and the two pieces of code
    they share: the reset to the empty buffer with the sentinel box
    ([cloud_reset]) and the append of one vertex with the per-axis
    [std::min]/[std::max] update of the box ([cloud_add]).

    [cloud_inv] is the invariant of the loops: the box corners are numbers,
    the box bounds every stored coordinate that is a number, and every
    corner coordinate is the sentinel or a stored coordinate.  A NaN
    coordinate is stored but never enters the box, so the bound is stated
    for the coordinates that are numbers ([cloud_add_nan]: a coordinate
    that is not a number leaves both corners as they were). *)

From Stdlib Require Import ZArith Lia Bool List SpecFloat.
From S2P Require Import Prelude Float32 Vec3.
Import ListNotations.

(** [struct Vertex] of pointcloudrenderer.h. *)
Record Vertex : Type := mkVertex { position : QVector3D; color : QVector3D }.

Record Cloud : Type := mkCloud {
  vertices : list Vertex;
  bbMin : QVector3D;
  bbMax : QVector3D
}.

(** [m_vertices.clear()] and the two sentinel corners. *)
Definition cloud_reset : Cloud :=
  mkCloud [] (mkVec3 FLT_MAX FLT_MAX FLT_MAX)
             (mkVec3 FLT_LOWEST FLT_LOWEST FLT_LOWEST).

(** The three [setX/Y/Z(std::min(corner, coordinate))] statements. *)
Definition bbox_extend_min (mn : QVector3D) (x y z : f32) : QVector3D :=
  let mn := setX mn (std_min (vx mn) x) in
  let mn := setY mn (std_min (vy mn) y) in
  setZ mn (std_min (vz mn) z).

Definition bbox_extend_max (mx : QVector3D) (x y z : f32) : QVector3D :=
  let mx := setX mx (std_max (vx mx) x) in
  let mx := setY mx (std_max (vy mx) y) in
  setZ mx (std_max (vz mx) z).

(** [Vertex vertex = {pos, color}; m_vertices.append(vertex);] followed by
    the update of both corners with the coordinates [x], [y], [z]. *)
Definition cloud_add (c : Cloud) (x y z : f32) (col : QVector3D) : Cloud :=
  mkCloud (vertices c ++ [mkVertex (mkVec3 x y z) col])
          (bbox_extend_min (bbMin c) x y z)
          (bbox_extend_max (bbMax c) x y z).

(** The colour a vertex gets when the file gives none. *)
Definition white : QVector3D := mkVec3 f32_one f32_one f32_one.

(** ** The invariant *)

(** The box of [c] bounds the coordinates of [v] that are numbers. *)
Definition bounds_vertex (c : Cloud) (v : Vertex) : Prop :=
  forall ax, f32_is_nan (coord ax (position v)) = false ->
    fle (coord ax (bbMin c)) (coord ax (position v)) /\
    fle (coord ax (position v)) (coord ax (bbMax c)).

Definition attained (c : Cloud) (sentinel : f32) (corner : QVector3D) : Prop :=
  forall ax, coord ax corner = sentinel \/
    exists v, In v (vertices c) /\ coord ax (position v) = coord ax corner.

Record cloud_inv (c : Cloud) : Prop := {
  inv_min_number : forall ax, f32_is_nan (coord ax (bbMin c)) = false;
  inv_max_number : forall ax, f32_is_nan (coord ax (bbMax c)) = false;
  inv_bounds : Forall (bounds_vertex c) (vertices c);
  inv_min_attained : attained c FLT_MAX (bbMin c);
  inv_max_attained : attained c FLT_LOWEST (bbMax c)
}.

(** The executable form of [bounds_vertex], for concrete clouds. *)
Definition bounds_vertex_b (c : Cloud) (v : Vertex) : bool :=
  forallb (fun ax =>
     f32_is_nan (coord ax (position v)) ||
     (f32_le (coord ax (bbMin c)) (coord ax (position v)) &&
      f32_le (coord ax (position v)) (coord ax (bbMax c))))
    [AxisX; AxisY; AxisZ].

(** ** Lemmas *)
Lemma coord_bbox_extend_min ax mn x y z :
  coord ax (bbox_extend_min mn x y z) = std_min (coord ax mn) (coord ax (mkVec3 x y z)).
Proof. now destruct ax. Qed.

Lemma coord_bbox_extend_max ax mx x y z :
  coord ax (bbox_extend_max mx x y z) = std_max (coord ax mx) (coord ax (mkVec3 x y z)).
Proof. now destruct ax. Qed.

Lemma bounds_vertex_b_spec c v : bounds_vertex_b c v = true <-> bounds_vertex c v.
Proof.
  unfold bounds_vertex_b, bounds_vertex, fle; rewrite forallb_forall; split.
  - intros H ax Hn. specialize (H ax). rewrite Hn in H; simpl in H.
    apply andb_true_iff, H. destruct ax; simpl; auto.
  - intros H ax _. destruct (f32_is_nan _) eqn:E; [reflexivity|].
    now apply andb_true_iff, H.
Qed.

Lemma cloud_reset_inv : cloud_inv cloud_reset.
Proof.
  constructor; simpl.
  1-2: intros []; reflexivity.
  - constructor.
  - intros []; now left.
  - intros []; now left.
Qed.

(** Extending the box keeps the old vertices inside. *)
Lemma bounds_vertex_add c x y z col v :
  cloud_inv c -> bounds_vertex c v -> bounds_vertex (cloud_add c x y z col) v.
Proof.
  intros I Hv ax Hn; destruct (Hv ax Hn) as [Hlo Hhi]; simpl.
  rewrite coord_bbox_extend_min, coord_bbox_extend_max; split.
  - transitivity (coord ax (bbMin c)); [|exact Hlo].
    apply std_min_le_l, I.
  - transitivity (coord ax (bbMax c)); [exact Hhi|].
    apply std_max_ge_l, I.
Qed.

(** The new vertex is inside the extended box. *)
Lemma bounds_vertex_new c x y z col :
  cloud_inv c ->
  bounds_vertex (cloud_add c x y z col) (mkVertex (mkVec3 x y z) col).
Proof.
  intros I ax Hn; simpl in *.
  rewrite coord_bbox_extend_min, coord_bbox_extend_max; split.
  - apply std_min_le_r; [apply I | exact Hn].
  - apply std_max_ge_r; [apply I | exact Hn].
Qed.

Lemma attained_add_min c x y z col :
  attained c FLT_MAX (bbMin c) ->
  attained (cloud_add c x y z col) FLT_MAX (bbMin (cloud_add c x y z col)).
Proof.
  intros A ax; simpl; rewrite coord_bbox_extend_min.
  destruct (std_min_cases (coord ax (bbMin c)) (coord ax (mkVec3 x y z))) as [->| ->].
  - destruct (A ax) as [?|(v & Hv & E)]; [now left|right].
    exists v; split; [apply in_or_app; now left | exact E].
  - right; eexists; split; [apply in_or_app; right; left; reflexivity|reflexivity].
Qed.

Lemma attained_add_max c x y z col :
  attained c FLT_LOWEST (bbMax c) ->
  attained (cloud_add c x y z col) FLT_LOWEST (bbMax (cloud_add c x y z col)).
Proof.
  intros A ax; simpl; rewrite coord_bbox_extend_max.
  destruct (std_max_cases (coord ax (bbMax c)) (coord ax (mkVec3 x y z))) as [->| ->].
  - destruct (A ax) as [?|(v & Hv & E)]; [now left|right].
    exists v; split; [apply in_or_app; now left | exact E].
  - right; eexists; split; [apply in_or_app; right; left; reflexivity|reflexivity].
Qed.

(** [cloud_add] preserves the invariant, whatever is appended. *)
Lemma cloud_add_inv c x y z col : cloud_inv c -> cloud_inv (cloud_add c x y z col).
Proof.
  intros I; constructor.
  - intros ax; simpl; rewrite coord_bbox_extend_min. apply std_min_not_nan, I.
  - intros ax; simpl; rewrite coord_bbox_extend_max. apply std_max_not_nan, I.
  - simpl; apply Forall_app; split.
    + eapply Forall_impl; [|apply I]. intros v; now apply bounds_vertex_add.
    + constructor; [now apply bounds_vertex_new | constructor].
  - apply attained_add_min, I.
  - apply attained_add_max, I.
Qed.

Lemma cloud_add_length c x y z col :
  length (vertices (cloud_add c x y z col)) = S (length (vertices c)).
Proof. simpl; rewrite length_app; simpl; lia. Qed.

#[export] Hint Resolve cloud_reset_inv cloud_add_inv : pcv.

(** With a vertex whose coordinate on an axis is a number, the box is not
    inverted on that axis. *)
Lemma cloud_inv_min_le_max c v ax :
  cloud_inv c -> In v (vertices c) ->
  f32_is_nan (coord ax (position v)) = false ->
  fle (coord ax (bbMin c)) (coord ax (bbMax c)).
Proof.
  intros I Hin Hn. pose proof (inv_bounds c I) as B.
  rewrite Forall_forall in B. destruct (B v Hin ax Hn).
  etransitivity; eassumption.
Qed.

(** ** A coordinate that is not a number *)

(** No comparison with a value that is not a number holds. *)
Lemma f32_le_nan a b :
  f32_is_nan a = true \/ f32_is_nan b = true -> f32_le a b = false.
Proof.
  intros N. destruct (f32_le a b) eqn:E; [|reflexivity].
  destruct (fle_not_nan a b E) as [Na Nb]. destruct N; congruence.
Qed.

(** A vertex with a coordinate that is not a number is stored, and
    both corners of the box stay as they were on that axis: [std::min] and
    [std::max] return their first argument when the comparison with the
    new coordinate fails.  Neither corner compares with the stored
    coordinate. *)
Theorem cloud_add_nan c x y z col ax :
  f32_is_nan (coord ax (mkVec3 x y z)) = true ->
  let c' := cloud_add c x y z col in
  In (mkVertex (mkVec3 x y z) col) (vertices c') /\
  coord ax (bbMin c') = coord ax (bbMin c) /\
  coord ax (bbMax c') = coord ax (bbMax c) /\
  f32_le (coord ax (bbMin c')) (coord ax (mkVec3 x y z)) = false /\
  f32_le (coord ax (mkVec3 x y z)) (coord ax (bbMax c')) = false.
Proof.
  intros N; cbn zeta; repeat split.
  - apply in_or_app; right; now left.
  - simpl; rewrite coord_bbox_extend_min. now apply std_min_nan_r.
  - simpl; rewrite coord_bbox_extend_max. now apply std_max_nan_r.
  - apply f32_le_nan; now right.
  - apply f32_le_nan; now left.
Qed.

(** The witness of [cloud_add_nan]: the first vertex of a cloud, its x
    not a number; the box keeps both sentinels on that axis. *)
Lemma cloud_add_nan_witness :
  let c' := cloud_add cloud_reset S754_nan f32_one f32_one white in
  In (mkVertex (mkVec3 S754_nan f32_one f32_one) white) (vertices c') /\
  vx (bbMin c') = FLT_MAX /\ vx (bbMax c') = FLT_LOWEST /\
  f32_le (vx (bbMin c')) S754_nan = false /\
  f32_le S754_nan (vx (bbMax c')) = false.
Proof.
  exact (cloud_add_nan cloud_reset S754_nan f32_one f32_one white AxisX eq_refl).
Defined.
