(* ===== verification/PtsParser.v ===== *)
(** * PtsParser: the line loop of [PointCloudRenderer::loadPtsFile]

    The loop of pointcloudrenderer.cpp, lines 245-281, as a fold of its body
    [pts_step] over the lines of the file, started from [cloud_reset].  A
    line is trimmed; blank lines and lines starting with [#] are skipped; a
    line with fewer than three parts is skipped; the first three parts are
    the position, parts four to six (when there are six) the colour divided
    by 255, white otherwise.  Nothing fails in the loop: a part that is not
    a number reads as whatever [toFloat] gives (0 for Qt).

    Theorems: the vertices are exactly the accepted lines in file order
    ([pts_parse_vertices], hence the count), the loop keeps [cloud_inv]
    ([pts_parse_inv]), so the box bounds every coordinate that is a number
    ([pts_parse_bounds]); the scenario of the specification evaluates to the
    stated records and box; a NaN coordinate escapes the box. *)

From Stdlib Require Import ZArith Lia Bool List String Ascii SpecFloat.
From S2P Require Import Prelude Float32 Vec3 Text Cloud.
Import ListNotations.
Local Open Scope string_scope.
Local Open Scope list_scope.

Section Pts.
Context {T2F : TokenToFloat}.

(** [parts[i]], on a list known to be long enough. *)
Definition part (parts : list string) (i : nat) : string := nth i parts "".

(** The colour of a line: [parts[3..5].toFloat() / 255.0f] when the line
    has six parts, white otherwise. *)
Definition pts_color (parts : list string) : QVector3D :=
  if (6 <=? List.length parts)%nat
  then mkVec3 (f32_div (toFloat (part parts 3)) f32_255)
              (f32_div (toFloat (part parts 4)) f32_255)
              (f32_div (toFloat (part parts 5)) f32_255)
  else white.

(** The conditions under which the loop body appends a vertex. *)
Definition pts_accepts (raw : string) : bool :=
  let line := trimmed raw in
  negb (isEmpty line || startsWith_char line "#") &&
  (3 <=? List.length (split_ws line))%nat.

(** The vertex an accepted line contributes. *)
Definition pts_vertex (raw : string) : Vertex :=
  let parts := split_ws (trimmed raw) in
  mkVertex (mkVec3 (toFloat (part parts 0)) (toFloat (part parts 1))
                   (toFloat (part parts 2)))
           (pts_color parts).

(** One iteration of the [while (!in.atEnd())] loop. *)
Definition pts_step (c : Cloud) (raw : string) : Cloud :=
  let line := trimmed raw in
  if isEmpty line || startsWith_char line "#" then c
  else
    let parts := split_ws line in
    if (3 <=? List.length parts)%nat then
      let x := toFloat (part parts 0) in
      let y := toFloat (part parts 1) in
      let z := toFloat (part parts 2) in
      cloud_add c x y z (pts_color parts)
    else c.

(** The whole loop on the content of the file. *)
Definition pts_parse (content : string) : Cloud :=
  fold_left pts_step (text_lines content) cloud_reset.

(** ** The step *)
Lemma pts_step_accepted c raw :
  pts_accepts raw = true ->
  pts_step c raw =
  cloud_add c (vx (position (pts_vertex raw))) (vy (position (pts_vertex raw)))
              (vz (position (pts_vertex raw))) (color (pts_vertex raw)).
Proof.
  unfold pts_accepts, pts_step; intros H.
  apply andb_true_iff in H as [H1 H2]. apply negb_true_iff in H1.
  now rewrite H1, H2.
Qed.

Lemma pts_step_skipped c raw : pts_accepts raw = false -> pts_step c raw = c.
Proof.
  unfold pts_accepts, pts_step; intros H.
  destruct (isEmpty _ || startsWith_char _ _); [reflexivity|].
  cbn [negb andb] in H. now rewrite H.
Qed.

Lemma pts_step_vertices c raw :
  vertices (pts_step c raw) =
  vertices c ++ (if pts_accepts raw then [pts_vertex raw] else []).
Proof.
  destruct (pts_accepts raw) eqn:E.
  - now rewrite pts_step_accepted.
  - now rewrite pts_step_skipped, app_nil_r.
Qed.

Lemma pts_step_inv c raw : cloud_inv c -> cloud_inv (pts_step c raw).
Proof.
  intros I. destruct (pts_accepts raw) eqn:E.
  - rewrite pts_step_accepted by exact E. now apply cloud_add_inv.
  - now rewrite pts_step_skipped.
Qed.

(** ** The loop *)
Lemma pts_fold_vertices lines : forall c,
  vertices (fold_left pts_step lines c) =
  vertices c ++ map pts_vertex (filter pts_accepts lines).
Proof.
  induction lines as [|l lines IH]; intros c; simpl.
  - now rewrite app_nil_r.
  - rewrite IH, pts_step_vertices, <- app_assoc.
    now destruct (pts_accepts l).
Qed.

(** C5: the vertices after the loop are the vertices of the accepted lines
    (not blank, not a comment, at least three parts), in file order; in
    particular their number is the number of accepted lines. *)
Theorem pts_parse_vertices content :
  vertices (pts_parse content) =
    map pts_vertex (filter pts_accepts (text_lines content)) /\
  List.length (vertices (pts_parse content)) =
    List.length (filter pts_accepts (text_lines content)).
Proof.
  unfold pts_parse. rewrite pts_fold_vertices; simpl.
  split; [reflexivity | apply length_map].
Qed.

(** The loop establishes the invariant of the cloud. *)
Lemma pts_parse_inv content : cloud_inv (pts_parse content).
Proof.
  unfold pts_parse; apply fold_left_invariant; auto using pts_step_inv with pcv.
Qed.

(** C1: after the loop the box bounds, on every axis, every loaded
    coordinate that is a number. *)
Theorem pts_parse_bounds content v ax :
  In v (vertices (pts_parse content)) ->
  f32_is_nan (coord ax (position v)) = false ->
  fle (coord ax (bbMin (pts_parse content))) (coord ax (position v)) /\
  fle (coord ax (position v)) (coord ax (bbMax (pts_parse content))).
Proof.
  intros Hin Hn. pose proof (inv_bounds _ (pts_parse_inv content)) as B.
  rewrite Forall_forall in B. exact (B v Hin ax Hn).
Qed.

(** The box is no larger than the vertices make it: each coordinate of
    each corner is the sentinel it started from or the coordinate of a
    loaded vertex, and the corners are numbers. *)
Theorem pts_parse_box_attained content :
  attained (pts_parse content) FLT_MAX (bbMin (pts_parse content)) /\
  attained (pts_parse content) FLT_LOWEST (bbMax (pts_parse content)) /\
  (forall ax, f32_is_nan (coord ax (bbMin (pts_parse content))) = false /\
              f32_is_nan (coord ax (bbMax (pts_parse content))) = false).
Proof.
  destruct (pts_parse_inv content) as [Nmin Nmax _ Amin Amax].
  split; [exact Amin | split; [exact Amax | intros ax; split; auto]].
Qed.

End Pts.

(** ** Scenarios, with Qt's [toFloat] *)

#[local] Existing Instance QtTokenToFloat.

Definition nl : string := String newline "".

Definition scenario_A : string :=
  ("1.0 2.0 3.0 255 0 0" ++ nl ++ "4.0 5.0 6.0" ++ nl)%string.

Definition red : QVector3D := mkVec3 f32_one f32_zero f32_zero.

(** The scenario of the specification: two records, the first red, the
    second white, and the box from (1,2,3) to (4,5,6). *)
Theorem pts_scenario_A :
  pts_parse scenario_A =
  mkCloud [ mkVertex (mkVec3 (f32_of_Z 1) (f32_of_Z 2) (f32_of_Z 3)) red;
            mkVertex (mkVec3 (f32_of_Z 4) (f32_of_Z 5) (f32_of_Z 6)) white ]
          (mkVec3 (f32_of_Z 1) (f32_of_Z 2) (f32_of_Z 3))
          (mkVec3 (f32_of_Z 4) (f32_of_Z 5) (f32_of_Z 6)).
Proof. vm_compute. reflexivity. Qed.

(** The witness of [pts_parse_bounds]: the second vertex of the scenario on
    the Y axis. *)
Lemma pts_parse_bounds_witness :
  fle (coord AxisY (bbMin (pts_parse scenario_A))) (f32_of_Z 5) /\
  fle (f32_of_Z 5) (coord AxisY (bbMax (pts_parse scenario_A))).
Proof.
  apply (pts_parse_bounds scenario_A
           (mkVertex (mkVec3 (f32_of_Z 4) (f32_of_Z 5) (f32_of_Z 6)) white) AxisY).
  - vm_compute. right; left; reflexivity.
  - reflexivity.
Defined.

(** Comments, blank lines, short and malformed lines: one vertex comes out
    of the five lines, with 0 where a part is not a number. *)
Lemma pts_lenient_example :
  vertices (pts_parse ("# header" ++ nl ++ nl ++ "1 2" ++ nl ++
                       "   " ++ nl ++ " 7 x 9 extra" ++ nl)%string) =
  [ mkVertex (mkVec3 (f32_of_Z 7) f32_zero (f32_of_Z 9)) white ].
Proof. vm_compute. reflexivity. Qed.

(** A coordinate that reads as NaN is stored but never enters the box: the
    box keeps its sentinels on that axis and does not bound the vertex. *)
Theorem bbox_misses_nan :
  let c := pts_parse ("nan 1 2" ++ nl)%string in
  exists v, In v (vertices c) /\
    f32_is_nan (vx (position v)) = true /\
    f32_le (vx (bbMin c)) (vx (position v)) = false /\
    vx (bbMin c) = FLT_MAX /\ vx (bbMax c) = FLT_LOWEST /\
    f32_lt (vx (bbMax c)) (vx (bbMin c)) = true.
Proof.
  eexists; split; [left; reflexivity|]. repeat split; vm_compute; reflexivity.
Qed.
