(* ===== verification/PlyParser.v ===== *)
(** * PlyParser: the parser inside [PointCloudRenderer::loadPlyFile]

    Lines 317-504 of pointcloudrenderer.cpp.  [PlyLocals] holds the local
    variables of the function; [header_line] is the body of the header
    loop, [header_loop] the loop, [ascii_body] and [binary_body] the two
    record loops, [ply_add_vertex] the statements that turn the values of
    one record into a vertex, and [ply_parse] the whole, with the four ways
    the function can end ([PlyOutcome]).

    Indices are [int]s with -1 for "not found", as in the source.

    Both record loops copy [val] into [values[j]] without asking whether
    the read wrote it.  In ASCII mode the copied value goes on into the
    vertex and the box: the model ends in [PlyUndefined] when that happens
    and says nothing more about such a run.  In binary mode the stream is
    tested after the inner loop and the values are dropped: the model
    follows the compiled program, puts a placeholder where the read wrote
    nothing and ends in [PlyReadError]; [unwritten_copies] and
    [binary_unwritten] count the copies of an unwritten [val], which by
    the letter of the language are as undefined as those of the ASCII
    loop, and [binary_read_error_unwritten] shows that a read error is
    reported exactly when there was one.

    [m_vertices.reserve(numVertices)] is taken to succeed; [ply_reserve]
    is the number it is called with.  A binary record is decoded with the
    byte order of the host, taken to be little-endian. *)

From Stdlib Require Import ZArith NArith Lia Bool List String Ascii SpecFloat.
From S2P Require Import Prelude Float32 Vec3 Text IStream Cloud.
Import ListNotations.
Local Open Scope string_scope.
Local Open Scope list_scope.

(** ** Local types and variables of [loadPlyFile] *)

Inductive PropertyType : Type := PROP_NONE | PROP_FLOAT | PROP_UCHAR.

Record PropertyInfo : Type := mkProp { prop_name : string; prop_type : PropertyType }.

Record PlyLocals : Type := mkLocals {
  line : string;
  numVertices : Z;
  isBinary : bool;
  isBigEndian : bool;
  hasColors : bool;
  headerEnd : bool;
  properties : list PropertyInfo;
  xIndex : Z; yIndex : Z; zIndex : Z;
  redIndex : Z; greenIndex : Z; blueIndex : Z
}.

(** The values the declarations give them. *)
Definition locals_init : PlyLocals :=
  mkLocals "" 0 false false false false [] (-1) (-1) (-1) (-1) (-1) (-1).

Definition set_line v h :=
  mkLocals v (numVertices h) (isBinary h) (isBigEndian h) (hasColors h)
    (headerEnd h) (properties h) (xIndex h) (yIndex h) (zIndex h)
    (redIndex h) (greenIndex h) (blueIndex h).
Definition set_numVertices v h :=
  mkLocals (line h) v (isBinary h) (isBigEndian h) (hasColors h)
    (headerEnd h) (properties h) (xIndex h) (yIndex h) (zIndex h)
    (redIndex h) (greenIndex h) (blueIndex h).
Definition set_isBinary v h :=
  mkLocals (line h) (numVertices h) v (isBigEndian h) (hasColors h)
    (headerEnd h) (properties h) (xIndex h) (yIndex h) (zIndex h)
    (redIndex h) (greenIndex h) (blueIndex h).
Definition set_isBigEndian v h :=
  mkLocals (line h) (numVertices h) (isBinary h) v (hasColors h)
    (headerEnd h) (properties h) (xIndex h) (yIndex h) (zIndex h)
    (redIndex h) (greenIndex h) (blueIndex h).
Definition set_hasColors v h :=
  mkLocals (line h) (numVertices h) (isBinary h) (isBigEndian h) v
    (headerEnd h) (properties h) (xIndex h) (yIndex h) (zIndex h)
    (redIndex h) (greenIndex h) (blueIndex h).
Definition set_headerEnd v h :=
  mkLocals (line h) (numVertices h) (isBinary h) (isBigEndian h) (hasColors h)
    v (properties h) (xIndex h) (yIndex h) (zIndex h)
    (redIndex h) (greenIndex h) (blueIndex h).
Definition set_properties v h :=
  mkLocals (line h) (numVertices h) (isBinary h) (isBigEndian h) (hasColors h)
    (headerEnd h) v (xIndex h) (yIndex h) (zIndex h)
    (redIndex h) (greenIndex h) (blueIndex h).
Definition set_xIndex v h :=
  mkLocals (line h) (numVertices h) (isBinary h) (isBigEndian h) (hasColors h)
    (headerEnd h) (properties h) v (yIndex h) (zIndex h)
    (redIndex h) (greenIndex h) (blueIndex h).
Definition set_yIndex v h :=
  mkLocals (line h) (numVertices h) (isBinary h) (isBigEndian h) (hasColors h)
    (headerEnd h) (properties h) (xIndex h) v (zIndex h)
    (redIndex h) (greenIndex h) (blueIndex h).
Definition set_zIndex v h :=
  mkLocals (line h) (numVertices h) (isBinary h) (isBigEndian h) (hasColors h)
    (headerEnd h) (properties h) (xIndex h) (yIndex h) v
    (redIndex h) (greenIndex h) (blueIndex h).
Definition set_redIndex v h :=
  mkLocals (line h) (numVertices h) (isBinary h) (isBigEndian h) (hasColors h)
    (headerEnd h) (properties h) (xIndex h) (yIndex h) (zIndex h)
    v (greenIndex h) (blueIndex h).
Definition set_greenIndex v h :=
  mkLocals (line h) (numVertices h) (isBinary h) (isBigEndian h) (hasColors h)
    (headerEnd h) (properties h) (xIndex h) (yIndex h) (zIndex h)
    (redIndex h) v (blueIndex h).
Definition set_blueIndex v h :=
  mkLocals (line h) (numVertices h) (isBinary h) (isBigEndian h) (hasColors h)
    (headerEnd h) (properties h) (xIndex h) (yIndex h) (zIndex h)
    (redIndex h) (greenIndex h) v.

(** The value of a string variable after an extraction into it, the
    variable being empty before. *)
Definition word_or_empty (w : option string) : string :=
  match w with Some s => s | None => "" end.

(** [line.find(sub) != std::string::npos]. *)
Definition contains (s sub : string) : bool :=
  match index 0 sub s with Some _ => true | None => false end.

Section Ply.
Context {NG : NumGet}.

(** ** The header *)

(** The type of a [property] line: [float]/[float32], [uchar]/[uint8], or
    not recognised. *)
Definition classify_type (type : string) : PropertyType :=
  if String.eqb type "float" || String.eqb type "float32" then PROP_FLOAT
  else if String.eqb type "uchar" || String.eqb type "uint8" then PROP_UCHAR
  else PROP_NONE.

(** The [property] branch: a recognised property binds the index its name
    asks for and is appended; any other is dropped. *)
Definition header_property (h : PlyLocals) (type name : string) : PlyLocals :=
  match classify_type type with
  | PROP_NONE => h
  | t =>
      let propIndex := Z.of_nat (List.length (properties h)) in
      let h :=
        if String.eqb name "x" then set_xIndex propIndex h
        else if String.eqb name "y" then set_yIndex propIndex h
        else if String.eqb name "z" then set_zIndex propIndex h
        else if String.eqb name "red"
             then set_hasColors true (set_redIndex propIndex h)
        else if String.eqb name "green" then set_greenIndex propIndex h
        else if String.eqb name "blue" then set_blueIndex propIndex h
        else h in
      set_properties (properties h ++ [mkProp name t]) h
  end.

(** The [format] branch. *)
Definition header_format (h : PlyLocals) (format : string) : PlyLocals :=
  if String.eqb format "ascii" then set_isBinary false h
  else if String.eqb format "binary_little_endian"
       then set_isBigEndian false (set_isBinary true h)
  else if String.eqb format "binary_big_endian"
       then set_isBigEndian true (set_isBinary true h)
  else h.

(** The body of the header loop on the line just read: the locals after
    it, and whether the loop is left ([break]). *)
Definition header_line (h : PlyLocals) : PlyLocals * bool :=
  let ls := stream_of (line h) in
  let '(ls, kw) := extract_word ls in
  let keyword := word_or_empty kw in
  if String.eqb keyword "end_header" then (set_headerEnd true h, true)
  else if String.eqb keyword "format" then
    let '(ls, format) := extract_word ls in
    let '(ls, version) := extract_word ls in
    (header_format h (word_or_empty format), false)
  else if String.eqb keyword "element" && contains (line h) "vertex" then
    let '(ls, kw2) := extract_word ls in
    let '(ls, n) := extract_int ls in
    (match n with Some v => set_numVertices v h | None => h end, false)
  else if String.eqb keyword "property" then
    let '(ls, type) := extract_word ls in
    let '(ls, name) := extract_word ls in
    (header_property h (word_or_empty type) (word_or_empty name), false)
  else (h, false).

(** [while (std::getline(file, line)) { ... }], at most [fuel] iterations. *)
Fixpoint header_loop (fuel : nat) (file : istream) (h : PlyLocals)
    : option (istream * PlyLocals) :=
  match fuel with
  | O => None
  | S fuel' =>
      let '(file, l) := getline file (line h) in
      let h := set_line l h in
      if stream_ok file then
        let '(h, brk) := header_line h in
        if brk then Some (file, h) else header_loop fuel' file h
      else Some (file, h)
  end.

(** Enough iterations for any file: one per character and two more. *)
Definition header_fuel (file : istream) : nat := String.length (is_buf file) + 2.

(** The test after the loop: the header ended and x, y, z were found. *)
Definition header_valid (h : PlyLocals) : bool :=
  negb (negb (headerEnd h) || (xIndex h =? -1)%Z || (yIndex h =? -1)%Z
        || (zIndex h =? -1)%Z).

(** ** From the values of a record to a vertex *)

(** [values[i]] and [properties[i]] for an [int] index. *)
Definition value_at (values : list f32) (i : Z) : f32 :=
  nth (Z.to_nat i) values f32_zero.

Definition property_at (props : list PropertyInfo) (i : Z) : PropertyInfo :=
  nth (Z.to_nat i) props (mkProp "" PROP_NONE).

Definition ply_color (h : PlyLocals) (values : list f32) : QVector3D :=
  if hasColors h && negb (redIndex h =? -1)%Z && negb (greenIndex h =? -1)%Z
     && negb (blueIndex h =? -1)%Z
  then
    let r := value_at values (redIndex h) in
    let g := value_at values (greenIndex h) in
    let b := value_at values (blueIndex h) in
    match prop_type (property_at (properties h) (redIndex h)) with
    | PROP_UCHAR => mkVec3 (f32_div r f32_255) (f32_div g f32_255) (f32_div b f32_255)
    | _ => mkVec3 r g b
    end
  else white.

Definition ply_add_vertex (h : PlyLocals) (values : list f32) (c : Cloud) : Cloud :=
  let x := value_at values (xIndex h) in
  let y := value_at values (yIndex h) in
  let z := value_at values (zIndex h) in
  cloud_add c x y z (ply_color h values).

(** ** ASCII records *)

(** The inner loop over the properties on the stream of one line: the
    values, or [None] when an extraction stored nothing and the
    uninitialised variable is copied. *)
Fixpoint read_values_ascii (props : list PropertyInfo) (ss : istream)
    : option (list f32) :=
  match props with
  | [] => Some []
  | p :: ps =>
      match prop_type p with
      | PROP_FLOAT =>
          let '(ss, v) := extract_float ss in
          match v with
          | Some val => option_map (cons val) (read_values_ascii ps ss)
          | None => None
          end
      | PROP_UCHAR =>
          let '(ss, v) := extract_int ss in
          match v with
          | Some val => option_map (cons (f32_of_Z val)) (read_values_ascii ps ss)
          | None => None
          end
      | PROP_NONE => option_map (cons f32_zero) (read_values_ascii ps ss)
      end
  end.

(** [n] iterations of the ASCII loop: the file, the line variable and the
    cloud after them. *)
Fixpoint ascii_body (n : nat) (h : PlyLocals) (file : istream) (l : string)
    (c : Cloud) : option (istream * string * Cloud) :=
  match n with
  | O => Some (file, l, c)
  | S n' =>
      let '(file, l) := getline file l in
      match read_values_ascii (properties h) (stream_of l) with
      | Some values => ascii_body n' h file l (ply_add_vertex h values c)
      | None => None
      end
  end.

(** ** Binary records *)

(** The number a little-endian sequence of bytes denotes. *)
Fixpoint le_combine (bytes : list ascii) : Z :=
  match bytes with
  | [] => 0
  | b :: bs => (Z.of_N (N_of_ascii b) + 256 * le_combine bs)%Z
  end.

(** The inner loop over the properties on the file: 4 bytes for a [float],
    1 for a [uchar].  After a failed read the value is a placeholder; the
    caller tests the stream before it uses the values. *)
Fixpoint read_values_binary (props : list PropertyInfo) (file : istream)
    : istream * list f32 :=
  match props with
  | [] => (file, [])
  | p :: ps =>
      match prop_type p with
      | PROP_FLOAT =>
          let '(file, bytes) := stream_read 4 file in
          let val := match bytes with
                     | Some bs => f32_of_bits (le_combine bs)
                     | None => f32_zero
                     end in
          let '(file, vs) := read_values_binary ps file in (file, val :: vs)
      | PROP_UCHAR =>
          let '(file, bytes) := stream_read 1 file in
          let val := match bytes with
                     | Some bs => f32_of_Z (le_combine bs)
                     | None => f32_zero
                     end in
          let '(file, vs) := read_values_binary ps file in (file, val :: vs)
      | PROP_NONE =>
          let '(file, vs) := read_values_binary ps file in (file, f32_zero :: vs)
      end
  end.

(** The copies [values[j] = val] of the inner loop whose [val] the read
    before had not written. *)
Fixpoint unwritten_copies (props : list PropertyInfo) (file : istream) : nat :=
  match props with
  | [] => 0
  | p :: ps =>
      match prop_type p with
      | PROP_FLOAT =>
          let '(file, bytes) := stream_read 4 file in
          (match bytes with Some _ => 0 | None => 1 end + unwritten_copies ps file)%nat
      | PROP_UCHAR =>
          let '(file, bytes) := stream_read 1 file in
          (match bytes with Some _ => 0 | None => 1 end + unwritten_copies ps file)%nat
      | PROP_NONE => unwritten_copies ps file
      end
  end.

(** [n] iterations of the binary loop; [false] when a read failed, with the
    cloud as the iterations before left it. *)
Fixpoint binary_body (n : nat) (h : PlyLocals) (file : istream) (c : Cloud)
    : istream * Cloud * bool :=
  match n with
  | O => (file, c, true)
  | S n' =>
      let '(file, values) := read_values_binary (properties h) file in
      if is_fail file then (file, c, false)
      else binary_body n' h file (ply_add_vertex h values c)
  end.

(** The copies of an unwritten [val] in [n] iterations of the binary loop. *)
Fixpoint binary_unwritten (n : nat) (h : PlyLocals) (file : istream) : nat :=
  match n with
  | O => 0
  | S n' =>
      let file' := fst (read_values_binary (properties h) file) in
      if is_fail file' then unwritten_copies (properties h) file
      else binary_unwritten n' h file'
  end.

(** ** The whole parser *)

Inductive PlyOutcome : Type :=
| PlyLoaded (c : Cloud)        (**r the loops ended; the caller goes on *)
| PlyInvalidHeader             (**r [return false] after the header *)
| PlyReadError (c : Cloud)     (**r [return false] in the binary loop, after
                                   the copy of an unwritten [val] *)
| PlyUndefined.                (**r an uninitialised [float] was copied *)

(** The records, once the header is read. *)
Definition ply_body (h : PlyLocals) (file : istream) : PlyOutcome :=
  let n := Z.to_nat (numVertices h) in
  if negb (isBinary h) then
    match ascii_body n h file (line h) cloud_reset with
    | Some (_, _, c) => PlyLoaded c
    | None => PlyUndefined
    end
  else
    match binary_body n h file cloud_reset with
    | (_, c, true) => PlyLoaded c
    | (_, c, false) => PlyReadError c
    end.

Definition ply_header (content : string) : option (istream * PlyLocals) :=
  header_loop (header_fuel (stream_of content)) (stream_of content) locals_init.

Definition ply_parse (content : string) : PlyOutcome :=
  match ply_header content with
  | Some (file, h) =>
      if header_valid h then ply_body h file else PlyInvalidHeader
  | None => PlyInvalidHeader
  end.

(** [m_vertices.reserve(numVertices)]: the number of vertices the vector is
    asked to make room for, once the header is accepted and before a
    record is read. *)
Definition ply_reserve (content : string) : option Z :=
  match ply_header content with
  | Some (_, h) => if header_valid h then Some (numVertices h) else None
  | None => None
  end.

End Ply.

(** ** Theory *)

Section PlyTheory.
Context {NG : NumGet}.

(** *** The header loop ends *)
Lemma header_loop_enough fuel : forall file h,
  (good file = true -> String.length (is_buf file) + 2 <= fuel)%nat ->
  (1 <= fuel)%nat ->
  exists r, header_loop fuel file h = Some r.
Proof.
  induction fuel as [|fuel IH]; intros file h Hg H1; [lia|].
  simpl. unfold getline. destruct (good file) eqn:G.
  - specialize (Hg eq_refl). pose proof (cut_line_length (is_buf file)) as L.
    destruct (cut_line (is_buf file)) as [l [rest|]]; unfold stream_ok; simpl.
    + destruct (header_line _) as [h' []]; [eauto|].
      apply IH; simpl; intros; lia.
    + destruct (isEmpty l); simpl; [eauto|].
      destruct (header_line _) as [h' []]; [eauto|].
      apply IH; simpl; [discriminate | lia].
  - unfold stream_ok; simpl. eauto.
Qed.

(** The result does not depend on the fuel, once there is enough. *)
Lemma header_loop_agree f1 : forall f2 file h r1 r2,
  header_loop f1 file h = Some r1 -> header_loop f2 file h = Some r2 -> r1 = r2.
Proof.
  induction f1 as [|f1 IH]; intros [|f2] file h r1 r2; simpl; try discriminate.
  destruct (getline file (line h)) as [file' l].
  destruct (stream_ok file'); [|congruence].
  destruct (header_line _) as [h' []]; [congruence | apply IH].
Qed.

Lemma ply_header_some content : exists r, ply_header content = Some r.
Proof.
  apply header_loop_enough; [intros _|]; unfold header_fuel; lia.
Qed.

(** C35: the header loop of [loadPlyFile] ends on every file: the fuel the
    model gives it (the number of characters plus two) is never used up,
    and any other number of iterations that suffices gives the same
    result. *)
Theorem ply_header_terminates content :
  exists r, ply_header content = Some r /\
    forall fuel r', header_loop fuel (stream_of content) locals_init = Some r' ->
                    r' = r.
Proof.
  destruct (ply_header_some content) as [r E]. exists r; split; [exact E|].
  intros fuel r' E'. exact (header_loop_agree _ _ _ _ _ _ E' E).
Qed.

(** *** The indices point into [properties] *)

(** [i] is -1 or the position of a recognised property called [name]. *)
Definition index_ok (props : list PropertyInfo) (name : string) (i : Z) : Prop :=
  i = (-1)%Z \/
  ((0 <= i < Z.of_nat (List.length props))%Z /\
   prop_name (property_at props i) = name /\
   prop_type (property_at props i) <> PROP_NONE).

Record header_inv (h : PlyLocals) : Prop := {
  hi_x : index_ok (properties h) "x" (xIndex h);
  hi_y : index_ok (properties h) "y" (yIndex h);
  hi_z : index_ok (properties h) "z" (zIndex h);
  hi_red : index_ok (properties h) "red" (redIndex h);
  hi_green : index_ok (properties h) "green" (greenIndex h);
  hi_blue : index_ok (properties h) "blue" (blueIndex h);
  hi_recognised : Forall (fun p => prop_type p <> PROP_NONE) (properties h)
}.

Lemma locals_init_inv : header_inv locals_init.
Proof. constructor; try (now left); constructor. Qed.

Lemma property_at_app_l props q i :
  (0 <= i < Z.of_nat (List.length props))%Z ->
  property_at (props ++ [q]) i = property_at props i.
Proof. intros Hi; unfold property_at; apply app_nth1; lia. Qed.

Lemma property_at_app_new props q :
  property_at (props ++ [q]) (Z.of_nat (List.length props)) = q.
Proof.
  unfold property_at. rewrite Nat2Z.id, app_nth2, Nat.sub_diag by lia. reflexivity.
Qed.

(** An index stays right when a property is appended. *)
Lemma index_ok_app props q name i :
  index_ok props name i -> index_ok (props ++ [q]) name i.
Proof.
  intros [->|(Hi & Hn & Ht)]; [now left|right].
  rewrite property_at_app_l by exact Hi.
  rewrite length_app; simpl; repeat split; auto; lia.
Qed.

(** The index of the property being appended is right. *)
Lemma index_ok_new props name t :
  t <> PROP_NONE ->
  index_ok (props ++ [mkProp name t]) name (Z.of_nat (List.length props)).
Proof.
  intros Ht; right. rewrite property_at_app_new, length_app; simpl.
  repeat split; auto; lia.
Qed.

Lemma header_property_inv h type name :
  header_inv h -> header_inv (header_property h type name).
Proof.
  intros I; unfold header_property.
  destruct (classify_type type) eqn:T; [exact I| |];
    (assert (Ht : classify_type type <> PROP_NONE) by congruence; rewrite T in Ht);
    repeat match goal with
    | |- context [String.eqb name ?s] => destruct (String.eqb_spec name s) as [->|_]
    end;
    (constructor; simpl;
     [ .. | apply Forall_app; split; [apply I | now repeat constructor] ];
     solve [ apply index_ok_app, I | now apply index_ok_new ]).
Qed.

Lemma header_line_inv h : header_inv h -> header_inv (fst (header_line h)).
Proof.
  intros I; unfold header_line, header_format.
  destruct (extract_word _) as [ls kw].
  repeat first
    [ match goal with
      | |- context [let '(_, _) := ?e in _] => destruct e
      | |- context [if ?b then _ else _] => destruct b
      | |- context [match ?o with Some _ => _ | None => _ end] => destruct o
      end
    | progress simpl ];
    solve [ exact I | now apply header_property_inv | destruct I; constructor; assumption ].
Qed.

Lemma header_loop_inv fuel : forall file h file' h',
  header_inv h -> header_loop fuel file h = Some (file', h') -> header_inv h'.
Proof.
  induction fuel as [|fuel IH]; intros file h file' h' I; simpl; [discriminate|].
  destruct (getline file (line h)) as [f l].
  assert (I' : header_inv (set_line l h)) by (destruct I; constructor; assumption).
  destruct (stream_ok f); [|intros [= <- <-]; exact I'].
  pose proof (header_line_inv _ I') as I''.
  destruct (header_line (set_line l h)) as [h1 []]; simpl in I''.
  - now intros [= <- <-].
  - now apply IH.
Qed.

(** The header that [ply_parse] works with satisfies the invariant. *)
Lemma ply_header_inv content file h :
  ply_header content = Some (file, h) -> header_inv h.
Proof. apply header_loop_inv, locals_init_inv. Qed.

(** *** No access out of range *)

Definition in_range (i : Z) (n : nat) : bool := ((0 <=? i) && (i <? Z.of_nat n))%Z.

(** Every index [ply_add_vertex] uses on a vector of [n] values is below
    [n]. *)
Definition accesses_in_range (h : PlyLocals) (n : nat) : bool :=
  in_range (xIndex h) n && in_range (yIndex h) n && in_range (zIndex h) n &&
  (if hasColors h && negb (redIndex h =? -1)%Z && negb (greenIndex h =? -1)%Z
      && negb (blueIndex h =? -1)%Z
   then in_range (redIndex h) n && in_range (greenIndex h) n && in_range (blueIndex h) n
   else true).

Lemma index_ok_in_range props name i :
  index_ok props name i -> (i =? -1)%Z = false -> in_range i (List.length props) = true.
Proof.
  intros [->|(Hi & _)] Hne; [discriminate|].
  unfold in_range; apply andb_true_iff; split; [apply Z.leb_le | apply Z.ltb_lt]; lia.
Qed.

Lemma header_inv_accesses h :
  header_inv h -> header_valid h = true ->
  accesses_in_range h (List.length (properties h)) = true.
Proof.
  intros I V; unfold header_valid in V; apply negb_true_iff in V.
  repeat (apply orb_false_iff in V as [V ?]).
  unfold accesses_in_range.
  rewrite (index_ok_in_range _ _ _ (hi_x h I)), (index_ok_in_range _ _ _ (hi_y h I)),
    (index_ok_in_range _ _ _ (hi_z h I)) by assumption; simpl.
  destruct (hasColors h); simpl; [|reflexivity].
  destruct (redIndex h =? -1)%Z eqn:R; simpl; [reflexivity|].
  destruct (greenIndex h =? -1)%Z eqn:G; simpl; [reflexivity|].
  destruct (blueIndex h =? -1)%Z eqn:B; simpl; [reflexivity|].
  now rewrite (index_ok_in_range _ _ _ (hi_red h I)),
    (index_ok_in_range _ _ _ (hi_green h I)), (index_ok_in_range _ _ _ (hi_blue h I)).
Qed.

Lemma read_values_ascii_length props : forall ss vs,
  read_values_ascii props ss = Some vs -> List.length vs = List.length props.
Proof.
  induction props as [|p ps IH]; intros ss vs; simpl; [now intros [= <-]|].
  destruct (prop_type p).
  - destruct (read_values_ascii ps ss) eqn:E; simpl; [|discriminate].
    intros [= <-]; simpl; f_equal; eauto.
  - destruct (extract_float ss) as [ss' [v|]]; [|discriminate].
    destruct (read_values_ascii ps ss') eqn:E; simpl; [|discriminate].
    intros [= <-]; simpl; f_equal; eauto.
  - destruct (extract_int ss) as [ss' [v|]]; [|discriminate].
    destruct (read_values_ascii ps ss') eqn:E; simpl; [|discriminate].
    intros [= <-]; simpl; f_equal; eauto.
Qed.

Lemma read_values_binary_length props : forall file,
  List.length (snd (read_values_binary props file)) = List.length props.
Proof.
  induction props as [|p ps IH]; intros file; simpl; [reflexivity|].
  destruct (prop_type p).
  - specialize (IH file). destruct (read_values_binary ps file); simpl in *; lia.
  - destruct (stream_read 4 file) as [f b]. specialize (IH f).
    destruct (read_values_binary ps f); simpl in *; lia.
  - destruct (stream_read 1 file) as [f b]. specialize (IH f).
    destruct (read_values_binary ps f); simpl in *; lia.
Qed.

(** C4: with the header [ply_parse] accepts, every index with which a
    record's values are read ([values[xIndex]] ... [values[blueIndex]]) is
    within the vector, whose size is the number of properties, in ASCII
    and in binary mode: the loader never reads outside [values]. *)
Theorem ply_accesses_in_range content file h :
  ply_header content = Some (file, h) ->
  header_valid h = true ->
  accesses_in_range h (List.length (properties h)) = true /\
  (forall ss vs, read_values_ascii (properties h) ss = Some vs ->
     accesses_in_range h (List.length vs) = true) /\
  (forall f, accesses_in_range h
     (List.length (snd (read_values_binary (properties h) f))) = true).
Proof.
  intros E V. pose proof (header_inv_accesses h (ply_header_inv _ _ _ E) V) as A.
  repeat split; [exact A | |].
  - intros ss vs R. now rewrite (read_values_ascii_length _ _ _ R).
  - intros f. now rewrite read_values_binary_length.
Qed.

(** *** The cloud of every outcome *)
Lemma ply_add_vertex_inv h values c : cloud_inv c -> cloud_inv (ply_add_vertex h values c).
Proof. apply cloud_add_inv. Qed.

Lemma ply_add_vertex_length h values c :
  List.length (vertices (ply_add_vertex h values c)) = S (List.length (vertices c)).
Proof. apply cloud_add_length. Qed.

Lemma ascii_body_spec n h : forall file l c file' l' c',
  ascii_body n h file l c = Some (file', l', c') ->
  (cloud_inv c -> cloud_inv c') /\
  List.length (vertices c') = (List.length (vertices c) + n)%nat.
Proof.
  induction n as [|n IH]; intros file l c file' l' c'; simpl.
  - intros [= <- <- <-]; split; [auto | lia].
  - destruct (getline file l) as [f l1].
    destruct (read_values_ascii (properties h) (stream_of l1)) as [vs|]; [|discriminate].
    intros E; apply IH in E as [E1 E2]; split.
    + intros I; now apply E1, ply_add_vertex_inv.
    + rewrite E2, ply_add_vertex_length; lia.
Qed.

Lemma binary_body_spec n h : forall file c,
  let '(_, c', ok) := binary_body n h file c in
  (cloud_inv c -> cloud_inv c') /\
  (List.length (vertices c) <= List.length (vertices c') <= List.length (vertices c) + n)%nat /\
  (ok = true -> List.length (vertices c') = (List.length (vertices c) + n)%nat).
Proof.
  induction n as [|n IH]; intros file c; simpl; [split; [auto | lia]|].
  destruct (read_values_binary (properties h) file) as [f vs].
  destruct (is_fail f); [split; [auto | split; [lia | discriminate]]|].
  specialize (IH f (ply_add_vertex h vs c)).
  destruct (binary_body n h f (ply_add_vertex h vs c)) as [[f' c'] ok].
  rewrite ply_add_vertex_length in IH. destruct IH as (I1 & I2 & I3).
  split; [|split; [lia|]].
  - intros I; now apply I1, ply_add_vertex_inv.
  - intros O; rewrite (I3 O); lia.
Qed.

(** C2: whichever way the parser ends, the cloud it leaves satisfies the
    invariant (its box bounds every coordinate that is a number), and when
    it ends well the cloud has exactly [numVertices] vertices (none for a
    negative count). *)
Theorem ply_parse_cloud content :
  match ply_parse content with
  | PlyLoaded c =>
      cloud_inv c /\
      exists file h, ply_header content = Some (file, h) /\
        List.length (vertices c) = Z.to_nat (numVertices h)
  | PlyReadError c => cloud_inv c
  | PlyInvalidHeader | PlyUndefined => True
  end.
Proof.
  unfold ply_parse. destruct (ply_header content) as [[file h]|] eqn:E; [|exact I].
  destruct (header_valid h); [|exact I]. unfold ply_body.
  destruct (isBinary h); simpl.
  - pose proof (binary_body_spec (Z.to_nat (numVertices h)) h file cloud_reset) as B.
    destruct (binary_body _ h file cloud_reset) as [[f c] []];
      destruct B as (B1 & _ & B3); [|now apply B1, cloud_reset_inv].
    split; [now apply B1, cloud_reset_inv|]. exists file, h; split; [reflexivity|].
    now rewrite B3.
  - destruct (ascii_body _ h file (line h) cloud_reset) as [[[f l] c]|] eqn:A; [|exact I].
    apply ascii_body_spec in A as [A1 A2].
    split; [now apply A1, cloud_reset_inv|]. now exists file, h.
Qed.

(** *** Byte order *)
Lemma ply_add_vertex_big_endian b h : ply_add_vertex (set_isBigEndian b h) = ply_add_vertex h.
Proof. reflexivity. Qed.

Lemma ascii_body_big_endian b n h : forall file l c,
  ascii_body n (set_isBigEndian b h) file l c = ascii_body n h file l c.
Proof.
  induction n as [|n IH]; intros; simpl; [reflexivity|].
  destruct (getline file l) as [f l1].
  destruct (read_values_ascii _ _); [apply IH | reflexivity].
Qed.

Lemma binary_body_big_endian b n h : forall file c,
  binary_body n (set_isBigEndian b h) file c = binary_body n h file c.
Proof.
  induction n as [|n IH]; intros; simpl; [reflexivity|].
  destruct (read_values_binary _ _) as [f vs].
  destruct (is_fail f); [reflexivity | apply IH].
Qed.

(** The records are decoded the same way whatever [isBigEndian] says:
    a file declared [binary_big_endian] is read with the host's byte
    order. *)
Theorem ply_body_ignores_byte_order b h file :
  ply_body (set_isBigEndian b h) file = ply_body h file.
Proof.
  unfold ply_body; simpl.
  now rewrite ascii_body_big_endian, binary_body_big_endian.
Qed.

(** *** Binary records: enough bytes or a read error *)

(** The bytes one record takes in the file. *)
Definition prop_size (p : PropertyInfo) : nat :=
  match prop_type p with PROP_FLOAT => 4 | PROP_UCHAR => 1 | PROP_NONE => 0 end.

Definition record_size (props : list PropertyInfo) : nat :=
  list_sum (map prop_size props).

Definition unread (file : istream) : nat := String.length (is_buf file).

Lemma take_bytes_enough n : forall s, (n <= String.length s)%nat ->
  exists l r, take_bytes n s = Some (l, r) /\
    String.length r = (String.length s - n)%nat.
Proof.
  induction n as [|n IH]; intros s Hn; simpl.
  - exists [], s; split; [reflexivity | lia].
  - destruct s as [|c s]; simpl in *; [lia|].
    destruct (IH s ltac:(lia)) as (l & r & -> & Hr). now exists (c :: l), r.
Qed.

Lemma take_bytes_short n : forall s, (String.length s < n)%nat -> take_bytes n s = None.
Proof.
  induction n as [|n IH]; intros s Hn; simpl; [lia|].
  destruct s as [|c s]; simpl in *; [reflexivity|]. rewrite IH by lia. reflexivity.
Qed.

Lemma stream_read_enough n file :
  good file = true -> (n <= unread file)%nat ->
  good (fst (stream_read n file)) = true /\
  unread (fst (stream_read n file)) = (unread file - n)%nat.
Proof.
  intros G Hn; unfold stream_read; rewrite G.
  destruct (take_bytes_enough n (is_buf file) Hn) as (l & r & -> & Hr).
  split; [reflexivity | exact Hr].
Qed.

Lemma stream_read_fails n file :
  good file = false \/ (unread file < n)%nat ->
  is_fail (fst (stream_read n file)) = true.
Proof.
  unfold stream_read; destruct (good file); intros [G|Hn]; try discriminate;
    try reflexivity.
  now rewrite take_bytes_short.
Qed.

Lemma stream_read_fail_sticky n file :
  is_fail file = true -> is_fail (fst (stream_read n file)) = true.
Proof.
  intros F; apply stream_read_fails; left; unfold good; rewrite F.
  apply andb_false_r.
Qed.

Lemma read_values_binary_fail_sticky props : forall file,
  is_fail file = true -> is_fail (fst (read_values_binary props file)) = true.
Proof.
  induction props as [|p ps IH]; intros file F; simpl; [exact F|].
  destruct (prop_type p).
  - specialize (IH file F). now destruct (read_values_binary ps file).
  - pose proof (stream_read_fail_sticky 4 file F) as F'.
    destruct (stream_read 4 file) as [f b]; specialize (IH f F').
    now destruct (read_values_binary ps f).
  - pose proof (stream_read_fail_sticky 1 file F) as F'.
    destruct (stream_read 1 file) as [f b]; specialize (IH f F').
    now destruct (read_values_binary ps f).
Qed.

Lemma record_size_cons p ps :
  record_size (p :: ps) = (prop_size p + record_size ps)%nat.
Proof. reflexivity. Qed.

(** Case analysis on the type of the first property, with its size. *)
Ltac by_prop_type p :=
  rewrite record_size_cons in *; unfold prop_size in *;
  destruct (prop_type p).

Lemma read_values_binary_enough props : forall file,
  good file = true -> (record_size props <= unread file)%nat ->
  good (fst (read_values_binary props file)) = true /\
  unread (fst (read_values_binary props file)) = (unread file - record_size props)%nat.
Proof.
  induction props as [|p ps IH]; intros file G Hn; simpl read_values_binary.
  { split; [exact G | unfold record_size; simpl; lia]. }
  by_prop_type p.
  - specialize (IH file G ltac:(lia)). now destruct (read_values_binary ps file).
  - destruct (stream_read_enough 4 file G ltac:(lia)) as [G' U'].
    destruct (stream_read 4 file) as [f b]; simpl in *.
    specialize (IH f G' ltac:(lia)).
    destruct (read_values_binary ps f); simpl in *. split; [tauto|lia].
  - destruct (stream_read_enough 1 file G ltac:(lia)) as [G' U'].
    destruct (stream_read 1 file) as [f b]; simpl in *.
    specialize (IH f G' ltac:(lia)).
    destruct (read_values_binary ps f); simpl in *. split; [tauto|lia].
Qed.

Lemma good_not_fail file : good file = true -> is_fail file = false.
Proof. unfold good; destruct (is_fail file); [now rewrite andb_false_r | auto]. Qed.

Lemma read_values_binary_short props : forall file,
  good file = true -> (unread file < record_size props)%nat ->
  is_fail (fst (read_values_binary props file)) = true.
Proof.
  induction props as [|p ps IH]; intros file G Hn; simpl read_values_binary.
  { unfold record_size in Hn; simpl in Hn; lia. }
  by_prop_type p.
  - specialize (IH file G ltac:(lia)). now destruct (read_values_binary ps file).
  - destruct (Nat.le_gt_cases 4 (unread file)) as [L|L].
    + destruct (stream_read_enough 4 file G L) as [G' U'].
      destruct (stream_read 4 file) as [f b]; simpl in *.
      specialize (IH f G' ltac:(lia)). now destruct (read_values_binary ps f).
    + pose proof (stream_read_fails 4 file (or_intror L)) as F.
      destruct (stream_read 4 file) as [f b]; simpl in *.
      pose proof (read_values_binary_fail_sticky ps f F).
      now destruct (read_values_binary ps f).
  - destruct (Nat.le_gt_cases 1 (unread file)) as [L|L].
    + destruct (stream_read_enough 1 file G L) as [G' U'].
      destruct (stream_read 1 file) as [f b]; simpl in *.
      specialize (IH f G' ltac:(lia)). now destruct (read_values_binary ps f).
    + pose proof (stream_read_fails 1 file (or_intror L)) as F.
      destruct (stream_read 1 file) as [f b]; simpl in *.
      pose proof (read_values_binary_fail_sticky ps f F).
      now destruct (read_values_binary ps f).
Qed.

(** C36: on a good stream, the binary loop succeeds exactly when the [n]
    records are there ([n] times the record size in bytes); otherwise it
    reports the read error after having appended the complete records that
    were there: the vertices of a truncated file are not discarded. *)
Theorem binary_body_truncation n h : forall file c,
  good file = true ->
  (0 < record_size (properties h))%nat ->
  let '(_, c', ok) := binary_body n h file c in
  ok = (n * record_size (properties h) <=? unread file)%nat /\
  List.length (vertices c') =
    (List.length (vertices c) + Nat.min n (unread file / record_size (properties h)))%nat.
Proof.
  set (rs := record_size (properties h)).
  induction n as [|n IH]; intros file c G Hrs; simpl; [split; [reflexivity|lia]|].
  destruct (Nat.le_gt_cases rs (unread file)) as [L|L].
  - destruct (read_values_binary_enough _ file G L) as [G' U'].
    destruct (read_values_binary (properties h) file) as [f vs]; simpl in *.
    rewrite (good_not_fail f G').
    specialize (IH f (ply_add_vertex h vs c) G' Hrs).
    destruct (binary_body n h f _) as [[f' c'] ok]. fold rs in U'.
    rewrite ply_add_vertex_length, U' in IH. destruct IH as [-> ->]. split.
    + destruct (Nat.leb_spec (n * rs) (unread file - rs)),
        (Nat.leb_spec (rs + n * rs) (unread file)); auto; lia.
    + assert (D : (unread file / rs = S ((unread file - rs) / rs))%nat).
      { replace (unread file) with ((unread file - rs) + 1 * rs)%nat at 1 by lia.
        rewrite Nat.div_add by lia. lia. }
      rewrite D; lia.
  - pose proof (read_values_binary_short _ file G L) as F.
    destruct (read_values_binary (properties h) file) as [f vs]; simpl in *.
    rewrite F, Nat.div_small by exact L. split; [|lia].
    symmetry; apply Nat.leb_gt; lia.
Qed.

(** *** The copies of an unwritten value *)

(** A read on a good stream leaves it good with the bytes, or failed
    without. *)
Lemma stream_read_cases n file :
  good file = true ->
  match stream_read n file with
  | (f, Some _) => good f = true
  | (f, None) => is_fail f = true
  end.
Proof.
  unfold stream_read; intros ->. now destruct (take_bytes n (is_buf file)) as [[l r]|].
Qed.

(** The inner loop fails exactly when it copied an unwritten value. *)
Lemma read_values_binary_unwritten props : forall file,
  good file = true ->
  is_fail (fst (read_values_binary props file)) = negb (unwritten_copies props file =? 0)%nat.
Proof.
  induction props as [|p ps IH]; intros file G; simpl; [now apply good_not_fail|].
  destruct (prop_type p).
  - specialize (IH file G). now destruct (read_values_binary ps file).
  - pose proof (stream_read_cases 4 file G) as C.
    destruct (stream_read 4 file) as [f [bs|]].
    + specialize (IH f C). now destruct (read_values_binary ps f).
    + pose proof (read_values_binary_fail_sticky ps f C).
      now destruct (read_values_binary ps f).
  - pose proof (stream_read_cases 1 file G) as C.
    destruct (stream_read 1 file) as [f [bs|]].
    + specialize (IH f C). now destruct (read_values_binary ps f).
    + pose proof (read_values_binary_fail_sticky ps f C).
      now destruct (read_values_binary ps f).
Qed.

Lemma read_values_binary_good props file :
  good file = true -> is_fail (fst (read_values_binary props file)) = false ->
  good (fst (read_values_binary props file)) = true.
Proof.
  revert file; induction props as [|p ps IH]; intros file G; simpl; [trivial|].
  destruct (prop_type p).
  - specialize (IH file G). now destruct (read_values_binary ps file).
  - pose proof (stream_read_cases 4 file G) as C.
    destruct (stream_read 4 file) as [f [bs|]].
    + specialize (IH f C). now destruct (read_values_binary ps f).
    + pose proof (read_values_binary_fail_sticky ps f C) as F.
      destruct (read_values_binary ps f); simpl in *; congruence.
  - pose proof (stream_read_cases 1 file G) as C.
    destruct (stream_read 1 file) as [f [bs|]].
    + specialize (IH f C). now destruct (read_values_binary ps f).
    + pose proof (read_values_binary_fail_sticky ps f C) as F.
      destruct (read_values_binary ps f); simpl in *; congruence.
Qed.

(** C37: on a good stream the binary loop returns [false] exactly when its
    inner loop has copied a [val] that no read had written: every read
    error the function reports comes after the copy of an uninitialised
    [float] or [unsigned char], and a file that is loaded has none. *)
Theorem binary_read_error_unwritten n h : forall file c,
  good file = true ->
  snd (binary_body n h file c) = (binary_unwritten n h file =? 0)%nat.
Proof.
  induction n as [|n IH]; intros file c G; simpl; [reflexivity|].
  pose proof (read_values_binary_unwritten (properties h) file G) as U.
  pose proof (read_values_binary_good (properties h) file G) as G'.
  destruct (read_values_binary (properties h) file) as [f vs]; simpl in *.
  destruct (is_fail f); [now rewrite <- (negb_involutive (_ =? _)%nat), <- U|].
  now apply IH, G'.
Qed.

End PlyTheory.

(** ** Scenarios, with decimal [num_get] *)

#[local] Existing Instance StdNumGet.

Definition eol : string := String newline "".

(** A PLY file: format, vertex count, property declarations, body. *)
Definition ply_file (format count : string) (props : list string) (body : string)
    : string :=
  ("ply" ++ eol ++ "format " ++ format ++ " 1.0" ++ eol ++
   "element vertex " ++ count ++ eol ++
   String.concat "" (map (fun p => "property " ++ p ++ eol) props) ++
   "end_header" ++ eol ++ body)%string.

Definition xyz : list string := ["float x"; "float y"; "float z"].
Definition xyz_rgb : list string :=
  xyz ++ ["uchar red"; "uchar green"; "uchar blue"].

Definition gray128 : f32 := f32_div (f32_of_Z 128) f32_255.

(** The ASCII scenario of the specification: one record at the origin with
    colour 128/255 on each channel. *)
Theorem ply_scenario_B :
  ply_parse (ply_file "ascii" "1" xyz_rgb ("0 0 0 128 128 128" ++ eol)) =
  PlyLoaded (mkCloud [mkVertex vec3_zero (mkVec3 gray128 gray128 gray128)]
                     vec3_zero vec3_zero).
Proof. vm_compute. reflexivity. Qed.

(** A header without a [z] property is refused. *)
Theorem ply_scenario_C :
  ply_parse (ply_file "ascii" "1" ["float x"; "float y"] ("0 0 0" ++ eol)) =
  PlyInvalidHeader.
Proof. vm_compute. reflexivity. Qed.

(** A property of a type that is not recognised is dropped from
    [properties], so its column is read as the next property: here the
    [int id] column 7 becomes x. *)
Theorem ply_unrecognised_property_shifts :
  ply_parse (ply_file "ascii" "1" ("int id" :: xyz) ("7 1 2 3" ++ eol)) =
  PlyLoaded (mkCloud [mkVertex (mkVec3 (f32_of_Z 7) (f32_of_Z 1) (f32_of_Z 2)) white]
               (mkVec3 (f32_of_Z 7) (f32_of_Z 1) (f32_of_Z 2))
               (mkVec3 (f32_of_Z 7) (f32_of_Z 1) (f32_of_Z 2))).
Proof. vm_compute. reflexivity. Qed.

(** An ASCII body with fewer lines than announced: when the last line has
    no line feed, the failed [getline] leaves it in [line] and it is parsed
    again for every missing record. *)
Theorem ply_ascii_missing_lines_repeat :
  let v := mkVertex (mkVec3 (f32_of_Z 1) (f32_of_Z 2) (f32_of_Z 3)) white in
  exists c, ply_parse (ply_file "ascii" "3" xyz "1 2 3") = PlyLoaded c /\
            vertices c = [v; v; v].
Proof. eexists; split; vm_compute; reflexivity. Qed.

(** An ASCII line with fewer numbers than properties: the extraction
    stores nothing and the uninitialised variable is copied. *)
Theorem ply_ascii_short_line_undefined :
  ply_parse (ply_file "ascii" "1" xyz ("1 2" ++ eol)) = PlyUndefined /\
  ply_parse (ply_file "ascii" "2" xyz ("1 2 3" ++ eol)) = PlyUndefined.
Proof. split; vm_compute; reflexivity. Qed.

Definition byte (n : N) : string := String (ascii_of_N n) "".

(** The four bytes of 1.0f in little-endian order. *)
Definition one_le : string := (byte 0 ++ byte 0 ++ byte 128 ++ byte 63)%string.

(** A binary file that announces two records and holds one and a half:
    the load fails and the first record stays in the cloud. *)
Theorem ply_binary_truncated_keeps_partial :
  ply_parse (ply_file "binary_little_endian" "2" xyz
               (one_le ++ one_le ++ one_le ++ one_le ++ one_le)%string) =
  PlyReadError (mkCloud [mkVertex (mkVec3 f32_one f32_one f32_one) white]
                  (mkVec3 f32_one f32_one f32_one) (mkVec3 f32_one f32_one f32_one)).
Proof. vm_compute. reflexivity. Qed.

(** The same bytes under [binary_big_endian] give the same vertex. *)
Theorem ply_big_endian_not_swapped :
  ply_parse (ply_file "binary_big_endian" "1" xyz (one_le ++ one_le ++ one_le)%string) =
  ply_parse (ply_file "binary_little_endian" "1" xyz (one_le ++ one_le ++ one_le)%string).
Proof. vm_compute. reflexivity. Qed.

(** The witness of [ply_accesses_in_range], on the scenario's header. *)
Lemma ply_accesses_in_range_witness :
  accesses_in_range
    (snd (match ply_header (ply_file "ascii" "1" xyz_rgb "") with
          | Some r => r | None => (stream_of "", locals_init) end)) 6 = true.
Proof.
  refine (proj1 (ply_accesses_in_range (ply_file "ascii" "1" xyz_rgb "")
                   (stream_of "") _ _ _)); vm_compute; reflexivity.
Defined.

(** The witness of [binary_body_truncation]: five floats for two records
    of three. *)
(** A file of one record and a half: the second pass of the inner loop
    copies the second and the third coordinate unwritten. *)
Lemma binary_read_error_unwritten_witness :
  let h := set_properties [mkProp "x" PROP_FLOAT; mkProp "y" PROP_FLOAT;
                           mkProp "z" PROP_FLOAT]
             (set_zIndex 2 (set_yIndex 1 (set_xIndex 0 locals_init))) in
  let file := stream_of (one_le ++ one_le ++ one_le ++ one_le ++ "ab")%string in
  snd (binary_body 2 h file cloud_reset) = (binary_unwritten 2 h file =? 0)%nat /\
  binary_unwritten 2 h file = 2%nat.
Proof.
  intros h file. split; [|reflexivity].
  exact (binary_read_error_unwritten 2 h file cloud_reset eq_refl).
Defined.

Lemma binary_body_truncation_witness :
  let h := set_properties [mkProp "x" PROP_FLOAT; mkProp "y" PROP_FLOAT;
                           mkProp "z" PROP_FLOAT]
             (set_zIndex 2 (set_yIndex 1 (set_xIndex 0 locals_init))) in
  let file := stream_of (one_le ++ one_le ++ one_le ++ one_le ++ one_le)%string in
  let '(_, c', ok) := binary_body 2 h file cloud_reset in
  ok = (2 * 12 <=? 20)%nat /\ List.length (vertices c') = (0 + Nat.min 2 (20 / 12))%nat.
Proof.
  intros h file.
  exact (binary_body_truncation 2 h file cloud_reset eq_refl (Nat.lt_0_succ 11)).
Defined.
