(* ===== verification/PlyHeader.v ===== *)
(** * PlyHeader: the header loop reads a well-formed header back

    A header as the format describes it ([ply], the format line, the
    vertex count, the property declarations, [end_header]) is printed by
    [print_header]; [ply_header_reads_back] shows that the header loop of
    [loadPlyFile] run on the printed text, followed by any body, stops
    exactly at the body with the locals [expected] gives: format and count
    as declared, the recognised properties in order, each index bound to
    the last recognised property of its name.  [header_valid_expected]
    then says which headers are accepted: those that declare x, y and z
    with a recognised type. *)

From Stdlib Require Import Arith ZArith NArith Lia Bool List String Ascii SpecFloat.
From Stdlib Require Import Morphisms RelationClasses.
From S2P Require Import Prelude Float32 Vec3 Text IStream Cloud PlyParser.
Import ListNotations.
Local Open Scope string_scope.
Local Open Scope list_scope.

Inductive PlyFormat : Type := FmtAscii | FmtLittleEndian | FmtBigEndian.

Definition format_name (f : PlyFormat) : string :=
  match f with
  | FmtAscii => "ascii"
  | FmtLittleEndian => "binary_little_endian"
  | FmtBigEndian => "binary_big_endian"
  end.

(** A header: format, number of vertices, declarations (type, name). *)
Record Header : Type := mkHeader {
  hd_format : PlyFormat;
  hd_count : N;
  hd_props : list (string * string)
}.

Definition property_line (p : string * string) : string :=
  ("property " ++ fst p ++ " " ++ snd p)%string.

Fixpoint print_properties (props : list (string * string)) : string :=
  match props with
  | [] => ""
  | p :: props' => (property_line p ++ eol ++ print_properties props')%string
  end.

Definition print_header (hd : Header) : string :=
  ("ply" ++ eol ++ "format " ++ format_name (hd_format hd) ++ " 1.0" ++ eol ++
   "element vertex " ++ decimal_of_N (hd_count hd) ++ eol ++
   print_properties (hd_props hd) ++ "end_header" ++ eol)%string.

(** Types and names are words. *)
Definition wf_props (props : list (string * string)) : bool :=
  forallb (fun p => is_word (fst p) && is_word (snd p)) props.

(** The locals a header should leave, up to the line variable. *)
Definition bind_property (h : PlyLocals) (p : string * string) : PlyLocals :=
  header_property h (fst p) (snd p).

Definition expected (hd : Header) : PlyLocals :=
  set_headerEnd true
    (fold_left bind_property (hd_props hd)
       (set_numVertices (Z.of_N (hd_count hd))
          (header_format locals_init (format_name (hd_format hd))))).

Definition same_locals (h1 h2 : PlyLocals) : Prop :=
  set_line "" h1 = set_line "" h2.

(** The declarations the loader keeps. *)
Definition recognised (props : list (string * string)) : list PropertyInfo :=
  flat_map (fun p => match classify_type (fst p) with
                     | PROP_NONE => []
                     | t => [mkProp (snd p) t]
                     end) props.

(** The position of the last property of that name, counting from [i];
    [acc] when there is none. *)
Fixpoint last_from (name : string) (i : nat) (ps : list PropertyInfo) (acc : Z) : Z :=
  match ps with
  | [] => acc
  | p :: ps' =>
      last_from name (S i) ps'
        (if String.eqb (prop_name p) name then Z.of_nat i else acc)
  end.

(** A recognised declaration of that name. *)
Definition declares (name : string) (props : list (string * string)) : bool :=
  existsb (fun p => String.eqb (prop_name p) name) (recognised props).

Section PlyHeaderTheory.
Context {NG : NumGet}.

(** ** One iteration of the loop on a known line *)
Lemma header_loop_next fuel l rest h h' :
  no_newline l = true -> header_line (set_line l h) = (h', false) ->
  header_loop (S fuel) (stream_of (l ++ String newline rest)) h =
  header_loop fuel (stream_of rest) h'.
Proof. intros N E; simpl. rewrite getline_app by exact N. simpl. now rewrite E. Qed.

Lemma header_loop_last fuel l rest h h' :
  no_newline l = true -> header_line (set_line l h) = (h', true) ->
  header_loop (S fuel) (stream_of (l ++ String newline rest)) h =
  Some (stream_of rest, h').
Proof. intros N E; simpl. rewrite getline_app by exact N. simpl. now rewrite E. Qed.

(** A word has no line feed in it. *)
Lemma property_line_no_newline p :
  is_word (fst p) && is_word (snd p) = true -> no_newline (property_line p) = true.
Proof.
  intros E; apply andb_prop in E as [E1 E2]. unfold property_line.
  repeat apply no_newline_app; auto using word_no_newline.
Qed.

(** ** The branches of the loop body *)
Lemma header_line_property h p :
  is_word (fst p) && is_word (snd p) = true ->
  header_line (set_line (property_line p) h) =
  (header_property (set_line (property_line p) h) (fst p) (snd p), false).
Proof.
  intros E; apply andb_prop in E as [Et En]. destruct p as [t n]; simpl in *.
  unfold header_line, property_line; cbn [line set_line fst snd].
  change (extract_word (stream_of ("property " ++ t ++ " " ++ n)))
    with (stream_of (String " " (t ++ String " " n)), Some "property").
  cbn [word_or_empty String.eqb Ascii.eqb Bool.eqb andb].
  rewrite extract_word_next, extract_word_last by (exact En || exact Et || reflexivity).
  reflexivity.
Qed.

Lemma header_line_element h n v :
  get_int (decimal_of_N n) = (v, true, EmptyString) ->
  header_line (set_line ("element vertex " ++ decimal_of_N n) h) =
  (set_numVertices v (set_line ("element vertex " ++ decimal_of_N n) h), false).
Proof.
  intros G. unfold header_line; cbn [line set_line].
  change (extract_word (stream_of ("element vertex " ++ decimal_of_N n)))
    with (stream_of (String " " ("vertex" ++ String " " (decimal_of_N n))),
          Some "element").
  cbn [word_or_empty String.eqb Ascii.eqb Bool.eqb andb].
  replace (contains _ "vertex") with true by reflexivity.
  rewrite extract_word_next by reflexivity. unfold extract_int.
  now rewrite (extract_num_last get_int " " (decimal_of_N n) v)
    by (reflexivity || apply decimal_of_N_word || exact G).
Qed.

(** ** The line variable does not matter *)
Lemma header_property_set_line l h t n :
  header_property (set_line l h) t n = set_line l (header_property h t n).
Proof.
  unfold header_property; destruct (classify_type t); [reflexivity| |];
    cbn [properties set_line];
    repeat match goal with
    | |- context [String.eqb n ?s] => destruct (String.eqb n s)
    end; reflexivity.
Qed.

Lemma same_locals_set_line l h : same_locals (set_line l h) h.
Proof. reflexivity. Qed.

Lemma same_locals_trans h1 h2 h3 :
  same_locals h1 h2 -> same_locals h2 h3 -> same_locals h1 h3.
Proof. unfold same_locals; congruence. Qed.

Lemma same_locals_bind h1 h2 p :
  same_locals h1 h2 -> same_locals (bind_property h1 p) (bind_property h2 p).
Proof.
  unfold same_locals, bind_property; intros E.
  now rewrite <- !header_property_set_line, E.
Qed.

Lemma same_locals_fold props : forall h1 h2,
  same_locals h1 h2 ->
  same_locals (fold_left bind_property props h1) (fold_left bind_property props h2).
Proof.
  induction props as [|p props IH]; simpl; intros h1 h2 E; [exact E|].
  apply IH, same_locals_bind, E.
Qed.

Lemma same_locals_headerEnd h1 h2 :
  same_locals h1 h2 -> same_locals (set_headerEnd true h1) (set_headerEnd true h2).
Proof.
  unfold same_locals; intros E.
  change (set_headerEnd true (set_line "" h1) = set_headerEnd true (set_line "" h2)).
  now rewrite E.
Qed.

(** ** The declarations and the end of the header *)
Lemma header_loop_properties props : forall fuel h body,
  wf_props props = true -> (List.length props < fuel)%nat ->
  exists h',
    header_loop fuel
      (stream_of (print_properties props ++ "end_header" ++ eol ++ body)%string) h =
      Some (stream_of body, h') /\
    same_locals h' (set_headerEnd true (fold_left bind_property props h)).
Proof.
  induction props as [|p props IH]; intros [|fuel] h body W L; simpl in L; try lia.
  - eexists; split; [exact (header_loop_last fuel "end_header" body h _ eq_refl eq_refl)|].
    reflexivity.
  - simpl in W; apply andb_prop in W as [Wp W].
    cbn [print_properties]. rewrite !string_app_assoc; simpl (eol ++ _)%string.
    rewrite (header_loop_next fuel (property_line p) _ h _
               (property_line_no_newline p Wp) (header_line_property h p Wp)).
    destruct (IH fuel (header_property (set_line (property_line p) h) (fst p) (snd p))
                body W ltac:(lia)) as (h' & E & S).
    exists h'; split; [exact E|].
    eapply same_locals_trans; [exact S|]. cbn [fold_left].
    apply same_locals_headerEnd, same_locals_fold.
    unfold bind_property; rewrite header_property_set_line. apply same_locals_set_line.
Qed.

(** ** The whole header *)

Definition format_line (f : PlyFormat) : string :=
  ("format " ++ format_name f ++ " 1.0")%string.

Definition element_line (n : N) : string :=
  ("element vertex " ++ decimal_of_N n)%string.

Lemma print_header_lines hd body :
  (print_header hd ++ body)%string =
  ("ply" ++ String newline
     (format_line (hd_format hd) ++ String newline
        (element_line (hd_count hd) ++ String newline
           (print_properties (hd_props hd) ++ "end_header" ++ eol ++ body))))%string.
Proof.
  unfold print_header, format_line, element_line, eol.
  now rewrite !string_app_assoc.
Qed.

Lemma header_line_format h f :
  header_line (set_line (format_line f) h) =
  (header_format (set_line (format_line f) h) (format_name f), false).
Proof. destruct f; reflexivity. Qed.

Lemma element_line_no_newline n : no_newline (element_line n) = true.
Proof.
  apply (no_newline_app "element vertex "); [reflexivity|].
  apply word_no_newline, decimal_of_N_word.
Qed.

Lemma header_loop_header hd body fuel :
  wf_props (hd_props hd) = true ->
  get_int (decimal_of_N (hd_count hd)) = (Z.of_N (hd_count hd), true, EmptyString) ->
  (List.length (hd_props hd) + 3 < fuel)%nat ->
  exists h,
    header_loop fuel (stream_of (print_header hd ++ body)) locals_init =
      Some (stream_of body, h) /\
    same_locals h (expected hd).
Proof.
  intros W G L. destruct fuel as [|[|[|fuel]]]; try lia.
  rewrite print_header_lines.
  rewrite (header_loop_next _ "ply" _ _ _ eq_refl eq_refl).
  rewrite (header_loop_next _ (format_line (hd_format hd)) _ _ _
             ltac:(now destruct (hd_format hd)) (header_line_format _ _)).
  rewrite (header_loop_next _ (element_line (hd_count hd)) _ _ _
             (element_line_no_newline _) (header_line_element _ _ _ G)).
  match goal with |- context [header_loop fuel _ ?h0] =>
    destruct (header_loop_properties (hd_props hd) fuel h0 body W ltac:(lia))
      as (h & E & S)
  end.
  exists h; split; [exact E|]. eapply same_locals_trans; [exact S|].
  apply same_locals_headerEnd, same_locals_fold.
  now destruct (hd_format hd).
Qed.

Lemma ply_header_reads_back_aux hd body :
  wf_props (hd_props hd) = true ->
  get_int (decimal_of_N (hd_count hd)) = (Z.of_N (hd_count hd), true, EmptyString) ->
  exists h,
    ply_header (print_header hd ++ body) = Some (stream_of body, h) /\
    same_locals h (expected hd).
Proof.
  intros W G.
  destruct (header_loop_header hd body (List.length (hd_props hd) + 4) W G
              ltac:(lia)) as (h & E & S).
  destruct (ply_header_some (print_header hd ++ body)) as [r E'].
  rewrite E'. rewrite (header_loop_agree _ _ _ _ _ _ E' E). eauto.
Qed.

(** ** What the locals of a header are *)

(** The declaration a [property] line adds to the list. *)
Definition kept (t n : string) : list PropertyInfo :=
  match classify_type t with PROP_NONE => [] | ty => [mkProp n ty] end.

Lemma header_property_properties h t n :
  properties (header_property h t n) = properties h ++ kept t n.
Proof.
  unfold header_property, kept; destruct (classify_type t);
    [now rewrite app_nil_r | |];
    repeat match goal with
    | |- context [String.eqb n ?s] => destruct (String.eqb n s)
    end; reflexivity.
Qed.

(** An index is bound by the recognised declarations of its name, and by
    no other. *)
Definition binds (get : PlyLocals -> Z) (name : string) : Prop :=
  forall h t n,
    get (header_property h t n) =
    last_from name (List.length (properties h)) (kept t n) (get h).

Ltac binds_tac :=
  intros h t n; unfold header_property, kept; destruct (classify_type t);
  [reflexivity | |]; cbn [last_from prop_name];
  repeat match goal with
  | |- context [String.eqb n ?s] => destruct (String.eqb_spec n s) as [->|]
  end; try reflexivity; try discriminate.

Lemma binds_x : binds xIndex "x". Proof. binds_tac. Qed.
Lemma binds_y : binds yIndex "y". Proof. binds_tac. Qed.
Lemma binds_z : binds zIndex "z". Proof. binds_tac. Qed.
Lemma binds_red : binds redIndex "red". Proof. binds_tac. Qed.
Lemma binds_green : binds greenIndex "green". Proof. binds_tac. Qed.
Lemma binds_blue : binds blueIndex "blue". Proof. binds_tac. Qed.

Lemma last_from_app name ps qs : forall i acc,
  last_from name i (ps ++ qs) acc =
  last_from name (i + List.length ps) qs (last_from name i ps acc).
Proof.
  induction ps as [|p ps IH]; intros i acc; simpl; [now rewrite Nat.add_0_r|].
  now rewrite IH, Nat.add_succ_r.
Qed.

Lemma fold_properties props : forall h,
  properties (fold_left bind_property props h) = properties h ++ recognised props.
Proof.
  induction props as [|[t n] props IH]; intros h; simpl; [now rewrite app_nil_r|].
  rewrite IH; unfold bind_property; simpl.
  now rewrite header_property_properties, <- app_assoc.
Qed.

Lemma fold_binds get name props : binds get name -> forall h,
  get (fold_left bind_property props h) =
  last_from name (List.length (properties h)) (recognised props) (get h).
Proof.
  intros B; induction props as [|[t n] props IH]; intros h; simpl; [reflexivity|].
  rewrite IH; unfold bind_property; simpl.
  rewrite header_property_properties, length_app, B.
  fold (kept t n). now rewrite last_from_app.
Qed.

Lemma header_property_frame h t n :
  numVertices (header_property h t n) = numVertices h /\
  isBinary (header_property h t n) = isBinary h /\
  headerEnd (header_property h t n) = headerEnd h.
Proof.
  unfold header_property; destruct (classify_type t); [repeat split| |];
    cbn [numVertices isBinary headerEnd set_properties];
    repeat match goal with
    | |- context [String.eqb n ?s] => destruct (String.eqb n s)
    end; repeat split.
Qed.

Lemma fold_frame props : forall h,
  numVertices (fold_left bind_property props h) = numVertices h /\
  isBinary (fold_left bind_property props h) = isBinary h /\
  headerEnd (fold_left bind_property props h) = headerEnd h.
Proof.
  induction props as [|[t n] props IH]; intros h; simpl; [repeat split|].
  destruct (IH (bind_property h (t, n))) as (-> & -> & ->).
  apply header_property_frame.
Qed.

Lemma last_from_unbound name ps : forall i,
  (last_from name i ps (-1) =? -1)%Z =
  negb (existsb (fun p => String.eqb (prop_name p) name) ps).
Proof.
  assert (forall ps i acc, (0 <= acc)%Z -> (0 <= last_from name i ps acc)%Z) as Pos.
  { clear ps; induction ps as [|p ps IH]; intros i acc A; simpl; [exact A|].
    apply IH; destruct (String.eqb _ _); lia. }
  induction ps as [|p ps IH]; intros i; simpl; [reflexivity|].
  destruct (String.eqb (prop_name p) name); simpl; [|apply IH].
  apply Z.eqb_neq. specialize (Pos ps (S i) (Z.of_nat i)); lia.
Qed.

(** The locals a header declares: the recognised properties in order, the
    count, the format flags, and each index at the last recognised
    property of its name (or -1). *)
Lemma expected_locals hd :
  let h := expected hd in
  let ps := recognised (hd_props hd) in
  properties h = ps /\ numVertices h = Z.of_N (hd_count hd) /\
  headerEnd h = true /\
  isBinary h = match hd_format hd with FmtAscii => false | _ => true end /\
  xIndex h = last_from "x" 0 ps (-1) /\ yIndex h = last_from "y" 0 ps (-1) /\
  zIndex h = last_from "z" 0 ps (-1) /\ redIndex h = last_from "red" 0 ps (-1) /\
  greenIndex h = last_from "green" 0 ps (-1) /\
  blueIndex h = last_from "blue" 0 ps (-1).
Proof.
  cbv zeta; unfold expected.
  set (h0 := set_numVertices _ _).
  assert (properties h0 = [] /\ xIndex h0 = (-1)%Z /\ yIndex h0 = (-1)%Z /\
          zIndex h0 = (-1)%Z /\ redIndex h0 = (-1)%Z /\ greenIndex h0 = (-1)%Z /\
          blueIndex h0 = (-1)%Z) as (P0 & X0 & Y0 & Z0 & R0 & G0 & B0)
    by (subst h0; destruct (hd_format hd); repeat split).
  cbn [properties numVertices headerEnd isBinary xIndex yIndex zIndex redIndex
       greenIndex blueIndex set_headerEnd].
  rewrite fold_properties, (fold_binds _ _ _ binds_x), (fold_binds _ _ _ binds_y),
    (fold_binds _ _ _ binds_z), (fold_binds _ _ _ binds_red),
    (fold_binds _ _ _ binds_green), (fold_binds _ _ _ binds_blue).
  rewrite P0, X0, Y0, Z0, R0, G0, B0; simpl.
  destruct (fold_frame (hd_props hd) h0) as (-> & -> & _).
  repeat split; subst h0; now destruct (hd_format hd).
Qed.

Lemma header_valid_same h1 h2 : same_locals h1 h2 -> header_valid h1 = header_valid h2.
Proof.
  intros E. change (header_valid (set_line "" h1) = header_valid (set_line "" h2)).
  now rewrite E.
Qed.

(** A header is accepted exactly when it declares x, y and z with a
    recognised type. *)
Lemma header_valid_expected hd :
  header_valid (expected hd) =
  declares "x" (hd_props hd) && declares "y" (hd_props hd) &&
  declares "z" (hd_props hd).
Proof.
  destruct (expected_locals hd) as (_ & _ & E & _ & X & Y & Z & _).
  unfold header_valid, declares. rewrite E, X, Y, Z, !last_from_unbound; simpl.
  now rewrite !negb_orb, !negb_involutive.
Qed.

Lemma same_locals_fields h1 h2 :
  same_locals h1 h2 ->
  properties h1 = properties h2 /\ numVertices h1 = numVertices h2 /\
  isBinary h1 = isBinary h2 /\ hasColors h1 = hasColors h2 /\
  xIndex h1 = xIndex h2 /\ yIndex h1 = yIndex h2 /\ zIndex h1 = zIndex h2 /\
  redIndex h1 = redIndex h2 /\ greenIndex h1 = greenIndex h2 /\
  blueIndex h1 = blueIndex h2.
Proof.
  intros E.
  repeat split;
    match goal with |- ?f h1 = ?f h2 =>
      change (f (set_line "" h1) = f (set_line "" h2)); now rewrite E
    end.
Qed.

(** ** Equality up to the line variable

    [same_locals] is an equivalence, and what the loader does after the
    header with the locals other than [line] respects it. *)
#[export] Instance same_locals_Equivalence : Equivalence same_locals.
Proof.
  split; [intros h; reflexivity | intros h1 h2 E; now symmetry | exact same_locals_trans].
Qed.

Lemma same_locals_respected {A} (f : PlyLocals -> A) :
  (forall h, f (set_line "" h) = f h) -> Proper (same_locals ==> eq) f.
Proof. intros F h1 h2 E. now rewrite <- (F h1), <- (F h2), E. Qed.

#[export] Instance header_valid_Proper : Proper (same_locals ==> eq) header_valid :=
  same_locals_respected header_valid (fun _ => eq_refl).
#[export] Instance ply_add_vertex_Proper : Proper (same_locals ==> eq) ply_add_vertex :=
  same_locals_respected ply_add_vertex (fun _ => eq_refl).
#[export] Instance properties_Proper : Proper (same_locals ==> eq) properties :=
  same_locals_respected properties (fun _ => eq_refl).
#[export] Instance numVertices_Proper : Proper (same_locals ==> eq) numVertices :=
  same_locals_respected numVertices (fun _ => eq_refl).
#[export] Instance isBinary_Proper : Proper (same_locals ==> eq) isBinary :=
  same_locals_respected isBinary (fun _ => eq_refl).

(** ** The format does not matter to the vertex of a record *)
Definition erase_format (h : PlyLocals) : PlyLocals :=
  set_isBigEndian false (set_isBinary false h).

Lemma header_property_erase h t n :
  header_property (erase_format h) t n = erase_format (header_property h t n).
Proof.
  unfold header_property; destruct (classify_type t); [reflexivity| |];
    cbn [properties erase_format set_isBigEndian set_isBinary];
    repeat match goal with
    | |- context [String.eqb n ?s] => destruct (String.eqb n s)
    end; reflexivity.
Qed.

Lemma fold_bind_erase props : forall h,
  fold_left bind_property props (erase_format h) =
  erase_format (fold_left bind_property props h).
Proof.
  induction props as [|p props IH]; intros h; [reflexivity|]; cbn [fold_left].
  unfold bind_property at 2. now rewrite header_property_erase, IH.
Qed.

Lemma header_format_erase h f : erase_format (header_format h f) = erase_format h.
Proof.
  unfold header_format.
  repeat match goal with
  | |- context [String.eqb f ?s] => destruct (String.eqb f s)
  end; reflexivity.
Qed.

(** The locals of two headers that differ in their format line only are
    the same, up to the two format flags. *)
Lemma expected_erase hd f :
  erase_format (expected hd) =
  erase_format (expected (mkHeader f (hd_count hd) (hd_props hd))).
Proof.
  unfold expected; cbn [hd_format hd_count hd_props].
  change (erase_format (set_headerEnd true ?a)) with (set_headerEnd true (erase_format a)).
  rewrite <- !fold_bind_erase.
  change (erase_format (set_numVertices ?v ?a)) with (set_numVertices v (erase_format a)).
  now rewrite !header_format_erase.
Qed.

Lemma ply_add_vertex_erase h : ply_add_vertex (erase_format h) = ply_add_vertex h.
Proof. reflexivity. Qed.

Lemma ply_add_vertex_format hd f :
  ply_add_vertex (expected hd) =
  ply_add_vertex (expected (mkHeader f (hd_count hd) (hd_props hd))).
Proof.
  rewrite <- (ply_add_vertex_erase (expected hd)), (expected_erase hd f).
  apply ply_add_vertex_erase.
Qed.

(** The file of a well-formed header that declares x, y and z: the loader
    goes on to the records, with the locals the header describes. *)
Lemma ply_parse_printed hd body :
  wf_props (hd_props hd) = true ->
  get_int (decimal_of_N (hd_count hd)) = (Z.of_N (hd_count hd), true, EmptyString) ->
  declares "x" (hd_props hd) && declares "y" (hd_props hd) &&
    declares "z" (hd_props hd) = true ->
  exists h, same_locals h (expected hd) /\
    ply_parse (print_header hd ++ body)%string = ply_body h (stream_of body).
Proof.
  intros W G D. destruct (ply_header_reads_back_aux hd body W G) as (h & E & S).
  exists h; split; [exact S|]. unfold ply_parse.
  rewrite E. setoid_rewrite S at 1. now rewrite header_valid_expected, D.
Qed.

(** C8: the header loop of [loadPlyFile] reads a printed header back: it stops
    at the first character of the body; the count and the format are the
    declared ones, the property list is the recognised declarations in
    order, and x, y, z are bound to the last recognised declaration of
    their name (-1 without one). *)
Theorem ply_header_reads_back hd body :
  wf_props (hd_props hd) = true ->
  get_int (decimal_of_N (hd_count hd)) = (Z.of_N (hd_count hd), true, EmptyString) ->
  exists h,
    ply_header (print_header hd ++ body) = Some (stream_of body, h) /\
    properties h = recognised (hd_props hd) /\
    numVertices h = Z.of_N (hd_count hd) /\
    isBinary h = match hd_format hd with FmtAscii => false | _ => true end /\
    xIndex h = last_from "x" 0 (recognised (hd_props hd)) (-1) /\
    yIndex h = last_from "y" 0 (recognised (hd_props hd)) (-1) /\
    zIndex h = last_from "z" 0 (recognised (hd_props hd)) (-1).
Proof.
  intros W G. destruct (ply_header_reads_back_aux hd body W G) as (h & E & S).
  exists h; split; [exact E|].
  destruct (same_locals_fields _ _ S) as (-> & -> & -> & _ & -> & -> & -> & _).
  destruct (expected_locals hd) as (P & N & _ & B & X & Y & Z & _). tauto.
Qed.

(** The loader refuses the file of a well-formed header exactly when x, y
    or z is not declared with a recognised type, whatever the body. *)
Theorem ply_parse_refuses hd body :
  wf_props (hd_props hd) = true ->
  get_int (decimal_of_N (hd_count hd)) = (Z.of_N (hd_count hd), true, EmptyString) ->
  ply_parse (print_header hd ++ body) = PlyInvalidHeader <->
  declares "x" (hd_props hd) && declares "y" (hd_props hd) &&
  declares "z" (hd_props hd) = false.
Proof.
  intros W G. destruct (ply_header_reads_back_aux hd body W G) as (h & E & S).
  unfold ply_parse; rewrite E, (header_valid_same _ _ S), header_valid_expected.
  destruct (_ && _); [|tauto]. split; [|discriminate].
  unfold ply_body. destruct (negb _); [destruct (ascii_body _ _ _ _ _) as [[[? ?] ?]|]
                                      | destruct (binary_body _ _ _ _) as [[? ?] []]];
    discriminate.
Qed.

End PlyHeaderTheory.

(** ** A header on the decimal [num_get] *)

Section PlyHeaderScenarios.

#[local] Existing Instance StdNumGet.

(** With the decimal [num_get] the count of every header that fits an
    [int] is read as printed: the hypothesis of the theorems above holds. *)
Lemma std_count_read hd :
  (hd_count hd <= 2147483647)%N ->
  get_int (decimal_of_N (hd_count hd)) = (Z.of_N (hd_count hd), true, EmptyString).
Proof. apply std_get_int_printed. Qed.

(** Two vertices, with a column the loader does not recognise between y
    and z. *)
Definition example_header : Header :=
  mkHeader FmtAscii 2
    [("float", "x"); ("float32", "y"); ("int", "id"); ("float", "z")].

Lemma ply_header_reads_back_witness :
  exists h,
    ply_header (print_header example_header ++ "1 2 9 3")%string =
      Some (stream_of "1 2 9 3", h) /\
    properties h = [mkProp "x" PROP_FLOAT; mkProp "y" PROP_FLOAT; mkProp "z" PROP_FLOAT] /\
    numVertices h = 2%Z /\ isBinary h = false /\
    xIndex h = 0%Z /\ yIndex h = 1%Z /\ zIndex h = 2%Z.
Proof.
  refine (ply_header_reads_back (NG := StdNumGet) example_header "1 2 9 3"
            eq_refl (std_get_int_printed 2 _)).
  discriminate.
Defined.

(** The same header without its z declaration is refused. *)
Lemma ply_parse_refuses_witness :
  ply_parse (print_header (mkHeader FmtAscii 2 [("float", "x"); ("float32", "y")])
             ++ "1 2 9 3")%string = PlyInvalidHeader.
Proof.
  apply (proj2 (ply_parse_refuses (NG := StdNumGet) (mkHeader FmtAscii 2 [("float", "x"); ("float32", "y")])
                  "1 2 9 3" eq_refl eq_refl)).
  reflexivity.
Defined.

End PlyHeaderScenarios.
