(* ===== verification/PlyBody.v ===== *)
(** * PlyBody: the binary record loop decodes what the file encodes

    [decode_values] is what the bytes of one record mean under a property
    list: four bytes in little-endian order for a [float], one for a
    [uchar].  [binary_body_decodes] shows that the binary loop of
    [loadPlyFile], run on the bytes of [n] records followed by anything,
    appends exactly the vertices those records encode, in order, and stops
    before what follows.  [ply_binary_reads_back] puts header and records
    together: the loader accepts a well-formed binary file that declares
    x, y and z, and the cloud it builds is the one the records encode
    (read in little-endian order, whichever byte order is declared). *)

From Stdlib Require Import Arith ZArith NArith Lia Bool List String Ascii SpecFloat.
From S2P Require Import Prelude Float32 Vec3 Text IStream Cloud PlyParser PlyHeader.
Import ListNotations.
Local Open Scope string_scope.
Local Open Scope list_scope.

(** The values of one record, read off its bytes. *)
Fixpoint decode_values (props : list PropertyInfo) (bytes : list ascii) : list f32 :=
  match props with
  | [] => []
  | p :: ps =>
      match prop_type p with
      | PROP_FLOAT =>
          f32_of_bits (le_combine (firstn 4 bytes)) :: decode_values ps (skipn 4 bytes)
      | PROP_UCHAR =>
          f32_of_Z (le_combine (firstn 1 bytes)) :: decode_values ps (skipn 1 bytes)
      | PROP_NONE => f32_zero :: decode_values ps bytes
      end
  end.

(** The bytes of a sequence of records, as they lie in the file. *)
Definition bytes_of (records : list (list ascii)) : string :=
  string_of_list_ascii (List.concat records).

(** The cloud after one vertex per list of values is added, in order. *)
Definition add_values (h : PlyLocals) (values : list (list f32)) (c : Cloud) : Cloud :=
  fold_left (fun c vs => ply_add_vertex h vs c) values c.

(** The cloud after the vertices of the records are added, in order. *)
Definition add_records (h : PlyLocals) (records : list (list ascii)) (c : Cloud) : Cloud :=
  add_values h (map (decode_values (properties h)) records) c.

(** ** Reading bytes that are there *)
Lemma take_bytes_app l rest :
  take_bytes (List.length l) (string_of_list_ascii l ++ rest) = Some (l, rest).
Proof. induction l as [|c l IH]; simpl; [reflexivity | now rewrite IH]. Qed.

Lemma stream_read_app n l rest :
  List.length l = n ->
  stream_read n (stream_of (string_of_list_ascii l ++ rest)) = (stream_of rest, Some l).
Proof. intros <-; unfold stream_read; simpl. now rewrite take_bytes_app. Qed.

(** The first [n] bytes of a record and the others. *)
Lemma record_split n bytes rest :
  (n <= List.length bytes)%nat ->
  (string_of_list_ascii bytes ++ rest)%string =
  (string_of_list_ascii (firstn n bytes) ++
   (string_of_list_ascii (skipn n bytes) ++ rest))%string /\
  List.length (firstn n bytes) = n /\
  List.length (skipn n bytes) = (List.length bytes - n)%nat.
Proof.
  intros L. rewrite <- string_app_assoc, <- string_of_list_ascii_app_string,
    firstn_skipn, length_firstn, length_skipn. repeat split; lia.
Qed.

Lemma read_values_binary_decodes props : forall bytes rest,
  List.length bytes = record_size props ->
  read_values_binary props (stream_of (string_of_list_ascii bytes ++ rest)) =
  (stream_of rest, decode_values props bytes).
Proof.
  induction props as [|p ps IH]; intros bytes rest L.
  - destruct bytes; [reflexivity | discriminate L].
  - rewrite record_size_cons in L. simpl. unfold prop_size in L.
    destruct (prop_type p).
    + now rewrite IH.
    + destruct (record_split 4 bytes rest ltac:(lia)) as (-> & L1 & L2).
      rewrite (stream_read_app 4 _ _ L1), IH by lia. reflexivity.
    + destruct (record_split 1 bytes rest ltac:(lia)) as (-> & L1 & L2).
      rewrite (stream_read_app 1 _ _ L1), IH by lia. reflexivity.
Qed.

(** ** The record loop *)
Lemma binary_body_decodes h records : forall rest c,
  Forall (fun r => List.length r = record_size (properties h)) records ->
  binary_body (List.length records) h (stream_of (bytes_of records ++ rest)) c =
  (stream_of rest, add_records h records c, true).
Proof.
  induction records as [|r records IH]; intros rest c F; [reflexivity|].
  inversion F as [|? ? Lr F']; subst. unfold bytes_of; simpl.
  rewrite string_of_list_ascii_app_string, string_app_assoc.
  rewrite read_values_binary_decodes by exact Lr. simpl.
  exact (IH rest _ F').
Qed.

(** ** Header and records together *)

Section PlyBodyTheory.
Context {NG : NumGet}.

Lemma ply_add_vertex_same h1 h2 :
  same_locals h1 h2 -> ply_add_vertex h1 = ply_add_vertex h2.
Proof. apply ply_add_vertex_Proper. Qed.

Lemma add_values_same h1 h2 values c :
  same_locals h1 h2 -> add_values h1 values c = add_values h2 values c.
Proof. intros E; unfold add_values. now rewrite (ply_add_vertex_same _ _ E). Qed.

Lemma add_records_same h1 h2 records c :
  same_locals h1 h2 -> add_records h1 records c = add_records h2 records c.
Proof.
  intros E; unfold add_records.
  rewrite (properties_Proper _ _ E). now apply add_values_same.
Qed.

(** The binary loop on the records the header announces. *)
Lemma ply_body_records h records rest :
  isBinary h = true -> numVertices h = Z.of_nat (List.length records) ->
  Forall (fun r => List.length r = record_size (properties h)) records ->
  ply_body h (stream_of (bytes_of records ++ rest)) =
  PlyLoaded (add_records h records cloud_reset).
Proof.
  intros B N F; unfold ply_body.
  now rewrite B, N, Nat2Z.id, binary_body_decodes.
Qed.

(** The locals after a printed header, as far as the records need them. *)
Lemma printed_locals hd h :
  same_locals h (expected hd) ->
  properties h = recognised (hd_props hd) /\
  numVertices h = Z.of_N (hd_count hd) /\
  isBinary h = match hd_format hd with FmtAscii => false | _ => true end.
Proof.
  intros S. rewrite (properties_Proper _ _ S), (numVertices_Proper _ _ S),
    (isBinary_Proper _ _ S).
  destruct (expected_locals hd) as (P & N & _ & B & _). auto.
Qed.

(** C9: a well-formed binary file that declares x, y and z and holds the
    records it announces is loaded, and the cloud is the one its records
    encode: one vertex per record, in file order, each coordinate decoded
    from its bytes in little-endian order, and the box extended vertex by
    vertex.  What follows the records is not read. *)
Theorem ply_binary_reads_back hd records rest :
  wf_props (hd_props hd) = true ->
  get_int (decimal_of_N (hd_count hd)) = (Z.of_N (hd_count hd), true, EmptyString) ->
  hd_format hd <> FmtAscii ->
  declares "x" (hd_props hd) && declares "y" (hd_props hd) &&
    declares "z" (hd_props hd) = true ->
  hd_count hd = N.of_nat (List.length records) ->
  Forall (fun r => List.length r = record_size (recognised (hd_props hd))) records ->
  ply_parse (print_header hd ++ bytes_of records ++ rest) =
  PlyLoaded (add_records (expected hd) records cloud_reset).
Proof.
  intros W G Fm D Cn F.
  destruct (ply_parse_printed hd (bytes_of records ++ rest) W G D) as (h & S & ->).
  destruct (printed_locals hd h S) as (P & N & B).
  rewrite ply_body_records, (add_records_same _ _ _ _ S); try reflexivity.
  - rewrite B; now destruct (hd_format hd).
  - now rewrite N, Cn, nat_N_Z.
  - now rewrite P.
Qed.


End PlyBodyTheory.

(** ** A file of two records *)

Section PlyBodyScenarios.

#[local] Existing Instance StdNumGet.

(** The twelve bytes of the record (1, 1, 1), in little-endian order. *)
Definition record_111 : list ascii := list_ascii_of_string (one_le ++ one_le ++ one_le).

Lemma ply_binary_reads_back_witness :
  ply_parse (print_header (mkHeader FmtLittleEndian 2
                             [("float", "x"); ("float", "y"); ("float", "z")])
             ++ bytes_of [record_111; record_111] ++ "trailing")%string =
  PlyLoaded (mkCloud [mkVertex (mkVec3 f32_one f32_one f32_one) white;
                      mkVertex (mkVec3 f32_one f32_one f32_one) white]
               (mkVec3 f32_one f32_one f32_one) (mkVec3 f32_one f32_one f32_one)).
Proof.
  refine (eq_trans
            (ply_binary_reads_back (NG := StdNumGet)
               (mkHeader FmtLittleEndian 2 [("float", "x"); ("float", "y"); ("float", "z")])
               [record_111; record_111] "trailing" eq_refl
               (std_get_int_printed 2 _) _ eq_refl eq_refl _) _).
  - discriminate.
  - discriminate.
  - repeat constructor.
  - vm_compute; reflexivity.
Defined.

(** The header alone, announcing as many vertices as an [int] can count:
    124 bytes ask for room for 2147483647 vertices. *)
Definition greedy_header : Header :=
  mkHeader FmtLittleEndian 2147483647 [("float", "x"); ("float", "y"); ("float", "z")].


Lemma greedy_header_length : String.length (print_header greedy_header) = 124%nat.
Proof. reflexivity. Qed.

End PlyBodyScenarios.
