(* ===== verification/ViewportParameters.v ===== *)
(** * ViewportParameters: the value exchanged between renderer and snapshots

    [struct ViewportObject::ViewportParameters] of viewportobject.h, the
    function of distance, rotation and centre that
    [PointCloudRenderer::updateModelViewMatrix] stores in the model-view
    matrix ([view_matrix]), and the contract a snapshot relies on when it is
    applied to a renderer ([ViewportTarget]): setting parameters and reading
    them back gives the same parameters with the model-view matrix
    recomputed ([vp_normalize]), and requesting a repaint changes no
    parameter. *)

From Stdlib Require Import ZArith List SpecFloat.
From S2P Require Import Prelude Float32 Vec3 Matrix.

Section Params.
Context {M : Type} `{Matrix4x4 M}.

Record ViewportParameters : Type := mkParams {
  modelViewMatrix : M;
  projectionMatrix : M;
  cameraDistance : f32;
  rotation : QVector3D;
  modelCenter : QVector3D;
  pointSize : f32;
  boundingBoxMin : QVector3D;
  boundingBoxMax : QVector3D
}.

(** The matrix [updateModelViewMatrix] builds:
    identity, [translate(0, 0, -distance)], [rotate(rotation.x, 1, 0, 0)],
    [rotate(rotation.y, 0, 1, 0)], [translate(-modelCenter)]. *)
Definition view_matrix (distance : f32) (rot center : QVector3D) : M :=
  let m := mat_identity in
  let m := mat_translate m f32_zero f32_zero (f32_neg distance) in
  let m := mat_rotate m (vx rot) f32_one f32_zero f32_zero in
  let m := mat_rotate m (vy rot) f32_zero f32_one f32_zero in
  mat_translate_vec m (vec3_neg center).

(** The parameters with the model-view matrix recomputed from the others. *)
Definition vp_normalize (p : ViewportParameters) : ViewportParameters :=
  mkParams (view_matrix (cameraDistance p) (rotation p) (modelCenter p))
           (projectionMatrix p) (cameraDistance p) (rotation p)
           (modelCenter p) (pointSize p) (boundingBoxMin p) (boundingBoxMax p).

(** The matrix of [p] is the one its other fields determine. *)
Definition vp_consistent (p : ViewportParameters) : Prop :=
  modelViewMatrix p = view_matrix (cameraDistance p) (rotation p) (modelCenter p).

Lemma vp_normalize_consistent p : vp_consistent (vp_normalize p).
Proof. reflexivity. Qed.

Lemma vp_normalize_id p : vp_consistent p -> vp_normalize p = p.
Proof. destruct p; unfold vp_consistent, vp_normalize; simpl; now intros ->. Qed.

Lemma vp_normalize_idem p : vp_normalize (vp_normalize p) = vp_normalize p.
Proof. apply vp_normalize_id, vp_normalize_consistent. Qed.

(** What a snapshot needs of the object it is applied to. *)
Class ViewportTarget (R : Type) : Type := {
  tgt_setViewport : ViewportParameters -> R -> R;
  tgt_update : R -> R;
  tgt_getViewportParameters : R -> ViewportParameters;
  tgt_repaint_requested : R -> bool;
  tgt_get_set : forall p r,
    tgt_getViewportParameters (tgt_setViewport p r) = vp_normalize p;
  tgt_get_update : forall r,
    tgt_getViewportParameters (tgt_update r) = tgt_getViewportParameters r;
  tgt_update_requested : forall r, tgt_repaint_requested (tgt_update r) = true
}.

End Params.

Arguments ViewportParameters M : clear implicits.
Arguments ViewportTarget M {_} R.
#[export] Hint Resolve vp_normalize_consistent : pcv.
#[export] Hint Rewrite @vp_normalize_idem : pcv_rw.
