(* ===== verification/Renderer.v ===== *)
(** * Renderer: the state of [PointCloudRenderer] and its handlers

    The record [PointCloudRenderer] holds the members of the class that the
    handlers of pointcloudrenderer.cpp read or write; [m_vbo] is the content
    of the vertex buffer object on the GPU and [m_updatePending] the repaint
    request that [update()] posts.  Each handler is a function on the
    record.  Files are read through [FileSystem], the map from a path to the
    content [QFile::open] gives access to.

    Theorems: every handler leaves the model-view matrix equal to
    [view_matrix] of distance, rotation and centre, hence every reachable
    state ([reachable_view_consistent]); the wheel handler leaves the
    distance in [[0.1, 1000]] for every input; the loaders do not clamp;
    [resetView] is idempotent and touches neither distance nor centre;
    [setViewport] and [getViewportParameters] round-trip; what a load
    leaves behind, member by member, when it succeeds and when it fails;
    a paint draws exactly the vertices in the buffer unless a binary load
    was cut short or the byte count of the upload does not fit an [int]
    ([paint_within_buffer], [allocate_fits], [allocate_overflow]); a
    handler that changes what is drawn requests a repaint
    ([repaint_on_change]). *)

From Stdlib Require Import ZArith Lia Bool List String SpecFloat.
From S2P Require Import Prelude Float32 Vec3 Matrix Text IStream Cloud.
From S2P Require Import PtsParser PlyParser ViewportParameters.
Import ListNotations.
Local Open Scope list_scope.

(** The files that can be opened for reading, by path. *)
Definition FileSystem : Type := string -> option string.

Section Renderer.
Context {M : Type} `{Matrix4x4 M} {libm : Libm} {T2F : TokenToFloat} {NG : NumGet}.

Record PointCloudRenderer : Type := mkRenderer {
  m_vertices : list Vertex;
  m_vbo : list Vertex;
  m_projection : M;
  m_modelView : M;
  m_distance : f32;
  m_rotation : QVector3D;
  m_lastMousePos : Z * Z;
  m_pointSize : f32;
  m_boundingBoxMin : QVector3D;
  m_boundingBoxMax : QVector3D;
  m_modelCenter : QVector3D;
  m_updatePending : bool
}.

(** ** Assignments to one member *)

Definition set_vertices v (s : PointCloudRenderer) :=
  mkRenderer v (m_vbo s) (m_projection s) (m_modelView s) (m_distance s)
    (m_rotation s) (m_lastMousePos s) (m_pointSize s) (m_boundingBoxMin s)
    (m_boundingBoxMax s) (m_modelCenter s) (m_updatePending s).
Definition set_vbo v (s : PointCloudRenderer) :=
  mkRenderer (m_vertices s) v (m_projection s) (m_modelView s) (m_distance s)
    (m_rotation s) (m_lastMousePos s) (m_pointSize s) (m_boundingBoxMin s)
    (m_boundingBoxMax s) (m_modelCenter s) (m_updatePending s).
Definition set_projection v (s : PointCloudRenderer) :=
  mkRenderer (m_vertices s) (m_vbo s) v (m_modelView s) (m_distance s)
    (m_rotation s) (m_lastMousePos s) (m_pointSize s) (m_boundingBoxMin s)
    (m_boundingBoxMax s) (m_modelCenter s) (m_updatePending s).
Definition set_modelView v (s : PointCloudRenderer) :=
  mkRenderer (m_vertices s) (m_vbo s) (m_projection s) v (m_distance s)
    (m_rotation s) (m_lastMousePos s) (m_pointSize s) (m_boundingBoxMin s)
    (m_boundingBoxMax s) (m_modelCenter s) (m_updatePending s).
Definition set_distance v (s : PointCloudRenderer) :=
  mkRenderer (m_vertices s) (m_vbo s) (m_projection s) (m_modelView s) v
    (m_rotation s) (m_lastMousePos s) (m_pointSize s) (m_boundingBoxMin s)
    (m_boundingBoxMax s) (m_modelCenter s) (m_updatePending s).
Definition set_rotation v (s : PointCloudRenderer) :=
  mkRenderer (m_vertices s) (m_vbo s) (m_projection s) (m_modelView s)
    (m_distance s) v (m_lastMousePos s) (m_pointSize s) (m_boundingBoxMin s)
    (m_boundingBoxMax s) (m_modelCenter s) (m_updatePending s).
Definition set_lastMousePos v (s : PointCloudRenderer) :=
  mkRenderer (m_vertices s) (m_vbo s) (m_projection s) (m_modelView s)
    (m_distance s) (m_rotation s) v (m_pointSize s) (m_boundingBoxMin s)
    (m_boundingBoxMax s) (m_modelCenter s) (m_updatePending s).
Definition set_pointSize v (s : PointCloudRenderer) :=
  mkRenderer (m_vertices s) (m_vbo s) (m_projection s) (m_modelView s)
    (m_distance s) (m_rotation s) (m_lastMousePos s) v (m_boundingBoxMin s)
    (m_boundingBoxMax s) (m_modelCenter s) (m_updatePending s).
Definition set_boundingBoxMin v (s : PointCloudRenderer) :=
  mkRenderer (m_vertices s) (m_vbo s) (m_projection s) (m_modelView s)
    (m_distance s) (m_rotation s) (m_lastMousePos s) (m_pointSize s) v
    (m_boundingBoxMax s) (m_modelCenter s) (m_updatePending s).
Definition set_boundingBoxMax v (s : PointCloudRenderer) :=
  mkRenderer (m_vertices s) (m_vbo s) (m_projection s) (m_modelView s)
    (m_distance s) (m_rotation s) (m_lastMousePos s) (m_pointSize s)
    (m_boundingBoxMin s) v (m_modelCenter s) (m_updatePending s).
Definition set_modelCenter v (s : PointCloudRenderer) :=
  mkRenderer (m_vertices s) (m_vbo s) (m_projection s) (m_modelView s)
    (m_distance s) (m_rotation s) (m_lastMousePos s) (m_pointSize s)
    (m_boundingBoxMin s) (m_boundingBoxMax s) v (m_updatePending s).
Definition set_updatePending v (s : PointCloudRenderer) :=
  mkRenderer (m_vertices s) (m_vbo s) (m_projection s) (m_modelView s)
    (m_distance s) (m_rotation s) (m_lastMousePos s) (m_pointSize s)
    (m_boundingBoxMin s) (m_boundingBoxMax s) (m_modelCenter s) v.

(** ** Construction and OpenGL set-up *)

(** The constructor: distance 5, point size 2, no rotation, a null box;
    the matrices, the centre and the mouse position are default-constructed. *)
Definition renderer_new : PointCloudRenderer :=
  mkRenderer [] [] mat_identity mat_identity f32_5 vec3_zero (0, 0)%Z f32_2
    vec3_zero vec3_zero vec3_zero false.

(** [update()]: a repaint is requested. *)
Definition update (s : PointCloudRenderer) : PointCloudRenderer :=
  set_updatePending true s.

Definition updateModelViewMatrix (s : PointCloudRenderer) : PointCloudRenderer :=
  set_modelView (view_matrix (m_distance s) (m_rotation s) (m_modelCenter s)) s.

Definition resetView (s : PointCloudRenderer) : PointCloudRenderer :=
  let s := set_rotation (mkVec3 f32_zero f32_zero f32_zero) s in
  let s := updateModelViewMatrix s in
  update s.

(** [sizeof(Vertex)]: two vectors of three [float]s. *)
Definition sizeof_Vertex : Z := 24.

(** The conversion of an unsigned value to [int]: modulo 2^32, into the
    range of [int]. *)
Definition to_int (z : Z) : Z := ((z + 2 ^ 31) mod 2 ^ 32 - 2 ^ 31)%Z.

(** [m_vertices.size() * sizeof(Vertex)], computed in [size_t], as the [int]
    argument [count] of [QOpenGLBuffer::allocate]. *)
Definition allocate_count (vs : list Vertex) : Z :=
  to_int (Z.of_nat (List.length vs) * sizeof_Vertex).

(** [allocate(data, count)]: the buffer receives the first [count] bytes of
    [data] (the vertices that are whole among them); OpenGL rejects a
    negative size, and the buffer keeps what it held. *)
Definition allocate (data : list Vertex) (count : Z) (old : list Vertex) : list Vertex :=
  if (count <? 0)%Z then old
  else firstn (Z.to_nat (Z.quot count sizeof_Vertex)) data.

(** The buffer is (re)allocated with the vertices only when there are some. *)
Definition setupVertexBuffers (s : PointCloudRenderer) : PointCloudRenderer :=
  match m_vertices s with
  | [] => s
  | _ => set_vbo (allocate (m_vertices s) (allocate_count (m_vertices s)) (m_vbo s)) s
  end.

Definition initializeGL (s : PointCloudRenderer) : PointCloudRenderer :=
  let s := setupVertexBuffers s in
  resetView s.

Definition resizeGL (w h : Z) (s : PointCloudRenderer) : PointCloudRenderer :=
  set_projection
    (mat_perspective mat_identity f32_45 (f32_div (f32_of_Z w) (f32_of_Z h))
       f32_0_01 f32_1000) s.

(** What one [glDrawArrays] call is given. *)
Record DrawCall : Type := mkDraw {
  dc_projection : M;
  dc_modelView : M;
  dc_pointSize : f32;
  dc_count : nat;
  dc_buffer : list Vertex
}.

(** [paintGL]: nothing is drawn without vertices; otherwise the matrix is
    recomputed and [m_vertices.size()] points of the buffer are drawn. *)
Definition paintGL (s : PointCloudRenderer) : PointCloudRenderer * option DrawCall :=
  match m_vertices s with
  | [] => (s, None)
  | _ =>
      let s := updateModelViewMatrix s in
      (s, Some (mkDraw (m_projection s) (m_modelView s) (m_pointSize s)
                       (List.length (m_vertices s)) (m_vbo s)))
  end.

(** ** Loading *)

(** The statements after the parsing loop, shared by both loaders: centre
    and distance from the box, buffer upload, view reset, repaint. *)
Definition frame_loaded (s : PointCloudRenderer) : PointCloudRenderer :=
  let s := set_modelCenter
             (vec3_scale (vec3_add (m_boundingBoxMin s) (m_boundingBoxMax s))
                f32_half) s in
  let size := vec3_sub (m_boundingBoxMax s) (m_boundingBoxMin s) in
  let s := set_distance (f32_mul (vec3_length size) f32_1_5) s in
  let s := setupVertexBuffers s in
  let s := resetView s in
  update s.

(** The members a loader's loop rebuilds, taken from its result. *)
Definition store_cloud (c : Cloud) (s : PointCloudRenderer) : PointCloudRenderer :=
  set_boundingBoxMax (bbMax c) (set_boundingBoxMin (bbMin c)
    (set_vertices (vertices c) s)).

Definition loadPtsFile (fs : FileSystem) (filename : string)
    (s : PointCloudRenderer) : PointCloudRenderer * bool :=
  match fs filename with
  | None => (s, false)
  | Some content =>
      let s := store_cloud (pts_parse content) s in
      (frame_loaded s, true)
  end.

(** [loadPlyFile]: [None] when the parser copies an uninitialised value.
    A refused header leaves the cleared vertices and the sentinel box
    behind, a read error the records read so far; neither touches centre,
    distance, buffer or view. *)
Definition loadPlyFile (fs : FileSystem) (filename : string)
    (s : PointCloudRenderer) : option (PointCloudRenderer * bool) :=
  match fs filename with
  | None => Some (s, false)
  | Some content =>
      match ply_parse content with
      | PlyLoaded c => Some (frame_loaded (store_cloud c s), true)
      | PlyInvalidHeader => Some (store_cloud cloud_reset s, false)
      | PlyReadError c => Some (store_cloud c s, false)
      | PlyUndefined => None
      end
  end.

(** ** Viewport *)

Definition setViewport (p : ViewportParameters M) (s : PointCloudRenderer)
    : PointCloudRenderer :=
  let s := set_modelView (modelViewMatrix p) s in
  let s := set_projection (projectionMatrix p) s in
  let s := set_distance (cameraDistance p) s in
  let s := set_rotation (rotation p) s in
  let s := set_modelCenter (modelCenter p) s in
  let s := set_pointSize (pointSize p) s in
  let s := set_boundingBoxMin (boundingBoxMin p) s in
  let s := set_boundingBoxMax (boundingBoxMax p) s in
  updateModelViewMatrix s.

Definition getViewportParameters (s : PointCloudRenderer) : ViewportParameters M :=
  mkParams (m_modelView s) (m_projection s) (m_distance s) (m_rotation s)
    (m_modelCenter s) (m_pointSize s) (m_boundingBoxMin s) (m_boundingBoxMax s).

(** The inline getters the main window calls. *)
Definition getPointCount (s : PointCloudRenderer) : nat := List.length (m_vertices s).
Definition getBoundingBoxSize (s : PointCloudRenderer) : QVector3D :=
  vec3_sub (m_boundingBoxMax s) (m_boundingBoxMin s).

(** ** Mouse and wheel *)

Definition mousePressEvent (pos : Z * Z) (s : PointCloudRenderer) : PointCloudRenderer :=
  set_lastMousePos pos s.

(** [leftButton]: [event->buttons() & Qt::LeftButton]. *)
Definition mouseMoveEvent (leftButton : bool) (pos : Z * Z)
    (s : PointCloudRenderer) : PointCloudRenderer :=
  let s :=
    if leftButton then
      let dx := (fst pos - fst (m_lastMousePos s))%Z in
      let dy := (snd pos - snd (m_lastMousePos s))%Z in
      let s := set_rotation
                 (setY (m_rotation s)
                    (f32_add (vy (m_rotation s)) (f32_mul (f32_of_Z dx) f32_half))) s in
      let s := set_rotation
                 (setX (m_rotation s)
                    (f32_add (vx (m_rotation s)) (f32_mul (f32_of_Z dy) f32_half))) s in
      let s := updateModelViewMatrix s in
      update s
    else s in
  set_lastMousePos pos s.

Definition mouseReleaseEvent (s : PointCloudRenderer) : PointCloudRenderer := s.

(** The clamp of the wheel handler: [std::max(0.1f, std::min(d, 1000.0f))]. *)
Definition clamp_distance (d : f32) : f32 :=
  std_max f32_0_1 (std_min d f32_1000).

(** [angleDeltaY]: [event->angleDelta().y()]. *)
Definition wheelEvent (angleDeltaY : Z) (s : PointCloudRenderer) : PointCloudRenderer :=
  let delta := f32_div (f32_of_Z angleDeltaY) f32_120 in
  let s := set_distance (f32_mul (m_distance s) (powf f32_0_9 delta)) s in
  let s := set_distance (clamp_distance (m_distance s)) s in
  let s := updateModelViewMatrix s in
  update s.

End Renderer.

Arguments PointCloudRenderer M : clear implicits.
Arguments DrawCall M : clear implicits.

(** ** Events and reachable states *)

Section RendererTheory.
Context {M : Type} `{Matrix4x4 M} {libm : Libm} {T2F : TokenToFloat} {NG : NumGet}.
Variable fs : FileSystem.

Abbreviation Renderer := (PointCloudRenderer M).

(** What can happen to a renderer once OpenGL is initialised. *)
Inductive Event : Type :=
| EvResize (w h : Z)
| EvPaint
| EvLoadPts (filename : string)
| EvLoadPly (filename : string)
| EvSetViewport (p : ViewportParameters M)
| EvResetView
| EvUpdate
| EvMousePress (pos : Z * Z)
| EvMouseMove (leftButton : bool) (pos : Z * Z)
| EvMouseRelease
| EvWheel (angleDeltaY : Z).

(** The state after an event; [None] when the handler's behaviour is
    undefined.  Qt calls [paintGL] to serve a repaint request, which is
    then no longer pending. *)
Definition handle (e : Event) (s : Renderer) : option Renderer :=
  match e with
  | EvResize w h => Some (resizeGL w h s)
  | EvPaint => Some (set_updatePending false (fst (paintGL s)))
  | EvLoadPts filename => Some (fst (loadPtsFile fs filename s))
  | EvLoadPly filename => option_map fst (loadPlyFile fs filename s)
  | EvSetViewport p => Some (setViewport p s)
  | EvResetView => Some (resetView s)
  | EvUpdate => Some (update s)
  | EvMousePress pos => Some (mousePressEvent pos s)
  | EvMouseMove b pos => Some (mouseMoveEvent b pos s)
  | EvMouseRelease => Some (mouseReleaseEvent s)
  | EvWheel dy => Some (wheelEvent dy s)
  end.

Fixpoint run (es : list Event) (s : Renderer) : option Renderer :=
  match es with
  | [] => Some s
  | e :: es' => match handle e s with Some s' => run es' s' | None => None end
  end.

Inductive reachable : Renderer -> Prop :=
| reach_init : reachable (initializeGL renderer_new)
| reach_step s e s' : reachable s -> handle e s = Some s' -> reachable s'.

(** The model-view matrix is the one distance, rotation and centre
    determine. *)
Definition view_consistent (s : Renderer) : Prop :=
  m_modelView s = view_matrix (m_distance s) (m_rotation s) (m_modelCenter s).

(** The size of the vertices in bytes is an [int]: at most 89478485
    vertices. *)
Definition fits (vs : list Vertex) : Prop :=
  (Z.of_nat (List.length vs) * sizeof_Vertex <= 2147483647)%Z.

(** The buffer on the GPU holds the vertices that a paint would draw. *)
Definition vbo_in_sync (s : Renderer) : Prop :=
  m_vertices s <> [] -> fits (m_vertices s) -> m_vbo s = m_vertices s.

(** What the next paint would hand to OpenGL. *)
Definition drawn (s : Renderer) : option (DrawCall M) := snd (paintGL s).

(** The load of a binary PLY file that ends before its last record. *)
Definition cut_short (e : Event) : bool :=
  match e with
  | EvLoadPly filename =>
      match fs filename with
      | Some content =>
          match ply_parse content with PlyReadError _ => true | _ => false end
      | None => false
      end
  | _ => false
  end.

(** The events after which nothing in the renderer asks for a repaint:
    Qt repaints after a resize by itself, a paint serves the request,
    [setViewport] leaves the request to its caller, and a load that fails
    returns before [update()]. *)
Definition silent (e : Event) (s : Renderer) : bool :=
  match e with
  | EvResize _ _ | EvPaint | EvSetViewport _ => true
  | EvLoadPly filename =>
      match loadPlyFile fs filename s with
      | Some (_, true) => false
      | _ => true
      end
  | _ => false
  end.

(** ** The matrix invariant, handler by handler *)
Lemma updateModelViewMatrix_consistent s : view_consistent (updateModelViewMatrix s).
Proof. reflexivity. Qed.

Lemma update_consistent s : view_consistent s -> view_consistent (update s).
Proof. exact (fun H => H). Qed.

Lemma resetView_consistent s : view_consistent (resetView s).
Proof. reflexivity. Qed.

Lemma setViewport_consistent p s : view_consistent (setViewport p s).
Proof. reflexivity. Qed.

Lemma wheelEvent_consistent dy s : view_consistent (wheelEvent dy s).
Proof. reflexivity. Qed.

Lemma frame_loaded_consistent s : view_consistent (frame_loaded s).
Proof. unfold frame_loaded, setupVertexBuffers; simpl. now destruct (m_vertices s). Qed.

Lemma mouseMoveEvent_consistent b pos s :
  view_consistent s -> view_consistent (mouseMoveEvent b pos s).
Proof. destruct b; [reflexivity | exact (fun H => H)]. Qed.

Lemma paintGL_consistent s :
  view_consistent s -> view_consistent (set_updatePending false (fst (paintGL s))).
Proof. unfold paintGL; destruct (m_vertices s) eqn:E; [auto | reflexivity]. Qed.

Lemma loadPtsFile_consistent filename s :
  view_consistent s -> view_consistent (fst (loadPtsFile fs filename s)).
Proof.
  unfold loadPtsFile; destruct (fs filename); [intros _ | auto].
  apply frame_loaded_consistent.
Qed.

Lemma loadPlyFile_consistent filename s s' ok :
  view_consistent s -> loadPlyFile fs filename s = Some (s', ok) ->
  view_consistent s'.
Proof.
  unfold loadPlyFile; intros Hs. destruct (fs filename); [|now intros [= <- <-]].
  destruct (ply_parse _); intros [= <- <-];
    [apply frame_loaded_consistent | exact Hs | exact Hs].
Qed.

#[local] Hint Resolve update_consistent resetView_consistent setViewport_consistent
  wheelEvent_consistent paintGL_consistent loadPtsFile_consistent
  mouseMoveEvent_consistent : pcv.

Lemma handle_consistent e s s' :
  view_consistent s -> handle e s = Some s' -> view_consistent s'.
Proof.
  destruct e; simpl; intros Hs; try (intros [= <-]); auto with pcv.
  destruct (loadPlyFile fs filename s) as [[s1 ok]|] eqn:E; [|discriminate].
  intros [= <-]. eapply loadPlyFile_consistent; eassumption.
Qed.

(** C3: in every state the renderer can reach after [initializeGL], the
    model-view matrix is [view_matrix] of the distance, the rotation and
    the centre: no handler leaves a stale matrix behind. *)
Theorem reachable_view_consistent s : reachable s -> view_consistent s.
Proof.
  induction 1 as [|s e s' _ IH E]; [reflexivity|].
  eapply handle_consistent; eassumption.
Qed.

(** ** Zoom *)

(** After a wheel event the distance lies in [[0.1, 1000]], whatever the
    previous distance, the wheel delta and the result of [powf] were (a NaN
    product is replaced by 0.1). *)
Theorem wheelEvent_distance_bounds dy s :
  fle f32_0_1 (m_distance (wheelEvent dy s)) /\
  fle (m_distance (wheelEvent dy s)) f32_1000.
Proof. apply std_clamp_bounds, fle_0_1_1000. Qed.

Lemma run_snoc es e s :
  run (es ++ [e]) s = match run es s with Some s' => handle e s' | None => None end.
Proof.
  revert s; induction es as [|e' es IH]; intros s; simpl.
  - now destruct (handle e s).
  - destruct (handle e' s); [apply IH | reflexivity].
Qed.

(** Any run that ends in a wheel event ends within the bounds. *)
Corollary run_zoom_bounds es dy s s' :
  run (es ++ [EvWheel dy]) s = Some s' ->
  fle f32_0_1 (m_distance s') /\ fle (m_distance s') f32_1000.
Proof.
  rewrite run_snoc. destruct (run es s); [|discriminate].
  intros [= <-]. apply std_clamp_bounds, fle_0_1_1000.
Qed.

(** ** Reset *)

(** [resetView] zeroes the rotation and leaves distance, centre, vertices
    and box as they are. *)
Theorem resetView_effect s :
  m_rotation (resetView s) = vec3_zero /\
  m_distance (resetView s) = m_distance s /\
  m_modelCenter (resetView s) = m_modelCenter s /\
  m_vertices (resetView s) = m_vertices s /\
  m_boundingBoxMin (resetView s) = m_boundingBoxMin s /\
  m_boundingBoxMax (resetView s) = m_boundingBoxMax s /\
  m_updatePending (resetView s) = true.
Proof. repeat split. Qed.

(** Resetting twice is resetting once. *)
Theorem resetView_idempotent s : resetView (resetView s) = resetView s.
Proof. reflexivity. Qed.

(** ** Parameters in and out *)

(** Reading the parameters back after [setViewport p] gives [p] with
    its model-view matrix recomputed: the matrix passed in is ignored. *)
Lemma getViewportParameters_setViewport p s :
  getViewportParameters (setViewport p s) = vp_normalize p.
Proof. reflexivity. Qed.

(** Capturing the parameters of a consistent state and applying them to any
    other renderer reproduces them exactly. *)
Theorem viewport_roundtrip s s' :
  view_consistent s ->
  getViewportParameters (setViewport (getViewportParameters s) s') =
  getViewportParameters s.
Proof.
  intros Hs. rewrite getViewportParameters_setViewport.
  apply vp_normalize_id. exact Hs.
Qed.

(** [setViewport] leaves the vertices, the buffer and the repaint flag
    untouched: the caller has to call [update]. *)
Lemma setViewport_frame p s :
  m_vertices (setViewport p s) = m_vertices s /\
  m_vbo (setViewport p s) = m_vbo s /\
  m_updatePending (setViewport p s) = m_updatePending s /\
  m_lastMousePos (setViewport p s) = m_lastMousePos s.
Proof. repeat split. Qed.

#[export] Instance Renderer_ViewportTarget : ViewportTarget M Renderer := {
  tgt_setViewport := setViewport;
  tgt_update := update;
  tgt_getViewportParameters := getViewportParameters;
  tgt_repaint_requested := m_updatePending;
  tgt_get_set := getViewportParameters_setViewport;
  tgt_get_update := fun _ => eq_refl;
  tgt_update_requested := fun _ => eq_refl
}.

(** ** Loading *)

(** The state after a successful load, member by member. *)
Theorem loadPtsFile_success filename content s :
  fs filename = Some content ->
  let c := pts_parse content in
  let s' := fst (loadPtsFile fs filename s) in
  snd (loadPtsFile fs filename s) = true /\
  m_vertices s' = vertices c /\
  m_boundingBoxMin s' = bbMin c /\ m_boundingBoxMax s' = bbMax c /\
  m_modelCenter s' = vec3_scale (vec3_add (bbMin c) (bbMax c)) f32_half /\
  m_distance s' = f32_mul (vec3_length (vec3_sub (bbMax c) (bbMin c))) f32_1_5 /\
  m_rotation s' = vec3_zero /\
  m_vbo s' = (match vertices c with
              | [] => m_vbo s
              | vs => allocate vs (allocate_count vs) (m_vbo s)
              end) /\
  m_updatePending s' = true.
Proof.
  intros E c s'; subst c s'; unfold loadPtsFile; rewrite E.
  unfold frame_loaded, setupVertexBuffers, store_cloud; simpl.
  destruct (vertices (pts_parse content)) eqn:V; simpl; rewrite ?V; repeat split.
Qed.

(** A file that cannot be opened leaves the renderer as it was and
    reports failure. *)
Theorem loadPtsFile_open_failure filename s :
  fs filename = None -> loadPtsFile fs filename s = (s, false).
Proof. intros E; unfold loadPtsFile; now rewrite E. Qed.

(** A successful load discards the previous cloud and camera: two renderers
    that load the same file agree on everything but what the load does not
    touch (projection, point size, mouse position) and, for a file without
    vertices, the stale buffer. *)
Theorem loadPtsFile_replaces filename content s1 s2 :
  fs filename = Some content ->
  let r1 := fst (loadPtsFile fs filename s1) in
  let r2 := fst (loadPtsFile fs filename s2) in
  m_vertices r1 = m_vertices r2 /\
  m_boundingBoxMin r1 = m_boundingBoxMin r2 /\
  m_boundingBoxMax r1 = m_boundingBoxMax r2 /\
  m_modelCenter r1 = m_modelCenter r2 /\
  m_distance r1 = m_distance r2 /\
  m_rotation r1 = m_rotation r2 /\
  m_modelView r1 = m_modelView r2.
Proof.
  intros E r1 r2; subst r1 r2; unfold loadPtsFile; rewrite E.
  unfold frame_loaded, setupVertexBuffers, store_cloud; simpl.
  destruct (vertices (pts_parse content)) eqn:V; simpl; rewrite ?V; repeat split.
Qed.

(** A load of a PLY file that ends well leaves the same state as a load of
    a simple file with the same cloud: both run [frame_loaded]. *)
Lemma loadPlyFile_success filename content c s :
  fs filename = Some content -> ply_parse content = PlyLoaded c ->
  loadPlyFile fs filename s = Some (frame_loaded (store_cloud c s), true).
Proof. intros E P; unfold loadPlyFile; now rewrite E, P. Qed.

(** A PLY file whose header is refused is not a no-op: the load
    reports failure, but the vertices are gone and the box holds the
    sentinels, while centre, distance, view matrix and GPU buffer still
    describe the previous cloud. *)
Theorem loadPlyFile_invalid_header_clears filename content s :
  fs filename = Some content -> ply_parse content = PlyInvalidHeader ->
  exists s', loadPlyFile fs filename s = Some (s', false) /\
    m_vertices s' = [] /\
    m_boundingBoxMin s' = mkVec3 FLT_MAX FLT_MAX FLT_MAX /\
    m_boundingBoxMax s' = mkVec3 FLT_LOWEST FLT_LOWEST FLT_LOWEST /\
    m_modelCenter s' = m_modelCenter s /\ m_distance s' = m_distance s /\
    m_modelView s' = m_modelView s /\ m_vbo s' = m_vbo s.
Proof.
  intros E P; unfold loadPlyFile; rewrite E, P.
  eexists; split; [reflexivity | repeat split].
Qed.

(** A read error in the binary loop leaves the records read before it. *)
Theorem loadPlyFile_read_error_keeps_partial filename content c s :
  fs filename = Some content -> ply_parse content = PlyReadError c ->
  exists s', loadPlyFile fs filename s = Some (s', false) /\
    m_vertices s' = vertices c /\
    m_boundingBoxMin s' = bbMin c /\ m_boundingBoxMax s' = bbMax c /\
    m_modelCenter s' = m_modelCenter s /\ m_distance s' = m_distance s /\
    m_vbo s' = m_vbo s.
Proof.
  intros E P; unfold loadPlyFile; rewrite E, P.
  eexists; split; [reflexivity | repeat split].
Qed.

(** ** The buffer and the vertices *)
(** The upload of vertices whose size fits an [int] puts all of them in
    the buffer. *)
Lemma to_int_fits z : (0 <= z <= 2147483647)%Z -> to_int z = z.
Proof. intros B; unfold to_int. rewrite Z.mod_small; lia. Qed.

Lemma allocate_fits vs old : fits vs -> allocate vs (allocate_count vs) old = vs.
Proof.
  unfold fits, allocate, allocate_count, sizeof_Vertex; intros F.
  rewrite to_int_fits by lia.
  destruct (Z.ltb_spec (Z.of_nat (List.length vs) * 24) 0); [lia|].
  rewrite Z.quot_mul, Nat2Z.id by lia. apply firstn_all.
Qed.

(** Beyond that size the byte count wraps: with 89478486 vertices it is
    negative, the upload is rejected and the buffer keeps what it held. *)
Lemma allocate_overflow vs old :
  Z.of_nat (List.length vs) = 89478486%Z ->
  allocate_count vs = (-2147483632)%Z /\ allocate vs (allocate_count vs) old = old.
Proof.
  intros L; unfold allocate, allocate_count; rewrite L. split; reflexivity.
Qed.

Lemma vbo_in_sync_frame s s' :
  m_vertices s' = m_vertices s -> m_vbo s' = m_vbo s ->
  vbo_in_sync s -> vbo_in_sync s'.
Proof. unfold vbo_in_sync; intros -> ->; auto. Qed.

Lemma frame_loaded_vbo_in_sync s : vbo_in_sync (frame_loaded s).
Proof.
  unfold vbo_in_sync, frame_loaded, setupVertexBuffers; simpl.
  destruct (m_vertices s) eqn:V; simpl; rewrite ?V; [congruence|].
  intros _ F. now apply allocate_fits.
Qed.

(** After a successful load of a file with vertices, the buffer holds them. *)
Lemma loadPtsFile_vbo_in_sync filename s :
  vbo_in_sync s -> vbo_in_sync (fst (loadPtsFile fs filename s)).
Proof.
  unfold loadPtsFile. destruct (fs filename) as [content|]; [intros _|auto].
  apply frame_loaded_vbo_in_sync.
Qed.

Lemma loadPlyFile_vbo_in_sync filename s s' ok :
  cut_short (EvLoadPly filename) = false ->
  loadPlyFile fs filename s = Some (s', ok) -> vbo_in_sync s -> vbo_in_sync s'.
Proof.
  unfold loadPlyFile; simpl. destruct (fs filename); [|now intros _ [= <- <-]].
  destruct (ply_parse _); intros C [= <- <-] I;
    [apply frame_loaded_vbo_in_sync | now intros [] | discriminate C].
Qed.

Lemma handle_vbo_in_sync e s s' :
  cut_short e = false -> handle e s = Some s' -> vbo_in_sync s -> vbo_in_sync s'.
Proof.
  destruct e; simpl handle; intros C;
    try (intros [= <-]; apply vbo_in_sync_frame; reflexivity).
  - intros [= <-]; apply vbo_in_sync_frame; unfold paintGL;
      destruct (m_vertices s) eqn:V; simpl; congruence.
  - intros [= <-]; apply loadPtsFile_vbo_in_sync.
  - destruct (loadPlyFile fs filename s) as [[r ok]|] eqn:E; [|discriminate].
    intros [= <-]. exact (loadPlyFile_vbo_in_sync _ _ _ _ C E).
  - intros [= <-]; unfold mouseMoveEvent; destruct leftButton;
      apply vbo_in_sync_frame; reflexivity.
Qed.

Lemma run_vbo_in_sync es : forall s s',
  forallb (fun e => negb (cut_short e)) es = true ->
  run es s = Some s' -> vbo_in_sync s -> vbo_in_sync s'.
Proof.
  induction es as [|e es IH]; simpl; intros s s' C; [now intros [= <-]|].
  apply andb_prop in C as [Ce Ces]. apply negb_true_iff in Ce.
  destruct (handle e s) as [s1|] eqn:E; [|discriminate].
  intros R I. exact (IH _ _ Ces R (handle_vbo_in_sync _ _ _ Ce E I)).
Qed.

(** After any sequence of events in which no binary PLY load is cut short,
    a paint draws from a buffer that holds exactly the vertices: the count
    given to [glDrawArrays] is the size of the buffer. *)
Theorem paint_within_buffer es s :
  forallb (fun e => negb (cut_short e)) es = true ->
  run es (initializeGL renderer_new) = Some s ->
  fits (m_vertices s) ->
  match drawn s with
  | Some d => dc_buffer d = m_vertices s /\ dc_count d = List.length (dc_buffer d)
  | None => m_vertices s = []
  end.
Proof.
  intros C R F.
  assert (vbo_in_sync s) as I by (apply (run_vbo_in_sync es _ _ C R); now intros []).
  unfold drawn, paintGL. destruct (m_vertices s) eqn:V; [reflexivity|]; simpl.
  rewrite V, I by (rewrite V; first [discriminate | exact F]). now rewrite V.
Qed.

(** C40: a binary load that is cut short leaves the records read before
    the error in [m_vertices] and the buffer as the load before left it:
    the next paint asks for as many points as records were read, from that
    buffer.  When more records were read than the buffer holds, the draw
    runs past its end. *)
Theorem read_error_draws_stale_buffer filename content c s :
  fs filename = Some content -> ply_parse content = PlyReadError c ->
  vertices c <> [] ->
  exists s' d, loadPlyFile fs filename s = Some (s', false) /\
    drawn s' = Some d /\
    dc_count d = List.length (vertices c) /\ dc_buffer d = m_vbo s /\
    ((List.length (m_vbo s) < List.length (vertices c))%nat ->
     (List.length (dc_buffer d) < dc_count d)%nat).
Proof.
  intros E P V; unfold loadPlyFile; rewrite E, P.
  unfold drawn, paintGL, store_cloud; cbn.
  destruct (vertices c) eqn:Vc; [contradiction|].
  do 2 eexists; repeat split. cbn; auto.
Qed.

(** ** Repaint requests *)

(** What a paint draws depends on the vertices, the buffer, the projection,
    the point size and on distance, rotation and centre, from which the
    matrix is recomputed. *)
Lemma drawn_frame s s' :
  m_vertices s' = m_vertices s -> m_vbo s' = m_vbo s ->
  m_projection s' = m_projection s -> m_pointSize s' = m_pointSize s ->
  m_distance s' = m_distance s -> m_rotation s' = m_rotation s ->
  m_modelCenter s' = m_modelCenter s ->
  drawn s' = drawn s.
Proof.
  unfold drawn, paintGL, updateModelViewMatrix; intros V B P S D R C.
  rewrite V; destruct (m_vertices s) eqn:E; simpl; [reflexivity|].
  now rewrite V, E, B, P, S, D, R, C.
Qed.

Lemma frame_loaded_pending s : m_updatePending (frame_loaded s) = true.
Proof. reflexivity. Qed.

Lemma loadPlyFile_pending filename s s' :
  loadPlyFile fs filename s = Some (s', true) -> m_updatePending s' = true.
Proof.
  unfold loadPlyFile. destruct (fs filename); [|discriminate].
  destruct (ply_parse _); intros [= <-]; apply frame_loaded_pending.
Qed.

(** C39: whenever a handler changes what the next paint draws, a repaint is
    pending afterwards, for every event that is not [silent]: loads that
    succeed, view reset, mouse drags and the wheel all end in [update()]. *)
Theorem repaint_on_change e s s' :
  handle e s = Some s' -> silent e s = false ->
  drawn s' <> drawn s -> m_updatePending s' = true.
Proof.
  destruct e; simpl; try discriminate; try (now intros [= <-]).
  - unfold loadPtsFile; destruct (fs filename); now intros [= <-].
  - destruct (loadPlyFile fs filename s) as [[r []]|] eqn:E; try discriminate.
    intros [= <-] _ _. exact (loadPlyFile_pending _ _ _ E).
  - intros [= <-] _ D. elim D; now apply drawn_frame.
  - destruct leftButton; intros [= <-] _ D;
      [reflexivity | elim D; now apply drawn_frame].
Qed.

End RendererTheory.

Arguments Event M : clear implicits.

(** ** Scenarios

    With the symbolic matrices, the stand-in [powf], Qt's [toFloat] and the
    decimal [num_get]. *)

Section RendererScenarios.

#[local] Existing Instance LibmUnitSteps.
#[local] Existing Instance QtTokenToFloat.
#[local] Existing Instance StdNumGet.
Local Open Scope string_scope.

(** A binary file that announces three records of three floats and ends
    after two records and four bytes. *)
Definition cut_ply : string :=
  ply_file "binary_little_endian" "3" xyz
    (one_le ++ one_le ++ one_le ++ one_le ++ one_le ++ one_le ++ one_le)%string.

(** A file system with the files of the scenarios. *)
Definition example_fs : FileSystem := fun name =>
  if String.eqb name "a.pts" then Some scenario_A
  else if String.eqb name "far.pts"
       then Some ("0 0 0" ++ nl ++ "1000 0 0" ++ nl)%string
  else if String.eqb name "one.pts" then Some ("1 2 3" ++ nl)%string
  else if String.eqb name "empty.pts" then Some ""
  else if String.eqb name "noz.ply"
       then Some (ply_file "ascii" "1" ["float x"; "float y"] ("0 0 0" ++ eol))
  else if String.eqb name "cut.ply" then Some cut_ply
  else None.

Definition example_start : PointCloudRenderer SymMatrix := initializeGL renderer_new.

Definition after (es : list (Event SymMatrix)) : option (PointCloudRenderer SymMatrix) :=
  run example_fs es example_start.

(** The witness of [reachable_view_consistent]: load, drag, zoom. *)
Lemma reachable_view_consistent_witness :
  view_consistent
    (wheelEvent 120 (mouseMoveEvent true (14, 12)%Z (mousePressEvent (10, 10)%Z
       (fst (loadPtsFile example_fs "a.pts" example_start))))).
Proof.
  apply (reachable_view_consistent example_fs).
  refine (reach_step _ _ (EvWheel 120) _ _ eq_refl).
  refine (reach_step _ _ (EvMouseMove true (14, 12)%Z) _ _ eq_refl).
  refine (reach_step _ _ (EvMousePress (10, 10)%Z) _ _ eq_refl).
  refine (reach_step _ _ (EvLoadPts "a.pts") _ _ eq_refl).
  apply reach_init.
Defined.

(** The state that run reaches: rotation (1, 2), distance
    0.9 * 1.5 * |(3,3,3)|, and a matrix built from exactly these. *)
Lemma drag_and_zoom_example :
  exists s, after [EvLoadPts "a.pts"; EvMousePress (10, 10)%Z;
                   EvMouseMove true (14, 12)%Z; EvWheel 120] = Some s /\
    m_rotation s = mkVec3 f32_one f32_2 f32_zero /\
    m_distance s = f32_mul (f32_mul (vec3_length (mkVec3 (f32_of_Z 3) (f32_of_Z 3) (f32_of_Z 3))) f32_1_5) f32_0_9 /\
    m_modelView s = [OpTranslate f32_zero f32_zero (f32_neg (m_distance s));
                     OpRotate f32_one f32_one f32_zero f32_zero;
                     OpRotate f32_2 f32_zero f32_one f32_zero;
                     OpTranslate (f32_neg (f32_of_decimal false 25 (-1)))
                                 (f32_neg (f32_of_decimal false 35 (-1)))
                                 (f32_neg (f32_of_decimal false 45 (-1)))].
Proof. eexists; split; [vm_compute; reflexivity|]. repeat split; vm_compute; reflexivity. Qed.

(** The loaders do not clamp the distance they compute: two points
    1000 apart give 1500, a single point gives 0, and a file without any
    vertex gives +infinity (the sentinel box has an infinite diagonal). *)
Theorem load_distance_not_clamped :
  option_map m_distance (after [EvLoadPts "far.pts"]) = Some (f32_of_Z 1500) /\
  option_map m_distance (after [EvLoadPts "one.pts"]) = Some f32_zero /\
  option_map m_distance (after [EvLoadPts "empty.pts"]) = Some (S754_infinity false) /\
  f32_lt f32_1000 (f32_of_Z 1500) = true /\ f32_lt f32_zero f32_0_1 = true.
Proof. repeat split; vm_compute; reflexivity. Qed.

(** The witness of [loadPtsFile_open_failure]. *)
Lemma loadPtsFile_open_failure_witness :
  loadPtsFile example_fs "missing.pts" example_start = (example_start, false).
Proof. apply (loadPtsFile_open_failure example_fs); reflexivity. Defined.

(** The witness of [loadPlyFile_invalid_header_clears], after a good load. *)
Lemma loadPlyFile_invalid_header_clears_witness :
  let s := fst (loadPtsFile example_fs "a.pts" example_start) in
  exists s', loadPlyFile example_fs "noz.ply" s = Some (s', false) /\
    m_vertices s' = [] /\
    m_boundingBoxMin s' = mkVec3 FLT_MAX FLT_MAX FLT_MAX /\
    m_boundingBoxMax s' = mkVec3 FLT_LOWEST FLT_LOWEST FLT_LOWEST /\
    m_modelCenter s' = m_modelCenter s /\ m_distance s' = m_distance s /\
    m_modelView s' = m_modelView s /\ m_vbo s' = m_vbo s.
Proof.
  apply (loadPlyFile_invalid_header_clears example_fs "noz.ply"
           (ply_file "ascii" "1" ["float x"; "float y"] ("0 0 0" ++ eol)));
    vm_compute; reflexivity.
Defined.

Lemma example_start_consistent : view_consistent example_start.
Proof. reflexivity. Qed.

(** The witness of [viewport_roundtrip]: the view after a load and a drag,
    given to a renderer that has loaded nothing. *)
Lemma viewport_roundtrip_witness :
  let s := mouseMoveEvent true (14, 12)%Z
             (fst (loadPtsFile example_fs "a.pts" example_start)) in
  getViewportParameters (setViewport (getViewportParameters s) example_start) =
  getViewportParameters s.
Proof.
  apply viewport_roundtrip, mouseMoveEvent_consistent, loadPtsFile_consistent.
  exact example_start_consistent.
Defined.

(** The witness of [loadPtsFile_success]: the vertices of scenario A. *)
Lemma loadPtsFile_success_witness :
  m_vertices (fst (loadPtsFile example_fs "a.pts" example_start)) =
  vertices (pts_parse scenario_A).
Proof.
  exact (proj1 (proj2 (loadPtsFile_success example_fs "a.pts" scenario_A
                         example_start eq_refl))).
Defined.

(** The witness of [loadPtsFile_replaces]: the same file loaded into a new
    renderer and into one that holds another cloud. *)
Lemma loadPtsFile_replaces_witness :
  m_vertices (fst (loadPtsFile example_fs "a.pts" example_start)) =
  m_vertices (fst (loadPtsFile example_fs "a.pts"
                     (fst (loadPtsFile example_fs "far.pts" example_start)))).
Proof.
  exact (proj1 (loadPtsFile_replaces example_fs "a.pts" scenario_A example_start
                  (fst (loadPtsFile example_fs "far.pts" example_start)) eq_refl)).
Defined.

(** The witness of [loadPlyFile_read_error_keeps_partial]: the two complete
    records of the truncated file stay. *)
Lemma loadPlyFile_read_error_keeps_partial_witness :
  exists s', loadPlyFile example_fs "cut.ply" example_start = Some (s', false) /\
    List.length (m_vertices s') = 2%nat.
Proof.
  destruct (ply_parse cut_ply) as [c| |c|] eqn:P; try (vm_compute in P; discriminate P).
  destruct (loadPlyFile_read_error_keeps_partial example_fs "cut.ply" cut_ply c
              example_start eq_refl P) as (s' & E & V & _).
  exists s'; split; [exact E|]. rewrite V.
  vm_compute in P. injection P as <-. reflexivity.
Defined.

(** The witness of [paint_within_buffer]: loads that succeed, a load that
    is refused, and a zoom step. *)
Lemma paint_within_buffer_witness :
  match after [EvLoadPts "a.pts"; EvLoadPly "noz.ply"; EvLoadPts "one.pts";
               EvWheel 120; EvPaint] with
  | Some s =>
      match drawn s with
      | Some d => dc_buffer d = m_vertices s /\ dc_count d = List.length (dc_buffer d)
      | None => m_vertices s = []
      end
  | None => False
  end.
Proof.
  destruct (after _) as [s|] eqn:E; [|vm_compute in E; discriminate E].
  pose proof E as E'. vm_compute in E'. injection E' as <-.
  refine (paint_within_buffer example_fs _ _ _ E _);
    [vm_compute; reflexivity | vm_compute; discriminate].
Defined.

(** The witness of [repaint_on_change]: a wheel step after a load. *)
Lemma repaint_on_change_witness :
  m_updatePending
    (wheelEvent 120 (fst (loadPtsFile example_fs "a.pts" example_start))) = true.
Proof.
  refine (repaint_on_change example_fs (EvWheel 120) _ _ eq_refl eq_refl _).
  vm_compute; discriminate.
Defined.

(** The cloud the cut file leaves: its two complete records. *)
Definition cut_cloud : Cloud :=
  let v := mkVertex (mkVec3 f32_one f32_one f32_one) white in
  mkCloud [v; v] (mkVec3 f32_one f32_one f32_one) (mkVec3 f32_one f32_one f32_one).

(** The witness of [read_error_draws_stale_buffer]: after a good load of
    one vertex, the load of the cut file. *)
Lemma read_error_draws_stale_buffer_witness :
  let s := fst (loadPtsFile example_fs "one.pts" example_start) in
  exists s' d, loadPlyFile example_fs "cut.ply" s = Some (s', false) /\
    drawn s' = Some d /\
    dc_count d = 2%nat /\ dc_buffer d = m_vbo s /\
    ((List.length (m_vbo s) < 2)%nat -> (List.length (dc_buffer d) < dc_count d)%nat).
Proof.
  refine (read_error_draws_stale_buffer example_fs "cut.ply" cut_ply cut_cloud _
            eq_refl _ _).
  - vm_compute; reflexivity.
  - discriminate.
Defined.

(** After a good load of one vertex and the load of the cut file, the
    next paint draws two vertices from a buffer that holds one. *)
Lemma paint_after_failed_load_overruns_buffer :
  match after [EvLoadPts "one.pts"; EvLoadPly "cut.ply"] with
  | Some s =>
      match snd (paintGL s) with
      | Some d => dc_count d = 2%nat /\ List.length (dc_buffer d) = 1%nat
      | None => False
      end
  | None => False
  end.
Proof. vm_compute. split; reflexivity. Qed.

End RendererScenarios.
