(* ===== verification/ViewportObject.v ===== *)
(** * ViewportObject: a named snapshot of viewport parameters

    The class of viewportobject.h and viewportobject.cpp: the parameters
    (a value copy), the renderer it was captured from (a pointer that is
    stored and never followed) and the name.  [applyViewport] is stated
    against the contract [ViewportTarget], so what it guarantees holds for
    every renderer that honours the contract; [Renderer] provides the
    instance for [PointCloudRenderer].

    Theorems: applying a snapshot makes the target's parameters equal to
    the snapshot's, with the matrix recomputed, and requests a repaint
    ([applyViewport_parameters]); a snapshot taken from a consistent target
    and applied to any target reproduces the parameters exactly
    ([capture_apply_roundtrip]). *)

From Stdlib Require Import ZArith List String SpecFloat.
From S2P Require Import Prelude Float32 Vec3 Matrix ViewportParameters.
Local Open Scope string_scope.

(** A [PointCloudRenderer*]: null, or the renderer with that identity. *)
Inductive RendererPtr : Type := NullRenderer | RendererAt (id : nat).

Section ViewportObject.
Context {M : Type} `{Matrix4x4 M}.

Record ViewportObject : Type := mkViewport {
  m_params : ViewportParameters M;
  m_display : RendererPtr;
  m_name : string
}.

(** The constructor: a perspective of 45 degrees with aspect ratio 1,
    distance 5, point size 2, everything else zero or identity. *)
Definition viewport_new (name : string) : ViewportObject :=
  mkViewport
    (mkParams mat_identity
       (mat_perspective mat_identity f32_45 f32_one f32_0_01 f32_1000)
       f32_5 (mkVec3 f32_zero f32_zero f32_zero)
       (mkVec3 f32_zero f32_zero f32_zero) f32_2
       (mkVec3 f32_zero f32_zero f32_zero) (mkVec3 f32_zero f32_zero f32_zero))
    NullRenderer name.

Definition setParameters (p : ViewportParameters M) (v : ViewportObject) : ViewportObject :=
  mkViewport p (m_display v) (m_name v).

Definition setDisplay (d : RendererPtr) (v : ViewportObject) : ViewportObject :=
  mkViewport (m_params v) d (m_name v).

Definition getDisplay (v : ViewportObject) : RendererPtr := m_display v.
Definition getParameters (v : ViewportObject) : ViewportParameters M := m_params v.
Definition getName (v : ViewportObject) : string := m_name v.

(** The smallest target that honours the contract: the parameters
    themselves and the repaint flag. *)
#[export] Instance Params_ViewportTarget : ViewportTarget M (ViewportParameters M * bool) := {
  tgt_setViewport := fun p r => (vp_normalize p, snd r);
  tgt_update := fun r => (fst r, true);
  tgt_getViewportParameters := fst;
  tgt_repaint_requested := snd;
  tgt_get_set := fun _ _ => eq_refl;
  tgt_get_update := fun _ => eq_refl;
  tgt_update_requested := fun _ => eq_refl
}.

Section Apply.
Context {R : Type} `{ViewportTarget M R}.

(** [applyViewport(renderer)]: nothing for a null renderer ([None]),
    otherwise [setViewport(m_params)] and [update()]. *)
Definition applyViewport (v : ViewportObject) (renderer : option R) : option R :=
  match renderer with
  | Some r => Some (tgt_update (tgt_setViewport (m_params v) r))
  | None => None
  end.

(** The snapshot a capture builds: new object, [setParameters] with the
    target's parameters, [setDisplay]. *)
Definition capture (name : string) (d : RendererPtr) (r : R) : ViewportObject :=
  setDisplay d (setParameters (tgt_getViewportParameters r) (viewport_new name)).

(** After [applyViewport] the target's parameters are the snapshot's
    with the model-view matrix recomputed, and a repaint is requested. *)
Theorem applyViewport_parameters v r :
  match applyViewport v (Some r) with
  | Some r' =>
      tgt_getViewportParameters r' = vp_normalize (m_params v) /\
      tgt_repaint_requested r' = true
  | None => False
  end.
Proof.
  simpl; split; [|apply tgt_update_requested].
  now rewrite tgt_get_update, tgt_get_set.
Qed.

(** A snapshot captured from a target whose matrix is consistent and
    applied to any target gives that target exactly the captured
    parameters: distance, rotation, centre, point size, box, projection and
    an identical recomputed model-view matrix. *)
Theorem capture_apply_roundtrip name d r r' :
  vp_consistent (tgt_getViewportParameters r) ->
  option_map tgt_getViewportParameters (applyViewport (capture name d r) (Some r')) =
  Some (tgt_getViewportParameters r).
Proof.
  intros C; simpl. rewrite tgt_get_update, tgt_get_set.
  now rewrite vp_normalize_id.
Qed.

End Apply.

Lemma capture_fields {R} `{ViewportTarget M R} name d (r : R) :
  m_name (capture name d r) = name /\
  m_display (capture name d r) = d /\
  m_params (capture name d r) = tgt_getViewportParameters r.
Proof. repeat split. Qed.

End ViewportObject.

Arguments ViewportObject M : clear implicits.

(** The round trip on the parameters of a new object (identity matrix,
    distance 5) once they are made consistent. *)
Lemma capture_apply_roundtrip_witness :
  let r0 : ViewportParameters SymMatrix * bool :=
    (vp_normalize (m_params (viewport_new "v")), false) in
  option_map tgt_getViewportParameters
    (applyViewport (capture "Viewport #1" NullRenderer r0)
       (Some (m_params (viewport_new "w"), false))) =
  Some (fst r0).
Proof.
  exact (capture_apply_roundtrip (R := ViewportParameters SymMatrix * bool)
           "Viewport #1" NullRenderer
           (vp_normalize (m_params (viewport_new "v")), false)
           (m_params (viewport_new "w"), false)
           (vp_normalize_consistent (m_params (viewport_new "v")))).
Defined.
