(* ===== verification/Registry.v ===== *)
(** * Registry: what a session promises about viewport snapshots

    The specification of the snapshot registry, written from the
    description of the system and not from its code: a session is the
    ordered list of named snapshots, the counter that names them, and the
    current viewport state.  Three things can happen: the current state is
    captured under the next automatic name, a snapshot is replayed, or the
    viewport state changes to another consistent state (a load, a drag, a
    zoom).  The three are the operations [RegOp], executed by [reg_exec];
    [reg_run] executes a list of them.  [Refinement] proves which
    operations each slot of [MainWindow] executes.

    The file proves what the specification itself guarantees: snapshots
    are named [Viewport #1], [Viewport #2], ... in capture order, every
    stored state is consistent, nothing ever changes or removes a
    snapshot, and a replay of a snapshot restores the state it was
    captured from. *)

From Stdlib Require Import Arith NArith Lia List String Relations.
From S2P Require Import Prelude Float32 Vec3 Matrix Text ViewportParameters.
Import ListNotations.
Local Open Scope string_scope.
Local Open Scope list_scope.

Section Registry.
Context {M : Type} `{Matrix4x4 M}.

Record Snapshot : Type := mkSnapshot {
  snap_name : string;
  snap_parameters : ViewportParameters M
}.

Record Session : Type := mkSession {
  reg_snapshots : list Snapshot;
  reg_counter : N;
  reg_view : ViewportParameters M
}.

(** The name given to the [n]-th capture. *)
Definition auto_name (n : N) : string := "Viewport #" ++ decimal_of_N n.

(** Capture: a copy of the current state, under the next name, last. *)
Definition reg_capture (s : Session) : Session :=
  let n := (reg_counter s + 1)%N in
  mkSession (reg_snapshots s ++ [mkSnapshot (auto_name n) (reg_view s)]) n
    (reg_view s).

(** Replay of the snapshot at position [i]: its state becomes the current
    one; nothing happens when there is no such snapshot. *)
Definition reg_replay (i : nat) (s : Session) : Session :=
  match nth_error (reg_snapshots s) i with
  | Some sn => mkSession (reg_snapshots s) (reg_counter s) (snap_parameters sn)
  | None => s
  end.

(** The viewport state changes; the registry does not. *)
Definition reg_set_view (v : ViewportParameters M) (s : Session) : Session :=
  mkSession (reg_snapshots s) (reg_counter s) v.

(** The names in display order. *)
Definition reg_list (s : Session) : list string := map snap_name (reg_snapshots s).

(** The operations of the registry. *)
Inductive RegOp : Type :=
| OpCapture
| OpReplay (i : nat)
| OpView (v : ViewportParameters M).

Definition reg_exec (o : RegOp) (s : Session) : Session :=
  match o with
  | OpCapture => reg_capture s
  | OpReplay i => reg_replay i s
  | OpView v => reg_set_view v s
  end.

Definition reg_run (os : list RegOp) (s : Session) : Session :=
  fold_left (fun s o => reg_exec o s) os s.

(** The view changes to consistent states only. *)
Definition op_ok (o : RegOp) : Prop :=
  match o with OpView v => vp_consistent v | _ => True end.

Inductive reg_step : Session -> Session -> Prop :=
| step_capture s : reg_step s (reg_capture s)
| step_replay i s : reg_step s (reg_replay i s)
| step_view v s : vp_consistent v -> reg_step s (reg_set_view v s).

(** Any number of steps. *)
Definition reg_steps : Session -> Session -> Prop := clos_refl_trans_1n _ reg_step.

(** A session starts without snapshots, in a consistent state. *)
Definition reg_initial (s : Session) : Prop :=
  reg_snapshots s = [] /\ reg_counter s = 0%N /\ vp_consistent (reg_view s).

(** What holds of every session. *)
Record reg_inv (s : Session) : Prop := {
  reg_names :
    reg_list s = map (fun i => auto_name (N.of_nat i)) (seq 1 (List.length (reg_snapshots s)));
  reg_count : reg_counter s = N.of_nat (List.length (reg_snapshots s));
  reg_stored : Forall (fun sn => vp_consistent (snap_parameters sn)) (reg_snapshots s);
  reg_current : vp_consistent (reg_view s)
}.

(** ** The specification's own guarantees *)
Lemma reg_steps_refl s : reg_steps s s.
Proof. constructor. Qed.

Lemma reg_steps_one s s' : reg_step s s' -> reg_steps s s'.
Proof. intros St; econstructor; [exact St | constructor]. Qed.

Lemma reg_steps_trans s1 s2 s3 : reg_steps s1 s2 -> reg_steps s2 s3 -> reg_steps s1 s3.
Proof.
  induction 1 as [|s1 s s2 St _ IH]; [auto|].
  intros R; econstructor; [exact St | exact (IH R)].
Qed.

Lemma reg_initial_inv s : reg_initial s -> reg_inv s.
Proof.
  destruct s as [l c v]; unfold reg_initial; simpl; intros (-> & -> & V).
  constructor; simpl; auto.
Qed.

Lemma reg_step_inv s s' : reg_step s s' -> reg_inv s -> reg_inv s'.
Proof.
  intros St [Nm C St' V]; destruct St as [s | i s | v s Hv].
  - constructor; unfold reg_list in *; simpl; rewrite ?length_app, ?map_app; simpl.
    + rewrite Nat.add_1_r, seq_S, map_app, Nm, C; simpl.
      now rewrite N.add_1_r, <- Nat2N.inj_succ.
    + now rewrite C, Nat.add_1_r, Nat2N.inj_succ, N.add_1_r.
    + apply Forall_app; split; [exact St' | now repeat constructor].
    + exact V.
  - unfold reg_replay. destruct (nth_error _ i) as [sn|] eqn:E;
      constructor; simpl; auto.
    rewrite Forall_forall in St'. apply St'. eapply nth_error_In; exact E.
  - now constructor.
Qed.

Lemma reg_steps_inv s s' : reg_steps s s' -> reg_inv s -> reg_inv s'.
Proof. induction 1; eauto using reg_step_inv. Qed.

(** Operations are steps. *)
Lemma reg_exec_step o s : op_ok o -> reg_step s (reg_exec o s).
Proof. destruct o; simpl; intros V; now constructor. Qed.

Lemma reg_run_app os1 os2 s : reg_run (os1 ++ os2) s = reg_run os2 (reg_run os1 s).
Proof. apply fold_left_app. Qed.

Lemma reg_run_steps os : forall s, Forall op_ok os -> reg_steps s (reg_run os s).
Proof.
  induction os as [|o os IH]; intros s F; [apply reg_steps_refl|].
  inversion F as [|? ? V F']; subst. econstructor; [|exact (IH _ F')].
  now apply reg_exec_step.
Qed.

Lemma reg_run_inv os s : Forall op_ok os -> reg_inv s -> reg_inv (reg_run os s).
Proof. intros F; apply reg_steps_inv, reg_run_steps, F. Qed.

(** Steps only append snapshots. *)
Lemma reg_step_kept s s' :
  reg_step s s' -> exists more, reg_snapshots s' = reg_snapshots s ++ more.
Proof.
  intros [s0 | i s0 | v s0 _]; simpl.
  - eexists; reflexivity.
  - exists []; unfold reg_replay; destruct (nth_error _ i); simpl;
      now rewrite app_nil_r.
  - exists []; now rewrite app_nil_r.
Qed.

Lemma reg_steps_kept s s' :
  reg_steps s s' -> exists more, reg_snapshots s' = reg_snapshots s ++ more.
Proof.
  induction 1 as [s | s s1 s2 St _ [m2 E2]].
  - exists []; now rewrite app_nil_r.
  - destruct (reg_step_kept _ _ St) as [m1 E1].
    exists (m1 ++ m2); now rewrite E2, E1, app_assoc.
Qed.

(** Capture, any steps, replay of the captured snapshot: the captured state
    is the current one again. *)
Lemma reg_capture_replay s s' :
  reg_steps (reg_capture s) s' ->
  reg_view (reg_replay (List.length (reg_snapshots s)) s') = reg_view s.
Proof.
  intros St; destruct (reg_steps_kept _ _ St) as [more E]; simpl in E.
  unfold reg_replay; rewrite E, <- app_assoc; simpl.
  now rewrite nth_error_app2, Nat.sub_diag by lia.
Qed.

End Registry.

Arguments Snapshot M : clear implicits.
Arguments RegOp M : clear implicits.
Arguments Session M : clear implicits.
