(* ===== verification/MainWindow.v ===== *)
(** * MainWindow: the session, its snapshot list and its slots

    The members of [MainWindow] that its slots use (mainwindow.h), the
    file-scope counter [s_viewportIndex], and the slots of mainwindow.cpp as
    functions on that state.  What a dialog returns is an argument of the
    slot (the file name chosen, the three coordinates entered, [None] for a
    cancelled dialog); the message boxes a slot opens are appended to
    [shown].  A [ViewportObject*] held by the list and by a tree item is
    the position of the object in [m_viewportList]: objects are appended
    once and never changed or removed.

    Theorems: the invariant of the session ([window_inv]: the tree mirrors
    the list, names follow the counter, the renderer's matrix is
    consistent) holds in every reachable state; snapshots are named
    [Viewport #1], [Viewport #2], ... in capture order and names do not
    repeat below 2^32 captures; capture needs a loaded cloud; replaying a
    snapshot gives the renderer its parameters and leaves the list alone;
    capture followed by replay restores the captured view; a slot that
    changes what is drawn requests a repaint. *)

From Stdlib Require Import ZArith NArith Lia Bool List String SpecFloat.
From S2P Require Import Prelude Float32 Vec3 Matrix Text IStream Cloud.
From S2P Require Import PtsParser PlyParser ViewportParameters Renderer.
From S2P Require Import ViewportObject.
Import ListNotations.
Local Open Scope string_scope.
Local Open Scope list_scope.

(** The message boxes of mainwindow.cpp, by what they say. *)
Inductive Dialog : Type :=
| WarnUnsupportedFormat
| WarnLoadError
| WarnNoPointCloud
| WarnNoBoundingBox
| InfoCameraPosition (center : QVector3D).

(** An item of the tree: its text and the [ViewportObject*] in its data. *)
Record TreeItem : Type := mkItem { item_text : string; item_data : option nat }.

(** The identity of the one renderer of the window. *)
Definition the_renderer : RendererPtr := RendererAt 0.

(** [unsigned] arithmetic: 32 bits. *)
Definition UINT_MOD : N := 2 ^ 32.

Section MainWindow.
Context {M : Type} `{Matrix4x4 M} {libm : Libm} {T2F : TokenToFloat} {NG : NumGet}.
Variable fs : FileSystem.

Record MainWindow : Type := mkWindow {
  m_renderer : PointCloudRenderer M;
  m_viewportList : list (ViewportObject M);
  m_dbTreeWidget : list TreeItem;
  s_viewportIndex : N;
  shown : list Dialog
}.

Definition set_renderer r (w : MainWindow) :=
  mkWindow r (m_viewportList w) (m_dbTreeWidget w) (s_viewportIndex w) (shown w).
Definition set_viewportList l (w : MainWindow) :=
  mkWindow (m_renderer w) l (m_dbTreeWidget w) (s_viewportIndex w) (shown w).
Definition set_tree t (w : MainWindow) :=
  mkWindow (m_renderer w) (m_viewportList w) t (s_viewportIndex w) (shown w).
Definition set_viewportIndex n (w : MainWindow) :=
  mkWindow (m_renderer w) (m_viewportList w) (m_dbTreeWidget w) n (shown w).
Definition show_dialog d (w : MainWindow) :=
  mkWindow (m_renderer w) (m_viewportList w) (m_dbTreeWidget w)
    (s_viewportIndex w) (shown w ++ [d]).

(** The window once [main] has shown it: constructed, with the renderer
    widget constructed and its OpenGL state initialised. *)
Definition window_start : MainWindow :=
  mkWindow (initializeGL renderer_new) [] [] 0 [].

(** ** The snapshot list *)

(** [updateTreeWidget]: one more item, with the name and the pointer. *)
Definition updateTreeWidget (ptr : nat) (w : MainWindow) : MainWindow :=
  match nth_error (m_viewportList w) ptr with
  | Some viewport =>
      set_tree (m_dbTreeWidget w ++ [mkItem (getName viewport) (Some ptr)]) w
  | None => w
  end.

(** [addToDB]: append the new object and show it in the tree. *)
Definition addToDB (viewport : ViewportObject M) (w : MainWindow) : MainWindow :=
  let ptr := List.length (m_viewportList w) in
  let w := set_viewportList (m_viewportList w ++ [viewport]) w in
  updateTreeWidget ptr w.

(** [QString("Viewport #%1").arg(n)]. *)
Definition viewport_name (n : N) : string := "Viewport #" ++ decimal_of_N n.

(** [++s_viewportIndex]. *)
Definition next_index (w : MainWindow) : N := ((s_viewportIndex w + 1) mod UINT_MOD)%N.

(** ** The slots *)

(** [openPointCloudFile], given the file name the dialog returned; [None]
    when the loader's behaviour is undefined. *)
Definition openPointCloudFile (filename : string) (w : MainWindow)
    : option MainWindow :=
  let finish (r : PointCloudRenderer M) (success : bool) :=
    if negb success then show_dialog WarnLoadError (set_renderer r w)
    else set_renderer (update r) w in
  if isEmpty filename then Some w
  else if endsWith_ci filename ".pts" then
    let '(r, success) := loadPtsFile fs filename (m_renderer w) in
    Some (finish r success)
  else if endsWith_ci filename ".ply" then
    match loadPlyFile fs filename (m_renderer w) with
    | Some (r, success) => Some (finish r success)
    | None => None
    end
  else Some (show_dialog WarnUnsupportedFormat w).

(** The slot [MainWindow::resetView]. *)
Definition window_resetView (w : MainWindow) : MainWindow :=
  set_renderer (update (resetView (m_renderer w))) w.

Definition doActionSaveViewportAsObject (w : MainWindow) : MainWindow :=
  if (getPointCount (m_renderer w) =? 0)%nat then w
  else
    let w := set_viewportIndex (next_index w) w in
    let viewportObject := viewport_new (viewport_name (s_viewportIndex w)) in
    let viewportObject :=
      setParameters (getViewportParameters (m_renderer w)) viewportObject in
    let viewportObject := setDisplay the_renderer viewportObject in
    addToDB viewportObject w.

(** A parameter record with another centre and distance. *)
Definition with_center_distance (c : QVector3D) (d : f32)
    (p : ViewportParameters M) : ViewportParameters M :=
  mkParams (modelViewMatrix p) (projectionMatrix p) d (rotation p) c
    (pointSize p) (boundingBoxMin p) (boundingBoxMax p).

(** [doActionSaveViewportWithUserCoords], given what the three input
    dialogs return ([double]s, [None] when cancelled). *)
Definition doActionSaveViewportWithUserCoords (x y z : option spec_float)
    (w : MainWindow) : MainWindow :=
  if (getPointCount (m_renderer w) =? 0)%nat then show_dialog WarnNoPointCloud w
  else
    let params := getViewportParameters (m_renderer w) in
    let currentCameraCenter := modelCenter params in
    let bboxSize := getBoundingBoxSize (m_renderer w) in
    let sceneSize := vec3_length bboxSize in
    if f32_le sceneSize f32_zero then show_dialog WarnNoBoundingBox w
    else
      let w := show_dialog (InfoCameraPosition currentCameraCenter) w in
      match x with
      | None => w
      | Some x =>
      match y with
      | None => w
      | Some y =>
      match z with
      | None => w
      | Some z =>
          let params :=
            with_center_distance
              (mkVec3 (f32_of_f64 x) (f32_of_f64 y) (f32_of_f64 z))
              (f32_mul sceneSize f32_1_5) params in
          let w := set_renderer (update (setViewport params (m_renderer w))) w in
          let w := set_viewportIndex (next_index w) w in
          let viewportObject := viewport_new (viewport_name (s_viewportIndex w)) in
          let viewportObject := setParameters params viewportObject in
          let viewportObject := setDisplay the_renderer viewportObject in
          addToDB viewportObject w
      end end end.

(** [onTreeWidgetItemDoubleClicked] on the item at position [item]. *)
Definition onTreeWidgetItemDoubleClicked (item : nat) (w : MainWindow) : MainWindow :=
  match nth_error (m_dbTreeWidget w) item with
  | Some it =>
      match item_data it with
      | Some ptr =>
          match nth_error (m_viewportList w) ptr with
          | Some viewport =>
              match applyViewport viewport (Some (m_renderer w)) with
              | Some r => set_renderer r w
              | None => w
              end
          | None => w
          end
      | None => w
      end
  | None => w
  end.

(** ** Events of a session

    [UiRenderer] is an event of the renderer widget (resize, paint, mouse,
    wheel).  It admits every renderer event, also the calls of the
    renderer's public slots that only the window makes: the reachable
    states of the model include those of the program. *)

Inductive UiEvent : Type :=
| UiOpen (filename : string)
| UiResetView
| UiSaveViewport
| UiSaveViewportWithCoords (x y z : option spec_float)
| UiDoubleClick (item : nat)
| UiRenderer (e : Event M).

Definition ui_handle (e : UiEvent) (w : MainWindow) : option MainWindow :=
  match e with
  | UiOpen filename => openPointCloudFile filename w
  | UiResetView => Some (window_resetView w)
  | UiSaveViewport => Some (doActionSaveViewportAsObject w)
  | UiSaveViewportWithCoords x y z => Some (doActionSaveViewportWithUserCoords x y z w)
  | UiDoubleClick item => Some (onTreeWidgetItemDoubleClicked item w)
  | UiRenderer e' => option_map (fun r => set_renderer r w) (handle fs e' (m_renderer w))
  end.

Fixpoint ui_run (es : list UiEvent) (w : MainWindow) : option MainWindow :=
  match es with
  | [] => Some w
  | e :: es' => match ui_handle e w with Some w' => ui_run es' w' | None => None end
  end.

Inductive ui_reachable : MainWindow -> Prop :=
| ui_reach_start : ui_reachable window_start
| ui_reach_step w e w' : ui_reachable w -> ui_handle e w = Some w' -> ui_reachable w'.

End MainWindow.

Arguments MainWindow M : clear implicits.
Arguments UiEvent M : clear implicits.

(** * Theory *)

Section MainWindowTheory.
Context {M : Type} `{Matrix4x4 M} {libm : Libm} {T2F : TokenToFloat} {NG : NumGet}.
Variable fs : FileSystem.

Local Abbreviation Window := (MainWindow M).

(** The tree a list of snapshots is shown as: item [i] carries the name of
    snapshot [i] and points to it. *)
Fixpoint tree_from (i : nat) (l : list (ViewportObject M)) : list TreeItem :=
  match l with
  | [] => []
  | v :: l' => mkItem (getName v) (Some i) :: tree_from (S i) l'
  end.

(** The name of the [i]-th capture of a session (from 1). *)
Definition nth_name (i : nat) : string := viewport_name (N.of_nat i mod UINT_MOD).

(** The invariant of a session. *)
Record window_inv (w : Window) : Prop := {
  inv_tree : m_dbTreeWidget w = tree_from 0 (m_viewportList w);
  inv_names :
    map getName (m_viewportList w) =
    map nth_name (seq 1 (List.length (m_viewportList w)));
  inv_counter :
    s_viewportIndex w = (N.of_nat (List.length (m_viewportList w)) mod UINT_MOD)%N;
  inv_display : Forall (fun v => getDisplay v = the_renderer) (m_viewportList w);
  inv_view : view_consistent (m_renderer w)
}.

(** The snapshots of [w] are the first snapshots of [w'], unchanged. *)
Definition snapshots_kept (w w' : Window) : Prop :=
  exists more, m_viewportList w' = m_viewportList w ++ more.

(** The events that are slots of the window. *)
Definition is_slot (e : UiEvent M) : bool :=
  match e with UiRenderer _ => false | _ => true end.

(** What both capture slots do once the parameters to store are known:
    advance the counter, build the named object, append it. *)
Definition register (p : ViewportParameters M) (w : Window) : Window :=
  let w := set_viewportIndex (next_index w) w in
  addToDB
    (setDisplay the_renderer
       (setParameters p (viewport_new (viewport_name (s_viewportIndex w))))) w.

(** ** The list and the tree *)
Lemma tree_from_app i l v :
  tree_from i (l ++ [v]) =
  tree_from i l ++ [mkItem (getName v) (Some (i + List.length l))].
Proof.
  revert i; induction l as [|a l IH]; intros i; simpl.
  - now rewrite Nat.add_0_r.
  - now rewrite IH, Nat.add_succ_r.
Qed.

Lemma tree_from_length i l : List.length (tree_from i l) = List.length l.
Proof. revert i; induction l; simpl; auto. Qed.

Lemma tree_from_nth i l k v :
  nth_error l k = Some v ->
  nth_error (tree_from i l) k = Some (mkItem (getName v) (Some (i + k))).
Proof.
  revert i k; induction l as [|a l IH]; intros i [|k] E; simpl in *; try discriminate.
  - inv E. now rewrite Nat.add_0_r.
  - rewrite (IH _ _ E). now rewrite Nat.add_succ_r.
Qed.

Lemma addToDB_spec v (w : Window) :
  m_viewportList (addToDB v w) = m_viewportList w ++ [v] /\
  m_dbTreeWidget (addToDB v w) =
    m_dbTreeWidget w ++ [mkItem (getName v) (Some (List.length (m_viewportList w)))] /\
  m_renderer (addToDB v w) = m_renderer w /\
  s_viewportIndex (addToDB v w) = s_viewportIndex w /\
  shown (addToDB v w) = shown w.
Proof.
  unfold addToDB, updateTreeWidget; simpl.
  rewrite nth_error_app2, Nat.sub_diag by lia; simpl. repeat split.
Qed.

Lemma next_index_inv (w : Window) :
  s_viewportIndex w = (N.of_nat (List.length (m_viewportList w)) mod UINT_MOD)%N ->
  next_index w = (N.of_nat (S (List.length (m_viewportList w))) mod UINT_MOD)%N.
Proof.
  unfold next_index; intros ->.
  rewrite Nat2N.inj_succ, <- N.add_1_r.
  rewrite N.Div0.add_mod_idemp_l; reflexivity.
Qed.

(** Both capture slots end the same way. *)
Lemma doActionSaveViewportAsObject_register (w : Window) :
  doActionSaveViewportAsObject w =
  if (getPointCount (m_renderer w) =? 0)%nat then w
  else register (getViewportParameters (m_renderer w)) w.
Proof. reflexivity. Qed.

Lemma register_spec p (w : Window) :
  let v := mkViewport p the_renderer (viewport_name (next_index w)) in
  m_viewportList (register p w) = m_viewportList w ++ [v] /\
  m_dbTreeWidget (register p w) =
    m_dbTreeWidget w ++
    [mkItem (viewport_name (next_index w)) (Some (List.length (m_viewportList w)))] /\
  m_renderer (register p w) = m_renderer w /\
  s_viewportIndex (register p w) = next_index w /\
  shown (register p w) = shown w.
Proof.
  unfold register.
  destruct (addToDB_spec
    (setDisplay the_renderer
       (setParameters p (viewport_new (viewport_name (next_index w)))))
    (set_viewportIndex (next_index w) w)) as (L & T & R & I & S).
  simpl in *. now rewrite L, T, R, I, S.
Qed.

(** Registering a snapshot keeps the invariant. *)
Lemma register_inv p (w : Window) : window_inv w -> window_inv (register p w).
Proof.
  intros [T Nm C D V].
  destruct (register_spec p w) as (L & Tr & R & I & _); simpl in *.
  pose proof (next_index_inv w C) as Nx.
  constructor; rewrite ?L, ?Tr, ?R, ?I, ?length_app; simpl.
  - now rewrite tree_from_app, T.
  - rewrite Nat.add_1_r, seq_S, !map_app, Nm; simpl. now rewrite Nx.
  - now rewrite Nat.add_1_r.
  - apply Forall_app; split; [exact D | constructor; [reflexivity | constructor]].
  - exact V.
Qed.

(** ** The invariant, slot by slot *)
Lemma set_renderer_inv r (w : Window) :
  window_inv w -> view_consistent r -> window_inv (set_renderer r w).
Proof. intros [T Nm C D V] Hr; constructor; assumption. Qed.

Lemma show_dialog_inv d (w : Window) : window_inv w -> window_inv (show_dialog d w).
Proof. intros [T Nm C D V]; constructor; assumption. Qed.

#[local] Hint Resolve set_renderer_inv show_dialog_inv register_inv : pcv.

Lemma window_start_inv : window_inv window_start.
Proof. constructor; try reflexivity. constructor. Qed.

Lemma openPointCloudFile_inv filename (w w' : Window) :
  window_inv w -> openPointCloudFile fs filename w = Some w' -> window_inv w'.
Proof.
  intros I; unfold openPointCloudFile.
  destruct (isEmpty filename); [now intros [= <-]|].
  destruct (endsWith_ci filename ".pts").
  - pose proof (loadPtsFile_consistent fs filename _ (inv_view _ I)) as V.
    destruct (loadPtsFile fs filename (m_renderer w)) as [r []]; intros [= <-];
      simpl; auto with pcv.
  - destruct (endsWith_ci filename ".ply");
      [|intros [= <-]; auto with pcv].
    destruct (loadPlyFile fs filename (m_renderer w)) as [[r ok]|] eqn:E;
      [|discriminate].
    pose proof (loadPlyFile_consistent fs _ _ _ _ (inv_view _ I) E) as V.
    destruct ok; intros [= <-]; simpl; auto with pcv.
Qed.

Lemma doActionSaveViewportAsObject_inv (w : Window) :
  window_inv w -> window_inv (doActionSaveViewportAsObject w).
Proof.
  intros I; rewrite doActionSaveViewportAsObject_register.
  destruct (_ =? _)%nat; auto with pcv.
Qed.

(** The second capture slot, by cases on its guards and its dialogs. *)
Lemma doActionSaveViewportWithUserCoords_cases x y z (w : Window) :
  let r := m_renderer w in
  let sceneSize := vec3_length (getBoundingBoxSize r) in
  let params := getViewportParameters r in
  let w1 := show_dialog (InfoCameraPosition (modelCenter params)) w in
  doActionSaveViewportWithUserCoords x y z w =
  if (getPointCount r =? 0)%nat then show_dialog WarnNoPointCloud w
  else if f32_le sceneSize f32_zero then show_dialog WarnNoBoundingBox w
  else match x, y, z with
       | Some x, Some y, Some z =>
           let params' :=
             with_center_distance
               (mkVec3 (f32_of_f64 x) (f32_of_f64 y) (f32_of_f64 z))
               (f32_mul sceneSize f32_1_5) params in
           register params' (set_renderer (update (setViewport params' r)) w1)
       | _, _, _ => w1
       end.
Proof.
  unfold doActionSaveViewportWithUserCoords; simpl.
  destruct (_ =? _)%nat; [reflexivity|].
  destruct (f32_le _ _); [reflexivity|].
  destruct x, y, z; reflexivity.
Qed.

Lemma doActionSaveViewportWithUserCoords_inv x y z (w : Window) :
  window_inv w -> window_inv (doActionSaveViewportWithUserCoords x y z w).
Proof.
  intros I; rewrite doActionSaveViewportWithUserCoords_cases; cbv zeta.
  destruct (_ =? _)%nat; [apply show_dialog_inv, I|].
  destruct (f32_le _ _); [apply show_dialog_inv, I|].
  destruct x as [x|], y as [y|], z as [z|];
    lazymatch goal with
    | |- window_inv (show_dialog _ _) => apply show_dialog_inv, I
    | |- _ => idtac
    end.
  apply register_inv, set_renderer_inv; [apply show_dialog_inv, I|].
  apply update_consistent, setViewport_consistent.
Qed.

(** A double click on an item of a session replays the snapshot at the
    same position. *)
Lemma onTreeWidgetItemDoubleClicked_spec item (w : Window) :
  window_inv w ->
  onTreeWidgetItemDoubleClicked item w =
  match nth_error (m_viewportList w) item with
  | Some v => set_renderer (update (setViewport (getParameters v) (m_renderer w))) w
  | None => w
  end.
Proof.
  intros I; unfold onTreeWidgetItemDoubleClicked; rewrite (inv_tree _ I).
  destruct (nth_error (m_viewportList w) item) as [v|] eqn:E.
  - rewrite (tree_from_nth 0 _ _ _ E); simpl. now rewrite E.
  - destruct (nth_error (tree_from 0 _) item) eqn:E'; [|reflexivity].
    apply nth_error_None in E. rewrite <- (tree_from_length 0) in E.
    apply nth_error_None in E; congruence.
Qed.

Lemma onTreeWidgetItemDoubleClicked_inv item (w : Window) :
  window_inv w -> window_inv (onTreeWidgetItemDoubleClicked item w).
Proof.
  intros I; rewrite onTreeWidgetItemDoubleClicked_spec by exact I.
  destruct (nth_error _ item); [|exact I].
  apply set_renderer_inv; [exact I | apply update_consistent, setViewport_consistent].
Qed.

Lemma ui_handle_inv e (w w' : Window) :
  window_inv w -> ui_handle fs e w = Some w' -> window_inv w'.
Proof.
  intros I; destruct e; simpl; try (intros [= <-]);
    eauto using openPointCloudFile_inv, doActionSaveViewportAsObject_inv,
      doActionSaveViewportWithUserCoords_inv, onTreeWidgetItemDoubleClicked_inv.
  - apply set_renderer_inv; [exact I | apply update_consistent, resetView_consistent].
  - destruct (handle fs e (m_renderer w)) as [r|] eqn:E; [|discriminate].
    intros [= <-]. apply set_renderer_inv; [exact I|].
    eapply handle_consistent; [exact (inv_view _ I) | exact E].
Qed.

Lemma ui_run_inv es (w w' : Window) :
  window_inv w -> ui_run fs es w = Some w' -> window_inv w'.
Proof.
  revert w; induction es as [|e es IH]; simpl; intros w I; [now intros [= <-]|].
  destruct (ui_handle fs e w) eqn:E; [|discriminate]. eauto using ui_handle_inv.
Qed.

(** C33: every state a session can reach satisfies the invariant: the tree
    shows exactly the snapshot list in capture order, the [i]-th snapshot
    is named after the counter value [i], the counter is the number of
    snapshots modulo 2^32, every snapshot points to the window's renderer,
    and the renderer's model-view matrix is consistent. *)
Theorem ui_reachable_inv (w : Window) : ui_reachable fs w -> window_inv w.
Proof.
  intros R; induction R as [|w e w' _ IH E].
  - exact window_start_inv.
  - eapply ui_handle_inv; eassumption.
Qed.

(** ** Capture *)

(** A capture without a loaded cloud does nothing at all: no
    snapshot, no counter step, no dialog. *)
Theorem capture_needs_cloud (w : Window) :
  getPointCount (m_renderer w) = 0%nat -> doActionSaveViewportAsObject w = w.
Proof. intros E; unfold doActionSaveViewportAsObject; now rewrite E. Qed.

Lemma capture_effect_aux (w : Window) :
  window_inv w -> getPointCount (m_renderer w) <> 0%nat ->
  m_viewportList (doActionSaveViewportAsObject w) =
    m_viewportList w ++
    [mkViewport (getViewportParameters (m_renderer w)) the_renderer
       (nth_name (S (List.length (m_viewportList w))))] /\
  m_dbTreeWidget (doActionSaveViewportAsObject w) =
    m_dbTreeWidget w ++
    [mkItem (nth_name (S (List.length (m_viewportList w))))
       (Some (List.length (m_viewportList w)))].
Proof.
  intros I P. rewrite doActionSaveViewportAsObject_register.
  apply Nat.eqb_neq in P; rewrite P.
  destruct (register_spec (getViewportParameters (m_renderer w)) w) as (L & T & _).
  cbv zeta in L, T. rewrite (next_index_inv w (inv_counter _ I)) in L, T.
  now rewrite L, T.
Qed.

(** In a session with a loaded cloud, a capture appends one snapshot
    holding the renderer's current parameters (a copy), the window's
    renderer, and the name of the next counter value; the tree gets the
    matching item last; the renderer is not touched. *)
Theorem capture_effect (w : Window) :
  window_inv w -> getPointCount (m_renderer w) <> 0%nat ->
  let w' := doActionSaveViewportAsObject w in
  let n := List.length (m_viewportList w) in
  m_viewportList w' =
    m_viewportList w ++
    [mkViewport (getViewportParameters (m_renderer w)) the_renderer (nth_name (S n))] /\
  m_dbTreeWidget w' = m_dbTreeWidget w ++ [mkItem (nth_name (S n)) (Some n)] /\
  m_renderer w' = m_renderer w.
Proof.
  intros I P; cbv zeta. destruct (capture_effect_aux w I P) as (L & T).
  split; [exact L | split; [exact T|]].
  rewrite doActionSaveViewportAsObject_register.
  apply Nat.eqb_neq in P; rewrite P. apply register_spec.
Qed.

(** ** The list only grows *)
Lemma snapshots_kept_refl (w : Window) : snapshots_kept w w.
Proof. exists []; now rewrite app_nil_r. Qed.

Lemma snapshots_kept_trans (w1 w2 w3 : Window) :
  snapshots_kept w1 w2 -> snapshots_kept w2 w3 -> snapshots_kept w1 w3.
Proof. intros [m1 E1] [m2 E2]; exists (m1 ++ m2); now rewrite E2, E1, app_assoc. Qed.

Lemma snapshots_kept_same (w w' : Window) :
  m_viewportList w' = m_viewportList w -> snapshots_kept w w'.
Proof. intros E; exists []; now rewrite app_nil_r. Qed.

Lemma register_kept p (w : Window) : snapshots_kept w (register p w).
Proof. eexists; apply register_spec. Qed.

Lemma openPointCloudFile_list filename (w w' : Window) :
  openPointCloudFile fs filename w = Some w' -> m_viewportList w' = m_viewportList w.
Proof.
  unfold openPointCloudFile.
  destruct (isEmpty filename); [now intros [= <-]|].
  destruct (endsWith_ci filename ".pts").
  - destruct (loadPtsFile _ _ _) as [r []]; now intros [= <-].
  - destruct (endsWith_ci filename ".ply"); [|now intros [= <-]].
    destruct (loadPlyFile _ _ _) as [[r []]|]; now intros [= <-].
Qed.

Lemma ui_handle_kept e (w w' : Window) :
  window_inv w -> ui_handle fs e w = Some w' -> snapshots_kept w w'.
Proof.
  intros I; destruct e; simpl.
  - intros E; apply snapshots_kept_same, (openPointCloudFile_list _ _ _ E).
  - intros [= <-]; now apply snapshots_kept_same.
  - intros [= <-]; rewrite doActionSaveViewportAsObject_register.
    destruct (_ =? _)%nat; auto using snapshots_kept_refl, register_kept.
  - intros [= <-]; rewrite doActionSaveViewportWithUserCoords_cases; cbv zeta.
    destruct (_ =? _)%nat; [now apply snapshots_kept_same|].
    destruct (f32_le _ _); [now apply snapshots_kept_same|].
    destruct x, y, z; try (now apply snapshots_kept_same).
    eapply snapshots_kept_trans; [|apply register_kept].
    now apply snapshots_kept_same.
  - intros [= <-]; rewrite onTreeWidgetItemDoubleClicked_spec by exact I.
    destruct (nth_error _ item); now apply snapshots_kept_same.
  - destruct (handle fs e (m_renderer w)); [|discriminate].
    intros [= <-]; now apply snapshots_kept_same.
Qed.

Lemma ui_run_kept es (w w' : Window) :
  window_inv w -> ui_run fs es w = Some w' -> snapshots_kept w w'.
Proof.
  revert w; induction es as [|e es IH]; simpl; intros w I.
  - intros [= <-]; apply snapshots_kept_refl.
  - destruct (ui_handle fs e w) as [w1|] eqn:E; [|discriminate]. intros R.
    eapply snapshots_kept_trans; [eapply ui_handle_kept; eassumption|].
    eapply IH; [eapply ui_handle_inv|]; eassumption.
Qed.

(** The registry is append-only and its snapshots immutable: whatever
    a session does after a snapshot was stored at position [i], the same
    snapshot is still at position [i]. *)
Theorem snapshots_immutable es (w w' : Window) i v :
  window_inv w -> ui_run fs es w = Some w' ->
  nth_error (m_viewportList w) i = Some v ->
  nth_error (m_viewportList w') i = Some v.
Proof.
  intros I Run E.
  destruct (ui_run_kept es w w' I Run) as [more ->].
  rewrite nth_error_app1; [exact E | apply nth_error_Some; congruence].
Qed.

(** ** Names *)
Lemma append_inj_r (p a b : string) : (p ++ a)%string = (p ++ b)%string -> a = b.
Proof. induction p; simpl; [auto | intros [= E]; auto]. Qed.

Lemma viewport_name_inj n m : viewport_name n = viewport_name m -> n = m.
Proof. intros E; apply append_inj_r in E. now apply decimal_of_N_inj. Qed.

Lemma nth_name_inj i j :
  (N.of_nat i < UINT_MOD)%N -> (N.of_nat j < UINT_MOD)%N ->
  nth_name i = nth_name j -> i = j.
Proof.
  intros Hi Hj E; apply viewport_name_inj in E.
  rewrite !N.mod_small in E by assumption. now apply Nat2N.inj.
Qed.

Lemma NoDup_map_seq (f : nat -> string) start len :
  (forall i j, start <= i < start + len -> start <= j < start + len ->
               f i = f j -> i = j) ->
  NoDup (map f (seq start len)).
Proof.
  revert start; induction len as [|len IH]; intros start Inj; simpl; constructor.
  - rewrite in_map_iff; intros (j & E & Hj). apply in_seq in Hj.
    apply Inj in E; lia.
  - apply IH; intros i j Hi Hj; apply Inj; lia.
Qed.

(** As long as fewer than 2^32 snapshots exist, no two snapshots of a
    session share a name. *)
Theorem names_distinct (w : Window) :
  window_inv w ->
  (N.of_nat (List.length (m_viewportList w)) < UINT_MOD)%N ->
  NoDup (map getName (m_viewportList w)).
Proof.
  intros I B; rewrite (inv_names _ I).
  apply NoDup_map_seq; intros i j Hi Hj; apply nth_name_inj; lia.
Qed.

(** ** Replay *)

(** A double click on item [i] of a session gives the renderer the
    parameters of snapshot [i], with the model-view matrix recomputed from
    them, and requests a repaint; the vertices, the list and the tree stay
    as they are. *)
Theorem double_click_replays i v (w : Window) :
  window_inv w -> nth_error (m_viewportList w) i = Some v ->
  let w' := onTreeWidgetItemDoubleClicked i w in
  getViewportParameters (m_renderer w') = vp_normalize (getParameters v) /\
  m_updatePending (m_renderer w') = true /\
  m_vertices (m_renderer w') = m_vertices (m_renderer w) /\
  m_viewportList w' = m_viewportList w /\
  m_dbTreeWidget w' = m_dbTreeWidget w.
Proof.
  intros I E; cbv zeta.
  rewrite onTreeWidgetItemDoubleClicked_spec, E by exact I.
  repeat split.
Qed.

(** C34: capture, then anything at all (loads, drags, zooms, other
    captures and replays), then a double click on the captured item: the
    renderer has exactly the captured parameters again, the model-view
    matrix included. *)
Theorem capture_then_replay es (w w1 w2 : Window) :
  window_inv w -> getPointCount (m_renderer w) <> 0%nat ->
  ui_run fs es (doActionSaveViewportAsObject w) = Some w1 ->
  w2 = onTreeWidgetItemDoubleClicked (List.length (m_viewportList w)) w1 ->
  getViewportParameters (m_renderer w2) = getViewportParameters (m_renderer w).
Proof.
  intros I P Run ->.
  pose proof (doActionSaveViewportAsObject_inv w I) as I0.
  pose proof (ui_run_inv _ _ _ I0 Run) as I1.
  destruct (capture_effect_aux w I P) as (L & _).
  destruct (ui_run_kept _ _ _ I0 Run) as [more K].
  assert (nth_error (m_viewportList w1) (List.length (m_viewportList w)) =
          Some (mkViewport (getViewportParameters (m_renderer w)) the_renderer
                  (nth_name (S (List.length (m_viewportList w)))))) as E.
  { rewrite K, L, <- app_assoc; simpl. now rewrite nth_error_app2, Nat.sub_diag by lia. }
  rewrite onTreeWidgetItemDoubleClicked_spec, E by exact I1.
  apply vp_normalize_id, (inv_view _ I).
Qed.

(** ** Repaint requests *)
Lemma openPointCloudFile_repaint filename (w w' : Window) :
  openPointCloudFile fs filename w = Some w' ->
  shown w' <> shown w ++ [WarnLoadError] ->
  m_renderer w' = m_renderer w \/ m_updatePending (m_renderer w') = true.
Proof.
  unfold openPointCloudFile.
  destruct (isEmpty filename); [intros [= <-]; now left|].
  destruct (endsWith_ci filename ".pts").
  - destruct (loadPtsFile _ _ _) as [r []]; intros [= <-]; simpl;
      [now right | now intros []].
  - destruct (endsWith_ci filename ".ply"); [|intros [= <-]; now left].
    destruct (loadPlyFile _ _ _) as [[r []]|]; try discriminate;
      intros [= <-]; simpl; [now right | now intros []].
Qed.

(** Every slot that changes what the next paint draws leaves a repaint
    requested, unless it reported a load error: [setViewport] is always
    followed by [update()], in the replay and in the capture with
    coordinates. *)
Theorem slot_repaint_on_change e (w w' : Window) :
  window_inv w -> is_slot e = true -> ui_handle fs e w = Some w' ->
  shown w' <> shown w ++ [WarnLoadError] ->
  drawn (m_renderer w') <> drawn (m_renderer w) ->
  m_updatePending (m_renderer w') = true.
Proof.
  intros I Sl E N D.
  enough (m_renderer w' = m_renderer w \/ m_updatePending (m_renderer w') = true)
    as [R|R]; [now rewrite R in D | exact R|].
  destruct e; simpl in E; try discriminate Sl; clear Sl D.
  - eapply openPointCloudFile_repaint; eassumption.
  - injection E as <-; now right.
  - injection E as <-; left. rewrite doActionSaveViewportAsObject_register.
    destruct (_ =? _)%nat; [reflexivity | apply register_spec].
  - injection E as <-. rewrite doActionSaveViewportWithUserCoords_cases; cbv zeta.
    destruct (_ =? _)%nat; [now left|]. destruct (f32_le _ _); [now left|].
    destruct x, y, z; try (now left). right.
    now rewrite (proj1 (proj2 (proj2 (register_spec _ _)))).
  - injection E as <-. rewrite onTreeWidgetItemDoubleClicked_spec by exact I.
    destruct (nth_error _ item); [now right | now left].
Qed.

End MainWindowTheory.

(** * Sessions on concrete files *)

Section MainWindowScenarios.

#[local] Existing Instance LibmUnitSteps.
#[local] Existing Instance QtTokenToFloat.
#[local] Existing Instance StdNumGet.

(** A session: the slots run from the window as shown, on the files of
    [example_fs]. *)
Definition session (es : list (UiEvent SymMatrix)) : option (MainWindow SymMatrix) :=
  ui_run example_fs es window_start.

Definition names_of (w : MainWindow SymMatrix) : list string :=
  map getName (m_viewportList w).

Definition coords (x y z : Z) : UiEvent SymMatrix :=
  UiSaveViewportWithCoords (Some (f32_of_Z x)) (Some (f32_of_Z y)) (Some (f32_of_Z z)).

Lemma ui_run_reachable fs es (w w' : MainWindow SymMatrix) :
  ui_reachable fs w -> ui_run fs es w = Some w' -> ui_reachable fs w'.
Proof.
  revert w; induction es as [|e es IH]; simpl; intros w R; [now intros [= <-]|].
  destruct (ui_handle fs e w) eqn:E; [|discriminate].
  apply IH. eapply ui_reach_step; eassumption.
Qed.

Lemma session_inv es w : session es = Some w -> window_inv w.
Proof. apply ui_run_inv, window_start_inv. Qed.

(** Scenario D: two captures after a load are named [Viewport #1] and
    [Viewport #2], in that order, in the list and in the tree. *)
Theorem scenario_D :
  option_map names_of (session [UiOpen "a.pts"; UiSaveViewport; UiSaveViewport]) =
    Some ["Viewport #1"; "Viewport #2"] /\
  option_map (fun w => map item_text (m_dbTreeWidget w))
    (session [UiOpen "a.pts"; UiSaveViewport; UiSaveViewport]) =
    Some ["Viewport #1"; "Viewport #2"].
Proof. split; vm_compute; reflexivity. Qed.

(** Opening a file: upper-case extensions are accepted, other extensions
    and missing files are reported, and a cancelled dialog does nothing. *)
Theorem open_dialogs :
  option_map (@shown _) (session [UiOpen "A.PTS"]) = Some [WarnLoadError] /\
  option_map (@shown _) (session [UiOpen "a.xyz"]) = Some [WarnUnsupportedFormat] /\
  option_map (@shown _) (session [UiOpen "a.pts"]) = Some [] /\
  option_map (@shown _) (session [UiOpen "noz.ply"]) = Some [WarnLoadError] /\
  session [UiOpen ""] = Some window_start.
Proof. repeat split; vm_compute; reflexivity. Qed.

(** The state of a session after a load, a zoom step and a capture. *)
Definition captured : option (MainWindow SymMatrix) :=
  session [UiOpen "a.pts"; UiRenderer (EvWheel 120); UiSaveViewport].

Lemma ui_reachable_inv_witness :
  match captured with Some w => window_inv w | None => False end.
Proof.
  destruct captured as [w|] eqn:E; [|vm_compute in E; discriminate E].
  apply (ui_reachable_inv example_fs).
  exact (ui_run_reachable _ _ _ _ (ui_reach_start _) E).
Defined.

Lemma capture_needs_cloud_witness :
  doActionSaveViewportAsObject (window_start (M := SymMatrix)) = window_start.
Proof. apply capture_needs_cloud. reflexivity. Defined.

(** The window after [a.pts] was opened, and after a capture. *)
Definition w_loaded : MainWindow SymMatrix :=
  set_renderer (update (fst (loadPtsFile example_fs "a.pts" (m_renderer window_start))))
    window_start.

Definition w_captured : MainWindow SymMatrix := doActionSaveViewportAsObject w_loaded.

Lemma w_loaded_inv : window_inv w_loaded.
Proof.
  apply set_renderer_inv; [apply window_start_inv|].
  apply update_consistent, loadPtsFile_consistent, window_start_inv.
Qed.

Lemma w_loaded_session : session [UiOpen "a.pts"] = Some w_loaded.
Proof. vm_compute; reflexivity. Qed.

Lemma w_captured_inv : window_inv w_captured.
Proof. apply doActionSaveViewportAsObject_inv, w_loaded_inv. Qed.

Lemma capture_effect_witness :
  m_viewportList w_captured =
    [mkViewport (getViewportParameters (m_renderer w_loaded)) the_renderer "Viewport #1"].
Proof.
  refine (proj1 (capture_effect w_loaded w_loaded_inv _)).
  vm_compute; discriminate.
Defined.

Lemma snapshots_immutable_witness :
  match session [UiOpen "a.pts"; UiSaveViewport; UiOpen "far.pts"; coords 0 0 0;
                 UiDoubleClick 1; UiResetView] with
  | Some w' => nth_error (m_viewportList w') 0 = nth_error (m_viewportList w_captured) 0
  | None => False
  end.
Proof.
  destruct (session _) as [w'|] eqn:E; [|vm_compute in E; discriminate E].
  refine (snapshots_immutable example_fs
            [UiOpen "far.pts"; coords 0 0 0; UiDoubleClick 1; UiResetView]
            w_captured w' 0 _ w_captured_inv E eq_refl).
Defined.

Lemma names_distinct_witness : NoDup (map getName (m_viewportList w_captured)).
Proof. apply names_distinct; [apply w_captured_inv | vm_compute; reflexivity]. Defined.

Lemma double_click_replays_witness :
  getViewportParameters (m_renderer (onTreeWidgetItemDoubleClicked 0 w_captured)) =
  getViewportParameters (m_renderer w_loaded).
Proof.
  refine (eq_trans (proj1 (double_click_replays 0 _ w_captured w_captured_inv eq_refl)) _).
  vm_compute; reflexivity.
Defined.

Lemma capture_then_replay_witness :
  match ui_run example_fs
          [UiRenderer (EvWheel 120); UiOpen "far.pts"; UiSaveViewport; UiResetView]
          w_captured with
  | Some w1 =>
      getViewportParameters (m_renderer (onTreeWidgetItemDoubleClicked 0 w1)) =
      getViewportParameters (m_renderer w_loaded)
  | None => False
  end.
Proof.
  destruct (ui_run _ _ _) as [w1|] eqn:E; [|vm_compute in E; discriminate E].
  refine (capture_then_replay example_fs _ w_loaded w1 _ w_loaded_inv _ E eq_refl).
  vm_compute; discriminate.
Defined.

(** The witness of [slot_repaint_on_change]: a replay after a zoom step. *)
Lemma slot_repaint_on_change_witness :
  m_updatePending
    (m_renderer
       (onTreeWidgetItemDoubleClicked 0
          (set_renderer (wheelEvent 120 (m_renderer w_captured)) w_captured))) = true.
Proof.
  refine (slot_repaint_on_change example_fs (UiDoubleClick 0) _ _ _ eq_refl eq_refl _ _).
  - apply set_renderer_inv; [exact w_captured_inv | apply wheelEvent_consistent].
  - vm_compute; discriminate.
  - vm_compute; discriminate.
Defined.

(** ** What the sessions show *)

(** The snapshot stored by the capture with user coordinates carries
    the centre and the distance the user asked for together with the
    model-view matrix of the view before: its parameters are not
    consistent, and differ from the parameters the renderer has after the
    same slot. *)
Theorem user_coords_snapshot_stale_matrix :
  match session [UiOpen "a.pts"; coords 0 0 0] with
  | Some w =>
      match m_viewportList w with
      | [v] =>
          modelCenter (getParameters v) = vec3_zero /\
          modelViewMatrix (getParameters v) = m_modelView (m_renderer w_loaded) /\
          modelViewMatrix (getParameters v) <>
            view_matrix (cameraDistance (getParameters v)) (rotation (getParameters v))
              (modelCenter (getParameters v)) /\
          getViewportParameters (m_renderer w) = vp_normalize (getParameters v)
      | _ => False
      end
  | None => False
  end.
Proof. vm_compute. repeat split; discriminate. Qed.

(** A snapshot replayed after another cloud was loaded overwrites the
    bounding box and the centre of the loaded cloud with those of the cloud
    it was captured on: afterwards the box no longer bounds the vertices. *)
Theorem replay_after_load_breaks_box :
  match session [UiOpen "a.pts"; UiSaveViewport; UiOpen "far.pts"; UiDoubleClick 0] with
  | Some w =>
      let r := m_renderer w in
      m_boundingBoxMax r = mkVec3 (f32_of_Z 4) (f32_of_Z 5) (f32_of_Z 6) /\
      In (mkVertex (mkVec3 (f32_of_Z 1000) f32_zero f32_zero) white) (m_vertices r) /\
      forallb (bounds_vertex_b (mkCloud (m_vertices r) (m_boundingBoxMin r)
                                  (m_boundingBoxMax r))) (m_vertices r) = false
  | None => False
  end.
Proof. vm_compute. repeat split. right; left; reflexivity. Qed.

(** The counter is an [unsigned]: after 2^32 - 1 captures the next name is
    [Viewport #0]. *)
Lemma counter_wraps (w : MainWindow SymMatrix) :
  s_viewportIndex w = 4294967295%N ->
  viewport_name (next_index w) = "Viewport #0".
Proof. unfold next_index; intros ->; reflexivity. Qed.

End MainWindowScenarios.
