(* ===== verification/Refinement.v ===== *)
(** * Refinement: the slots of the main window execute the registry

    [abs] reads a session of the specification ([Registry]) off a state of
    the main window: the stored objects by name and parameters as they
    are, the counter, and the renderer's current parameters.

    [implements] is the table of the refinement: which operations of the
    registry a user action stands for in a state of the window.  Opening
    a file, resetting the view and the events of the renderer change the
    view and nothing else; the first capture slot is one capture when a
    cloud is loaded and nothing otherwise; the capture with coordinates
    is a change of view followed by one capture when a cloud with an
    extent is loaded and the three dialogs were answered, and nothing
    otherwise; a double click on item [i] is the replay of snapshot [i].
    [follows] reads the table along a session.

    [session_refines_registry]: for every session of the window there is
    a run of the registry, of the operations of the table event by event,
    that ends in the session the window holds, up to [session_equiv]: the
    names, the counter and the current view are equal, and the stored
    parameters are equal in every field but the model-view matrix.  The
    matrix is excepted because [doActionSaveViewportWithUserCoords]
    stores the matrix of the view before the change
    ([stale_session_not_registry]: the session the window holds is then
    no session of the registry); a replay never reads it.  The counter of
    the specification is a natural number, the one of the window an
    [unsigned]: the theorem asks that it has not wrapped
    ([counter_room]). *)

From Stdlib Require Import Arith ZArith NArith Lia Bool List String Relations SpecFloat.
From S2P Require Import Prelude Float32 Vec3 Matrix Text IStream Cloud.
From S2P Require Import PtsParser PlyParser ViewportParameters Renderer.
From S2P Require Import ViewportObject Registry MainWindow.
Import ListNotations.
Local Open Scope string_scope.
Local Open Scope list_scope.

Section Refinement.
Context {M : Type} `{Matrix4x4 M} {libm : Libm} {T2F : TokenToFloat} {NG : NumGet}.
Variable fs : FileSystem.

Local Abbreviation Window := (MainWindow M).

(** ** The session of a window *)

(** A stored object as a snapshot: its name and its parameters. *)
Definition abs_snapshot (v : ViewportObject M) : Snapshot M :=
  mkSnapshot (getName v) (getParameters v).

(** The session a window state holds. *)
Definition abs (w : Window) : Session M :=
  mkSession (map abs_snapshot (m_viewportList w)) (s_viewportIndex w)
    (getViewportParameters (m_renderer w)).

(** Parameters equal in every field but the model-view matrix. *)
Definition same_view (p q : ViewportParameters M) : Prop :=
  vp_normalize p = vp_normalize q.

Definition snap_equiv (a b : Snapshot M) : Prop :=
  snap_name a = snap_name b /\ same_view (snap_parameters a) (snap_parameters b).

(** Sessions with the same names, counter and view, and the same stored
    parameters but for the matrices. *)
Definition session_equiv (s t : Session M) : Prop :=
  Forall2 snap_equiv (reg_snapshots s) (reg_snapshots t) /\
  reg_counter s = reg_counter t /\ reg_view s = reg_view t.

(** ** The table of the refinement *)

(** A cloud is loaded; its box has an extent; the three dialogs were
    answered. *)
Definition loaded (w : Window) : bool :=
  negb (getPointCount (m_renderer w) =? 0)%nat.

Definition extended (w : Window) : bool :=
  negb (f32_le (vec3_length (getBoundingBoxSize (m_renderer w))) f32_zero).

Definition answered (x y z : option spec_float) : bool :=
  match x, y, z with Some _, Some _, Some _ => true | _, _, _ => false end.

Inductive implements (w : Window) : UiEvent M -> list (RegOp M) -> Prop :=
| impl_open filename v : implements w (UiOpen filename) [OpView v]
| impl_reset v : implements w UiResetView [OpView v]
| impl_capture : loaded w = true -> implements w UiSaveViewport [OpCapture]
| impl_capture_refused : loaded w = false -> implements w UiSaveViewport []
| impl_coords x y z v :
    loaded w && extended w && answered x y z = true ->
    implements w (UiSaveViewportWithCoords x y z) [OpView v; OpCapture]
| impl_coords_refused x y z :
    loaded w && extended w && answered x y z = false ->
    implements w (UiSaveViewportWithCoords x y z) []
| impl_replay i : implements w (UiDoubleClick i) [OpReplay i]
| impl_renderer e v : implements w (UiRenderer e) [OpView v].

(** The table along a session: the operations of each event, in the state
    the event finds. *)
Inductive follows : Window -> list (UiEvent M) -> list (list (RegOp M)) -> Prop :=
| follows_nil w : follows w [] []
| follows_cons w w1 e es o os :
    ui_handle fs e w = Some w1 -> implements w e o -> follows w1 es os ->
    follows w (e :: es) (o :: os).

(** The counter can still be incremented without wrapping. *)
Definition counter_room (w : Window) : Prop :=
  (N.of_nat (List.length (m_viewportList w)) + 1 < UINT_MOD)%N.

(** ** The session of the registry a window stands for

    [canon w] is the session of [w] with every stored matrix recomputed:
    the session a replay sees. *)
Definition canon_snapshot (v : ViewportObject M) : Snapshot M :=
  mkSnapshot (getName v) (vp_normalize (getParameters v)).

Definition canon (w : Window) : Session M :=
  mkSession (map canon_snapshot (m_viewportList w)) (s_viewportIndex w)
    (getViewportParameters (m_renderer w)).

Lemma abs_canon (w : Window) : session_equiv (abs w) (canon w).
Proof.
  unfold session_equiv, abs, canon; simpl. repeat split.
  induction (m_viewportList w) as [|v l IH]; simpl; constructor; [|exact IH].
  split; [reflexivity|]. unfold same_view; simpl. now rewrite vp_normalize_idem.
Qed.

(** ** The operations of each slot *)
Lemma canon_set_renderer r (w : Window) :
  canon (set_renderer r w) = reg_set_view (getViewportParameters r) (canon w).
Proof. reflexivity. Qed.

Lemma next_index_room (w : Window) :
  window_inv w -> counter_room w -> next_index w = (s_viewportIndex w + 1)%N.
Proof.
  intros I Rm; unfold next_index. apply N.mod_small.
  rewrite (inv_counter _ I), N.mod_small; unfold counter_room, UINT_MOD in *; lia.
Qed.

(** Registering parameters that are the renderer's but for the matrix is
    a capture. *)
Lemma canon_register p (w : Window) :
  window_inv w -> counter_room w ->
  vp_normalize p = getViewportParameters (m_renderer w) ->
  canon (register p w) = reg_capture (canon w).
Proof.
  intros I Rm E. destruct (register_spec p w) as (L & _ & R & C & _).
  cbv zeta in L. unfold canon, reg_capture; simpl.
  rewrite L, R, C, map_app, (next_index_room w I Rm); simpl.
  unfold canon_snapshot at 2; simpl. now rewrite E.
Qed.

(** What a slot is allowed to execute, and does. *)
Definition executes (e : UiEvent M) (w w' : Window) : Prop :=
  exists ops, implements w e ops /\ Forall op_ok ops /\
    canon w' = reg_run ops (canon w).

Lemma executes_view e (w : Window) r :
  implements w e [OpView (getViewportParameters r)] -> view_consistent r ->
  executes e w (set_renderer r w).
Proof.
  intros T V. exists [OpView (getViewportParameters r)].
  split; [exact T | split; [now repeat constructor | reflexivity]].
Qed.

Lemma executes_nothing e (w w' : Window) :
  implements w e [] -> canon w' = canon w -> executes e w w'.
Proof. intros T E; exists []; now repeat split. Qed.

Lemma canon_openPointCloudFile filename (w w' : Window) :
  window_inv w -> openPointCloudFile fs filename w = Some w' ->
  executes (UiOpen filename) w w'.
Proof.
  intros I E. pose proof (openPointCloudFile_inv fs _ _ _ I E) as I'.
  pose proof (openPointCloudFile_list fs _ _ _ E) as L.
  exists [OpView (getViewportParameters (m_renderer w'))].
  split; [constructor | split; [repeat constructor; exact (inv_view _ I')|]].
  unfold canon, reg_run, reg_set_view; simpl. rewrite L. f_equal.
  now rewrite (inv_counter _ I), (inv_counter _ I'), L.
Qed.

Lemma canon_doActionSaveViewportAsObject (w : Window) :
  window_inv w -> counter_room w ->
  executes UiSaveViewport w (doActionSaveViewportAsObject w).
Proof.
  intros I Rm; rewrite doActionSaveViewportAsObject_register.
  destruct (_ =? _)%nat eqn:G;
    [apply executes_nothing; [constructor; unfold loaded; now rewrite G | reflexivity]|].
  exists [OpCapture].
  split; [constructor; unfold loaded; now rewrite G | split; [now repeat constructor|]].
  apply canon_register; auto. apply vp_normalize_id, (inv_view _ I).
Qed.

Lemma canon_doActionSaveViewportWithUserCoords x y z (w : Window) :
  window_inv w -> counter_room w ->
  executes (UiSaveViewportWithCoords x y z) w
    (doActionSaveViewportWithUserCoords x y z w).
Proof.
  intros I Rm; rewrite doActionSaveViewportWithUserCoords_cases; cbv zeta.
  pose proof (impl_coords w x y z) as Yes. pose proof (impl_coords_refused w x y z) as No.
  unfold loaded, extended in Yes, No.
  destruct (_ =? _)%nat; [now apply executes_nothing; [apply No|]|].
  destruct (f32_le _ _); [now apply executes_nothing; [apply No|]|].
  destruct x as [x|], y as [y|], z as [z|]; try (now apply executes_nothing; [apply No|]).
  set (p := with_center_distance _ _ _).
  set (w1 := set_renderer _ _).
  assert (view_consistent (m_renderer w1)) as V1
    by apply update_consistent, setViewport_consistent.
  exists [OpView (getViewportParameters (m_renderer w1)); OpCapture].
  split; [now apply Yes | split; [now repeat constructor|]].
  cbn [reg_run fold_left reg_exec].
  rewrite canon_register; [reflexivity | | exact Rm | reflexivity].
  apply set_renderer_inv; [now apply show_dialog_inv | exact V1].
Qed.

Lemma canon_onTreeWidgetItemDoubleClicked item (w : Window) :
  window_inv w ->
  canon (onTreeWidgetItemDoubleClicked item w) = reg_replay item (canon w).
Proof.
  intros I; rewrite onTreeWidgetItemDoubleClicked_spec by exact I.
  unfold reg_replay, canon; simpl. rewrite nth_error_map.
  now destruct (nth_error (m_viewportList w) item).
Qed.

Lemma ui_handle_executes e (w w' : Window) :
  window_inv w -> counter_room w -> ui_handle fs e w = Some w' ->
  executes e w w'.
Proof.
  intros I Rm; destruct e; simpl.
  - now apply canon_openPointCloudFile.
  - intros [= <-]. apply executes_view; [constructor|].
    apply update_consistent, resetView_consistent.
  - intros [= <-]. now apply canon_doActionSaveViewportAsObject.
  - intros [= <-]. now apply canon_doActionSaveViewportWithUserCoords.
  - intros [= <-]. exists [OpReplay item].
    split; [constructor | split; [now repeat constructor|]].
    now apply canon_onTreeWidgetItemDoubleClicked.
  - destruct (handle fs e (m_renderer w)) as [r|] eqn:E; [|discriminate].
    intros [= <-]. apply executes_view; [constructor|].
    eapply handle_consistent; [exact (inv_view _ I) | exact E].
Qed.

Lemma counter_room_kept (w w' : Window) :
  snapshots_kept w w' -> counter_room w' -> counter_room w.
Proof.
  intros [more E]; unfold counter_room; rewrite E, length_app; lia.
Qed.

(** A run of the window is a run of the registry, event by event,
    provided the counter has room left at its end. *)
Lemma ui_run_executes es : forall (w w' : Window),
  window_inv w -> ui_run fs es w = Some w' -> counter_room w' ->
  exists ops, follows w es ops /\ Forall op_ok (List.concat ops) /\
    canon w' = reg_run (List.concat ops) (canon w).
Proof.
  induction es as [|e es IH]; simpl; intros w w' I.
  - intros [= <-] _; exists []; now repeat constructor.
  - destruct (ui_handle fs e w) as [w1|] eqn:E; [|discriminate]. intros R Rm.
    pose proof (ui_handle_inv fs _ _ _ I E) as I1.
    pose proof (counter_room_kept _ _ (ui_run_kept fs _ _ _ I1 R) Rm) as Rm1.
    pose proof (counter_room_kept _ _ (ui_handle_kept fs _ _ _ I E) Rm1) as Rm0.
    destruct (ui_handle_executes e w w1 I Rm0 E) as (o & T & V & C).
    destruct (IH w1 w' I1 R Rm) as (os & Ts & Vs & Cs).
    exists (o :: os); simpl. split; [now apply (follows_cons w w1)|].
    split; [now apply Forall_app|]. now rewrite reg_run_app, <- C.
Qed.

(** The window as shown holds an initial session. *)
Lemma abs_window_start : reg_initial (abs window_start).
Proof. repeat split. Qed.

(** C15: for every session of the window that has not used up the counter
    there is a run of the registry from the initial session, made of the
    operations the table allows for each event of the session in turn,
    with every change of view to a consistent state, that ends in the
    session the window holds up to the stored matrices: each slot
    implements its operation of the registry and no other. *)
Theorem session_refines_registry es (w : Window) :
  ui_run fs es window_start = Some w -> counter_room w ->
  exists ops,
    follows window_start es ops /\ Forall op_ok (List.concat ops) /\
    session_equiv (abs w) (reg_run (List.concat ops) (abs window_start)).
Proof.
  intros R Rm.
  destruct (ui_run_executes es _ _ window_start_inv R Rm) as (ops & T & V & C).
  exists ops. split; [exact T | split; [exact V|]].
  change (abs window_start) with (canon window_start). rewrite <- C.
  apply abs_canon.
Qed.

(** What the registry guarantees of its sessions, read off the window:
    the names are [Viewport #1], [Viewport #2], ... in capture order. *)
Lemma session_names es (w : Window) :
  ui_run fs es window_start = Some w -> counter_room w ->
  map getName (m_viewportList w) =
  map (fun i => auto_name (N.of_nat i)) (seq 1 (List.length (m_viewportList w))).
Proof.
  intros R Rm.
  destruct (ui_run_executes es _ _ window_start_inv R Rm) as (ops & _ & V & C).
  pose proof (reg_run_inv _ _ V (reg_initial_inv _ abs_window_start)) as Inv.
  change (abs window_start) with (canon window_start) in Inv. rewrite <- C in Inv.
  pose proof (reg_names _ Inv) as Nm. unfold reg_list, canon in Nm; simpl in Nm.
  now rewrite map_map, length_map in Nm.
Qed.

End Refinement.

(** ** A session on concrete files *)

Section RefinementScenarios.

#[local] Existing Instance LibmUnitSteps.
#[local] Existing Instance QtTokenToFloat.
#[local] Existing Instance StdNumGet.

Definition load_capture_replay : list (UiEvent SymMatrix) :=
  [UiOpen "a.pts"; UiSaveViewport; coords 0 0 0; UiDoubleClick 0].

(** The witness of [session_refines_registry]: a load, a capture, a
    capture with coordinates, and a replay. *)
Lemma session_refines_registry_witness :
  match ui_run example_fs load_capture_replay window_start with
  | Some w =>
      exists ops,
        follows example_fs window_start load_capture_replay ops /\
        Forall op_ok (List.concat ops) /\
        session_equiv (abs w) (reg_run (List.concat ops) (abs window_start))
  | None => False
  end.
Proof.
  destruct (ui_run example_fs load_capture_replay window_start) as [w|] eqn:E;
    [|vm_compute in E; discriminate E].
  assert (counter_room w) as Rm.
  { pose proof E as E'. vm_compute in E'. injection E' as <-. vm_compute. reflexivity. }
  exact (session_refines_registry example_fs load_capture_replay w E Rm).
Defined.

(** The operations of that session: a change of view, a capture, a
    change of view and a capture, the replay of the first snapshot.  The
    table leaves the views open; the theorem fixes them. *)
Lemma load_capture_replay_ops v1 v2 :
  follows example_fs window_start load_capture_replay
    [[OpView v1]; [OpCapture]; [OpView v2; OpCapture]; [OpReplay 0]].
Proof.
  repeat (eapply follows_cons; [vm_compute; reflexivity | constructor; reflexivity || idtac |]).
  apply follows_nil.
Qed.

(** The names the registry promises, read off the window. *)
Lemma session_names_example :
  option_map (fun w => reg_list (abs w)) (session load_capture_replay) =
  Some ["Viewport #1"; "Viewport #2"].
Proof. vm_compute. reflexivity. Qed.

(** The table cannot be met with equality: after the capture with
    coordinates the window holds a snapshot whose matrix is not the one
    its other parameters determine, and no session of the registry holds
    such a snapshot. *)
Lemma stale_session_not_registry :
  match session [UiOpen "a.pts"; coords 0 0 0] with
  | Some w => ~ reg_inv (abs w)
  | None => False
  end.
Proof.
  destruct (session _) as [w|] eqn:E; [|vm_compute in E; discriminate E].
  vm_compute in E. injection E as <-. intros [_ _ St _].
  inversion St as [|? ? C _]. vm_compute in C. discriminate C.
Qed.

End RefinementScenarios.
