(* ===== verification/PlyAscii.v ===== *)
(** * PlyAscii: the ASCII record loop reads what the lines say

    A record of an ASCII file is a line of words separated by white space,
    one word per property.  [token_values] is what the words of a line mean
    under a property list: the float [num_get] reads from the word of a
    [float] property, the converted [int] it reads from the word of a
    [uchar] property.  [ascii_body_decodes] shows that the ASCII loop of
    [loadPlyFile], run on the lines of [n] records followed by anything,
    appends exactly the vertices those lines encode, and
    [ply_ascii_reads_back] puts header and lines together.
    [ply_ascii_binary_agree] compares the two record loops: an ASCII file
    and a binary file that declare the same properties and whose records
    denote the same values are loaded as the same cloud.

    The theorems hold for every [num_get] that satisfies [NumGetLocal]. *)

From Stdlib Require Import Arith ZArith NArith Lia Bool List String Ascii SpecFloat.
From S2P Require Import Prelude Float32 Vec3 Text IStream Cloud PlyParser PlyHeader PlyBody.
Import ListNotations.
Local Open Scope list_scope.
Local Open Scope string_scope.

(** [get] reads the whole of [tok] as a number. *)
Definition reads_all {A} (get : string -> num_result A) (tok : string) : bool :=
  let '(_, parsed, rest) := get tok in parsed && isEmpty rest.

Section Tokens.
Context {NG : NumGet}.

(** The words of a line fit the properties: one word per [float] or [uchar]
    property, each a numeral of the kind the property is read with. *)
Fixpoint tokens_ok (props : list PropertyInfo) (toks : list string) : bool :=
  match props with
  | [] => match toks with [] => true | _ => false end
  | p :: ps =>
      match prop_type p, toks with
      | PROP_NONE, _ => tokens_ok ps toks
      | PROP_FLOAT, t :: ts => is_word t && reads_all get_float t && tokens_ok ps ts
      | PROP_UCHAR, t :: ts => is_word t && reads_all get_int t && tokens_ok ps ts
      | _, [] => false
      end
  end.

(** The values the words of a line denote. *)
Fixpoint token_values (props : list PropertyInfo) (toks : list string) : list f32 :=
  match props with
  | [] => []
  | p :: ps =>
      match prop_type p, toks with
      | PROP_NONE, _ => f32_zero :: token_values ps toks
      | PROP_FLOAT, t :: ts => fst (fst (get_float t)) :: token_values ps ts
      | PROP_UCHAR, t :: ts => f32_of_Z (fst (fst (get_int t))) :: token_values ps ts
      | _, [] => []
      end
  end.

(** The cloud after the vertices of the lines are added, in order. *)
Definition add_lines (h : PlyLocals) (records : list (list string)) (c : Cloud) : Cloud :=
  add_values h (map (token_values (properties h)) records) c.

End Tokens.

(** ** One word *)

(** The stream of a line once the words before [ts] are read. *)
Definition after (ts : list string) : istream :=
  mkStream (spaced ts) (isEmpty (spaced ts)) false.

(** [s] is a good stream whose next word is [t], followed by [ts]. *)
Definition feeds (s : istream) (t : string) (ts : list string) : Prop :=
  good s = true /\ ltrim (is_buf s) = t ++ spaced ts.

Lemma feeds_start t ts : is_word t = true -> feeds (stream_of (record_line (t :: ts))) t ts.
Proof.
  intros W; destruct (is_word_cons t W) as (c & t' & -> & Hc & _).
  split; [reflexivity|]. simpl. now rewrite Hc.
Qed.

Lemma feeds_after t ts : is_word t = true -> feeds (after (t :: ts)) t ts.
Proof.
  intros W; destruct (is_word_cons t W) as (c & t' & -> & Hc & _).
  split; [reflexivity|]. simpl. now rewrite Hc.
Qed.

(** An extraction reads the next word when [num_get] reads the whole of it
    and does not look past a white space. *)
Lemma extract_num_token {A} (get : string -> num_result A) s t ts :
  (forall tok sp rest, is_space sp = true ->
     get (tok ++ String sp rest) = leave (get tok) (String sp rest)) ->
  feeds s t ts -> is_word t = true -> reads_all get t = true ->
  extract_num get s = (after ts, Some (fst (fst (get t)))).
Proof.
  intros L [G B] W R. destruct (is_word_cons t W) as (c & t' & -> & _).
  unfold extract_num, sentry. rewrite G, B. cbn [append].
  change (String c (t' ++ spaced ts)) with (String c t' ++ spaced ts).
  unfold reads_all in R. cbn [is_buf].
  assert (E : get (String c t' ++ spaced ts) = leave (get (String c t')) (spaced ts)).
  { destruct ts as [|t2 ts]; cbn [spaced]; [|now apply L].
    rewrite string_app_empty. destruct (get (String c t')) as [[v ok] r]; simpl.
    now rewrite string_app_empty. }
  rewrite E. destruct (get (String c t')) as [[v ok] r].
  apply andb_prop in R as [-> R]. apply isEmpty_true in R; now subst r.
Qed.

(** ** One line *)

Section AsciiTheory.
Context {NG : NumGet} {NL : NumGetLocal NG}.

(** The stream holds the words that are still to be read. *)
Definition holds (s : istream) (toks : list string) : Prop :=
  match toks with
  | [] => True
  | t :: ts => is_word t = true -> feeds s t ts
  end.

Lemma holds_after ts : holds (after ts) ts.
Proof. destruct ts as [|t ts]; [exact I | exact (feeds_after t ts)]. Qed.

Lemma holds_start toks : holds (stream_of (record_line toks)) toks.
Proof. destruct toks as [|t ts]; [exact I | exact (feeds_start t ts)]. Qed.

Lemma read_values_ascii_holds props : forall s toks,
  tokens_ok props toks = true -> holds s toks ->
  read_values_ascii props s = Some (token_values props toks).
Proof.
  induction props as [|p ps IH]; intros s toks T H; simpl in *; [reflexivity|].
  destruct (prop_type p).
  - now rewrite (IH s toks T H).
  - destruct toks as [|t ts]; [discriminate T|].
    apply andb_prop in T as [T T2]; apply andb_prop in T as [W R].
    unfold extract_float.
    rewrite (extract_num_token get_float s t ts get_float_local (H W) W R).
    now rewrite (IH _ ts T2 (holds_after ts)).
  - destruct toks as [|t ts]; [discriminate T|].
    apply andb_prop in T as [T T2]; apply andb_prop in T as [W R].
    unfold extract_int.
    rewrite (extract_num_token get_int s t ts get_int_local (H W) W R).
    now rewrite (IH _ ts T2 (holds_after ts)).
Qed.

(** The inner loop on the line of a record. *)
Lemma read_values_ascii_tokens props toks :
  tokens_ok props toks = true ->
  read_values_ascii props (stream_of (record_line toks)) = Some (token_values props toks).
Proof. intros T; apply read_values_ascii_holds; [exact T | apply holds_start]. Qed.

(** The words of a record that fits its properties hold no line feed. *)
Lemma tokens_ok_words props : forall toks,
  tokens_ok props toks = true -> forallb is_word toks = true.
Proof.
  induction props as [|p ps IH]; intros toks T; simpl in T.
  - now destruct toks.
  - destruct (prop_type p); [now apply IH| |];
      (destruct toks as [|t ts]; [discriminate T|]);
      apply andb_prop in T as [T T2]; apply andb_prop in T as [W _];
      simpl; now rewrite W, IH.
Qed.

Lemma record_line_no_newline props toks :
  tokens_ok props toks = true -> no_newline (record_line toks) = true.
Proof. intros T; apply record_line_one_line, (tokens_ok_words props), T. Qed.

(** ** The record loop *)
Lemma ascii_body_decodes h records : forall rest l c,
  Forall (fun r => tokens_ok (properties h) r = true) records ->
  exists l',
    ascii_body (List.length records) h (stream_of (lines_of records ++ rest)) l c =
    Some (stream_of rest, l', add_lines h records c).
Proof.
  induction records as [|r records IH]; intros rest l c F; [now exists l|].
  inversion F as [|? ? T F']; subst. cbn [List.length lines_of ascii_body].
  rewrite string_app_assoc; cbn [append].
  rewrite (getline_app _ _ _ (record_line_no_newline _ _ T)).
  rewrite (read_values_ascii_tokens _ _ T).
  exact (IH rest _ _ F').
Qed.

End AsciiTheory.

(** ** Header and lines together *)

Section AsciiFile.
Context {NG : NumGet} {NL : NumGetLocal NG}.

Lemma add_lines_same h1 h2 records c :
  same_locals h1 h2 -> add_lines h1 records c = add_lines h2 records c.
Proof.
  intros E; unfold add_lines.
  rewrite (properties_Proper _ _ E). now apply add_values_same.
Qed.

(** The ASCII loop on the lines the header announces. *)
Lemma ply_body_lines h records rest :
  isBinary h = false -> numVertices h = Z.of_nat (List.length records) ->
  Forall (fun r => tokens_ok (properties h) r = true) records ->
  ply_body h (stream_of (lines_of records ++ rest)) =
  PlyLoaded (add_lines h records cloud_reset).
Proof.
  intros B N F; unfold ply_body. rewrite B, N, Nat2Z.id; cbn [negb].
  now destruct (ascii_body_decodes h records rest (line h) cloud_reset F) as [l' ->].
Qed.

(** A well-formed ASCII file that declares x, y and z and holds the lines
    it announces, one numeral per recognised property on each line, is
    loaded, and the cloud is the one its lines denote: one vertex per line,
    in file order.  What follows the lines is not read. *)
Theorem ply_ascii_reads_back hd records rest :
  wf_props (hd_props hd) = true ->
  get_int (decimal_of_N (hd_count hd)) = (Z.of_N (hd_count hd), true, EmptyString) ->
  hd_format hd = FmtAscii ->
  declares "x" (hd_props hd) && declares "y" (hd_props hd) &&
    declares "z" (hd_props hd) = true ->
  hd_count hd = N.of_nat (List.length records) ->
  Forall (fun r => tokens_ok (recognised (hd_props hd)) r = true) records ->
  ply_parse (print_header hd ++ lines_of records ++ rest) =
  PlyLoaded (add_lines (expected hd) records cloud_reset).
Proof.
  intros W G Fm D Cn F.
  destruct (ply_parse_printed hd (lines_of records ++ rest) W G D) as (h & S & ->).
  destruct (printed_locals hd h S) as (P & N & B).
  rewrite ply_body_lines, (add_lines_same _ _ _ _ S); try reflexivity.
  - now rewrite B, Fm.
  - now rewrite N, Cn, nat_N_Z.
  - now rewrite P.
Qed.

(** ** The two record loops agree *)

(** The cloud of a list of values does not depend on the format line. *)
Lemma add_values_format hd f values c :
  add_values (expected hd) values c =
  add_values (expected (mkHeader f (hd_count hd) (hd_props hd))) values c.
Proof. unfold add_values. now rewrite (ply_add_vertex_format hd f). Qed.

Lemma expected_properties hd : properties (expected hd) = recognised (hd_props hd).
Proof. now destruct (expected_locals hd) as (P & _). Qed.

(** C11: an ASCII file and a binary file with the same declarations, whose
    lines and records denote the same values, are loaded as the same
    cloud: the ASCII loop and the binary loop of [loadPlyFile] are two
    readers of one format. *)
Theorem ply_ascii_binary_agree fmt props lines records rest rest' :
  let n := N.of_nat (List.length lines) in
  wf_props props = true ->
  get_int (decimal_of_N n) = (Z.of_N n, true, EmptyString) ->
  fmt <> FmtAscii ->
  declares "x" props && declares "y" props && declares "z" props = true ->
  Forall (fun r => tokens_ok (recognised props) r = true) lines ->
  Forall (fun r => List.length r = record_size (recognised props)) records ->
  map (token_values (recognised props)) lines =
    map (decode_values (recognised props)) records ->
  ply_parse (print_header (mkHeader FmtAscii n props) ++ lines_of lines ++ rest) =
  ply_parse (print_header (mkHeader fmt n props) ++ bytes_of records ++ rest').
Proof.
  intros n W G Fm D Fl Fr E.
  assert (L : List.length records = List.length lines)
    by (rewrite <- (length_map (decode_values (recognised props))), <- E; apply length_map).
  destruct (ply_parse_printed (mkHeader FmtAscii n props) (lines_of lines ++ rest) W G D)
    as (hA & SA & ->).
  destruct (ply_parse_printed (mkHeader fmt n props) (bytes_of records ++ rest') W G D)
    as (hB & SB & ->).
  destruct (printed_locals _ hA SA) as (PA & NA & BA).
  destruct (printed_locals _ hB SB) as (PB & NB & BB). cbn [hd_props hd_count hd_format] in *.
  rewrite ply_body_lines, ply_body_records; rewrite ?PA, ?PB, ?NA, ?NB; trivial.
  - unfold add_lines, add_records. rewrite PA, PB, E, (add_values_same _ _ _ _ SA),
      (add_values_same _ _ _ _ SB).
    exact (f_equal PlyLoaded (add_values_format (mkHeader FmtAscii n props) fmt _ _)).
  - rewrite BB; now destruct fmt.
  - subst n; now rewrite <- L, nat_N_Z.
  - apply nat_N_Z.
Qed.

End AsciiFile.

(** ** Files on the decimal [num_get] *)

Section PlyAsciiScenarios.

#[local] Existing Instance StdNumGet.

(** Two coloured vertices. *)
Definition coloured_header : Header :=
  mkHeader FmtAscii 2
    [("float", "x"); ("float", "y"); ("float", "z");
     ("uchar", "red"); ("uchar", "green"); ("uchar", "blue")].

Definition coloured_lines : list (list string) :=
  [["0"; "0"; "0"; "255"; "0"; "0"]; ["1"; "2.5"; "-3e0"; "0"; "128"; "255"]].

Lemma ply_ascii_reads_back_witness :
  ply_parse (print_header coloured_header ++ lines_of coloured_lines ++ "") =
  PlyLoaded (add_lines (expected coloured_header) coloured_lines cloud_reset).
Proof.
  refine (ply_ascii_reads_back (NG := StdNumGet) coloured_header coloured_lines ""
            eq_refl (std_get_int_printed 2 _) eq_refl eq_refl eq_refl _).
  - discriminate.
  - repeat constructor.
Defined.

(** The text of that file, and the two vertices it gives. *)
Lemma coloured_file_loaded :
  print_header coloured_header ++ lines_of coloured_lines =
    String.concat (String newline "")
      ["ply"; "format ascii 1.0"; "element vertex 2";
       "property float x"; "property float y"; "property float z";
       "property uchar red"; "property uchar green"; "property uchar blue";
       "end_header"; "0 0 0 255 0 0"; "1 2.5 -3e0 0 128 255"; ""] /\
  match ply_parse (print_header coloured_header ++ lines_of coloured_lines) with
  | PlyLoaded c =>
      map position (vertices c) =
        [mkVec3 f32_zero f32_zero f32_zero;
         mkVec3 f32_one (f32_of_decimal false 25 (-1)) (f32_of_Z (-3))] /\
      map color (vertices c) =
        [mkVec3 f32_one f32_zero f32_zero;
         mkVec3 f32_zero (f32_div (f32_of_Z 128) f32_255) f32_one]
  | _ => False
  end.
Proof. split; vm_compute; repeat split; reflexivity. Qed.

(** The record (1, 1, 1) as a line and as twelve bytes. *)
Lemma ply_ascii_binary_agree_witness :
  ply_parse (print_header (mkHeader FmtAscii 1 [("float", "x"); ("float", "y"); ("float", "z")])
             ++ lines_of [["1"; "1.0"; "10e-1"]] ++ "") =
  ply_parse (print_header (mkHeader FmtLittleEndian 1
                             [("float", "x"); ("float", "y"); ("float", "z")])
             ++ bytes_of [record_111] ++ "trailing").
Proof.
  refine (ply_ascii_binary_agree (NG := StdNumGet) FmtLittleEndian
            [("float", "x"); ("float", "y"); ("float", "z")]
            [["1"; "1.0"; "10e-1"]] [record_111] "" "trailing"
            eq_refl (std_get_int_printed 1 _) _ eq_refl _ _ _).
  - discriminate.
  - discriminate.
  - repeat constructor.
  - repeat constructor.
  - vm_compute; reflexivity.
Defined.

End PlyAsciiScenarios.
