(* ===== verification/PlyLines.v ===== *)
(** * PlyLines: the ASCII loader as a function of the lines of the file

    [loadPlyFile] reads its file through a stream, one [getline] at a
    time.  This file gives the reference the stream code is equivalent to:
    [header_fold] and [ascii_fold] are the two loops as structural
    recursions on the list of lines of the text, and [ply_of_lines] is the
    loader of an ASCII file written with them.  The reference needs one fact
    about the text besides its lines: whether it ends with a line feed,
    because that decides what a [getline] past the last line leaves in the
    line variable (nothing, or the line before).

    [ply_header_lines] is the equivalence for the header loop on every
    text, [ascii_body_lines] for the record loop from every stream, and
    [ply_parse_lines] for the whole loader on every text whose header does
    not declare a binary format. *)

From Stdlib Require Import Arith ZArith Lia Bool List String Ascii.
From S2P Require Import Prelude Float32 Vec3 Text IStream Cloud PlyParser.
Import ListNotations.
Local Open Scope list_scope.
Local Open Scope string_scope.

Section Lines.
Context {NG : NumGet}.

(** The header loop on the lines that are left: the locals when the loop is
    left, the lines it did not read, and whether a line feed ends them. *)
Fixpoint header_fold (lines : list string) (nl : bool) (h : PlyLocals)
    : PlyLocals * list string * bool :=
  match lines with
  | [] => (set_line (no_line nl (line h)) h, [], false)
  | l :: ls =>
      let '(h', brk) := header_line (set_line l h) in
      if brk then (h', ls, nl) else header_fold ls nl h'
  end.

(** [n] iterations of the ASCII record loop on the lines that are left;
    [l] is the line variable. *)
Fixpoint ascii_fold (n : nat) (h : PlyLocals) (lines : list string) (nl : bool)
    (l : string) (c : Cloud) : option Cloud :=
  match n with
  | O => Some c
  | S n' =>
      let '(l, lines, nl) :=
        match lines with
        | [] => (no_line nl l, [], false)
        | l' :: ls => (l', ls, nl)
        end in
      match read_values_ascii (properties h) (stream_of l) with
      | Some values => ascii_fold n' h lines nl l (ply_add_vertex h values c)
      | None => None
      end
  end.

(** The loader of an ASCII file, on the lines of its text. *)
Definition ply_of_lines (lines : list string) (nl : bool) : PlyOutcome :=
  let '(h, rest, nl) := header_fold lines nl locals_init in
  if header_valid h then
    match ascii_fold (Z.to_nat (numVertices h)) h rest nl (line h) cloud_reset with
    | Some c => PlyLoaded c
    | None => PlyUndefined
    end
  else PlyInvalidHeader.

(** The format the header of a text declares. *)
Definition declared_binary (content : string) : bool :=
  isBinary (fst (fst (header_fold (text_lines content) (ends_nl content) locals_init))).

(** ** The header loop *)
Lemma header_loop_lines fuel : forall file h,
  (List.length (stream_lines file) < fuel)%nat ->
  exists file',
    header_loop fuel file h =
      Some (file', fst (fst (header_fold (stream_lines file) (stream_nl file) h))) /\
    stream_lines file' = snd (fst (header_fold (stream_lines file) (stream_nl file) h)) /\
    stream_nl file' = snd (header_fold (stream_lines file) (stream_nl file) h).
Proof.
  induction fuel as [|fuel IH]; intros file h L; [inversion L|].
  destruct (getline_lines file (line h)) as [s' G]. cbn [header_loop].
  destruct (stream_lines file) as [|l ls].
  - destruct G as (-> & -> & E1 & E2). now exists s'.
  - destruct G as (-> & -> & E1 & E2). cbn [header_fold].
    destruct (header_line (set_line l h)) as [h' []]; [now exists s'; rewrite E2|].
    rewrite <- E1, <- E2. apply IH. rewrite E1; simpl in L; lia.
Qed.

(** The header loop of [loadPlyFile] is [header_fold] on the lines of the
    text: on every text the loop ends with the locals the fold computes,
    and it leaves the stream at the lines the fold did not read. *)
Lemma ply_header_lines content :
  exists file,
    ply_header content =
      Some (file, fst (fst (header_fold (text_lines content) (ends_nl content)
                              locals_init))) /\
    stream_lines file =
      snd (fst (header_fold (text_lines content) (ends_nl content) locals_init)) /\
    stream_nl file = snd (header_fold (text_lines content) (ends_nl content) locals_init).
Proof.
  destruct (ply_header_some content) as [r E].
  destruct (header_loop_lines (S (List.length (text_lines content))) (stream_of content)
              locals_init (Nat.lt_succ_diag_r _)) as (file & E' & R).
  exists file. rewrite E. now rewrite (header_loop_agree _ _ _ _ _ _ E E').
Qed.

(** ** The record loop *)
Lemma ascii_body_lines n h : forall file l c,
  option_map snd (ascii_body n h file l c) =
  ascii_fold n h (stream_lines file) (stream_nl file) l c.
Proof.
  induction n as [|n IH]; intros file l c; [reflexivity|].
  destruct (getline_lines file l) as [s' G]. cbn [ascii_body ascii_fold].
  destruct (stream_lines file) as [|l' ls]; destruct G as (-> & _ & <- & E2).
  - destruct (read_values_ascii _ _); [|reflexivity]. now rewrite IH, E2.
  - destruct (read_values_ascii _ _); [|reflexivity]. now rewrite IH, E2.
Qed.

(** ** The loader *)

(** C7: on every text whose header does not declare a binary format,
    [loadPlyFile] computes what [ply_of_lines] computes from the lines of
    the text: the same outcome, with the same cloud. *)
Theorem ply_parse_lines content :
  declared_binary content = false ->
  ply_parse content = ply_of_lines (text_lines content) (ends_nl content).
Proof.
  unfold declared_binary, ply_parse, ply_of_lines, ply_body; intros B.
  destruct (ply_header_lines content) as (file & -> & L & N).
  destruct (header_fold _ _ _) as [[h rest] nl]; cbn [fst snd] in *.
  destruct (header_valid h); [|reflexivity]. rewrite B; cbn [negb].
  rewrite <- L, <- N, <- ascii_body_lines.
  now destruct (ascii_body _ _ _ _ _) as [[[? ?] ?]|].
Qed.

End Lines.

(** ** The [int] variables of the header loop

    [numVertices], the six indices and [propIndex] are of type [int]; the
    values the model gives them are integers without a bound.  On a text
    of at most [INT_MAX] characters every one of them is a value of type
    [int]: the count because [num_get] stores nothing else, the indices
    because each line declares at most one property. *)
Definition is_int (z : Z) : Prop := (INT_MIN <= z <= INT_MAX)%Z.

(** An index is -1 or a position below [n]. *)
Definition index_below (n : nat) (i : Z) : Prop := (-1 <= i < Z.of_nat n)%Z.

Record locals_below (n : nat) (h : PlyLocals) : Prop := {
  lb_numVertices : is_int (numVertices h);
  lb_properties : (List.length (properties h) <= n)%nat;
  lb_x : index_below n (xIndex h);
  lb_y : index_below n (yIndex h);
  lb_z : index_below n (zIndex h);
  lb_red : index_below n (redIndex h);
  lb_green : index_below n (greenIndex h);
  lb_blue : index_below n (blueIndex h)
}.

(** Every [int] local holds a value of type [int], and [properties.size()]
    fits the [int] it is assigned to. *)
Record locals_int (h : PlyLocals) : Prop := {
  li_numVertices : is_int (numVertices h);
  li_properties : is_int (Z.of_nat (List.length (properties h)));
  li_x : is_int (xIndex h);
  li_y : is_int (yIndex h);
  li_z : is_int (zIndex h);
  li_red : is_int (redIndex h);
  li_green : is_int (greenIndex h);
  li_blue : is_int (blueIndex h)
}.

Section Ints.
Context {NG : NumGet} {NL : NumGetLocal NG}.

Lemma extract_int_is_int s s' v : extract_int s = (s', Some v) -> is_int v.
Proof.
  unfold extract_int, extract_num. destruct (sentry s) as [s1 []]; [|discriminate].
  pose proof (get_int_range (is_buf s1)) as R.
  destruct (get_int (is_buf s1)) as [[v' ok] r]. now intros [= _ <-].
Qed.

Lemma index_below_S n i : index_below n i -> index_below (S n) i.
Proof. unfold index_below; lia. Qed.

Lemma index_below_new n m : (m <= n)%nat -> index_below (S n) (Z.of_nat m).
Proof. unfold index_below; lia. Qed.

Lemma locals_below_S n h : locals_below n h -> locals_below (S n) h.
Proof. intros []; constructor; auto using index_below_S. Qed.

Lemma locals_below_le n m h : (n <= m)%nat -> locals_below n h -> locals_below m h.
Proof. induction 1; auto using locals_below_S. Qed.

Lemma header_property_below n h type name :
  locals_below n h -> locals_below (S n) (header_property h type name).
Proof.
  intros I; unfold header_property.
  destruct (classify_type type); [now apply locals_below_S| |];
    repeat match goal with
    | |- context [String.eqb name ?s] => destruct (String.eqb name s)
    end;
    destruct I; constructor; cbn; rewrite ?length_app; cbn;
    auto using index_below_S, index_below_new; lia.
Qed.

Lemma header_line_below n h :
  locals_below n h -> locals_below (S n) (fst (header_line h)).
Proof.
  intros I; unfold header_line, header_format.
  destruct (extract_word _) as [ls kw].
  repeat first
    [ match goal with
      | |- context [let '(_, _) := extract_int ?s in _] =>
          let E := fresh "E" in destruct (extract_int s) as [? [?|]] eqn:E;
          [apply extract_int_is_int in E|]
      | |- context [let '(_, _) := ?e in _] => destruct e
      | |- context [if ?b then _ else _] => destruct b
      end
    | progress cbn [fst] ];
    solve [ now apply locals_below_S | now apply header_property_below
          | destruct I; constructor; cbn; auto using index_below_S ].
Qed.

Lemma header_fold_below lines nl : forall n h,
  locals_below n h ->
  locals_below (n + List.length lines) (fst (fst (header_fold lines nl h))).
Proof.
  induction lines as [|l ls IH]; intros n h I; cbn [header_fold List.length].
  - rewrite Nat.add_0_r. destruct I; now constructor.
  - assert (I' : locals_below (S n) (fst (header_line (set_line l h))))
      by (apply header_line_below; destruct I; now constructor).
    destruct (header_line (set_line l h)) as [h' []]; cbn [fst] in *.
    + apply (locals_below_le (S n)); [lia | exact I'].
    + rewrite Nat.add_succ_r. exact (IH (S n) h' I').
Qed.

Lemma lines_from_length s : forall cur,
  (List.length (lines_from s cur) <= String.length s + if isEmpty cur then 0 else 1)%nat.
Proof.
  induction s as [|c s IH]; intros cur; simpl.
  - destruct cur; simpl; lia.
  - destruct (Ascii.eqb c newline); simpl.
    + specialize (IH EmptyString); simpl in IH. destruct (isEmpty cur); lia.
    + specialize (IH (snoc cur c)). rewrite snoc_not_empty in IH.
      destruct (isEmpty cur); lia.
Qed.

Lemma locals_below_int n h :
  (Z.of_nat n <= INT_MAX)%Z -> locals_below n h -> locals_int h.
Proof.
  unfold INT_MAX; intros B []; constructor; trivial;
    unfold index_below, is_int, INT_MIN, INT_MAX in *; lia.
Qed.

(** C25: on a text of at most [INT_MAX] characters, every [int] variable of the
    header loop holds a value of type [int] when the loop is left: no
    conversion from [properties.size()] and no extraction overflows. *)
Theorem ply_header_ints content file h :
  (Z.of_nat (String.length content) <= INT_MAX)%Z ->
  ply_header content = Some (file, h) -> locals_int h.
Proof.
  intros B E. destruct (ply_header_lines content) as (file' & E' & _).
  rewrite E in E'; injection E' as _ ->.
  pose proof (lines_from_length content EmptyString) as L; simpl in L.
  apply (locals_below_int (0 + List.length (text_lines content)));
    [unfold text_lines; lia|].
  apply header_fold_below. constructor; cbn; unfold is_int, index_below, INT_MIN, INT_MAX; lia.
Qed.

End Ints.

(** ** A file that is short of lines *)

Section PlyLinesScenarios.

#[local] Existing Instance StdNumGet.

(** Three vertices announced, one line present, no line feed after it. *)
Definition short_file : string :=
  String.concat (String newline "")
    ["ply"; "format ascii 1.0"; "element vertex 3";
     "property float x"; "property float y"; "property float z";
     "end_header"; "1 2 3"].

Lemma ply_parse_lines_witness :
  ply_parse short_file = ply_of_lines (text_lines short_file) (ends_nl short_file).
Proof. exact (ply_parse_lines (NG := StdNumGet) short_file eq_refl). Defined.

(** The reference shows what the loader does with it: the line variable
    keeps the last line, which is read three times; with a final line feed
    the variable is emptied instead and an uninitialised value is read. *)
Lemma short_file_lines :
  match ply_of_lines (text_lines short_file) (ends_nl short_file) with
  | PlyLoaded c => List.length (vertices c) = 3%nat
  | _ => False
  end /\
  ply_of_lines (text_lines (short_file ++ String newline ""))
    (ends_nl (short_file ++ String newline "")) = PlyUndefined.
Proof. split; vm_compute; reflexivity. Qed.

(** The locals the header of that file leaves are values of type [int]. *)
Lemma ply_header_ints_witness :
  locals_int
    (mkLocals "end_header" 3 false false false true
       [mkProp "x" PROP_FLOAT; mkProp "y" PROP_FLOAT; mkProp "z" PROP_FLOAT]
       0 1 2 (-1) (-1) (-1)).
Proof.
  refine (ply_header_ints (NG := StdNumGet) short_file (stream_of "1 2 3") _ _ _);
    [vm_compute; discriminate | vm_compute; reflexivity].
Defined.

End PlyLinesScenarios.
