(* ===== verification/Overlay.v ===== *)
(** * Overlay: the coordinate-system overlay of the renderer

    [PointCloudRenderer::paintEvent] lets [QOpenGLWidget] paint the scene
    (which calls [paintGL]) and then draws, with a [QPainter], the three
    axes as the current rotation turns them, their letters, and a scale
    bar, in the bottom right corner of the widget
    ([drawCoordinateSystem]).  What the painter is asked to do is the list
    of its calls, [PaintCmd]; the size of the widget ([width()],
    [height()]) is an argument.

    The end point of an axis is computed in [float] and handed to
    [drawLine(int, int, int, int)]: the conversion truncates, and is
    undefined when the value is not an [int] ([None]).  The member
    [m_showCoordinateSystem] that [paintEvent] tests is assigned nowhere
    in the sources; its value is the argument [show], [None] when it is
    indeterminate.

    Theorems: the overlay depends on the first two components of the
    rotation and on the size of the widget only; after [resetView] the
    axes are drawn unrotated; the scale bar lies inside the widget and its
    label is fixed; the commands come in a fixed order, every axis starting
    at the centre of the overlay. *)

From Stdlib Require Import ZArith Lia Bool List String SpecFloat.
From S2P Require Import Prelude Float32 Vec3 Matrix Text IStream Cloud.
From S2P Require Import PtsParser PlyParser ViewportParameters Renderer.
Import ListNotations.
Local Open Scope list_scope.
Local Open Scope Z_scope.

(** A call on the [QPainter]: [setRenderHint(Antialiasing, on)],
    [setPen] with a colour and a width, [setFont], [drawLine], [drawText]. *)
Inductive PaintCmd : Type :=
| SetRenderHint (antialiasing : bool)
| SetPen (r g b : Z) (width : Z)
| SetFont (bold : bool) (pointSize : Z)
| DrawLine (x1 y1 x2 y2 : Z)
| DrawText (x y : Z) (text : string).

(** The commands of several steps, when each is defined. *)
Definition opt_concat (steps : list (option (list PaintCmd))) : option (list PaintCmd) :=
  fold_right (fun step acc =>
                match step, acc with
                | Some a, Some b => Some (a ++ b)
                | _, _ => None
                end) (Some []) steps.

(** [centerX + a.x()] and [centerY - a.y()] as the [int] arguments of
    [drawLine]. *)
Definition axis_tip (centerX centerY : Z) (a : QVector3D) : option (Z * Z) :=
  match f32_to_int (f32_add (f32_of_Z centerX) (vx a)),
        f32_to_int (f32_sub (f32_of_Z centerY) (vy a)) with
  | Some x, Some y => Some (x, y)
  | _, _ => None
  end.

(** [centerX + a.x() + 5] and [centerY - a.y() + 5] as the [int] arguments
    of [drawText]. *)
Definition label_at (centerX centerY : Z) (a : QVector3D) : option (Z * Z) :=
  match f32_to_int (f32_add (f32_add (f32_of_Z centerX) (vx a)) f32_5),
        f32_to_int (f32_add (f32_sub (f32_of_Z centerY) (vy a)) f32_5) with
  | Some x, Some y => Some (x, y)
  | _, _ => None
  end.

(** An axis: a pen of width 2 in its colour, and the line from the centre. *)
Definition draw_axis (r g b centerX centerY : Z) (a : QVector3D)
    : option (list PaintCmd) :=
  option_map (fun p => [SetPen r g b 2; DrawLine centerX centerY (fst p) (snd p)])
    (axis_tip centerX centerY a).

(** The letter of an axis, in its colour. *)
Definition draw_label (r g b centerX centerY : Z) (a : QVector3D) (text : string)
    : option (list PaintCmd) :=
  option_map (fun p => [SetPen r g b 1; DrawText (fst p) (snd p) text])
    (label_at centerX centerY a).

(** The scale bar: a white line of 60 pixels with a tick at each end and
    its label. *)
Definition draw_scale (xPos yPos : Z) : list PaintCmd :=
  let csysSize := 80 in
  let scaleLength := 60 in
  let scaleY := yPos + csysSize - 5 in
  [SetPen 255 255 255 1;
   DrawLine (xPos + 10) scaleY (xPos + 10 + scaleLength) scaleY;
   DrawLine (xPos + 10) (scaleY - 2) (xPos + 10) (scaleY + 2);
   DrawLine (xPos + 10 + scaleLength) (scaleY - 2) (xPos + 10 + scaleLength) (scaleY + 2);
   DrawText (xPos + 10 + Z.quot scaleLength 2 - 10) (scaleY - 5) "0.2"].

(** The drawing part of [drawCoordinateSystem], the three axes being
    mapped. *)
Definition draw_overlay (width height : Z) (xAxis yAxis zAxis : QVector3D)
    : option (list PaintCmd) :=
  let csysSize := 80 in
  let margin := 10 in
  let xPos := width - csysSize - margin in
  let yPos := height - csysSize - margin in
  let centerX := xPos + Z.quot csysSize 2 in
  let centerY := yPos + Z.quot csysSize 2 in
  opt_concat
    [draw_axis 255 0 0 centerX centerY xAxis;
     draw_axis 0 255 0 centerX centerY yAxis;
     draw_axis 0 0 255 centerX centerY zAxis;
     Some [SetFont true 8];
     draw_label 255 0 0 centerX centerY xAxis "X";
     draw_label 0 255 0 centerX centerY yAxis "Y";
     draw_label 0 0 255 centerX centerY zAxis "Z";
     Some (draw_scale xPos yPos)].

Section Overlay.
Context {M : Type} {MX : Matrix4x4 M} {MM : MatrixMap M}.
Context {libm : Libm} {T2F : TokenToFloat} {NG : NumGet}.

(** The matrix of the overlay: the two rotations of the view, without its
    translations. *)
Definition rotMatrix (s : PointCloudRenderer M) : M :=
  let m := mat_identity in
  let m := mat_rotate m (vx (m_rotation s)) f32_one f32_zero f32_zero in
  mat_rotate m (vy (m_rotation s)) f32_zero f32_one f32_zero.

(** The axis of length [axisLength] along [ax]. *)
Definition unit_axis (ax : axis) : QVector3D :=
  let axisLength := f32_of_Z (Z.quot 80 3) in
  match ax with
  | AxisX => mkVec3 axisLength f32_zero f32_zero
  | AxisY => mkVec3 f32_zero axisLength f32_zero
  | AxisZ => mkVec3 f32_zero f32_zero axisLength
  end.

Definition drawCoordinateSystem (width height : Z) (s : PointCloudRenderer M)
    : option (list PaintCmd) :=
  let xAxis := mat_map (rotMatrix s) (unit_axis AxisX) in
  let yAxis := mat_map (rotMatrix s) (unit_axis AxisY) in
  let zAxis := mat_map (rotMatrix s) (unit_axis AxisZ) in
  draw_overlay width height xAxis yAxis zAxis.

(** [paintEvent]: the scene, then the overlay when it is shown.  [None]
    when the flag is indeterminate or a conversion is undefined. *)
Definition paintEvent (show : option bool) (width height : Z) (s : PointCloudRenderer M)
    : option (PointCloudRenderer M * option (DrawCall M) * list PaintCmd) :=
  let '(s, scene) := paintGL s in
  match show with
  | None => None
  | Some false => Some (s, scene, [SetRenderHint true])
  | Some true =>
      option_map (fun cmds => (s, scene, SetRenderHint true :: cmds))
        (drawCoordinateSystem width height s)
  end.

End Overlay.

(** ** Theory *)

Section OverlayTheory.
Context {M : Type} {MX : Matrix4x4 M} {MM : MatrixMap M}.
Context {libm : Libm} {T2F : TokenToFloat} {NG : NumGet}.

(** A drawing command stays inside a widget of the given size. *)
Definition inside (width height : Z) (cmd : PaintCmd) : Prop :=
  match cmd with
  | DrawLine x1 y1 x2 y2 =>
      0 <= x1 < width /\ 0 <= x2 < width /\ 0 <= y1 < height /\ 0 <= y2 < height
  | DrawText x y _ => 0 <= x < width /\ 0 <= y < height
  | _ => True
  end.

(** The rotation shows no turn about the first two axes. *)
Definition unrotated (s : PointCloudRenderer M) : Prop :=
  SFeqb (vx (m_rotation s)) f32_zero = true /\
  SFeqb (vy (m_rotation s)) f32_zero = true.

Lemma rotMatrix_unrotated s v : unrotated s -> mat_map (rotMatrix s) v = v.
Proof.
  intros [X Y]; unfold rotMatrix.
  now rewrite (mat_map_rotate_zero _ _ _ _ _ _ Y), (mat_map_rotate_zero _ _ _ _ _ _ X),
    mat_map_identity.
Qed.

Lemma resetView_unrotated s : unrotated (resetView s).
Proof. split; reflexivity. Qed.

(** The overlay reads the rotation and nothing else of the renderer. *)
Lemma drawCoordinateSystem_rotation width height s s' :
  vx (m_rotation s) = vx (m_rotation s') -> vy (m_rotation s) = vy (m_rotation s') ->
  drawCoordinateSystem width height s = drawCoordinateSystem width height s'.
Proof. intros X Y; unfold drawCoordinateSystem, rotMatrix. now rewrite X, Y. Qed.

(** Without a turn about the first two axes the axes are drawn as they
    are: X to the right, Y upwards, Z towards the viewer. *)
Lemma drawCoordinateSystem_unrotated width height s :
  unrotated s ->
  drawCoordinateSystem width height s =
  draw_overlay width height (unit_axis AxisX) (unit_axis AxisY) (unit_axis AxisZ).
Proof. intros U; unfold drawCoordinateSystem. now rewrite !(rotMatrix_unrotated s _ U). Qed.

(** After [resetView] the overlay shows the axes unrotated, whatever the
    renderer held before. *)
Theorem drawCoordinateSystem_reset width height s :
  drawCoordinateSystem width height (resetView s) =
  draw_overlay width height (unit_axis AxisX) (unit_axis AxisY) (unit_axis AxisZ).
Proof. apply drawCoordinateSystem_unrotated, resetView_unrotated. Qed.

(** In a widget of at least 90 by 90 pixels the scale bar and its label
    lie inside the widget. *)
Lemma draw_scale_inside width height :
  90 <= width -> 90 <= height ->
  Forall (inside width height) (draw_scale (width - 80 - 10) (height - 80 - 10)).
Proof.
  intros W H; unfold draw_scale. change (Z.quot 60 2) with 30.
  repeat constructor; lia.
Qed.

Lemma opt_concat_cons step steps cmds :
  opt_concat (step :: steps) = Some cmds ->
  exists a b, step = Some a /\ opt_concat steps = Some b /\ cmds = a ++ b.
Proof.
  simpl. destruct step as [a|]; [|discriminate].
  destruct (opt_concat steps) as [b|]; [|discriminate]. intros [= <-]; eauto.
Qed.

(** The painter's calls come in a fixed order: the three axes in red,
    green and blue, each a line of width 2 from the centre of the overlay;
    the bold font; the three letters; the scale bar. *)
Theorem drawCoordinateSystem_calls width height s cmds :
  drawCoordinateSystem width height s = Some cmds ->
  let cx := width - 50 in
  let cy := height - 50 in
  exists px py pz lx ly lz : Z * Z,
    cmds =
      [SetPen 255 0 0 2; DrawLine cx cy (fst px) (snd px);
       SetPen 0 255 0 2; DrawLine cx cy (fst py) (snd py);
       SetPen 0 0 255 2; DrawLine cx cy (fst pz) (snd pz);
       SetFont true 8;
       SetPen 255 0 0 1; DrawText (fst lx) (snd lx) "X";
       SetPen 0 255 0 1; DrawText (fst ly) (snd ly) "Y";
       SetPen 0 0 255 1; DrawText (fst lz) (snd lz) "Z"]
      ++ draw_scale (width - 90) (height - 90).
Proof.
  unfold drawCoordinateSystem, draw_overlay, draw_axis, draw_label.
  change (Z.quot 80 2) with 40.
  replace (width - 80 - 10 + 40) with (width - 50) by lia.
  replace (height - 80 - 10 + 40) with (height - 50) by lia.
  replace (width - 80 - 10) with (width - 90) by lia.
  replace (height - 80 - 10) with (height - 90) by lia.
  intros E.
  repeat (apply opt_concat_cons in E as (? & ? & ? & E & ->)).
  repeat match goal with
  | H : option_map _ ?o = Some _ |- _ =>
      destruct o as [?p|]; [injection H as <- | discriminate H]
  | H : Some _ = Some _ |- _ => injection H as <-
  end.
  injection E as <-. cbv zeta. rewrite app_nil_r.
  do 6 eexists; reflexivity.
Qed.

(** [paintEvent] paints the scene as [paintGL] does, whether the overlay
    is shown or not. *)
Lemma paintEvent_scene show width height s s' scene cmds :
  paintEvent show width height s = Some (s', scene, cmds) ->
  paintGL s = (s', scene) /\ exists rest, cmds = SetRenderHint true :: rest.
Proof.
  unfold paintEvent. destruct (paintGL s) as [s1 sc].
  destruct show as [[]|]; [|intros [= <- <- <-]; eauto|discriminate].
  destruct (drawCoordinateSystem _ _ _); [intros [= <- <- <-]; eauto | discriminate].
Qed.

(** The flag the sources never assign decides alone whether the overlay
    is drawn; while it is indeterminate no paint event is defined. *)
Lemma paintEvent_indeterminate width height s : paintEvent None width height s = None.
Proof. unfold paintEvent; now destruct (paintGL s). Qed.

End OverlayTheory.

(** ** An 800 by 600 widget *)

Section OverlayScenarios.

#[local] Existing Instance LibmUnitSteps.
#[local] Existing Instance QtTokenToFloat.
#[local] Existing Instance StdNumGet.

Definition fresh : PointCloudRenderer SymMatrix := initializeGL renderer_new.

(** The overlay of the renderer as it starts: the axes end 26 pixels to
    the right of the centre (750, 550), 26 pixels above it, and at the
    centre itself. *)
Lemma overlay_800_600 :
  drawCoordinateSystem 800 600 fresh =
  Some [SetPen 255 0 0 2; DrawLine 750 550 776 550;
        SetPen 0 255 0 2; DrawLine 750 550 750 524;
        SetPen 0 0 255 2; DrawLine 750 550 750 550;
        SetFont true 8;
        SetPen 255 0 0 1; DrawText 781 555 "X";
        SetPen 0 255 0 1; DrawText 755 529 "Y";
        SetPen 0 0 255 1; DrawText 755 555 "Z";
        SetPen 255 255 255 1;
        DrawLine 720 585 780 585; DrawLine 720 583 720 587; DrawLine 780 583 780 587;
        DrawText 740 580 "0.2"].
Proof. vm_compute; reflexivity. Qed.

Lemma drawCoordinateSystem_calls_witness :
  exists px py pz lx ly lz : Z * Z,
    [SetPen 255 0 0 2; DrawLine 750 550 776 550;
     SetPen 0 255 0 2; DrawLine 750 550 750 524;
     SetPen 0 0 255 2; DrawLine 750 550 750 550;
     SetFont true 8;
     SetPen 255 0 0 1; DrawText 781 555 "X";
     SetPen 0 255 0 1; DrawText 755 529 "Y";
     SetPen 0 0 255 1; DrawText 755 555 "Z";
     SetPen 255 255 255 1;
     DrawLine 720 585 780 585; DrawLine 720 583 720 587; DrawLine 780 583 780 587;
     DrawText 740 580 "0.2"] =
    [SetPen 255 0 0 2; DrawLine 750 550 (fst px) (snd px);
     SetPen 0 255 0 2; DrawLine 750 550 (fst py) (snd py);
     SetPen 0 0 255 2; DrawLine 750 550 (fst pz) (snd pz);
     SetFont true 8;
     SetPen 255 0 0 1; DrawText (fst lx) (snd lx) "X";
     SetPen 0 255 0 1; DrawText (fst ly) (snd ly) "Y";
     SetPen 0 0 255 1; DrawText (fst lz) (snd lz) "Z"]
    ++ draw_scale 710 510.
Proof. exact (drawCoordinateSystem_calls 800 600 fresh _ overlay_800_600). Defined.

(** A rotation the overlay cannot show: after a drag that makes
    [centerX + xAxis.x()] NaN or too large for an [int], the conversion
    the call of [drawLine] needs is undefined. *)
Lemma overlay_undefined_tip :
  axis_tip 750 550 (mkVec3 S754_nan f32_zero f32_zero) = None /\
  axis_tip 750 550 (mkVec3 (f32_of_Z 4294967296) f32_zero f32_zero) = None.
Proof. split; reflexivity. Qed.

End OverlayScenarios.
