(* ===== verification/PtsFile.v ===== *)
(** * PtsFile: the simple-format loader reads a written file back

    A [.pts] file written one record per line, the words of a record
    separated by one space, is read back by the loop of [loadPtsFile] as
    the records it was written from: [text_lines] finds the lines,
    [trimmed] leaves a line of words as it is, [split_ws] finds the words.
    [pts_reads_back] states it for every token-to-float conversion.

    The words of a record are free of the white space the splitting
    recognises ([is_space]); [trimmed] removes more (a no-break space, for
    one), so a record must also begin and end with a character it keeps
    ([plain]): [nbsp_record_not_read_back] shows what the loop does with a
    record that does not. *)

From Stdlib Require Import Arith ZArith Lia Bool List String Ascii SpecFloat.
From S2P Require Import Prelude Float32 Vec3 Text IStream Cloud PtsParser.
Import ListNotations.
Local Open Scope list_scope.
Local Open Scope string_scope.

(** ** Lines *)
Lemma text_lines_cons l rest :
  forallb (fun c => negb (Ascii.eqb c newline)) (list_ascii_of_string l) = true ->
  text_lines (l ++ String newline rest) = l :: text_lines rest.
Proof.
  intros N; unfold text_lines. now rewrite lines_from_cut_line, cut_line_app.
Qed.

(** ** Words *)

(** The characters of a word are not white space. *)
Definition solid (w : string) : bool :=
  forallb (fun c => negb (is_space c)) (list_ascii_of_string w).

Lemma is_word_solid w : is_word w = true -> solid w = true /\ isEmpty w = false.
Proof.
  unfold is_word; intros E; apply andb_prop in E as [E1 E2].
  now apply negb_true_iff in E1.
Qed.

Lemma solid_no_newline w :
  solid w = true ->
  forallb (fun c => negb (Ascii.eqb c newline)) (list_ascii_of_string w) = true.
Proof.
  unfold solid; rewrite !forallb_forall; intros E c Hc. specialize (E c Hc).
  destruct (Ascii.eqb_spec c newline) as [->|]; [discriminate E | reflexivity].
Qed.

(** [split_ws] collects the characters of a word in its accumulator ... *)
Lemma split_from_solid w : forall rest cur,
  solid w = true -> split_from (w ++ rest) cur = split_from rest (cur ++ w).
Proof.
  induction w as [|c w IH]; intros rest cur S; simpl.
  - now rewrite string_app_empty.
  - simpl in S; apply andb_prop in S as [S1 S2]. apply negb_true_iff in S1.
    rewrite S1, IH by exact S2. now rewrite snoc_app.
Qed.

(** ... and closes it at the space before the next word. *)
Lemma split_from_spaced toks : forall cur,
  isEmpty cur = false -> forallb is_word toks = true ->
  split_from (spaced toks) cur = cur :: toks.
Proof.
  induction toks as [|t ts IH]; intros cur C W; simpl.
  - now rewrite C.
  - simpl in W; apply andb_prop in W as [W1 W2].
    destruct (is_word_solid t W1) as [S E].
    rewrite C, split_from_solid by exact S. now rewrite IH.
Qed.

Lemma split_ws_record_line toks :
  forallb is_word toks = true -> split_ws (record_line toks) = toks.
Proof.
  destruct toks as [|t ts]; [reflexivity|]. simpl; intros W.
  apply andb_prop in W as [W1 W2]. destruct (is_word_solid t W1) as [S E].
  unfold split_ws. rewrite split_from_solid by exact S. now apply split_from_spaced.
Qed.

(** ** Trimming *)

(** The first character, when there is one, is not white space. *)
Definition starts_solid (l : list ascii) : Prop :=
  match l with
  | [] => True
  | c :: _ => is_space c = false
  end.

Lemma ltrim_starts_solid l :
  starts_solid l -> ltrim (string_of_list_ascii l) = string_of_list_ascii l.
Proof. destruct l as [|c l]; simpl; [reflexivity | now intros ->]. Qed.

(** A text whose first and last characters are not white space is
    trimmed already. *)
Lemma trimmed_solid_ends s :
  starts_solid (list_ascii_of_string s) ->
  starts_solid (rev (list_ascii_of_string s)) -> trimmed_ascii s = s.
Proof.
  intros A B; unfold trimmed_ascii, string_rev.
  rewrite <- (string_of_list_ascii_of_string s) at 1.
  rewrite (ltrim_starts_solid _ A), list_ascii_of_string_of_list_ascii.
  rewrite (ltrim_starts_solid _ B), list_ascii_of_string_of_list_ascii.
  now rewrite rev_involutive, string_of_list_ascii_of_string.
Qed.

Lemma starts_solid_rev_app l1 l2 :
  l2 <> [] -> starts_solid (rev l2) -> starts_solid (rev (l1 ++ l2)).
Proof.
  intros N S; rewrite rev_app_distr.
  destruct (rev l2) as [|c r] eqn:E; [|exact S].
  apply (f_equal (@rev ascii)) in E; rewrite rev_involutive in E. contradiction.
Qed.

Lemma solid_rev w : solid w = true -> starts_solid (rev (list_ascii_of_string w)).
Proof.
  unfold solid; rewrite forallb_forall; intros S.
  destruct (rev (list_ascii_of_string w)) as [|c r] eqn:E; [exact I|]; simpl.
  apply negb_true_iff, S, in_rev. rewrite E; now left.
Qed.

Lemma word_chars t : is_word t = true -> list_ascii_of_string t <> [].
Proof. destruct t; [discriminate | discriminate]. Qed.

(** A line of words ends with the last character of its last word. *)
Lemma record_line_ends t ts :
  forallb is_word (t :: ts) = true ->
  starts_solid (rev (list_ascii_of_string (t ++ spaced ts))).
Proof.
  revert t; induction ts as [|t' ts IH]; intros t W;
    simpl in W; apply andb_prop in W as [W1 W2].
  - simpl; rewrite string_app_empty. now apply solid_rev, is_word_solid.
  - cbn [spaced]. rewrite list_ascii_of_string_app; cbn [list_ascii_of_string].
    change (?a ++ ?c :: ?b)%list with (a ++ [c] ++ b)%list. rewrite app_assoc.
    apply starts_solid_rev_app; [|now apply IH].
    rewrite list_ascii_of_string_app. simpl in W2; apply andb_prop in W2 as [W2 _].
    pose proof (word_chars t' W2). now destruct (list_ascii_of_string t').
Qed.

Lemma trimmed_record_line toks :
  forallb is_word toks = true -> plain (record_line toks) = true ->
  trimmed (record_line toks) = record_line toks.
Proof.
  intros W P; rewrite (trimmed_plain _ P); clear P.
  destruct toks as [|t ts]; [reflexivity|].
  apply trimmed_solid_ends; [|now apply record_line_ends].
  simpl in W; apply andb_prop in W as [W1 _].
  destruct (is_word_cons t W1) as (c & t' & -> & Hc & _). exact Hc.
Qed.

(** ** The loop on a written file *)

Section PtsFileTheory.
Context {T2F : TokenToFloat}.

(** A record the loop accepts: at least three words, the first not a
    comment mark, and nothing at the ends of its line that [trimmed]
    removes. *)
Definition pts_record_ok (toks : list string) : bool :=
  forallb is_word toks && (3 <=? List.length toks)%nat &&
  negb (startsWith_char (hd EmptyString toks) "#") && plain (record_line toks).

(** The vertex of a record: the first three words as the position, words
    four to six as the colour when there are six. *)
Definition add_pts (c : Cloud) (toks : list string) : Cloud :=
  cloud_add c (toFloat (part toks 0)) (toFloat (part toks 1)) (toFloat (part toks 2))
    (pts_color toks).

Lemma startsWith_char_app t rest c :
  isEmpty t = false -> startsWith_char (t ++ rest) c = startsWith_char t c.
Proof. now destruct t. Qed.

Lemma pts_step_record c toks :
  pts_record_ok toks = true -> pts_step c (record_line toks) = add_pts c toks.
Proof.
  unfold pts_record_ok, pts_step; intros E.
  apply andb_prop in E as [E P]; apply andb_prop in E as [E H];
    apply andb_prop in E as [W L].
  rewrite (trimmed_record_line toks W P), (split_ws_record_line toks W), L.
  destruct toks as [|t ts]; [discriminate L|].
  simpl in W; apply andb_prop in W as [W1 _]. destruct (is_word_solid t W1) as [_ N].
  cbn [record_line hd] in *. rewrite (startsWith_char_app t _ _ N).
  apply negb_true_iff in H; rewrite H. now destruct t.
Qed.

Lemma text_lines_of records :
  Forall (fun r => forallb is_word r = true) records ->
  text_lines (lines_of records) = map record_line records.
Proof.
  induction 1 as [|r rs W _ IH]; [reflexivity|]; cbn [lines_of map].
  now rewrite (text_lines_cons _ _ (record_line_one_line r W)), IH.
Qed.

Lemma pts_fold_records records : forall c,
  Forall (fun r => pts_record_ok r = true) records ->
  fold_left pts_step (map record_line records) c = fold_left add_pts records c.
Proof.
  induction records as [|r rs IH]; intros c F; [reflexivity|].
  inversion F as [|? ? R F']; subst; cbn [map fold_left].
  now rewrite (pts_step_record c r R), IH.
Qed.

Lemma pts_record_ok_words r : pts_record_ok r = true -> forallb is_word r = true.
Proof.
  unfold pts_record_ok; intros E. apply andb_prop in E as [E _].
  apply andb_prop in E as [E _]; now apply andb_prop in E as [W _].
Qed.

(** C24: the loop of [loadPtsFile] on a file written one record per line, the
    words separated by one space, each record of at least three words,
    the first not a comment mark, with nothing at the ends of its line
    that [trimmed] removes, builds the cloud of the records: one vertex
    per record, in file order, positions and colours as [toFloat] reads
    the words. *)
Theorem pts_reads_back records :
  Forall (fun r => pts_record_ok r = true) records ->
  pts_parse (lines_of records) = fold_left add_pts records cloud_reset.
Proof.
  intros F; unfold pts_parse.
  rewrite text_lines_of, pts_fold_records; [reflexivity | exact F|].
  eapply Forall_impl; [|exact F]. exact pts_record_ok_words.
Qed.

End PtsFileTheory.

(** ** The two records of the specification's scenario *)

Section PtsFileScenarios.

#[local] Existing Instance QtTokenToFloat.

Definition two_records : list (list string) :=
  [["1.0"; "2.0"; "3.0"; "255"; "0"; "0"]; ["4.0"; "5.0"; "6.0"]].

Lemma pts_reads_back_witness :
  pts_parse (lines_of two_records) = fold_left add_pts two_records cloud_reset.
Proof.
  apply (pts_reads_back (T2F := QtTokenToFloat) two_records).
  repeat constructor.
Defined.

(** The text written, and what a record with too few words or a comment
    mark does to the hypothesis. *)
Lemma pts_file_examples :
  lines_of two_records =
    String.concat (String newline "") ["1.0 2.0 3.0 255 0 0"; "4.0 5.0 6.0"; ""] /\
  pts_record_ok ["1"; "2"] = false /\
  pts_record_ok ["#1"; "2"; "3"] = false /\
  pts_record_ok ["1"; "2 "; "3"] = false /\
  pts_record_ok [String (ascii_of_N 160) "1"; "2"; "3"] = false.
Proof. repeat split; reflexivity. Qed.

(** A record whose first word begins with a no-break space and a comment
    mark is a record of three words for the splitting, and a comment for
    the loop, which tests the trimmed line: nothing is read back. *)
Lemma nbsp_record_not_read_back :
  let r := [String (ascii_of_N 160) "#"; "1"; "2"] in
  forallb is_word r = true /\ split_ws (record_line r) = r /\
  vertices (pts_parse (lines_of [r])) = [] /\
  List.length (vertices (fold_left add_pts [r] cloud_reset)) = 1%nat.
Proof. repeat split; reflexivity. Qed.

End PtsFileScenarios.
