(* ===== verification/Shaders.v ===== *)
(** * Shaders: the shader program of the renderer

    [setupShaders] compiles the vertex and the fragment shader from the
    two texts in pointcloudrenderer.cpp, adds them to [m_program] and
    links it.  Compiling and linking are done by the OpenGL driver
    ([GLCompiler]); a step that fails is reported with [qDebug] and the
    set-up goes on.  The state of a [QOpenGLShaderProgram] is the shaders
    added to it and whether it is linked; the messages are the list the
    function returns.

    [fragment_main] is the [main] of the fragment shader on one fragment,
    in single precision: a point is drawn as a disc, the fragments outside
    the unit circle of the point's square being discarded.

    The renderer state of [Renderer] does not carry the program: no
    handler tests it.  Theorems: the messages name exactly the steps that
    failed, in order; the program is linked exactly when the driver links
    what was added; a failure leaves the program unlinked and is not
    reported to the caller. *)

From Stdlib Require Import ZArith Bool List String SpecFloat.
From S2P Require Import Prelude Float32 Vec3.
Import ListNotations.
Local Open Scope list_scope.
Local Open Scope string_scope.

(** [QOpenGLShader::Vertex] and [QOpenGLShader::Fragment]. *)
Inductive ShaderType : Type := Vertex | Fragment.

(** The texts handed to the compiler. *)
Definition vertexShaderSource : string := "
        #version 330 core
        layout (location = 0) in vec3 position;
        layout (location = 1) in vec3 color;

        uniform mat4 projection;
        uniform mat4 modelView;
        uniform float pointSize;

        out vec3 vertexColor;

        void main()
        {
            gl_Position = projection * modelView * vec4(position, 1.0);
            gl_PointSize = pointSize;
            vertexColor = color;
        }
    ".

Definition fragmentShaderSource : string := "
        #version 330 core
        in vec3 vertexColor;
        out vec4 fragColor;

        void main()
        {
            vec2 circCoord = 2.0 * gl_PointCoord - 1.0;
            if (dot(circCoord, circCoord) > 1.0) {
                discard;
            }
            fragColor = vec4(vertexColor, 1.0);
        }
    ".

(** The driver: whether a text compiles as a shader of a type, and whether
    the shaders added to a program link. *)
Class GLCompiler : Type := {
  compiles : ShaderType -> string -> bool;
  links : list (ShaderType * string) -> bool
}.

Record QOpenGLShaderProgram : Type := mkProgram {
  shaders : list (ShaderType * string);
  isLinked : bool
}.

(** The default-constructed program. *)
Definition program_new : QOpenGLShaderProgram := mkProgram [] false.

Section Shaders.
Context {GL : GLCompiler}.

(** [addShaderFromSourceCode]: the shader is added when it compiles, and
    the program is then no longer linked. *)
Definition addShaderFromSourceCode (type : ShaderType) (source : string)
    (p : QOpenGLShaderProgram) : QOpenGLShaderProgram * bool :=
  if compiles type source then (mkProgram (shaders p ++ [(type, source)])%list false, true)
  else (p, false).

Definition link (p : QOpenGLShaderProgram) : QOpenGLShaderProgram * bool :=
  let ok := links (shaders p) in (mkProgram (shaders p) ok, ok).

(** [setupShaders]: the program after it and the messages it printed. *)
Definition setupShaders (p : QOpenGLShaderProgram) : QOpenGLShaderProgram * list string :=
  let '(p, ok) := addShaderFromSourceCode Vertex vertexShaderSource p in
  let log := if ok then [] else ["Failed to compile vertex shader"] in
  let '(p, ok) := addShaderFromSourceCode Fragment fragmentShaderSource p in
  let log := if ok then log else (log ++ ["Failed to compile fragment shader"])%list in
  let '(p, ok) := link p in
  let log := if ok then log else (log ++ ["Failed to link shader program"])%list in
  (p, log).

End Shaders.

(** ** The fragment shader *)

(** [main] of the fragment shader for the fragment at [gl_PointCoord] of a
    point of colour [vertexColor]: [None] when the fragment is discarded,
    the colour written otherwise. *)
Definition fragment_main (gl_PointCoord : f32 * f32) (vertexColor : QVector3D)
    : option (f32 * f32 * f32 * f32) :=
  let cx := f32_sub (f32_mul f32_2 (fst gl_PointCoord)) f32_one in
  let cy := f32_sub (f32_mul f32_2 (snd gl_PointCoord)) f32_one in
  if f32_lt f32_one (f32_add (f32_mul cx cx) (f32_mul cy cy)) then None
  else Some (vx vertexColor, vy vertexColor, vz vertexColor, f32_one).

(** ** Theory *)

Section ShadersTheory.
Context {GL : GLCompiler}.

(** The shaders of the program after the set-up: those that compiled, the
    vertex shader first. *)
Definition added : list (ShaderType * string) :=
  ((if compiles Vertex vertexShaderSource then [(Vertex, vertexShaderSource)] else []) ++
   (if compiles Fragment fragmentShaderSource then [(Fragment, fragmentShaderSource)]
    else []))%list.

(** What [setupShaders] does to a fresh program, step by step: the
    shaders that compile are added, the program is linked exactly when the
    driver links them, and there is one message per failed step, in the
    order of the steps. *)
Theorem setupShaders_steps :
  setupShaders program_new =
  (mkProgram added (links added),
   ((if compiles Vertex vertexShaderSource then []
     else ["Failed to compile vertex shader"]) ++
    (if compiles Fragment fragmentShaderSource then []
     else ["Failed to compile fragment shader"]) ++
    (if links added then [] else ["Failed to link shader program"]))%list).
Proof.
  unfold setupShaders, addShaderFromSourceCode, link, added, program_new; cbn [shaders].
  destruct (compiles Vertex _), (compiles Fragment _); cbn [app shaders];
    destruct (links _); reflexivity.
Qed.

(** No message means that every step succeeded, and then the program is
    linked with both shaders. *)
Lemma setupShaders_quiet :
  snd (setupShaders program_new) = [] <->
  compiles Vertex vertexShaderSource = true /\
  compiles Fragment fragmentShaderSource = true /\
  links [(Vertex, vertexShaderSource); (Fragment, fragmentShaderSource)] = true.
Proof.
  rewrite setupShaders_steps; unfold added; cbn [snd].
  destruct (compiles Vertex _), (compiles Fragment _); cbn [app];
    try (split; [discriminate | intros (? & ? & ?); discriminate]).
  destruct (links _); split; auto; [discriminate | intros (_ & _ & ?); discriminate].
Qed.

(** A failed step is reported by a message only, and the set-up goes on
    to link what it has: a program that is linked after a message was
    printed lacks one of its two shaders. *)
Lemma setupShaders_failure_kept :
  snd (setupShaders program_new) <> [] ->
  isLinked (fst (setupShaders program_new)) = true ->
  compiles Vertex vertexShaderSource && compiles Fragment fragmentShaderSource = false.
Proof.
  rewrite setupShaders_steps; unfold added; cbn [fst snd isLinked].
  destruct (compiles Vertex _), (compiles Fragment _); cbn [app]; trivial.
  intros N L; rewrite L in N. now elim N.
Qed.

End ShadersTheory.

(** ** A point as a disc *)

(** The fragment at the centre of a point's square and the one in the
    middle of an edge are written, with the colour of the vertex and
    alpha 1; the one at a corner is discarded; a fragment whose coordinate
    is not a number is written. *)
Lemma fragment_main_examples :
  let red := mkVec3 f32_one f32_zero f32_zero in
  fragment_main (f32_half, f32_half) red = Some (f32_one, f32_zero, f32_zero, f32_one) /\
  fragment_main (f32_one, f32_half) red = Some (f32_one, f32_zero, f32_zero, f32_one) /\
  fragment_main (f32_one, f32_one) red = None /\
  fragment_main (f32_zero, f32_zero) red = None /\
  fragment_main (S754_nan, f32_half) red = Some (f32_one, f32_zero, f32_zero, f32_one).
Proof. repeat split; reflexivity. Qed.
