(* ===== verification/VertexBuffer.v ===== *)
(** * VertexBuffer: what a draw call reads from the vertex buffer

    [setupVertexBuffers] uploads the array of [Vertex] structs and
    declares two attributes on it: location 0, three [float]s at offset 0
    of each struct, and location 1, three [float]s at offset
    [3 * sizeof(float)], both with stride [sizeof(Vertex)].  The vertex
    shader receives them as [position] and [color].

    The buffer is modelled as the [float]s it holds ([buffer_floats], the
    memory of the array, six per vertex); [fetch] is the attribute fetch of
    OpenGL for a vertex index: offset and stride are in bytes, as in the
    calls.  Theorems: the layout declared matches the struct, so vertex [i]
    of a draw call is given the position and colour of [m_vertices[i]]
    ([shader_input_vertex]), and every paint of a reachable state draws the
    cloud the renderer holds, vertex by vertex ([paint_draws_cloud]). *)

From Stdlib Require Import Arith ZArith Lia Bool List String SpecFloat.
From S2P Require Import Prelude Float32 Vec3 Matrix Text IStream Cloud.
From S2P Require Import PtsParser PlyParser ViewportParameters Renderer.
Import ListNotations.
Local Open Scope list_scope.

(** [sizeof(float)]. *)
Definition sizeof_float : nat := 4.

(** An argument list of [setAttributeBuffer(location, GL_FLOAT, offset,
    tupleSize, stride)]. *)
Record Attribute : Type := mkAttribute {
  attr_location : nat;
  attr_offset : nat;
  attr_tupleSize : nat;
  attr_stride : nat
}.

(** The two attributes [setupVertexBuffers] declares. *)
Definition position_attribute : Attribute :=
  mkAttribute 0 0 3 (Z.to_nat sizeof_Vertex).

Definition color_attribute : Attribute :=
  mkAttribute 1 (3 * sizeof_float) 3 (Z.to_nat sizeof_Vertex).

(** The memory of a [Vertex]: the three [float]s of [position], then the
    three of [color]. *)
Definition vertex_floats (v : Vertex) : list f32 :=
  [vx (position v); vy (position v); vz (position v);
   vx (color v); vy (color v); vz (color v)].

(** The memory of the array [constData()] points to. *)
Definition buffer_floats (vs : list Vertex) : list f32 := flat_map vertex_floats vs.

(** The attribute of vertex [i]: [tupleSize] floats from byte
    [offset + i * stride] of the buffer; [None] when they are not all in
    the buffer, or not aligned on a [float]. *)
Definition fetch (a : Attribute) (buffer : list f32) (i : nat) : option (list f32) :=
  let byte := attr_offset a + i * attr_stride a in
  if (byte mod sizeof_float =? 0) &&
     (byte / sizeof_float + attr_tupleSize a <=? List.length buffer)
  then Some (firstn (attr_tupleSize a) (skipn (byte / sizeof_float) buffer))
  else None.

(** The inputs [position] and [color] of the vertex shader for vertex [i]. *)
Definition shader_input (buffer : list f32) (i : nat) : option (QVector3D * QVector3D) :=
  match fetch position_attribute buffer i, fetch color_attribute buffer i with
  | Some [px; py; pz], Some [cr; cg; cb] => Some (mkVec3 px py pz, mkVec3 cr cg cb)
  | _, _ => None
  end.

(** ** The layout matches the struct *)
Lemma buffer_floats_length vs : List.length (buffer_floats vs) = 6 * List.length vs.
Proof. induction vs as [|v vs IH]; simpl in *; lia. Qed.

Lemma buffer_floats_skipn i : forall vs,
  skipn (6 * i) (buffer_floats vs) = buffer_floats (skipn i vs).
Proof.
  induction i as [|i IH]; intros vs; [reflexivity|].
  destruct vs as [|v vs]; [reflexivity|].
  replace (6 * S i) with (6 + 6 * i) by lia. exact (IH vs).
Qed.

(** From vertex [i] on, the buffer starts with the floats of that vertex. *)
Lemma buffer_floats_at vs i v :
  nth_error vs i = Some v ->
  (exists rest, skipn (6 * i) (buffer_floats vs) = vertex_floats v ++ rest) /\
  6 * i + 6 <= List.length (buffer_floats vs).
Proof.
  intros N. rewrite buffer_floats_skipn, buffer_floats_length.
  pose proof (proj1 (nth_error_Some vs i) ltac:(congruence)) as L.
  split; [|lia]. revert vs N L; induction i as [|i IH]; intros [|w vs] N L;
    try discriminate N; simpl in *; [injection N as ->; eauto|].
  apply IH; [exact N | lia].
Qed.

(** The byte [4 * o + i * 24] is float [o + 6 * i]. *)
Lemma float_index o i :
  (4 * o + i * 24) mod sizeof_float = 0 /\ (4 * o + i * 24) / sizeof_float = o + 6 * i.
Proof.
  unfold sizeof_float. replace (4 * o + i * 24) with ((o + 6 * i) * 4) by lia.
  split; [apply Nat.Div0.mod_mul | now apply Nat.div_mul].
Qed.

Lemma fetch_at loc o buffer i a b c d e f rest :
  o + 3 <= 6 ->
  skipn (6 * i) buffer = [a; b; c; d; e; f] ++ rest ->
  6 * i + 6 <= List.length buffer ->
  fetch (mkAttribute loc (4 * o) 3 24) buffer i =
  Some (firstn 3 (skipn o [a; b; c; d; e; f])).
Proof.
  intros O S L; unfold fetch; cbn [attr_offset attr_stride attr_tupleSize].
  destruct (float_index o i) as [-> ->]. cbn [Nat.eqb andb].
  destruct (Nat.leb_spec (o + 6 * i + 3) (List.length buffer)); [|lia].
  rewrite <- skipn_skipn, S.
  do 4 (destruct o as [|o]; [reflexivity|]); lia.
Qed.

(** Vertex [i] of a draw call on the buffer of [vs] is given the position
    and the colour of [vs[i]]: the offsets and the stride of the two
    attributes are those of the struct. *)
Theorem shader_input_vertex vs i v :
  nth_error vs i = Some v ->
  shader_input (buffer_floats vs) i = Some (position v, color v).
Proof.
  intros N. destruct (buffer_floats_at vs i v N) as ((rest & S) & L).
  unfold shader_input.
  change position_attribute with (mkAttribute 0 (4 * 0) 3 24).
  change color_attribute with (mkAttribute 1 (4 * 3) 3 24).
  rewrite (fetch_at 0 0 _ i _ _ _ _ _ _ rest ltac:(lia) S L).
  rewrite (fetch_at 1 3 _ i _ _ _ _ _ _ rest ltac:(lia) S L); cbn.
  now destruct v as [[] []].
Qed.

(** ** What a paint draws *)

Section Draw.
Context {M : Type} `{Matrix4x4 M} {libm : Libm} {T2F : TokenToFloat} {NG : NumGet}.
Variable fs : FileSystem.

(** C19: after any sequence of events in which no binary load is cut short, and
    while the vertices fit the [int] byte count of the upload, a paint
    draws the cloud the renderer holds: [glDrawArrays] is given the number
    of vertices, and the vertex shader receives, for each index, the
    position and the colour of the vertex of that index in [m_vertices]. *)
Theorem paint_draws_cloud es (s : PointCloudRenderer M) :
  forallb (fun e => negb (cut_short fs e)) es = true ->
  run fs es (initializeGL renderer_new) = Some s ->
  fits (m_vertices s) ->
  match drawn s with
  | Some d =>
      dc_count d = List.length (m_vertices s) /\
      forall i v, nth_error (m_vertices s) i = Some v ->
        shader_input (buffer_floats (dc_buffer d)) i = Some (position v, color v)
  | None => m_vertices s = []
  end.
Proof.
  intros C R F. pose proof (paint_within_buffer fs es s C R F) as P.
  destruct (drawn s) as [d|]; [|exact P]. destruct P as [B N].
  split; [now rewrite N, B|]. intros i v E. rewrite B. now apply shader_input_vertex.
Qed.

End Draw.

(** ** The first vertex of a loaded file *)

Section VertexBufferScenarios.

#[local] Existing Instance LibmUnitSteps.
#[local] Existing Instance QtTokenToFloat.
#[local] Existing Instance StdNumGet.

Lemma paint_draws_cloud_witness :
  match after [EvLoadPts "a.pts"; EvWheel 120] with
  | Some s =>
      match drawn s with
      | Some d =>
          dc_count d = 2 /\
          shader_input (buffer_floats (dc_buffer d)) 0 =
            Some (mkVec3 f32_one f32_2 (f32_of_Z 3), red)
      | None => False
      end
  | None => False
  end.
Proof.
  destruct (after _) as [s|] eqn:E; [|vm_compute in E; discriminate E].
  pose proof E as E'. vm_compute in E'. injection E' as <-.
  pose proof (paint_draws_cloud example_fs [EvLoadPts "a.pts"; EvWheel 120] _ eq_refl E)
    as P.
  match type of P with _ -> match ?d with _ => _ end =>
    destruct d as [dc|] eqn:D; [|vm_compute in D; discriminate D]
  end.
  destruct P as [N I]; [vm_compute; discriminate|].
  split; [exact N | exact (I 0 _ eq_refl)].
Defined.

End VertexBufferScenarios.
