(* ===== verification/Main.v ===== *)
(** * Main: the application entry

    [main] of main.cpp asks for an OpenGL 3.3 core context with 4 samples
    and a 24-bit depth buffer, constructs [MainWindow] (whose constructor
    connects the actions and the tree to the slots, [ui_handle]), shows it
    and runs the event loop.  The loop dispatches events in the order they
    arrive until the Exit action closes the window ([exec]).

    Theorems: the window [exec] returns is a reachable state of the session
    ([exec_reachable]), so the invariant of the session holds when the loop
    is left ([exec_inv]); nothing is dispatched after the close; the
    version directive of the two shaders is the version [main] requests. *)

From Stdlib Require Import ZArith NArith Lia Bool List String Ascii SpecFloat.
From S2P Require Import Prelude Float32 Vec3 Matrix Text IStream Cloud.
From S2P Require Import PtsParser PlyParser ViewportParameters Renderer.
From S2P Require Import ViewportObject MainWindow Shaders.
Import ListNotations.
Local Open Scope list_scope.

(** [QSurfaceFormat::OpenGLContextProfile]. *)
Inductive OpenGLContextProfile : Type := NoProfile | CoreProfile | CompatibilityProfile.

(** The settings of a [QSurfaceFormat] that [main] makes. *)
Record QSurfaceFormat : Type := mkFormat {
  majorVersion : N;
  minorVersion : N;
  profile : OpenGLContextProfile;
  samples : N;
  depthBufferSize : N
}.

(** The format [main] makes the default. *)
Definition main_format : QSurfaceFormat := mkFormat 3 3 CoreProfile 4 24.

Section Main.
Context {M : Type} `{Matrix4x4 M} {libm : Libm} {T2F : TokenToFloat} {NG : NumGet}.
Variable fs : FileSystem.

(** What the event loop receives: an event for a slot or for the
    renderer, or the Exit action, which closes the window. *)
Inductive AppEvent : Type :=
| Dispatch (e : UiEvent M)
| ActionExit.

(** [app.exec()] on the window: the events are dispatched in order until
    the window is closed; [None] when a handler's behaviour is undefined. *)
Fixpoint exec (events : list AppEvent) (w : MainWindow M) : option (MainWindow M) :=
  match events with
  | [] => Some w
  | ActionExit :: _ => Some w
  | Dispatch e :: events' =>
      match ui_handle fs e w with
      | Some w' => exec events' w'
      | None => None
      end
  end.

(** [main]: the default format, and the window when the loop is left. *)
Definition main (events : list AppEvent) : QSurfaceFormat * option (MainWindow M) :=
  (main_format, exec events window_start).

(** The events dispatched before the window is closed. *)
Fixpoint dispatched (events : list AppEvent) : list (UiEvent M) :=
  match events with
  | Dispatch e :: events' => e :: dispatched events'
  | _ => []
  end.

(** ** Theory *)
Lemma exec_ui_run events : forall w, exec events w = ui_run fs (dispatched events) w.
Proof.
  induction events as [|[e|] events IH]; intros w; simpl; trivial.
  destruct (ui_handle fs e w); auto.
Qed.

Lemma ui_run_ui_reachable es : forall w w',
  ui_reachable fs w -> ui_run fs es w = Some w' -> ui_reachable fs w'.
Proof.
  induction es as [|e es IH]; simpl; intros w w' R; [now intros [= <-]|].
  destruct (ui_handle fs e w) eqn:E; [|discriminate].
  apply IH. eapply ui_reach_step; eassumption.
Qed.

(** The window the event loop returns is a reachable state of the
    session. *)
Theorem exec_reachable events w :
  snd (main events) = Some w -> ui_reachable fs w.
Proof.
  unfold main; cbn [snd]. rewrite exec_ui_run.
  apply ui_run_ui_reachable, ui_reach_start.
Qed.

(** When the loop is left the tree shows the snapshot list, the names
    follow the counter and the renderer's matrix is consistent. *)
Lemma exec_inv events w : snd (main events) = Some w -> window_inv w.
Proof.
  unfold main; cbn [snd]. rewrite exec_ui_run. apply ui_run_inv, window_start_inv.
Qed.

(** Nothing is dispatched once the Exit action has closed the window. *)
Lemma exec_after_exit before later w :
  exec (before ++ ActionExit :: later) w = exec (before ++ [ActionExit]) w.
Proof.
  rewrite !exec_ui_run. f_equal.
  induction before as [|[e|] before IH]; simpl; congruence.
Qed.

End Main.

(** ** The context the shaders are written for *)

(** The number after [#version] at the head of a shader text, and the
    profile named after it. *)
Definition version_directive (source : string) : option (N * string) :=
  let s := ltrim source in
  if String.prefix "#version " s then
    let '(v, n, rest) := take_digits (substring 9 (String.length s) s) 0 0 in
    match n with
    | O => None
    | _ => Some (v, fst (cut_word (ltrim rest)))
    end
  else None.

(** Both shaders ask for version 330 core, the version of the context
    [main] requests: 100 times the major version plus 10 times the minor
    version, of the core profile. *)
Lemma shaders_match_format :
  version_directive vertexShaderSource = Some (330, "core"%string)%N /\
  version_directive fragmentShaderSource = Some (330, "core"%string)%N /\
  (100 * majorVersion main_format + 10 * minorVersion main_format = 330)%N /\
  profile main_format = CoreProfile.
Proof. repeat split; reflexivity. Qed.

(** ** A short run *)

Section MainScenarios.

#[local] Existing Instance LibmUnitSteps.
#[local] Existing Instance QtTokenToFloat.
#[local] Existing Instance StdNumGet.

(** Open a file, capture the view, exit; the reset that follows the exit
    is not dispatched. *)
Definition short_run : list (AppEvent (M := SymMatrix)) :=
  [Dispatch (UiOpen "a.pts"); Dispatch UiSaveViewport; ActionExit; Dispatch UiResetView].

Lemma exec_reachable_witness :
  match snd (main example_fs short_run) with
  | Some w => ui_reachable example_fs w
  | None => False
  end.
Proof.
  destruct (snd (main example_fs short_run)) as [w|] eqn:E;
    [|vm_compute in E; discriminate E].
  exact (exec_reachable example_fs short_run w E).
Defined.

(** The window at the exit holds the one snapshot, and the format is the
    one requested. *)
Lemma short_run_result :
  fst (main example_fs short_run) = main_format /\
  match snd (main example_fs short_run) with
  | Some w => map getName (m_viewportList w) = ["Viewport #1"%string]
  | None => False
  end.
Proof. split; vm_compute; reflexivity. Qed.

End MainScenarios.
