(* ===== verification/Lifetime.v ===== *)
(** * Lifetime: the snapshot objects on the free store

    mainwindow.cpp creates every [ViewportObject] with [new], keeps the
    pointer in [m_viewportList] and in the data of a tree item, follows
    the pointer when an item is double-clicked, and deletes the objects
    of the list in [MainWindow::~MainWindow] ([qDeleteAll]).  MainWindow.v
    identifies a pointer with the position of its object in the list.
    This file models the pointers themselves: the free store is a finite
    map from addresses to objects, [new] returns an address the allocator
    chooses outside the live ones, an object is read and written through
    its address, and [delete] of an address that is not live, like the use
    of such an address, is undefined ([None]).

    Theorems: a session on the free store goes wherever the session of
    MainWindow.v goes, and its states correspond ([sim]): the list holds
    pairwise distinct live addresses, every live object is in the list,
    and every tree item points to the object it names
    ([session_on_free_store]); so no slot follows a dangling pointer, and
    when [main] returns the destructor has deleted every object exactly
    once and the free store is empty ([main_frees_all]). *)

From stdpp Require Import gmap list.
From Stdlib Require Import ZArith NArith String SpecFloat.
From S2P Require Import Prelude Float32 Vec3 Matrix Text IStream Cloud.
From S2P Require Import PtsParser PlyParser ViewportParameters Renderer.
From S2P Require Import ViewportObject MainWindow Main.

(** The address of an object on the free store. *)
Definition addr : Type := positive.

(** An item of the tree: its text and the [ViewportObject*] in its data
    ([None]: no valid pointer). *)
Record TreeItemPtr : Type := mkItemPtr { ptr_text : string; ptr_data : option addr }.

Section Lifetime.
Context {M : Type} `{Matrix4x4 M} {libm : Libm} {T2F : TokenToFloat} {NG : NumGet}.
Variable fs : FileSystem.

(** The free store: the live [ViewportObject]s, by address. *)
Local Abbreviation FreeStore := (gmap addr (ViewportObject M)).

(** The allocator: where [new] puts an object, given what is live. *)
Variable alloc : FreeStore -> addr.

(** The window with its pointers: the free store, and the members of
    [MainWindow] with addresses where MainWindow.v has positions. *)
Record WindowPtr : Type := mkWindowPtr {
  free_store : FreeStore;
  p_renderer : PointCloudRenderer M;
  p_viewportList : list addr;
  p_dbTreeWidget : list TreeItemPtr;
  p_viewportIndex : N;
  p_shown : list Dialog
}.

Definition set_store st (w : WindowPtr) :=
  mkWindowPtr st (p_renderer w) (p_viewportList w) (p_dbTreeWidget w)
    (p_viewportIndex w) (p_shown w).

(** The members that hold no pointer to a snapshot, as a window without
    snapshots, and their update. *)
Definition members (w : WindowPtr) : MainWindow M :=
  mkWindow (p_renderer w) [] [] (p_viewportIndex w) (p_shown w).

Definition set_members (m : MainWindow M) (w : WindowPtr) : WindowPtr :=
  mkWindowPtr (free_store w) (m_renderer m) (p_viewportList w) (p_dbTreeWidget w)
    (s_viewportIndex m) (shown m).

(** The window after its constructor: nothing allocated. *)
Definition window_start_ptr : WindowPtr :=
  mkWindowPtr ∅ (initializeGL renderer_new) [] [] 0 [].

(** [new ViewportObject(name)]. *)
Definition new_ViewportObject (name : string) (w : WindowPtr) : addr * WindowPtr :=
  let a := alloc (free_store w) in
  (a, set_store (<[a := viewport_new name]> (free_store w)) w).

(** A member call [viewport->f(...)] that changes the object. *)
Definition through (viewport : addr) (f : ViewportObject M -> ViewportObject M)
    (w : WindowPtr) : option WindowPtr :=
  v ← free_store w !! viewport;
  Some (set_store (<[viewport := f v]> (free_store w)) w).

(** [updateTreeWidget(viewport)]: the item reads the name through the
    pointer and keeps the pointer. *)
Definition updateTreeWidget_ptr (viewport : addr) (w : WindowPtr) : option WindowPtr :=
  v ← free_store w !! viewport;
  Some (mkWindowPtr (free_store w) (p_renderer w) (p_viewportList w)
          (p_dbTreeWidget w ++ [mkItemPtr (getName v) (Some viewport)])
          (p_viewportIndex w) (p_shown w)).

(** [addToDB(viewport)]. *)
Definition addToDB_ptr (viewport : addr) (w : WindowPtr) : option WindowPtr :=
  updateTreeWidget_ptr viewport
    (mkWindowPtr (free_store w) (p_renderer w) (p_viewportList w ++ [viewport])
       (p_dbTreeWidget w) (p_viewportIndex w) (p_shown w)).

(** The four statements both capture slots end with:
    [new ViewportObject(QString("Viewport #%1").arg(++s_viewportIndex))],
    [setParameters], [setDisplay], [addToDB]. *)
Definition store_viewport (params : ViewportParameters M) (w : WindowPtr)
    : option WindowPtr :=
  let index := ((p_viewportIndex w + 1) mod UINT_MOD)%N in
  let w := mkWindowPtr (free_store w) (p_renderer w) (p_viewportList w)
             (p_dbTreeWidget w) index (p_shown w) in
  let '(viewportObject, w) := new_ViewportObject (viewport_name index) w in
  w ← through viewportObject (setParameters params) w;
  w ← through viewportObject (setDisplay the_renderer) w;
  addToDB_ptr viewportObject w.

Definition doActionSaveViewportAsObject_ptr (w : WindowPtr) : option WindowPtr :=
  if (getPointCount (p_renderer w) =? 0)%nat then Some w
  else store_viewport (getViewportParameters (p_renderer w)) w.

Definition show_dialog_ptr (d : Dialog) (w : WindowPtr) : WindowPtr :=
  mkWindowPtr (free_store w) (p_renderer w) (p_viewportList w) (p_dbTreeWidget w)
    (p_viewportIndex w) (p_shown w ++ [d]).

Definition set_renderer_ptr (r : PointCloudRenderer M) (w : WindowPtr) : WindowPtr :=
  mkWindowPtr (free_store w) r (p_viewportList w) (p_dbTreeWidget w)
    (p_viewportIndex w) (p_shown w).

Definition doActionSaveViewportWithUserCoords_ptr (x y z : option spec_float)
    (w : WindowPtr) : option WindowPtr :=
  if (getPointCount (p_renderer w) =? 0)%nat then Some (show_dialog_ptr WarnNoPointCloud w)
  else
    let params := getViewportParameters (p_renderer w) in
    let currentCameraCenter := modelCenter params in
    let sceneSize := vec3_length (getBoundingBoxSize (p_renderer w)) in
    if f32_le sceneSize f32_zero then Some (show_dialog_ptr WarnNoBoundingBox w)
    else
      let w := show_dialog_ptr (InfoCameraPosition currentCameraCenter) w in
      match x, y, z with
      | Some x, Some y, Some z =>
          let params :=
            with_center_distance
              (mkVec3 (f32_of_f64 x) (f32_of_f64 y) (f32_of_f64 z))
              (f32_mul sceneSize f32_1_5) params in
          let w := set_renderer_ptr (update (setViewport params (p_renderer w))) w in
          store_viewport params w
      | _, _, _ => Some w
      end.

(** [onTreeWidgetItemDoubleClicked]: the pointer in the item's data is
    followed. *)
Definition onTreeWidgetItemDoubleClicked_ptr (item : nat) (w : WindowPtr)
    : option WindowPtr :=
  match p_dbTreeWidget w !! item with
  | Some it =>
      match ptr_data it with
      | Some viewport =>
          v ← free_store w !! viewport;
          Some (match applyViewport v (Some (p_renderer w)) with
                | Some r => set_renderer_ptr r w
                | None => w
                end)
      | None => Some w
      end
  | None => Some w
  end.

(** A slot or an event that touches no pointer to a snapshot: the one of
    MainWindow.v on the other members. *)
Definition on_members (e : UiEvent M) (w : WindowPtr) : option WindowPtr :=
  m ← ui_handle fs e (members w); Some (set_members m w).

Definition ui_handle_ptr (e : UiEvent M) (w : WindowPtr) : option WindowPtr :=
  match e with
  | UiSaveViewport => doActionSaveViewportAsObject_ptr w
  | UiSaveViewportWithCoords x y z => doActionSaveViewportWithUserCoords_ptr x y z w
  | UiDoubleClick item => onTreeWidgetItemDoubleClicked_ptr item w
  | _ => on_members e w
  end.

Fixpoint ui_run_ptr (es : list (UiEvent M)) (w : WindowPtr) : option WindowPtr :=
  match es with
  | [] => Some w
  | e :: es' => w' ← ui_handle_ptr e w; ui_run_ptr es' w'
  end.

(** [delete] of every pointer of the list, in order. *)
Fixpoint qDeleteAll (l : list addr) (st : FreeStore) : option FreeStore :=
  match l with
  | [] => Some st
  | a :: l' => _ ← st !! a; qDeleteAll l' (delete a st)
  end.

(** [MainWindow::~MainWindow]: what is left on the free store. *)
Definition MainWindow_destroy (w : WindowPtr) : option FreeStore :=
  qDeleteAll (p_viewportList w) (free_store w).

(** [main] until it returns: the event loop, then the destructor of the
    window. *)
Definition main_ptr (events : list (AppEvent (M := M))) : option FreeStore :=
  w ← ui_run_ptr (dispatched events) window_start_ptr; MainWindow_destroy w.

End Lifetime.

Arguments WindowPtr M : clear implicits.

(** ** Theory *)

Section LifetimeTheory.
Context {M : Type} `{Matrix4x4 M} {libm : Libm} {T2F : TokenToFloat} {NG : NumGet}.
Variable fs : FileSystem.
Variable alloc : gmap addr (ViewportObject M) -> addr.

(** What [new] promises: the address it returns is not live. *)
Hypothesis alloc_fresh : forall st, st !! alloc st = None.

(** An item with a pointer and the item with the position of the object
    in the list. *)
Definition item_sim (l : list addr) (pi : TreeItemPtr) (it : TreeItem) : Prop :=
  item_text it = ptr_text pi /\
  exists i a, item_data it = Some i /\ ptr_data pi = Some a /\ l !! i = Some a.

(** A window on the free store and the window of MainWindow.v it stands
    for: the addresses of the list are live, pairwise distinct and hold
    the objects of the list, in order; nothing else is live; every item
    points to the object at its position. *)
Record sim (pw : WindowPtr M) (w : MainWindow M) : Prop := {
  sim_renderer : p_renderer pw = m_renderer w;
  sim_index : p_viewportIndex pw = s_viewportIndex w;
  sim_shown : p_shown pw = shown w;
  sim_list :
    Forall2 (fun a v => free_store pw !! a = Some v) (p_viewportList pw) (m_viewportList w);
  sim_tree : Forall2 (item_sim (p_viewportList pw)) (p_dbTreeWidget pw) (m_dbTreeWidget w);
  sim_nodup : NoDup (p_viewportList pw);
  sim_live : forall a, is_Some (free_store pw !! a) -> a ∈ p_viewportList pw
}.

Lemma sim_start : sim window_start_ptr window_start.
Proof.
  constructor; simpl; try done; try constructor.
  intros a [v Hv]. by rewrite lookup_empty in Hv.
Qed.

(** The four statements on the free store: one object more, at the
    address the allocator chose. *)
Lemma store_viewport_spec p (pw : WindowPtr M) :
  let index := ((p_viewportIndex pw + 1) mod UINT_MOD)%N in
  let a := alloc (free_store pw) in
  let v := setDisplay the_renderer (setParameters p (viewport_new (viewport_name index))) in
  store_viewport alloc p pw =
  Some (mkWindowPtr (<[a := v]> (free_store pw)) (p_renderer pw)
          (p_viewportList pw ++ [a])
          (p_dbTreeWidget pw ++ [mkItemPtr (viewport_name index) (Some a)])
          index (p_shown pw)).
Proof.
  unfold store_viewport, new_ViewportObject, through, addToDB_ptr, updateTreeWidget_ptr.
  simpl. rewrite !lookup_insert_eq; simpl. rewrite !lookup_insert_eq; simpl.
  rewrite !lookup_insert_eq; simpl. by rewrite !insert_insert_eq.
Qed.

(** The addresses of the list are live. *)
Lemma sim_list_live pw w a :
  sim pw w -> a ∈ p_viewportList pw -> is_Some (free_store pw !! a).
Proof.
  intros S Ha. pose proof (sim_list _ _ S) as F.
  induction F as [|b v l l' Hb F IH]; [by apply elem_of_nil in Ha|].
  apply elem_of_cons in Ha as [->|Ha]; eauto.
Qed.

Lemma alloc_not_listed pw w : sim pw w -> alloc (free_store pw) ∉ p_viewportList pw.
Proof.
  intros S Ha. destruct (sim_list_live _ _ _ S Ha) as [v Hv].
  by rewrite alloc_fresh in Hv.
Qed.

Lemma item_sim_app l a pi it : item_sim l pi it -> item_sim (l ++ [a]) pi it.
Proof.
  intros (T & i & b & D & P & L). split; [done|].
  exists i, b. repeat split; [done..|]. by apply lookup_app_l_Some.
Qed.

(** Storing a snapshot on the free store is registering it in the list of
    MainWindow.v. *)
Lemma store_viewport_sim p pw w :
  sim pw w ->
  exists pw', store_viewport alloc p pw = Some pw' /\ sim pw' (register p w).
Proof.
  intros S. eexists; split; [apply store_viewport_spec|].
  pose proof (alloc_not_listed _ _ S) as Fr.
  destruct (register_spec p w) as (L & T & R & I & Sh); unfold next_index in *.
  destruct S as [Sr Si Ss Sl St Sn Sv].
  constructor; simpl; rewrite ?L, ?T, ?R, ?I, ?Sh, ?Si; try done.
  - apply Forall2_app.
    + eapply Forall2_impl; [exact Sl|]. intros a v Hv; simpl in Hv.
      rewrite lookup_insert_ne; [done|]. intros <-. by rewrite alloc_fresh in Hv.
    + constructor; [|constructor]. by rewrite lookup_insert_eq.
  - apply Forall2_app.
    + eapply Forall2_impl; [exact St|]. intros; by apply item_sim_app.
    + constructor; [|constructor]. split; [done|].
      exists (List.length (m_viewportList w)), (alloc (free_store pw)).
      repeat split. rewrite <- (Forall2_length _ _ _ Sl).
      by rewrite lookup_app_r, Nat.sub_diag.
  - apply NoDup_app; repeat split; [done| |apply NoDup_singleton].
    intros a Ha ->%list_elem_of_singleton. done.
  - intros a [v Hv]. apply elem_of_app.
    destruct (decide (a = alloc (free_store pw))) as [->|Ne].
    + right; by apply list_elem_of_singleton.
    + left; apply Sv. rewrite lookup_insert_ne in Hv; eauto.
Qed.

(** ** The slots that touch no pointer *)

(** The slots that create or follow a pointer to a snapshot. *)
Definition touches_pointers (e : UiEvent M) : bool :=
  match e with
  | UiSaveViewport | UiSaveViewportWithCoords _ _ _ | UiDoubleClick _ => true
  | _ => false
  end.

(** The other members of a window, with another list and tree. *)
Definition with_lists l t (w : MainWindow M) : MainWindow M :=
  mkWindow (m_renderer w) l t (s_viewportIndex w) (shown w).

(** A slot that touches no pointer leaves list and tree alone and does
    the same whatever they hold. *)
Lemma ui_handle_members e l t w w' :
  touches_pointers e = false -> ui_handle fs e w = Some w' ->
  ui_handle fs e (with_lists l t w) = Some (with_lists l t w') /\
  m_viewportList w' = m_viewportList w /\ m_dbTreeWidget w' = m_dbTreeWidget w.
Proof.
  destruct e as [filename| | | | |e]; try discriminate; intros _; simpl.
  - unfold openPointCloudFile; simpl.
    repeat case_match; intros; simplify_eq; done.
  - intros; simplify_eq; done.
  - destruct (handle fs e (m_renderer w)); simpl; intros; simplify_eq; done.
Qed.

Lemma on_members_sim e pw w w' :
  touches_pointers e = false -> sim pw w -> ui_handle fs e w = Some w' ->
  exists pw', on_members fs e pw = Some pw' /\ sim pw' w'.
Proof.
  intros Te S E. destruct (ui_handle_members e [] [] w w' Te E) as (E' & L & T).
  destruct S as [Sr Si Ss Sl St Sn Sv].
  exists (set_members w' pw); split.
  - unfold on_members, members. rewrite Sr, Si, Ss.
    change (mkWindow _ _ _ _ _) with (with_lists [] [] w). by rewrite E'.
  - constructor; simpl; rewrite ?L, ?T; done.
Qed.

(** ** Following a pointer *)
Lemma nth_error_lookup {A} (l : list A) i : nth_error l i = l !! i.
Proof. revert i; induction l; intros [|i]; simpl; auto. Qed.

Lemma set_renderer_sim r pw w : sim pw w -> sim (set_renderer_ptr r pw) (set_renderer r w).
Proof. intros [Sr Si Ss Sl St Sn Sv]; constructor; done. Qed.

Lemma show_dialog_sim d pw w : sim pw w -> sim (show_dialog_ptr d pw) (show_dialog d w).
Proof. intros [Sr Si Ss Sl St Sn Sv]; constructor; simpl; rewrite ?Ss; done. Qed.

(** The pointer of an item is live and leads to the object at the item's
    position. *)
Lemma sim_item pw w item pi :
  sim pw w -> p_dbTreeWidget pw !! item = Some pi ->
  exists it i a v, m_dbTreeWidget w !! item = Some it /\ item_data it = Some i /\
    ptr_data pi = Some a /\ m_viewportList w !! i = Some v /\
    free_store pw !! a = Some v.
Proof.
  intros S P.
  destruct (Forall2_lookup_l _ _ _ _ _ (sim_tree _ _ S) P) as (it & I & _ & i & a & D & Pd & L).
  destruct (Forall2_lookup_l _ _ _ _ _ (sim_list _ _ S) L) as (v & V & Hv).
  by exists it, i, a, v.
Qed.

Lemma onTreeWidgetItemDoubleClicked_sim item pw w :
  sim pw w ->
  exists pw', onTreeWidgetItemDoubleClicked_ptr item pw = Some pw' /\
    sim pw' (onTreeWidgetItemDoubleClicked item w).
Proof.
  intros S; unfold onTreeWidgetItemDoubleClicked_ptr, onTreeWidgetItemDoubleClicked.
  rewrite nth_error_lookup.
  destruct (p_dbTreeWidget pw !! item) as [pi|] eqn:P.
  - destruct (sim_item _ _ _ _ S P) as (it & i & a & v & -> & -> & -> & V & ->).
    rewrite nth_error_lookup, V, (sim_renderer _ _ S); simpl.
    eexists; split; [done|]. by apply set_renderer_sim.
  - assert (m_dbTreeWidget w !! item = None) as ->; [|by eauto].
    apply lookup_ge_None. apply lookup_ge_None in P.
    by rewrite <- (Forall2_length _ _ _ (sim_tree _ _ S)).
Qed.

(** ** The slots, the session *)
Lemma doActionSaveViewportAsObject_sim pw w :
  sim pw w ->
  exists pw', doActionSaveViewportAsObject_ptr alloc pw = Some pw' /\
    sim pw' (doActionSaveViewportAsObject w).
Proof.
  intros S. rewrite doActionSaveViewportAsObject_register.
  unfold doActionSaveViewportAsObject_ptr. rewrite (sim_renderer _ _ S).
  case_match; [by eauto|]. by apply store_viewport_sim.
Qed.

Lemma doActionSaveViewportWithUserCoords_sim x y z pw w :
  sim pw w ->
  exists pw', doActionSaveViewportWithUserCoords_ptr alloc x y z pw = Some pw' /\
    sim pw' (doActionSaveViewportWithUserCoords x y z w).
Proof.
  intros S. rewrite doActionSaveViewportWithUserCoords_cases.
  unfold doActionSaveViewportWithUserCoords_ptr. cbn zeta.
  rewrite (sim_renderer _ _ S).
  repeat case_match; simplify_eq; eauto using show_dialog_sim.
  apply store_viewport_sim. change (p_renderer (show_dialog_ptr _ pw)) with (p_renderer pw).
  rewrite (sim_renderer _ _ S). by apply set_renderer_sim, show_dialog_sim.
Qed.

(** Every step of the window of MainWindow.v is a step on the free store,
    to a corresponding state. *)
Lemma ui_handle_ptr_sim e pw w w' :
  sim pw w -> ui_handle fs e w = Some w' ->
  exists pw', ui_handle_ptr fs alloc e pw = Some pw' /\ sim pw' w'.
Proof.
  intros S E. destruct e; simpl in *; simplify_eq;
    eauto using on_members_sim, doActionSaveViewportAsObject_sim,
      doActionSaveViewportWithUserCoords_sim, onTreeWidgetItemDoubleClicked_sim.
Qed.

Lemma ui_run_ptr_sim es : forall pw w w',
  sim pw w -> ui_run fs es w = Some w' ->
  exists pw', ui_run_ptr fs alloc es pw = Some pw' /\ sim pw' w'.
Proof.
  induction es as [|e es IH]; simpl; intros pw w w' S E; [simplify_eq; eauto|].
  destruct (ui_handle fs e w) as [w1|] eqn:E1; [|done].
  destruct (ui_handle_ptr_sim e pw w w1 S E1) as (pw1 & -> & S1); simpl. eauto.
Qed.

(** C16: a session on the free store goes wherever the session of
    MainWindow.v goes, whatever addresses the allocator chooses among the
    free ones: no slot follows a pointer to an object that is not live,
    and the windows correspond: the addresses of the list are pairwise
    distinct and hold the snapshots of the list in order, nothing else is
    live, and the pointer of a tree item leads to the snapshot at the
    item's position. *)
Theorem session_on_free_store es w :
  ui_run fs es window_start = Some w ->
  exists pw, ui_run_ptr fs alloc es window_start_ptr = Some pw /\ sim pw w.
Proof. apply ui_run_ptr_sim, sim_start. Qed.

(** ** The destructor *)

(** Deleting the pointers of a list without repetition that holds
    exactly the live addresses deletes every object once and leaves
    nothing. *)
Lemma qDeleteAll_all l : forall st : gmap addr (ViewportObject M),
  NoDup l -> (forall a, a ∈ l <-> is_Some (st !! a)) -> qDeleteAll l st = Some ∅.
Proof.
  induction l as [|a l IH]; intros st N L; simpl.
  - f_equal. apply map_empty. intros a. apply eq_None_not_Some.
    rewrite <- L. apply not_elem_of_nil.
  - apply NoDup_cons in N as [Na N].
    destruct (proj1 (L a) ltac:(left)) as [v ->]; simpl. apply IH; [done|].
    intros b. rewrite lookup_delete_is_Some, <- L, elem_of_cons.
    split; [intros Hb; split; [by intros <-|by right] | by intros [Ne [<-|Hb]]].
Qed.

Lemma MainWindow_destroy_sim pw w : sim pw w -> MainWindow_destroy pw = Some ∅.
Proof.
  intros S. apply qDeleteAll_all; [apply (sim_nodup _ _ S)|].
  intros a; split; [apply (sim_list_live _ _ _ S) | apply (sim_live _ _ S)].
Qed.

(** C17: when [main] returns, every [ViewportObject] the session created
    has been deleted, each exactly once: the loop followed no dangling
    pointer, [qDeleteAll] deleted no address twice, and the free store is
    empty.  It holds for every sequence of events on which the loaders
    are defined, and every allocator. *)
Theorem main_frees_all events :
  is_Some (snd (main fs events)) -> main_ptr fs alloc events = Some ∅.
Proof.
  unfold main, main_ptr; cbn [snd]. rewrite exec_ui_run. intros [w E].
  destruct (ui_run_ptr_sim _ _ _ _ sim_start E) as (pw & -> & S); simpl.
  by apply (MainWindow_destroy_sim pw w).
Qed.

End LifetimeTheory.

(** ** A short run on the free store *)

Section LifetimeScenarios.

#[local] Existing Instance LibmUnitSteps.
#[local] Existing Instance QtTokenToFloat.
#[local] Existing Instance StdNumGet.

(** An allocator: the first address that is not live. *)
Definition first_free (st : gmap addr (ViewportObject SymMatrix)) : addr :=
  fresh (dom st : gset addr).

Lemma first_free_fresh st : st !! first_free st = None.
Proof. unfold first_free. apply (not_elem_of_dom (D := gset addr) st). apply (is_fresh (dom st)). Qed.

(** Two captures and a replay by the pointer of the second item. *)
Definition two_captures : list (UiEvent SymMatrix) :=
  [UiOpen "a.pts"; UiSaveViewport; UiSaveViewport; UiDoubleClick 1].

Lemma session_on_free_store_witness :
  match session two_captures with
  | Some w =>
      exists pw, ui_run_ptr example_fs first_free two_captures window_start_ptr = Some pw /\
        sim pw w
  | None => False
  end.
Proof.
  destruct (session two_captures) as [w|] eqn:E; [|vm_compute in E; discriminate E].
  exact (session_on_free_store example_fs first_free first_free_fresh two_captures w E).
Defined.

Lemma main_frees_all_witness : main_ptr example_fs first_free short_run = Some ∅.
Proof.
  apply (main_frees_all example_fs first_free first_free_fresh short_run).
  vm_compute; eauto.
Defined.

(** The two snapshots lie at two addresses, and the tree items keep
    them. *)
Lemma two_captures_addresses :
  match ui_run_ptr example_fs first_free two_captures window_start_ptr with
  | Some pw =>
      p_viewportList pw = [1; 2]%positive /\
      map ptr_data (p_dbTreeWidget pw) = [Some 1; Some 2]%positive /\
      map ptr_text (p_dbTreeWidget pw) = ["Viewport #1"; "Viewport #2"]%string
  | None => False
  end.
Proof. vm_compute. done. Qed.

(** What the model refuses: a pointer that occurs twice in the list is
    deleted twice. *)
Lemma qDeleteAll_twice (a : addr) (v : ViewportObject SymMatrix) :
  qDeleteAll [a; a] {[a := v]} = None.
Proof. simpl. by rewrite lookup_singleton_eq, delete_singleton_eq, lookup_empty. Qed.

(** What [new] must promise: with an allocator that hands out a live
    address the second capture overwrites the first snapshot, and the
    destructor deletes the address twice. *)
Lemma stuck_allocator_double_delete :
  main_ptr example_fs (fun _ => 1%positive)
    [Dispatch (UiOpen "a.pts"); Dispatch UiSaveViewport; Dispatch UiSaveViewport] = None.
Proof. vm_compute. done. Qed.

End LifetimeScenarios.
