(* ===== verification/Camera.v ===== *)
(** * Camera: what the model-view matrix does to a point

    [updateModelViewMatrix] builds the matrix with [translate(0, 0,
    -distance)], [rotate(rotation.x, 1, 0, 0)], [rotate(rotation.y, 0, 1,
    0)] and [translate(-modelCenter)], and the vertex shader multiplies it
    with the position of every vertex.  The other files compare matrices
    by the calls that built them.  This file says what those calls mean:
    each call of [QMatrix4x4] multiplies the matrix from the right with a
    translation or a rotation, so the matrix maps a point through the
    calls in the reverse order.  The meaning is taken in the real
    numbers, a [float] standing for its exact value and an angle being in
    degrees; a matrix built from a value that is not finite has none.

    Theorems: the view maps a point [p] to the point obtained by moving
    the centre to the origin, turning about the Y axis and then about the
    X axis, and moving back by the distance ([view_point]); the model
    centre is seen on the view axis at the camera distance, and every
    point keeps its distance to the centre, so the camera orbits the
    centre and points nearer to the centre than the camera lie in front
    of it ([camera_orbits_centre]); after [resetView] the view is a
    translation. *)

From Stdlib Require Import ZArith Bool List String Reals Lra SpecFloat.
From S2P Require Import Prelude Float32 Vec3 Matrix Text IStream Cloud.
From S2P Require Import PtsParser PlyParser ViewportParameters Renderer.
Import ListNotations.
Local Open Scope bool_scope.
Local Open Scope R_scope.

(** ** Values *)

(** A [float] that is a number of finite size. *)
Definition f32_finite (x : f32) : bool :=
  match x with S754_zero _ | S754_finite _ _ _ => true | _ => false end.

(** The exact value of a finite [float] (0 for the others). *)
Definition f32_R (x : f32) : R :=
  match x with
  | S754_finite s m e =>
      let v := IZR (Zpos m) * powerRZ 2 e in if s then - v else v
  | _ => 0
  end.

(** A point of space. *)
Record point : Type := mkPoint { px : R; py : R; pz : R }.

Definition vec3_finite (v : QVector3D) : bool :=
  f32_finite (vx v) && f32_finite (vy v) && f32_finite (vz v).

Definition vec3_R (v : QVector3D) : point :=
  mkPoint (f32_R (vx v)) (f32_R (vy v)) (f32_R (vz v)).

Definition padd (a b : point) : point :=
  mkPoint (px a + px b) (py a + py b) (pz a + pz b).

Definition psub (a b : point) : point :=
  mkPoint (px a - px b) (py a - py b) (pz a - pz b).

(** The square of the distance between two points. *)
Definition dist2 (a b : point) : R :=
  (px a - px b) * (px a - px b) + (py a - py b) * (py a - py b) +
  (pz a - pz b) * (pz a - pz b).

(** ** The calls of [QMatrix4x4] on a point *)

(** An angle in degrees, in radians. *)
Definition radians (angle : R) : R := angle * PI / 180.

(** The rotation by [angle] degrees about the X axis, and about the Y
    axis. *)
Definition rotate_x (angle : R) (p : point) : point :=
  let c := cos (radians angle) in
  let s := sin (radians angle) in
  mkPoint (px p) (c * py p - s * pz p) (s * py p + c * pz p).

Definition rotate_y (angle : R) (p : point) : point :=
  let c := cos (radians angle) in
  let s := sin (radians angle) in
  mkPoint (c * px p + s * pz p) (py p) (- s * px p + c * pz p).

(** The axis a call of [rotate] names, when it is the X or the Y axis. *)
Definition rotation_axis (x y z : f32) : option axis :=
  if SFeqb x f32_one && SFeqb y f32_zero && SFeqb z f32_zero then Some AxisX
  else if SFeqb x f32_zero && SFeqb y f32_one && SFeqb z f32_zero then Some AxisY
  else None.

(** What one call does to a point. *)
Definition op_point (op : mat_op) (p : point) : option point :=
  match op with
  | OpTranslate x y z =>
      if vec3_finite (mkVec3 x y z) then Some (padd p (vec3_R (mkVec3 x y z))) else None
  | OpRotate angle x y z =>
      if f32_finite angle then
        match rotation_axis x y z with
        | Some AxisX => Some (rotate_x (f32_R angle) p)
        | Some AxisY => Some (rotate_y (f32_R angle) p)
        | _ => None
        end
      else None
  | OpPerspective _ _ _ _ => None
  end.

(** The image of a point under the matrix the calls built: every call
    multiplied the matrix from the right, so the last call acts first. *)
Fixpoint mat_point (m : SymMatrix) (p : point) : option point :=
  match m with
  | [] => Some p
  | op :: m' =>
      match mat_point m' p with
      | Some q => op_point op q
      | None => None
      end
  end.

(** ** The view *)

(** The view of a point: the centre moved to the origin, the turn about
    the Y axis, the turn about the X axis, the move back by the distance. *)
Definition view_of (distance : f32) (rot center : QVector3D) (p : point) : point :=
  padd (rotate_x (f32_R (vx rot)) (rotate_y (f32_R (vy rot)) (psub p (vec3_R center))))
       (mkPoint 0 0 (- f32_R distance)).

(** ** Theory *)
Lemma f32_finite_neg x : f32_finite (f32_neg x) = f32_finite x.
Proof. now destruct x. Qed.

Lemma f32_R_neg x : f32_R (f32_neg x) = - f32_R x.
Proof. destruct x as [| | |[] m e]; simpl; lra. Qed.

Lemma vec3_finite_neg v : vec3_finite (vec3_neg v) = vec3_finite v.
Proof. unfold vec3_finite; simpl. now rewrite !f32_finite_neg. Qed.

Lemma padd_neg p v : padd p (vec3_R (vec3_neg v)) = psub p (vec3_R v).
Proof. unfold padd, psub, vec3_R; simpl. rewrite !f32_R_neg. f_equal; lra. Qed.

(** A turn in a plane keeps distances. *)
Lemma turn_dist2 c s u v u' v' :
  s * s + c * c = 1 ->
  (c * u - s * v - (c * u' - s * v')) * (c * u - s * v - (c * u' - s * v')) +
  (s * u + c * v - (s * u' + c * v')) * (s * u + c * v - (s * u' + c * v')) =
  (u - u') * (u - u') + (v - v') * (v - v').
Proof.
  intros E.
  transitivity ((s * s + c * c) * ((u - u') * (u - u') + (v - v') * (v - v')));
    [ring | rewrite E; ring].
Qed.

Lemma sin_cos_1 a : sin a * sin a + cos a * cos a = 1.
Proof. exact (sin2_cos2 a). Qed.

(** A rotation keeps distances. *)
Lemma rotate_x_dist2 a p q : dist2 (rotate_x a p) (rotate_x a q) = dist2 p q.
Proof.
  unfold dist2, rotate_x; simpl.
  pose proof (turn_dist2 _ _ (py p) (pz p) (py q) (pz q) (sin_cos_1 (radians a))).
  lra.
Qed.

Lemma rotate_y_dist2 a p q : dist2 (rotate_y a p) (rotate_y a q) = dist2 p q.
Proof.
  unfold dist2, rotate_y; simpl.
  assert (- sin (radians a) * - sin (radians a) + cos (radians a) * cos (radians a) = 1)
    as E by (rewrite <- (sin_cos_1 (radians a)); ring).
  pose proof (turn_dist2 _ _ (px p) (pz p) (px q) (pz q) E).
  lra.
Qed.

Lemma padd_dist2 p q t : dist2 (padd p t) (padd q t) = dist2 p q.
Proof. unfold dist2, padd; simpl; ring. Qed.

Lemma psub_dist2 p q t : dist2 (psub p t) (psub q t) = dist2 p q.
Proof. unfold dist2, psub; simpl; ring. Qed.

(** A rotation by no angle changes nothing. *)
Lemma rotate_x_0 p : rotate_x 0 p = p.
Proof.
  unfold rotate_x, radians. replace (0 * PI / 180) with 0 by lra.
  rewrite cos_0, sin_0. destruct p; simpl; f_equal; lra.
Qed.

Lemma rotate_y_0 p : rotate_y 0 p = p.
Proof.
  unfold rotate_y, radians. replace (0 * PI / 180) with 0 by lra.
  rewrite cos_0, sin_0. destruct p; simpl; f_equal; lra.
Qed.

(** The centre is seen on the view axis, at the distance of the camera. *)
Lemma view_of_center distance rot center :
  view_of distance rot center (vec3_R center) = mkPoint 0 0 (- f32_R distance).
Proof.
  unfold view_of, rotate_x, rotate_y, padd, psub; simpl. f_equal; ring.
Qed.

(** The view keeps distances. *)
Lemma view_of_dist2 distance rot center p q :
  dist2 (view_of distance rot center p) (view_of distance rot center q) = dist2 p q.
Proof.
  unfold view_of. now rewrite padd_dist2, rotate_x_dist2, rotate_y_dist2, psub_dist2.
Qed.

(** The matrix [updateModelViewMatrix] builds maps a point to its view:
    the four calls act in the reverse order. *)
Theorem view_point distance rot center p :
  f32_finite distance = true -> f32_finite (vx rot) = true ->
  f32_finite (vy rot) = true -> vec3_finite center = true ->
  mat_point (view_matrix distance rot center) p = Some (view_of distance rot center p).
Proof.
  intros D X Y C; unfold view_matrix, mat_translate_vec; simpl.
  change (mkVec3 (f32_neg (vx center)) (f32_neg (vy center)) (f32_neg (vz center)))
    with (vec3_neg center).
  rewrite vec3_finite_neg, C, padd_neg, Y, X; simpl.
  unfold vec3_finite; simpl. rewrite f32_finite_neg, D; simpl.
  unfold view_of, vec3_R; simpl. now rewrite f32_R_neg.
Qed.

(** ** The camera of the renderer *)

Section CameraTheory.
Context {libm : Libm} {T2F : TokenToFloat} {NG : NumGet}.

Local Abbreviation Renderer := (PointCloudRenderer SymMatrix).

(** Distance, rotation and centre are finite numbers. *)
Definition camera_finite (s : Renderer) : bool :=
  f32_finite (m_distance s) && f32_finite (vx (m_rotation s)) &&
  f32_finite (vy (m_rotation s)) && vec3_finite (m_modelCenter s).

(** The position of the camera's target in its own space. *)
Definition target (s : Renderer) : point := mkPoint 0 0 (- f32_R (m_distance s)).

Lemma modelView_point s p :
  view_consistent s -> camera_finite s = true ->
  mat_point (m_modelView s) p =
  Some (view_of (m_distance s) (m_rotation s) (m_modelCenter s) p).
Proof.
  unfold camera_finite; intros -> F.
  apply andb_prop in F as [F C]. apply andb_prop in F as [F Y].
  apply andb_prop in F as [D X]. now apply view_point.
Qed.

(** A point nearer to the target than the origin lies behind the plane
    through the origin. *)
Lemma nearer_than_origin d q :
  0 < d -> dist2 q (mkPoint 0 0 (- d)) < d * d -> pz q < 0.
Proof.
  unfold dist2; simpl; intros D L.
  assert (0 <= (px q - 0) * (px q - 0)) by apply Rle_0_sqr.
  assert (0 <= (py q - 0) * (py q - 0)) by apply Rle_0_sqr.
  nra.
Qed.

(** C26: in a state whose matrix is consistent, as every reachable state
    is, and whose camera values are finite, the model-view matrix maps the
    model centre onto the view axis at the camera distance, and every
    point to a point as far from there as the point is from the centre:
    dragging turns the cloud about its centre, the wheel moves the camera
    along its axis.  A point nearer to the centre than the camera is seen
    in front of the camera. *)
Theorem camera_orbits_centre s p :
  view_consistent s -> camera_finite s = true ->
  exists q, mat_point (m_modelView s) p = Some q /\
    mat_point (m_modelView s) (vec3_R (m_modelCenter s)) = Some (target s) /\
    dist2 q (target s) = dist2 p (vec3_R (m_modelCenter s)) /\
    (0 < f32_R (m_distance s) ->
     dist2 p (vec3_R (m_modelCenter s)) < f32_R (m_distance s) * f32_R (m_distance s) ->
     pz q < 0).
Proof.
  intros V F. eexists; split; [now apply modelView_point|].
  rewrite (modelView_point _ _ V F), view_of_center.
  assert (dist2 (view_of (m_distance s) (m_rotation s) (m_modelCenter s) p) (target s) =
          dist2 p (vec3_R (m_modelCenter s))) as E.
  { unfold target. rewrite <- (view_of_center (m_distance s) (m_rotation s) (m_modelCenter s)).
    apply view_of_dist2. }
  repeat split; [exact E|].
  intros D L. apply (nearer_than_origin (f32_R (m_distance s))); [exact D|].
  fold (target s). now rewrite E.
Qed.

(** After [resetView] the view is a translation: the centre moved to the
    origin and the cloud moved back by the distance. *)
Lemma resetView_translation s p :
  f32_finite (m_distance s) = true -> vec3_finite (m_modelCenter s) = true ->
  mat_point (m_modelView (resetView s)) p =
  Some (padd (psub p (vec3_R (m_modelCenter s))) (target s)).
Proof.
  intros D C. rewrite modelView_point; [|reflexivity|].
  - unfold view_of; simpl. change (f32_R f32_zero) with 0.
    now rewrite rotate_y_0, rotate_x_0.
  - unfold camera_finite; simpl. now rewrite D, C.
Qed.

End CameraTheory.

(** ** A drag after a load *)

Section CameraScenarios.

#[local] Existing Instance LibmUnitSteps.
#[local] Existing Instance QtTokenToFloat.
#[local] Existing Instance StdNumGet.

(** The renderer after the load of the scenario file and a drag. *)
Definition dragged : PointCloudRenderer SymMatrix :=
  mouseMoveEvent true (14, 12)%Z (mousePressEvent (10, 10)%Z
    (fst (loadPtsFile example_fs "a.pts"%string example_start))).

Lemma camera_orbits_centre_witness :
  exists q, mat_point (m_modelView dragged) (mkPoint 1 2 3) = Some q /\
    mat_point (m_modelView dragged) (vec3_R (m_modelCenter dragged)) = Some (target dragged) /\
    dist2 q (target dragged) = dist2 (mkPoint 1 2 3) (vec3_R (m_modelCenter dragged)) /\
    (0 < f32_R (m_distance dragged) ->
     dist2 (mkPoint 1 2 3) (vec3_R (m_modelCenter dragged)) <
       f32_R (m_distance dragged) * f32_R (m_distance dragged) ->
     pz q < 0).
Proof.
  apply (camera_orbits_centre dragged (mkPoint 1 2 3)); vm_compute; reflexivity.
Defined.

(** The values of the scenario: the centre of the box from (1, 2, 3) to
    (4, 5, 6), and the rotation the drag of (4, 2) pixels leaves. *)
Lemma dragged_values :
  m_modelCenter dragged =
    mkVec3 (f32_of_decimal false 25 (-1)) (f32_of_decimal false 35 (-1))
           (f32_of_decimal false 45 (-1)) /\
  m_rotation dragged = mkVec3 f32_one (f32_of_Z 2) f32_zero /\
  camera_finite dragged = true.
Proof. repeat split; vm_compute; reflexivity. Qed.

End CameraScenarios.
