(* ===== verification/PtsWords.v ===== *)
(** * PtsWords: the simple-format loader is a function of the words of a line

    The loop body of [loadPtsFile] trims the line, tests whether it is
    empty or starts with [#], splits it at white space and counts the
    parts.  [pts_step_words] is the same decision taken on the words of
    the untrimmed line alone.

    The two white spaces of the loop are not the same: [trimmed] removes
    what [QChar::isSpace] accepts, the regular expression [\s+] splits at
    the six characters of ASCII.  On a line where the difference cannot
    show at the ends ([plain]: the first and the last character that is
    not ASCII white space is not a no-break space or U+0085 either) the
    loop body is [pts_step_words] ([pts_step_by_words]): trimming changes
    no word, a line is empty after trimming exactly when it has no word,
    and it starts with [#] exactly when its first word does.  So on a text
    of plain lines the loader is the fold of [pts_step_words] over the
    lines ([pts_parse_by_words]), and white space, leading, trailing and
    between the words, never matters ([pts_step_layout]).  A text without
    the two characters has plain lines only ([ascii_spaced_plain]).

    On a line that is not plain the two differ: [nbsp_comment_skipped]
    is a line of four words, the first not starting with [#], that the
    loop skips as a comment, and [nbsp_word_lost] a line whose last word
    loses its last character before it is converted. *)

From Stdlib Require Import Arith ZArith Lia Bool List String Ascii SpecFloat.
From S2P Require Import Prelude Float32 Vec3 Text IStream Cloud PtsParser PtsFile.
Import ListNotations.
Local Open Scope list_scope.
Local Open Scope string_scope.

(** A text of white space only. *)
Definition blank (s : string) : bool := forallb is_space (list_ascii_of_string s).

Section PtsWords.
Context {T2F : TokenToFloat}.

(** The loop body, decided on the words of the line. *)
Definition pts_step_words (c : Cloud) (raw : string) : Cloud :=
  match split_ws raw with
  | [] => c
  | w :: ws =>
      if startsWith_char w "#" then c
      else if (3 <=? List.length (w :: ws))%nat then
        cloud_add c (toFloat (part (w :: ws) 0)) (toFloat (part (w :: ws) 1))
          (toFloat (part (w :: ws) 2)) (pts_color (w :: ws))
      else c
  end.

End PtsWords.

(** ** Splitting and white space *)

(** White space after the text closes the last word and adds none. *)
Lemma split_from_blank t : forall cur,
  blank t = true -> split_from t cur = split_from "" cur.
Proof.
  induction t as [|c t IH]; intros cur B; [reflexivity|].
  simpl in B; apply andb_prop in B as [C B]. cbn [split_from]; rewrite C.
  destruct (isEmpty cur) eqn:E; rewrite (IH _ B); simpl; now rewrite ?E.
Qed.

Lemma split_from_app_blank a t : forall cur,
  blank t = true -> split_from (a ++ t) cur = split_from a cur.
Proof.
  induction a as [|c a IH]; intros cur B; [now apply split_from_blank|].
  cbn [append split_from]. now rewrite !(IH _ B).
Qed.

(** White space before the text is skipped. *)
Lemma split_ws_ltrim s : split_ws (ltrim s) = split_ws s.
Proof.
  induction s as [|c s IH]; [reflexivity|]; unfold split_ws in *; simpl.
  destruct (is_space c) eqn:C; [exact IH | simpl; now rewrite C].
Qed.

(** ** Trimming *)
Lemma ltrim_decomp s : exists t, blank t = true /\ s = t ++ ltrim s.
Proof.
  induction s as [|c s (t & B & E)]; [now exists ""|]; simpl.
  destruct (is_space c) eqn:C; [|now exists ""].
  exists (String c t); simpl; unfold blank in *; simpl. now rewrite C, B, <- E.
Qed.

Lemma ltrim_solid s : starts_solid (list_ascii_of_string (ltrim s)).
Proof.
  induction s as [|c s IH]; [exact I|]; simpl.
  destruct (is_space c) eqn:C; [exact IH | exact C].
Qed.

Lemma blank_rev t : blank t = true -> blank (string_of_list_ascii (rev (list_ascii_of_string t))) = true.
Proof.
  unfold blank; rewrite list_ascii_of_string_of_list_ascii, !forallb_forall.
  intros B c Hc. now apply B, in_rev.
Qed.

(** A text is what is left of it after trimming on the right, followed
    by white space. *)
Lemma rtrim_decomp u :
  exists t, blank t = true /\ u = string_rev (ltrim (string_rev u)) ++ t.
Proof.
  destruct (ltrim_decomp (string_rev u)) as (t & B & E).
  exists (string_of_list_ascii (rev (list_ascii_of_string t))); split;
    [now apply blank_rev|].
  apply (f_equal list_ascii_of_string) in E. unfold string_rev in E at 1.
  rewrite list_ascii_of_string_of_list_ascii, list_ascii_of_string_app in E.
  apply (f_equal (@rev ascii)) in E. rewrite rev_involutive, rev_app_distr in E.
  unfold string_rev at 1. rewrite <- string_of_list_ascii_app_string, <- E.
  symmetry; apply string_of_list_ascii_of_string.
Qed.

(** Trimming changes no word. *)
Lemma split_ws_trimmed s : split_ws (trimmed_ascii s) = split_ws s.
Proof.
  unfold trimmed_ascii. destruct (rtrim_decomp (ltrim s)) as (t & B & E).
  rewrite <- (split_ws_ltrim s). rewrite E at 2.
  unfold split_ws. now rewrite split_from_app_blank.
Qed.

(** The trimmed text starts with a character that is not white space. *)
Lemma trimmed_solid s : starts_solid (list_ascii_of_string (trimmed_ascii s)).
Proof.
  unfold trimmed_ascii. destruct (rtrim_decomp (ltrim s)) as (t & B & E).
  pose proof (ltrim_solid s) as S. rewrite E in S.
  destruct (string_rev (ltrim (string_rev (ltrim s)))); [exact I | exact S].
Qed.

(** ** The first word *)
Lemma startsWith_char_snoc cur d c :
  isEmpty cur = false -> startsWith_char (snoc cur d) c = startsWith_char cur c.
Proof. now destruct cur. Qed.

(** The first part starts as the word under construction does. *)
Lemma split_from_head c s : forall cur,
  isEmpty cur = false ->
  exists w ws, split_from s cur = w :: ws /\ startsWith_char w c = startsWith_char cur c.
Proof.
  induction s as [|d s IH]; intros cur E; simpl.
  - rewrite E; eauto.
  - destruct (is_space d); [rewrite E; eauto|].
    destruct (IH (snoc cur d) (snoc_not_empty cur d)) as (w & ws & -> & H).
    rewrite startsWith_char_snoc in H by exact E. eauto.
Qed.

(** A text that starts with a character of a word has a first word, which
    starts with that character; a text without characters has no word. *)
Lemma split_ws_head c x :
  starts_solid (list_ascii_of_string x) ->
  match split_ws x with
  | [] => x = ""
  | w :: _ => isEmpty x = false /\ startsWith_char w c = startsWith_char x c
  end.
Proof.
  destruct x as [|d x]; [reflexivity|]; simpl; intros D.
  unfold split_ws; simpl; rewrite D.
  destruct (split_from_head c x (snoc "" d) eq_refl) as (w & ws & -> & H).
  split; [reflexivity | exact H].
Qed.

(** ** Texts without the white space that only [trimmed] knows *)

(** No character of the text is U+0085 or U+00A0. *)
Definition ascii_spaced (s : string) : bool :=
  forallb (fun c => implb (qchar_isSpace c) (is_space c)) (list_ascii_of_string s).

Lemma ltrim_chars s c :
  In c (list_ascii_of_string (ltrim s)) -> In c (list_ascii_of_string s).
Proof.
  induction s as [|d s IH]; [trivial|]; simpl.
  destruct (is_space d); [right; now apply IH | trivial].
Qed.

Lemma ascii_spaced_ltrim s : ascii_spaced s = true -> starts_plain (ltrim s) = true.
Proof.
  unfold ascii_spaced; rewrite forallb_forall; intros A.
  pose proof (ltrim_solid s) as S. pose proof (ltrim_chars s) as In_s.
  destruct (ltrim s) as [|c r]; [reflexivity|]; simpl in *.
  specialize (A c (In_s c (or_introl eq_refl))). rewrite S in A.
  now destruct (qchar_isSpace c).
Qed.

Lemma ascii_spaced_sub s t :
  (forall c, In c (list_ascii_of_string t) -> In c (list_ascii_of_string s)) ->
  ascii_spaced s = true -> ascii_spaced t = true.
Proof. unfold ascii_spaced; rewrite !forallb_forall; auto. Qed.

Lemma ascii_spaced_plain_line s : ascii_spaced s = true -> plain s = true.
Proof.
  intros A; unfold plain. rewrite (ascii_spaced_ltrim s A); simpl.
  apply ascii_spaced_ltrim, (ascii_spaced_sub s); [|exact A].
  intros c; unfold string_rev; rewrite list_ascii_of_string_of_list_ascii, <- in_rev.
  apply ltrim_chars.
Qed.

Lemma lines_from_chars s : forall cur l c,
  In l (lines_from s cur) -> In c (list_ascii_of_string l) ->
  In c (list_ascii_of_string cur) \/ In c (list_ascii_of_string s).
Proof.
  induction s as [|d s IH]; intros cur l c; simpl.
  - destruct (String.eqb cur ""); simpl; [tauto|]. intros [<-|[]]; auto.
  - destruct (Ascii.eqb d newline).
    + intros [<-|L] Hc; [auto|]. destruct (IH _ _ _ L Hc) as [[]|]; auto.
    + intros L Hc. destruct (IH _ _ _ L Hc) as [H|]; auto.
      unfold snoc in H; rewrite list_ascii_of_string_app in H.
      apply in_app_or in H as [|[<-|[]]]; auto.
Qed.

(** A text without the two characters has plain lines only. *)
Lemma ascii_spaced_plain content :
  ascii_spaced content = true -> forallb plain (text_lines content) = true.
Proof.
  intros A; apply forallb_forall; intros l L.
  apply ascii_spaced_plain_line, (ascii_spaced_sub content); [|exact A].
  intros c Hc. now destruct (lines_from_chars _ _ _ _ L Hc) as [[]|].
Qed.

(** ** The loop body and the loop *)

Section PtsWordsTheory.
Context {T2F : TokenToFloat}.

(** On a plain line the loop body does what the words of the line decide. *)
Lemma pts_step_by_words c raw :
  plain raw = true -> pts_step c raw = pts_step_words c raw.
Proof.
  intros P; unfold pts_step, pts_step_words; rewrite (trimmed_plain raw P).
  pose proof (split_ws_head "#" (trimmed_ascii raw) (trimmed_solid raw)) as H.
  rewrite split_ws_trimmed in *.
  destruct (split_ws raw) as [|w ws]; [now rewrite H|].
  destruct H as [E ->]. now rewrite E.
Qed.

(** Plain lines with the same words give the same cloud, whatever white
    space stands before, between and after the words. *)
Lemma pts_step_layout c raw raw' :
  plain raw = true -> plain raw' = true ->
  split_ws raw = split_ws raw' -> pts_step c raw = pts_step c raw'.
Proof.
  intros P P' E. rewrite !pts_step_by_words by assumption.
  unfold pts_step_words. now rewrite E.
Qed.

Lemma pts_fold_by_words lines : forall c,
  forallb plain lines = true ->
  fold_left pts_step lines c = fold_left pts_step_words lines c.
Proof.
  induction lines as [|l lines IH]; intros c P; [reflexivity|].
  simpl in P; apply andb_prop in P as [P1 P2].
  simpl. now rewrite (pts_step_by_words c l P1), IH.
Qed.

(** C6: on a text of plain lines, the loader of the simple format
    computes what the words of its lines decide: a line without a word or
    whose first word starts with [#] adds nothing, a line of fewer than
    three words adds nothing, any other line adds the vertex of its first
    three words, coloured by words four to six when there are six.
    Trimming and the tests on the trimmed line change nothing of this. *)
Theorem pts_parse_by_words content :
  forallb plain (text_lines content) = true ->
  pts_parse content = fold_left pts_step_words (text_lines content) cloud_reset.
Proof. intros P; unfold pts_parse. now apply pts_fold_by_words. Qed.

End PtsWordsTheory.

(** ** Three layouts of one record *)

Section PtsWordsScenarios.

#[local] Existing Instance QtTokenToFloat.

Definition tab : string := String (ascii_of_N 9) "".

(** Tabs, several spaces, and a carriage return at the end of the line
    read as single spaces do. *)
Lemma pts_layouts_agree c :
  pts_step c (tab ++ "1.0  2.0" ++ tab ++ "3.0 " ++ String (ascii_of_N 13) "") =
  pts_step c "1.0 2.0 3.0".
Proof. apply pts_step_layout; reflexivity. Qed.

(** The scenario of the specification is a text of plain lines. *)
Lemma pts_parse_by_words_witness :
  pts_parse scenario_A = fold_left pts_step_words (text_lines scenario_A) cloud_reset.
Proof. apply (pts_parse_by_words scenario_A). reflexivity. Defined.

Definition nbsp : string := String (ascii_of_N 160) "".

(** A line that begins with a no-break space and [#]: four words for the
    splitting, none starting with [#], so the reference adds the vertex
    of the first three; the loop, which removes the no-break space with
    [trimmed] before it looks for [#], skips the line. *)
Lemma nbsp_comment_skipped :
  let line := nbsp ++ "# 1 2 3" in
  plain line = false /\
  split_ws line = [nbsp ++ "#"; "1"; "2"; "3"] /\
  vertices (pts_step cloud_reset line) = [] /\
  map position (vertices (pts_step_words cloud_reset line)) =
    [mkVec3 f32_zero f32_one (f32_of_Z 2)].
Proof. repeat split; vm_compute; reflexivity. Qed.

(** A line that ends with a no-break space: the loop converts the word
    [3], the reference the word [3] followed by the no-break space. *)
Lemma nbsp_word_lost :
  let line := "1 2 3" ++ nbsp in
  plain line = false /\
  split_ws (trimmed line) = ["1"; "2"; "3"] /\
  split_ws line = ["1"; "2"; "3" ++ nbsp].
Proof. repeat split; reflexivity. Qed.

End PtsWordsScenarios.
