(* ===== verification/OpenGL.v ===== *)
(** * OpenGL: the calls the renderer makes on its context

    [PointCloudRenderer] is a [QOpenGLWidget] and a [QOpenGLFunctions]:
    its constructor builds the background colour, [initializeGL],
    [setupShaders], [setupVertexBuffers] and [paintGL] call OpenGL
    through [m_program], [m_vbo], [m_vao] and the [gl...] functions, the
    loaders bracket [setupVertexBuffers] with [makeCurrent] and
    [doneCurrent], and the destructor destroys the buffer and the vertex
    array.  Here each of these functions is the list of the calls it
    makes ([GLCall]), in the order of the source, and the context is a
    state machine that executes them ([gl_step]): what is created, bound,
    stored and drawn, and a log of what was drawn and of the calls that
    were refused ([Output]).

    The machine follows the documentation of Qt and of OpenGL 3.3 core:
    a call needs a current context; [QOpenGLWidget::makeCurrent] does
    nothing before the widget is initialised; creating a vertex array
    that exists is refused with a warning, creating a buffer that exists
    succeeds; a program is bound only when it is linked; a uniform is set
    when the bound program declares it with the type of the value; an
    attribute pointer records the layout for the bound vertex array; a
    draw needs the program, the vertex array and the three uniforms of
    the vertex shader; the OpenGL paint engine of a [QPainter] opened on
    the widget disables the depth test and leaves none of the renderer's
    objects bound.

    Theorems: between two handlers the machine is in a known state whose
    buffer holds [m_vbo] of [Renderer] ([gl_session_steady_from]), so no
    call of a session is made without a context and neither the program
    nor the vertex array stays bound; the draw of a paint is the
    [DrawCall] of [paintGL], with the attributes of [VertexBuffer], and
    with the depth test only in the first frame; the colour the frame is
    cleared with; what the destructor leaves; the uniforms of the vertex
    shader are the three [paintGL] sets, with their types. *)

From Stdlib Require Import ZArith Lia Bool List String Ascii SpecFloat.
From S2P Require Import Prelude Float32 Vec3 Matrix Text IStream Cloud.
From S2P Require Import PtsParser PlyParser ViewportParameters Renderer Shaders VertexBuffer.
Import ListNotations.
Local Open Scope list_scope.
Local Open Scope string_scope.

(** ** The background colour *)

(** A [QColor] of the RGB specification: whether it is valid, and the
    four channels as Qt stores them, on 16 bits. *)
Record QColor : Type := mkColor {
  isValid : bool;
  alpha16 : Z;
  red16 : Z;
  green16 : Z;
  blue16 : Z
}.

Definition isRgbaValid (r g b a : Z) : bool :=
  forallb (fun c => (0 <=? c)%Z && (c <=? 255)%Z) [r; g; b; a].

(** [QColor(int r, int g, int b, int a)]: channels of 0 to 255, each
    stored times [0x101]; an invalid colour otherwise. *)
Definition QColor_rgba (r g b a : Z) : QColor :=
  if isRgbaValid r g b a then mkColor true (a * 257) (r * 257) (g * 257) (b * 257)
  else mkColor false 0 0 0 0.

(** A channel as a [float]: the stored value over [USHRT_MAX]. *)
Definition channelF (c : Z) : f32 := f32_div (f32_of_Z c) (f32_of_Z 65535).
Definition redF (c : QColor) : f32 := channelF (red16 c).
Definition greenF (c : QColor) : f32 := channelF (green16 c).
Definition blueF (c : QColor) : f32 := channelF (blue16 c).
Definition alphaF (c : QColor) : f32 := channelF (alpha16 c).

Definition f32_0_2 : f32 := f32_of_decimal false 2 (-1).
Definition f32_0_3 : f32 := f32_of_decimal false 3 (-1).

(** The member initialiser [m_backgroundColor(0.1f, 0.2f, 0.3f, 1.0f)].
    [QColor] has one constructor of four arguments, the one of four
    [int]s, so each [float] is converted to [int]; the conversion is
    defined for the four literals ([background_literals_convert]). *)
Definition m_backgroundColor : QColor :=
  let int_of x := match f32_to_int x with Some z => z | None => 0%Z end in
  QColor_rgba (int_of f32_0_1) (int_of f32_0_2) (int_of f32_0_3) (int_of f32_one).

(** ** The uniforms a shader declares *)

(** The text before a final semicolon. *)
Definition before_semicolon (w : string) : option string :=
  match string_rev w with
  | String ";" r => Some (string_rev r)
  | _ => None
  end.

(** A line [uniform <type> <name>;] of a shader text: the name and its
    type. *)
Definition uniform_of_line (l : string) : option (string * string) :=
  match split_ws l with
  | [kw; ty; w] =>
      if String.eqb kw "uniform" then option_map (fun n => (n, ty)) (before_semicolon w)
      else None
  | _ => None
  end.

Definition uniforms_of (source : string) : list (string * string) :=
  flat_map (fun l => match uniform_of_line l with Some d => [d] | None => [] end)
    (text_lines source).

Definition declares (p : QOpenGLShaderProgram) (name ty : string) : bool :=
  existsb (fun sh => existsb (fun d => String.eqb (fst d) name && String.eqb (snd d) ty)
                       (uniforms_of (snd sh))) (shaders p).

Section OpenGL.
Context {M : Type} `{Matrix4x4 M} {libm : Libm} {T2F : TokenToFloat} {NG : NumGet}.
Context {GL : GLCompiler}.

Local Abbreviation Renderer := (PointCloudRenderer M).

(** ** The calls *)

Inductive Capability : Type := GL_DEPTH_TEST | GL_PROGRAM_POINT_SIZE.

Definition Capability_eqb (a b : Capability) : bool :=
  match a, b with
  | GL_DEPTH_TEST, GL_DEPTH_TEST | GL_PROGRAM_POINT_SIZE, GL_PROGRAM_POINT_SIZE => true
  | _, _ => false
  end.
Inductive PrimitiveMode : Type := GL_POINTS.
Inductive UsagePattern : Type := StaticDraw.

(** The value of a uniform: [setUniformValue] is called with a
    [QMatrix4x4] and with a [float]. *)
Inductive UniformValue : Type :=
| UMatrix (m : M)
| UFloat (x : f32).

(** The GLSL type a value is set as. *)
Definition glsl_type (v : UniformValue) : string :=
  match v with UMatrix _ => "mat4" | UFloat _ => "float" end.

(** The calls of the renderer on the widget, on [QOpenGLFunctions] and on
    its three OpenGL objects. *)
Inductive GLCall : Type :=
| makeCurrent
| doneCurrent
| initializeOpenGLFunctions
| glClearColor (r g b a : f32)
| glEnable (cap : Capability)
| glClear (color depth : bool)
| glDrawArrays (mode : PrimitiveMode) (first : nat) (count : nat)
| program_addShaderFromSourceCode (type : ShaderType) (source : string)
| program_link
| program_bind
| program_release
| program_enableAttributeArray (location : nat)
| program_setAttributeBuffer (a : Attribute)
| program_setUniformValue (name : string) (v : UniformValue)
| program_deleteLater
| vao_create
| vao_bind
| vao_release
| vao_destroy
| vbo_create
| vbo_bind
| vbo_setUsagePattern (u : UsagePattern)
| vbo_allocate (data : list Cloud.Vertex) (count : Z)
| vbo_destroy
| painter_begin
| painter_end.

(** [setupShaders]: both shaders are added and the program is linked,
    whatever the steps return. *)
Definition setupShaders_calls : list GLCall :=
  [program_addShaderFromSourceCode Shaders.Vertex vertexShaderSource;
   program_addShaderFromSourceCode Fragment fragmentShaderSource;
   program_link].

(** [setupVertexBuffers] with [vs] in [m_vertices]. *)
Definition setupVertexBuffers_calls (vs : list Cloud.Vertex) : list GLCall :=
  [vao_create; vao_bind; vbo_create; vbo_bind; vbo_setUsagePattern StaticDraw] ++
  match vs with
  | [] => []
  | _ => [vbo_allocate vs (allocate_count vs)]
  end ++
  [program_bind;
   program_enableAttributeArray 0; program_setAttributeBuffer position_attribute;
   program_enableAttributeArray 1; program_setAttributeBuffer color_attribute;
   program_release; vao_release].

(** [initializeGL] of a renderer whose background colour is [bg]. *)
Definition initializeGL_calls (bg : QColor) (vs : list Cloud.Vertex) : list GLCall :=
  [initializeOpenGLFunctions;
   glClearColor (redF bg) (greenF bg) (blueF bg) (alphaF bg);
   glEnable GL_DEPTH_TEST; glEnable GL_PROGRAM_POINT_SIZE] ++
  setupShaders_calls ++ setupVertexBuffers_calls vs.

(** [paintGL]: the frame is cleared; with vertices, the matrix is
    recomputed, the three uniforms are set and the points are drawn
    between the binding and the release of program and vertex array. *)
Definition paintGL_calls (s : Renderer) : list GLCall :=
  glClear true true ::
  match m_vertices s with
  | [] => []
  | _ =>
      let s := updateModelViewMatrix s in
      [program_bind; vao_bind;
       program_setUniformValue "projection" (UMatrix (m_projection s));
       program_setUniformValue "modelView" (UMatrix (m_modelView s));
       program_setUniformValue "pointSize" (UFloat (m_pointSize s));
       glDrawArrays GL_POINTS 0 (List.length (m_vertices s));
       vao_release; program_release]
  end.

(** [paintEvent]: [QOpenGLWidget::paintEvent] calls [paintGL]; then a
    [QPainter] is opened on the widget, and closed when the function
    returns.  What it is asked to draw is the overlay of [Overlay]. *)
Definition paintEvent_calls (s : Renderer) : list GLCall :=
  paintGL_calls s ++ [painter_begin; painter_end].

(** The end of a successful load: [makeCurrent(); setupVertexBuffers();
    doneCurrent();]. *)
Definition loaded_calls (vs : list Cloud.Vertex) : list GLCall :=
  makeCurrent :: setupVertexBuffers_calls vs ++ [doneCurrent].

(** The loaders return before these calls when the file cannot be opened
    and, for the structured format, when the header is refused or a
    record is cut short. *)
Definition loadPtsFile_calls (fs : FileSystem) (filename : string) : list GLCall :=
  match fs filename with
  | None => []
  | Some content => loaded_calls (vertices (pts_parse content))
  end.

Definition loadPlyFile_calls (fs : FileSystem) (filename : string) : list GLCall :=
  match fs filename with
  | None => []
  | Some content =>
      match ply_parse content with
      | PlyLoaded c => loaded_calls (vertices c)
      | _ => []
      end
  end.

(** [~PointCloudRenderer]. *)
Definition destructor_calls : list GLCall :=
  [makeCurrent; vbo_destroy; vao_destroy; program_deleteLater; doneCurrent].

(** ** The context *)

Inductive Fault : Type :=
| NoCurrentContext
| NotResolved
| AlreadyCreated
| NotCreated
| NotLinked
| NothingBound
| InvalidValue
| Incomplete.

(** What a call leaves behind for the observer: a cleared frame, a draw
    with the attribute pointers it fetches through and the capabilities
    enabled when it is made, or a refused call. *)
Inductive Output : Type :=
| Cleared (color : f32 * f32 * f32 * f32)
| Drawn (d : DrawCall M) (pointers : list Attribute) (enabled : list Capability)
| Refused (c : GLCall) (f : Fault).

(** A vertex array object: the attribute arrays enabled and the pointers
    set, all into the one buffer of the program. *)
Record VertexArray : Type := mkVao {
  va_enabled : list nat;
  va_pointers : list Attribute
}.

Record GLState : Type := mkGL {
  gl_initialized : bool;
  gl_current : bool;
  gl_resolved : bool;
  gl_clearColor : f32 * f32 * f32 * f32;
  gl_enabled : list Capability;
  gl_program : QOpenGLShaderProgram;
  gl_inUse : bool;
  gl_uniforms : string -> option UniformValue;
  gl_vao : option VertexArray;
  gl_vaoBound : bool;
  gl_vbo : option (list Cloud.Vertex);
  gl_vboBound : bool;
  gl_log : list Output
}.

(** Before the widget is shown: no context, the objects default-constructed.
    The log has the latest output first. *)
Definition gl_new : GLState :=
  mkGL false false false (f32_zero, f32_zero, f32_zero, f32_zero) [] program_new false
    (fun _ => None) None false None false [].

(** ** Assignments to one component *)

Definition set_current v (g : GLState) :=
  mkGL (gl_initialized g) v (gl_resolved g) (gl_clearColor g) (gl_enabled g) (gl_program g)
    (gl_inUse g) (gl_uniforms g) (gl_vao g) (gl_vaoBound g) (gl_vbo g) (gl_vboBound g) (gl_log g).
Definition set_resolved v (g : GLState) :=
  mkGL (gl_initialized g) (gl_current g) v (gl_clearColor g) (gl_enabled g) (gl_program g)
    (gl_inUse g) (gl_uniforms g) (gl_vao g) (gl_vaoBound g) (gl_vbo g) (gl_vboBound g) (gl_log g).
Definition set_clearColor v (g : GLState) :=
  mkGL (gl_initialized g) (gl_current g) (gl_resolved g) v (gl_enabled g) (gl_program g)
    (gl_inUse g) (gl_uniforms g) (gl_vao g) (gl_vaoBound g) (gl_vbo g) (gl_vboBound g) (gl_log g).
Definition set_enabled v (g : GLState) :=
  mkGL (gl_initialized g) (gl_current g) (gl_resolved g) (gl_clearColor g) v (gl_program g)
    (gl_inUse g) (gl_uniforms g) (gl_vao g) (gl_vaoBound g) (gl_vbo g) (gl_vboBound g) (gl_log g).
Definition set_program v (g : GLState) :=
  mkGL (gl_initialized g) (gl_current g) (gl_resolved g) (gl_clearColor g) (gl_enabled g) v
    (gl_inUse g) (gl_uniforms g) (gl_vao g) (gl_vaoBound g) (gl_vbo g) (gl_vboBound g) (gl_log g).
Definition set_inUse v (g : GLState) :=
  mkGL (gl_initialized g) (gl_current g) (gl_resolved g) (gl_clearColor g) (gl_enabled g)
    (gl_program g) v (gl_uniforms g) (gl_vao g) (gl_vaoBound g) (gl_vbo g) (gl_vboBound g) (gl_log g).
Definition set_uniforms v (g : GLState) :=
  mkGL (gl_initialized g) (gl_current g) (gl_resolved g) (gl_clearColor g) (gl_enabled g)
    (gl_program g) (gl_inUse g) v (gl_vao g) (gl_vaoBound g) (gl_vbo g) (gl_vboBound g) (gl_log g).
Definition set_vao v b (g : GLState) :=
  mkGL (gl_initialized g) (gl_current g) (gl_resolved g) (gl_clearColor g) (gl_enabled g)
    (gl_program g) (gl_inUse g) (gl_uniforms g) v b (gl_vbo g) (gl_vboBound g) (gl_log g).
Definition set_vbo v b (g : GLState) :=
  mkGL (gl_initialized g) (gl_current g) (gl_resolved g) (gl_clearColor g) (gl_enabled g)
    (gl_program g) (gl_inUse g) (gl_uniforms g) (gl_vao g) (gl_vaoBound g) v b (gl_log g).
Definition set_log v (g : GLState) :=
  mkGL (gl_initialized g) (gl_current g) (gl_resolved g) (gl_clearColor g) (gl_enabled g)
    (gl_program g) (gl_inUse g) (gl_uniforms g) (gl_vao g) (gl_vaoBound g) (gl_vbo g)
    (gl_vboBound g) v.

Definition emit (o : Output) (g : GLState) : GLState := set_log (o :: gl_log g) g.
Definition refuse (c : GLCall) (f : Fault) (g : GLState) : GLState := emit (Refused c f) g.

(** ** One call *)

(** Whether a call reaches OpenGL: making the context current or not and
    the deferred deletion are the widget's and the object's own; the usage
    pattern is kept in the C++ object; destroying an object that was not
    created does nothing. *)
Definition uses_context (c : GLCall) (g : GLState) : bool :=
  match c with
  | makeCurrent | doneCurrent | program_deleteLater | vbo_setUsagePattern _ => false
  | vbo_destroy => match gl_vbo g with Some _ => true | None => false end
  | vao_destroy => match gl_vao g with Some _ => true | None => false end
  | _ => true
  end.

(** An attribute array enabled; a pointer set for its location. *)
Definition enable_array (location : nat) (va : VertexArray) : VertexArray :=
  if existsb (Nat.eqb location) (va_enabled va) then va
  else mkVao (va_enabled va ++ [location]) (va_pointers va).

Definition set_pointer (a : Attribute) (va : VertexArray) : VertexArray :=
  mkVao (va_enabled va)
    (filter (fun b => negb (attr_location b =? attr_location a)%nat) (va_pointers va) ++ [a]).

(** The pointers of the enabled arrays, which a draw fetches through. *)
Definition enabled_pointers (va : VertexArray) : list Attribute :=
  filter (fun a => existsb (Nat.eqb (attr_location a)) (va_enabled va)) (va_pointers va).

(** What [glDrawArrays] gives the vertex shader: its three uniforms, the
    count, and the buffer from vertex [first] on through the enabled
    pointers of the bound vertex array. *)
Definition draw_output (c : GLCall) (first count : nat) (g : GLState) : Output :=
  match gl_inUse g, gl_vaoBound g, gl_vao g, gl_vbo g,
        gl_uniforms g "projection", gl_uniforms g "modelView", gl_uniforms g "pointSize" with
  | true, true, Some va, Some data, Some (UMatrix p), Some (UMatrix mv), Some (UFloat ps) =>
      Drawn (mkDraw p mv ps count (skipn first data)) (enabled_pointers va) (gl_enabled g)
  | _, _, _, _, _, _, _ => Refused c Incomplete
  end.

(** [glEnable]: the capability is enabled once. *)
Definition enable (cap : Capability) (en : list Capability) : list Capability :=
  if existsb (Capability_eqb cap) en then en else en ++ [cap].

(** The state the OpenGL paint engine of [QPainter] sets when it begins
    and again when it ends: the depth test disabled, its own program,
    vertex array and buffers in place of the renderer's, then none. *)
Definition painter_state (g : GLState) : GLState :=
  set_enabled (filter (fun c => negb (Capability_eqb c GL_DEPTH_TEST)) (gl_enabled g))
    (set_inUse false (set_vao (gl_vao g) false (set_vbo (gl_vbo g) false g))).

(** A call of [QOpenGLFunctions]: its functions are resolved by
    [initializeOpenGLFunctions]. *)
Definition resolved (c : GLCall) (g g' : GLState) : GLState :=
  if gl_resolved g then g' else refuse c NotResolved g.

(** A call on the vertex array that is bound. *)
Definition on_vao (c : GLCall) (f : VertexArray -> VertexArray) (g : GLState) : GLState :=
  match gl_vao g, gl_vaoBound g with
  | Some va, true => set_vao (Some (f va)) true g
  | _, _ => refuse c NothingBound g
  end.

(** A call executed on the current context. *)
Definition gl_exec (c : GLCall) (g : GLState) : GLState :=
  match c with
  | makeCurrent => set_current (gl_initialized g) g
  | doneCurrent => set_current false g
  | program_deleteLater | vbo_setUsagePattern _ => g
  | initializeOpenGLFunctions => set_resolved true g
  | glClearColor r gr b a => resolved c g (set_clearColor (r, gr, b, a) g)
  | glEnable cap => resolved c g (set_enabled (enable cap (gl_enabled g)) g)
  | glClear _ _ => resolved c g (emit (Cleared (gl_clearColor g)) g)
  | glDrawArrays _ first count => resolved c g (emit (draw_output c first count g) g)
  | program_addShaderFromSourceCode t src =>
      set_program (fst (addShaderFromSourceCode t src (gl_program g))) g
  | program_link => set_program (fst (link (gl_program g))) g
  | program_bind =>
      if isLinked (gl_program g) then set_inUse true g else refuse c NotLinked g
  | program_release => set_inUse false g
  | program_enableAttributeArray location => on_vao c (enable_array location) g
  | program_setAttributeBuffer a =>
      if gl_vboBound g then on_vao c (set_pointer a) g else refuse c NothingBound g
  | program_setUniformValue name v =>
      set_uniforms
        (if gl_inUse g && declares (gl_program g) name (glsl_type v)
         then fun n => if String.eqb n name then Some v else gl_uniforms g n
         else gl_uniforms g) g
  | vao_create =>
      match gl_vao g with
      | Some _ => refuse c AlreadyCreated g
      | None => set_vao (Some (mkVao [] [])) false g
      end
  | vao_bind =>
      match gl_vao g with
      | Some _ => set_vao (gl_vao g) true g
      | None => refuse c NotCreated g
      end
  | vao_release => set_vao (gl_vao g) false g
  | vao_destroy => set_vao None false g
  | vbo_create =>
      match gl_vbo g with
      | Some _ => g
      | None => set_vbo (Some []) false g
      end
  | vbo_bind =>
      match gl_vbo g with
      | Some _ => set_vbo (gl_vbo g) true g
      | None => refuse c NotCreated g
      end
  | vbo_allocate data count =>
      match gl_vbo g, gl_vboBound g with
      | Some old, true =>
          set_log (if (count <? 0)%Z then Refused c InvalidValue :: gl_log g else gl_log g)
            (set_vbo (Some (allocate data count old)) true g)
      | _, _ => refuse c NothingBound g
      end
  | vbo_destroy => set_vbo None false g
  | painter_begin | painter_end => painter_state g
  end.

Definition gl_step (c : GLCall) (g : GLState) : GLState :=
  if uses_context c g && negb (gl_current g) then refuse c NoCurrentContext g
  else gl_exec c g.

Definition gl_run (cs : list GLCall) (g : GLState) : GLState :=
  fold_left (fun g c => gl_step c g) cs g.

(** ** The widget *)

(** What [QOpenGLWidget] does before it calls [initializeGL]: the context
    is created and made current. *)
Definition widget_initialize (g : GLState) : GLState :=
  mkGL true true (gl_resolved g) (gl_clearColor g) (gl_enabled g) (gl_program g)
    (gl_inUse g) (gl_uniforms g) (gl_vao g) (gl_vaoBound g) (gl_vbo g) (gl_vboBound g) (gl_log g).

(** The context after the first show of a new renderer. *)
Definition gl_start : GLState :=
  gl_run (initializeGL_calls m_backgroundColor (m_vertices renderer_new))
    (widget_initialize gl_new).

Variable fs : FileSystem.

(** The calls of an event: Qt makes the context current before [resizeGL]
    and, in [QOpenGLWidget::paintEvent], before [paintGL]; the other
    handlers call nothing. *)
Definition event_calls (e : Event M) (s : Renderer) : list GLCall :=
  match e with
  | EvResize _ _ => [makeCurrent]
  | EvPaint => makeCurrent :: paintEvent_calls s
  | EvLoadPts filename => loadPtsFile_calls fs filename
  | EvLoadPly filename => loadPlyFile_calls fs filename
  | _ => []
  end.

(** A session on the renderer and on its context. *)
Fixpoint gl_session (es : list (Event M)) (s : Renderer) (g : GLState)
    : option (Renderer * GLState) :=
  match es with
  | [] => Some (s, g)
  | e :: es' =>
      match handle fs e s with
      | Some s' => gl_session es' s' (gl_run (event_calls e s) g)
      | None => None
      end
  end.

End OpenGL.

Arguments GLCall M : clear implicits.
Arguments Output M : clear implicits.
Arguments GLState M : clear implicits.
Arguments UniformValue M : clear implicits.

(** Runs the machine on the calls of the goal, leaving the arguments of
    the calls as they are. *)
Ltac gl_eval :=
  lazy beta iota zeta delta
    [gl_run fold_left gl_step gl_exec uses_context resolved on_vao emit refuse
     set_current set_resolved set_clearColor set_enabled set_program set_inUse
     set_uniforms set_vao set_vbo set_log enable_array set_pointer
     enable painter_state Capability_eqb paintEvent_calls
     widget_initialize gl_new
     gl_initialized gl_current gl_resolved gl_clearColor gl_enabled gl_program gl_inUse
     gl_uniforms gl_vao gl_vaoBound gl_vbo gl_vboBound gl_log
     va_enabled va_pointers attr_location position_attribute color_attribute
     existsb filter app negb andb Nat.eqb isLinked
     setupVertexBuffers_calls loaded_calls paintGL_calls initializeGL_calls
     setupShaders_calls destructor_calls].

(** ** The background *)
Lemma background_literals_convert :
  f32_to_int f32_0_1 = Some 0%Z /\ f32_to_int f32_0_2 = Some 0%Z /\
  f32_to_int f32_0_3 = Some 0%Z /\ f32_to_int f32_one = Some 1%Z.
Proof. repeat split; reflexivity. Qed.

(** The colour the constructor builds is black with alpha 1 of 255. *)
Lemma m_backgroundColor_value : m_backgroundColor = QColor_rgba 0 0 0 1.
Proof. reflexivity. Qed.

(** ** The shaders' uniforms *)
Lemma uniforms_of_vertexShaderSource :
  uniforms_of vertexShaderSource =
  [("projection", "mat4"); ("modelView", "mat4"); ("pointSize", "float")].
Proof. reflexivity. Qed.

Lemma uniforms_of_fragmentShaderSource : uniforms_of fragmentShaderSource = [].
Proof. reflexivity. Qed.

(** ** Between two handlers *)

Section OpenGLTheory.
Context {M : Type} `{Matrix4x4 M} {libm : Libm} {T2F : TokenToFloat} {NG : NumGet}.
Context {GL : GLCompiler}.
Variable fs : FileSystem.

Local Abbreviation Renderer := (PointCloudRenderer M).

(** An output that is not a call made without a context or through an
    unresolved function. *)
Definition in_context (o : Output M) : bool :=
  match o with
  | Refused _ NoCurrentContext | Refused _ NotResolved => false
  | _ => true
  end.

(** The colour [glClearColor] is given in [initializeGL]. *)
Definition clear_color : f32 * f32 * f32 * f32 :=
  (redF m_backgroundColor, greenF m_backgroundColor, blueF m_backgroundColor,
   alphaF m_backgroundColor).

(** The capabilities enabled before and after the first [QPainter]. *)
Definition capabilities (painted : bool) : list Capability :=
  if painted then [GL_PROGRAM_POINT_SIZE] else [GL_DEPTH_TEST; GL_PROGRAM_POINT_SIZE].

Definition is_paint (e : Event M) : bool :=
  match e with EvPaint => true | _ => false end.

(** The context between two handlers, once [initializeGL] has run with
    program [p]: the functions are resolved, the point size is enabled and
    the depth test as long as no frame was painted, neither the program
    nor the vertex array is bound, the vertex array has both attributes,
    and the buffer holds [data]. *)
Definition steady (p : QOpenGLShaderProgram) (cur painted bound : bool)
    (u : string -> option (UniformValue M)) (data : list Cloud.Vertex)
    (log : list (Output M)) : GLState M :=
  mkGL true cur true clear_color (capabilities painted) p false u
    (Some (mkVao [0; 1] [position_attribute; color_attribute])) false (Some data) bound log.

Definition steady_for (s : Renderer) (painted : bool) (g : GLState M) : Prop :=
  exists cur bound u log,
    g = steady (fst (setupShaders program_new)) cur painted bound u (m_vbo s) log /\
    forallb in_context log = true.

(** Runs the machine from a steady state. *)
Ltac steady_eval := unfold steady; lazy delta [capabilities]; gl_eval.

(** The draw of [glDrawArrays] is never a call without a context. *)
Lemma draw_output_in_context c first count (g : GLState M) :
  in_context (draw_output c first count g) = true.
Proof.
  unfold draw_output.
  destruct (gl_inUse g), (gl_vaoBound g), (gl_vao g), (gl_vbo g); trivial.
  destruct (gl_uniforms g "projection") as [[]|], (gl_uniforms g "modelView") as [[]|],
    (gl_uniforms g "pointSize") as [[]|]; trivial.
Qed.

(** A call adds at most one output, in front of the others. *)
Lemma gl_step_log c (g : GLState M) :
  gl_log (gl_step c g) = gl_log g \/ exists o, gl_log (gl_step c g) = o :: gl_log g.
Proof.
  unfold gl_step. destruct (uses_context c g && negb (gl_current g)); [right; eexists; reflexivity|].
  destruct c; cbn; unfold resolved, on_vao;
    repeat match goal with
           | |- context [match ?x with _ => _ end] => destruct x
           end; cbn; eauto.
Qed.

Lemma gl_run_app a b (g : GLState M) : gl_run (a ++ b) g = gl_run b (gl_run a g).
Proof. apply fold_left_app. Qed.

(** [setupShaders] on the program of the context, call by call. *)
Lemma setupShaders_calls_program (g : GLState M) :
  gl_current g = true ->
  gl_run setupShaders_calls g = set_program (fst (setupShaders (gl_program g))) g.
Proof.
  intros C. destruct g; cbn in C; subst.
  unfold setupShaders, gl_run, setupShaders_calls, addShaderFromSourceCode, link; cbn.
  unfold addShaderFromSourceCode.
  destruct (compiles Shaders.Vertex _), (compiles Fragment _); reflexivity.
Qed.

(** *** The handlers, one by one *)

(** The first show leaves the steady state with an empty buffer and the
    depth test enabled. *)
Lemma gl_start_steady :
  exists log,
    gl_start =
    steady (fst (setupShaders program_new)) true false true (fun _ => None) [] log /\
    forallb in_context log = true.
Proof.
  unfold gl_start, initializeGL_calls. rewrite !gl_run_app.
  rewrite setupShaders_calls_program by reflexivity.
  match goal with |- context [gl_program ?g] => change (gl_program g) with program_new end.
  change (m_vertices renderer_new) with (@nil Cloud.Vertex).
  destruct (fst (setupShaders program_new)) as [sh [|]]; steady_eval;
    eexists; split; reflexivity.
Qed.

(** [makeCurrent(); setupVertexBuffers(); doneCurrent();] in the steady
    state: the buffer is bound and receives what [allocate] stores, when
    there are vertices; the context is left not current. *)
Lemma loaded_calls_steady p cur painted bound u old log vs :
  forallb in_context log = true ->
  exists log',
    gl_run (loaded_calls vs) (steady p cur painted bound u old log) =
    steady p false painted true u
      (match vs with [] => old | _ => allocate vs (allocate_count vs) old end) log' /\
    forallb in_context log' = true.
Proof.
  intros L.
  destruct p as [sh [|]], vs as [|v vs], cur, painted, bound; steady_eval;
    (eexists; split; [reflexivity|]); trivial;
    cbn [forallb in_context]; now destruct (_ <? _)%Z.
Qed.

(** [paintEvent] in the steady state, after Qt made the context current:
    the painter leaves the depth test disabled and the buffer unbound. *)
Lemma paintEvent_calls_steady p cur painted bound u data log (s : Renderer) :
  forallb in_context log = true ->
  exists u' log',
    gl_run (makeCurrent :: paintEvent_calls s) (steady p cur painted bound u data log) =
    steady p true true false u' data log' /\
    forallb in_context log' = true.
Proof.
  intros L. unfold paintEvent_calls, paintGL_calls.
  destruct (m_vertices s) as [|v vs], p as [sh [|]], cur, painted, bound; steady_eval;
    (eexists _, _; split; [reflexivity|]);
    cbn [forallb in_context]; rewrite ?draw_output_in_context; exact L.
Qed.

(** What a load leaves in the buffer. *)
Lemma m_vbo_frame_loaded c (s : Renderer) :
  m_vbo (frame_loaded (store_cloud c s)) =
  match vertices c with
  | [] => m_vbo s
  | _ => allocate (vertices c) (allocate_count (vertices c)) (m_vbo s)
  end.
Proof. unfold frame_loaded, setupVertexBuffers; cbn. now destruct (vertices c). Qed.

Lemma steady_for_same (s s' : Renderer) painted g :
  m_vbo s' = m_vbo s -> steady_for s painted g -> steady_for s' painted g.
Proof. unfold steady_for. now intros ->. Qed.

Lemma steady_for_loaded c (s : Renderer) painted g :
  steady_for s painted g ->
  steady_for (frame_loaded (store_cloud c s)) painted (gl_run (loaded_calls (vertices c)) g).
Proof.
  intros (cur & bound & u & log & -> & L). unfold steady_for. rewrite m_vbo_frame_loaded.
  destruct (loaded_calls_steady (fst (setupShaders program_new)) cur painted bound u
              (m_vbo s) log (vertices c) L) as (log' & -> & L').
  now exists false, true, u, log'.
Qed.

Lemma steady_for_paint (s : Renderer) painted g :
  steady_for s painted g ->
  steady_for s true (gl_run (makeCurrent :: paintEvent_calls s) g).
Proof.
  intros (cur & bound & u & log & -> & L).
  destruct (paintEvent_calls_steady (fst (setupShaders program_new)) cur painted bound u
              (m_vbo s) log s L) as (u' & log' & -> & L').
  now exists true, false, u', log'.
Qed.

Lemma m_vbo_paintGL (s : Renderer) : m_vbo (fst (paintGL s)) = m_vbo s.
Proof. unfold paintGL. now destruct (m_vertices s). Qed.

(** Every handler takes the steady state of the renderer before it to
    the steady state of the renderer after it; a paint is remembered. *)
Lemma gl_event_steady e (s s' : Renderer) painted g :
  handle fs e s = Some s' -> steady_for s painted g ->
  steady_for s' (painted || is_paint e) (gl_run (event_calls fs e s) g).
Proof.
  intros Hh S.
  destruct e; cbn [handle] in Hh; cbn [event_calls is_paint];
    rewrite ?orb_false_r, ?orb_true_r;
    try (injection Hh as <-; apply (steady_for_same s); [|exact S]; reflexivity).
  - injection Hh as <-. destruct S as (cur & bound & u & log & -> & L).
    now exists true, bound, u, log.
  - injection Hh as <-. apply (steady_for_same s); [apply m_vbo_paintGL|].
    now apply (steady_for_paint s painted).
  - injection Hh as <-. unfold loadPtsFile, loadPtsFile_calls.
    destruct (fs filename); [now apply steady_for_loaded | exact S].
  - unfold loadPlyFile, loadPlyFile_calls in *.
    destruct (fs filename) as [content|]; [|injection Hh as <-; exact S].
    destruct (ply_parse content); try discriminate Hh; injection Hh as <-;
      [now apply steady_for_loaded | exact S | exact S].
  - injection Hh as <-. apply (steady_for_same s); [|exact S].
    unfold mouseMoveEvent. now destruct leftButton.
Qed.

(** The renderer of a session on the context is the renderer of the
    session, and the context is defined whenever the session is. *)
Lemma gl_session_run es : forall (s s' : Renderer) g g',
  gl_session fs es s g = Some (s', g') -> run fs es s = Some s'.
Proof.
  induction es as [|e es IH]; intros s s' g g'; cbn [gl_session run].
  - now intros [= <- _].
  - destruct (handle fs e s); [apply IH | discriminate].
Qed.

Lemma gl_session_defined es : forall (s s' : Renderer) g,
  run fs es s = Some s' -> exists g', gl_session fs es s g = Some (s', g').
Proof.
  induction es as [|e es IH]; intros s s' g; cbn [gl_session run].
  - intros [= <-]. now exists g.
  - destruct (handle fs e s); [apply IH | discriminate].
Qed.

Lemma gl_session_steady_from es : forall (s s' : Renderer) painted g g',
  steady_for s painted g -> gl_session fs es s g = Some (s', g') ->
  steady_for s' (painted || existsb is_paint es) g'.
Proof.
  induction es as [|e es IH]; intros s s' painted g g' S; cbn [gl_session existsb].
  - intros [= <- <-]. now rewrite orb_false_r.
  - destruct (handle fs e s) as [s1|] eqn:Hh; [|discriminate].
    rewrite orb_assoc. apply IH. now apply gl_event_steady.
Qed.

Lemma gl_start_steady_for : steady_for (initializeGL renderer_new) false gl_start.
Proof.
  destruct gl_start_steady as (log & E & L). now exists true, true, (fun _ => None), log.
Qed.

(** *** What a session leaves *)

Local Abbreviation start := (initializeGL (renderer_new (M := M))).

(** The state of the context after a session from the first show. *)
Lemma gl_session_steady es (s : Renderer) g :
  gl_session fs es start gl_start = Some (s, g) ->
  steady_for s (existsb is_paint es) g.
Proof. apply (gl_session_steady_from es _ _ false), gl_start_steady_for. Qed.

(** C20: the buffer object of the context is the buffer of the model: after
    every session the buffer holds [m_vbo], the vertex array has the
    position and the colour attribute enabled, and neither the program
    nor the vertex array is left bound. *)
Theorem gl_buffer_is_m_vbo es (s : Renderer) :
  run fs es start = Some s ->
  exists g,
    gl_session fs es start gl_start = Some (s, g) /\
    gl_vbo g = Some (m_vbo s) /\
    gl_vao g = Some (mkVao [0; 1] [position_attribute; color_attribute]) /\
    gl_inUse g = false /\ gl_vaoBound g = false.
Proof.
  intros R. destruct (gl_session_defined es _ _ gl_start R) as (g & E).
  exists g. split; [exact E|].
  destruct (gl_session_steady es _ _ E) as (cur & bound & u & log & -> & _).
  repeat split.
Qed.

(** C22: no call of a session is made without a current context or before
    the functions are resolved: the handlers Qt calls run with the
    context current, the loaders make it current themselves. *)
Theorem gl_calls_in_context es (s : Renderer) g c f :
  gl_session fs es start gl_start = Some (s, g) ->
  In (Refused c f) (gl_log g) -> f <> NoCurrentContext /\ f <> NotResolved.
Proof.
  intros E I.
  destruct (gl_session_steady es _ _ E) as (cur & bound & u & log & -> & L).
  rewrite forallb_forall in L. specialize (L _ I).
  split; intros ->; discriminate L.
Qed.

(** C32: the colour every frame of a session is cleared with: black, with an
    alpha of 1 of 255, and not the (0.1, 0.2, 0.3, 1) the constructor
    names. *)
Theorem background_is_black es (s : Renderer) g :
  gl_session fs es start gl_start = Some (s, g) ->
  gl_clearColor g = (f32_zero, f32_zero, f32_zero, S754_finite false 8421505 (-31)) /\
  gl_clearColor g <> (f32_0_1, f32_0_2, f32_0_3, f32_one).
Proof.
  intros E.
  destruct (gl_session_steady es _ _ E) as (cur & bound & u & log & -> & _).
  split; [reflexivity | discriminate].
Qed.

(** The depth test is enabled by [initializeGL] alone, and disabled by
    the painter of every [paintEvent]: it is enabled after a session
    exactly when the session painted no frame. *)
Theorem depth_test_until_painted es (s : Renderer) g :
  gl_session fs es start gl_start = Some (s, g) ->
  existsb (Capability_eqb GL_DEPTH_TEST) (gl_enabled g) = negb (existsb is_paint es).
Proof.
  intros E.
  destruct (gl_session_steady es _ _ E) as (cur & bound & u & log & -> & _).
  cbn [gl_enabled steady]. now destruct (existsb is_paint es).
Qed.

(** The destructor after any session: the buffer and the vertex array
    are destroyed with the context current, no call is refused, and the
    context is left not current. *)
Theorem destructor_releases es (s : Renderer) g :
  gl_session fs es start gl_start = Some (s, g) ->
  gl_vbo (gl_run destructor_calls g) = None /\
  gl_vao (gl_run destructor_calls g) = None /\
  gl_current (gl_run destructor_calls g) = false /\
  gl_log (gl_run destructor_calls g) = gl_log g.
Proof.
  intros E.
  destruct (gl_session_steady es _ _ E) as (cur & bound & u & log & -> & _).
  steady_eval. repeat split.
Qed.

(** *** The draw of a paint *)

(** The program [setupShaders] leaves when it prints no message: both
    shaders, linked. *)
Definition linked_program : QOpenGLShaderProgram :=
  mkProgram [(Shaders.Vertex, vertexShaderSource); (Fragment, fragmentShaderSource)] true.

Lemma quiet_program :
  snd (setupShaders program_new) = [] -> fst (setupShaders program_new) = linked_program.
Proof.
  rewrite setupShaders_steps; unfold added, linked_program; cbn [fst snd].
  destruct (compiles Shaders.Vertex _), (compiles Fragment _); cbn [app];
    try discriminate.
  now destruct (links _).
Qed.

(** The names and the types [paintGL] sets are those the vertex shader
    declares. *)
Lemma paint_uniforms_declared :
  declares linked_program "projection" "mat4" = true /\
  declares linked_program "modelView" "mat4" = true /\
  declares linked_program "pointSize" "float" = true.
Proof. repeat split; reflexivity. Qed.

(** Evaluates the look-up of the uniforms by a draw. *)
Ltac draw_eval :=
  lazy beta iota zeta delta
    [draw_output enabled_pointers gl_inUse gl_vaoBound gl_vao gl_vbo gl_uniforms gl_enabled
     va_enabled va_pointers attr_location filter existsb Nat.eqb skipn
     String.eqb Ascii.eqb Bool.eqb andb orb].

(** *** The outputs of a session *)

(** What a paint leaves in the log, the latest output first: the cleared
    frame and, with vertices, the draw call of [paintGL] through the two
    attributes, with the capabilities the frames before left. *)
Definition paint_outputs (s : Renderer) (painted : bool) : list (Output M) :=
  match drawn s with
  | Some d =>
      [Drawn d [position_attribute; color_attribute] (capabilities painted);
       Cleared clear_color]
  | None => [Cleared clear_color]
  end.

(** What a load that succeeds leaves: the refused creation of the vertex
    array, and the refused upload when the byte count is negative. *)
Definition load_outputs (vs : list Cloud.Vertex) : list (Output M) :=
  (match vs with
   | [] => []
   | _ =>
       if (allocate_count vs <? 0)%Z
       then [Refused (vbo_allocate vs (allocate_count vs)) InvalidValue]
       else []
   end ++ [Refused vao_create AlreadyCreated])%list.

Definition event_outputs (e : Event M) (s : Renderer) (painted : bool) : list (Output M) :=
  match e with
  | EvPaint => paint_outputs s painted
  | EvLoadPts filename =>
      match fs filename with
      | Some content => load_outputs (vertices (pts_parse content))
      | None => []
      end
  | EvLoadPly filename =>
      match fs filename with
      | Some content =>
          match ply_parse content with
          | PlyLoaded c => load_outputs (vertices c)
          | _ => []
          end
      | None => []
      end
  | _ => []
  end.

(** The outputs of a session, the latest first. *)
Fixpoint session_outputs (es : list (Event M)) (s : Renderer) (painted : bool)
    : list (Output M) :=
  match es with
  | [] => []
  | e :: es' =>
      match handle fs e s with
      | Some s' =>
          (session_outputs es' s' (painted || is_paint e) ++ event_outputs e s painted)%list
      | None => []
      end
  end.

(** The first show, when [setupShaders] printed no message: nothing is
    refused. *)
Lemma gl_start_quiet :
  snd (setupShaders program_new) = [] ->
  gl_start = steady linked_program true false true (fun _ => None) [] [].
Proof.
  intros Q. unfold gl_start, initializeGL_calls. rewrite !gl_run_app.
  rewrite setupShaders_calls_program by reflexivity.
  match goal with |- context [gl_program ?g] => change (gl_program g) with program_new end.
  change (m_vertices renderer_new) with (@nil Cloud.Vertex).
  rewrite (quiet_program Q). unfold linked_program. steady_eval. reflexivity.
Qed.

Lemma loaded_calls_linked cur painted bound u old log vs :
  gl_run (loaded_calls vs) (steady linked_program cur painted bound u old log) =
  steady linked_program false painted true u
    (match vs with [] => old | _ => allocate vs (allocate_count vs) old end)
    (load_outputs vs ++ log)%list.
Proof.
  unfold load_outputs, linked_program.
  destruct vs as [|v vs], cur, painted, bound; steady_eval; try reflexivity;
    now destruct (_ <? _)%Z.
Qed.

(** One [paintEvent] in the steady state, with the linked program: the
    draw is made with the capabilities the previous frames left. *)
Lemma paintEvent_calls_linked cur painted bound u log (s : Renderer) :
  exists u',
    gl_run (makeCurrent :: paintEvent_calls s)
      (steady linked_program cur painted bound u (m_vbo s) log) =
    steady linked_program true true false u' (m_vbo s) (paint_outputs s painted ++ log)%list.
Proof.
  destruct paint_uniforms_declared as (Dp & Dm & Ds).
  unfold paint_outputs, drawn, paintGL, paintEvent_calls, paintGL_calls.
  destruct (m_vertices s) as [|v vs] eqn:V, cur, painted, bound; unfold linked_program in *;
    steady_eval; try (eexists; reflexivity);
    cbn [glsl_type]; rewrite Dp, Dm, Ds; draw_eval; eexists; reflexivity.
Qed.

(** Every handler, with the linked program: the state after it and what
    it adds to the log. *)
Lemma gl_event_linked e (s s' : Renderer) cur painted bound u log :
  handle fs e s = Some s' ->
  exists cur' bound' u',
    gl_run (event_calls fs e s) (steady linked_program cur painted bound u (m_vbo s) log) =
    steady linked_program cur' (painted || is_paint e) bound' u' (m_vbo s')
      (event_outputs e s painted ++ log)%list.
Proof.
  intros Hh.
  destruct e; cbn [handle] in Hh; cbn [event_calls is_paint event_outputs];
    rewrite ?orb_false_r, ?orb_true_r;
    try (injection Hh as <-; exists cur, bound, u; reflexivity).
  - injection Hh as <-. exists true, bound, u. now destruct cur.
  - injection Hh as <-. cbn [m_vbo set_updatePending]. rewrite m_vbo_paintGL.
    destruct (paintEvent_calls_linked cur painted bound u log s) as (u' & ->).
    now exists true, false, u'.
  - injection Hh as <-. unfold loadPtsFile, loadPtsFile_calls.
    destruct (fs filename); [|now exists cur, bound, u].
    cbn [fst]. rewrite m_vbo_frame_loaded, loaded_calls_linked. now exists false, true, u.
  - unfold loadPlyFile, loadPlyFile_calls in *.
    destruct (fs filename) as [content|]; [|injection Hh as <-; now exists cur, bound, u].
    destruct (ply_parse content); try discriminate Hh; injection Hh as <-;
      [|now exists cur, bound, u ..].
    rewrite m_vbo_frame_loaded, loaded_calls_linked. now exists false, true, u.
  - injection Hh as <-. exists cur, bound, u. unfold mouseMoveEvent. now destruct leftButton.
Qed.

Lemma gl_session_linked es : forall (s s' : Renderer) cur painted bound u log g',
  gl_session fs es s (steady linked_program cur painted bound u (m_vbo s) log) =
    Some (s', g') ->
  exists cur' bound' u',
    g' = steady linked_program cur' (painted || existsb is_paint es) bound' u' (m_vbo s')
           (session_outputs es s painted ++ log)%list.
Proof.
  induction es as [|e es IH]; intros s s' cur painted bound u log g';
    cbn [gl_session existsb session_outputs].
  - intros [= <- <-]. rewrite orb_false_r. now exists cur, bound, u.
  - destruct (handle fs e s) as [s1|] eqn:Hh; [|discriminate].
    destruct (gl_event_linked e s s1 cur painted bound u log Hh) as (c1 & b1 & u1 & ->).
    intros E. apply IH in E. rewrite orb_assoc, <- app_assoc. exact E.
Qed.

(** C21: the log of the context is the outputs of the session: when
    [setupShaders] printed no message, after any sequence of events the
    context has logged, for every paint, the cleared frame and the draw
    call of [paintGL] through the two attributes of [VertexBuffer], with
    the depth test only if no frame was painted before; for every load
    that succeeds, the refused second creation of the vertex array, and
    the refused upload when the byte count does not fit; and nothing
    else. *)
Theorem gl_log_is_expected es (s : Renderer) g :
  snd (setupShaders program_new) = [] ->
  gl_session fs es start gl_start = Some (s, g) ->
  gl_log g = session_outputs es start false.
Proof.
  intros Q E. rewrite (gl_start_quiet Q) in E.
  apply (gl_session_linked es start) in E as (cur & bound & u & ->).
  cbn [gl_log steady]. apply app_nil_r.
Qed.

(** With a program that is not linked, a paint with vertices draws
    nothing: the binding and the draw are refused. *)
Lemma paint_log_unlinked sh cur painted bound u data log (s : Renderer) :
  m_vertices s <> [] ->
  gl_log (gl_run (makeCurrent :: paintEvent_calls s)
            (steady (mkProgram sh false) cur painted bound u data log)) =
  Refused (glDrawArrays GL_POINTS 0 (List.length (m_vertices (updateModelViewMatrix s))))
    Incomplete :: Refused program_bind NotLinked :: Cleared clear_color :: log.
Proof.
  intros V. unfold paintEvent_calls, paintGL_calls.
  destruct (m_vertices s) as [|v vs] eqn:E; [easy|].
  destruct cur, painted, bound; steady_eval; draw_eval; reflexivity.
Qed.

(** *** Boundary behaviour *)

(** Every load that reaches [setupVertexBuffers] creates the vertex
    array again, which Qt refuses. *)
Lemma load_creates_vao_again p cur painted bound u data log vs :
  In (Refused vao_create AlreadyCreated)
     (gl_log (gl_run (loaded_calls vs) (steady p cur painted bound u data log))).
Proof.
  destruct p as [sh [|]], vs as [|v vs], cur, painted, bound; steady_eval;
    try destruct (_ <? _)%Z; cbn [In]; auto 8.
Qed.

(** A load before the widget is shown: [makeCurrent] does nothing, and
    every call that reaches OpenGL is made without a context; nothing is
    created. *)
Lemma load_before_show vs :
  let g := gl_run (loaded_calls vs) (gl_new (M := M)) in
  gl_vbo g = None /\ gl_vao g = None /\
  In (Refused vao_create NoCurrentContext) (gl_log g) /\
  In (Refused vbo_create NoCurrentContext) (gl_log g).
Proof. destruct vs; cbn zeta; gl_eval; cbn [In]; auto 20. Qed.

End OpenGLTheory.

(** ** The other route to the channels *)

(** Qt 5 returns the channels as [double] and the argument of
    [glClearColor] converts to [float]; for the two values the channels
    of the background hold, this gives what the division in [float]
    gives. *)
Lemma channelF_through_double :
  Forall (fun c =>
            f32_of_f64 (SFdiv prec64 emax64 (binary_normalize prec64 emax64 c 0 false)
                          (binary_normalize prec64 emax64 65535 0 false)) = channelF c)
    [0%Z; 257%Z].
Proof. repeat constructor. Qed.

(** ** A load and a paint *)

Section OpenGLScenarios.

#[local] Existing Instance LibmUnitSteps.
#[local] Existing Instance QtTokenToFloat.
#[local] Existing Instance StdNumGet.

(** A driver that compiles and links every shader. *)
Definition AcceptingCompiler : GLCompiler :=
  {| compiles := fun _ _ => true; links := fun _ => true |}.
#[local] Existing Instance AcceptingCompiler.

(** A driver that compiles nothing. *)
Definition RefusingCompiler : GLCompiler :=
  {| compiles := fun _ _ => false; links := fun _ => false |}.

Definition load_and_paint : list (Event SymMatrix) := [EvLoadPts "a.pts"; EvPaint].

Definition gl_after (es : list (Event SymMatrix))
    : option (PointCloudRenderer SymMatrix * GLState SymMatrix) :=
  gl_session example_fs es example_start gl_start.

Lemma gl_buffer_is_m_vbo_witness :
  exists s g,
    gl_after load_and_paint = Some (s, g) /\
    gl_vbo g = Some (m_vbo s) /\ List.length (m_vbo s) = 2.
Proof.
  destruct (after load_and_paint) as [s|] eqn:E; [|vm_compute in E; discriminate E].
  destruct (gl_buffer_is_m_vbo example_fs load_and_paint s E) as (g & S & B & _).
  exists s, g. repeat split; [exact S | exact B|].
  vm_compute in E. injection E as <-. reflexivity.
Defined.

Lemma gl_calls_in_context_witness :
  match gl_after load_and_paint with
  | Some (s, g) =>
      In (Refused vao_create AlreadyCreated) (gl_log g) /\
      AlreadyCreated <> NoCurrentContext /\ AlreadyCreated <> NotResolved
  | None => False
  end.
Proof.
  destruct (gl_after load_and_paint) as [[s g]|] eqn:E; [|vm_compute in E; discriminate E].
  assert (I : In (Refused vao_create AlreadyCreated) (gl_log g)).
  { vm_compute in E. injection E as _ <-. cbn [gl_log In]. auto. }
  split; [exact I|].
  exact (gl_calls_in_context example_fs load_and_paint s g _ _ E I).
Defined.

Lemma background_is_black_witness :
  match gl_after load_and_paint with
  | Some (s, g) =>
      gl_clearColor g = (f32_zero, f32_zero, f32_zero, S754_finite false 8421505 (-31)) /\
      gl_clearColor g <> (f32_0_1, f32_0_2, f32_0_3, f32_one)
  | None => False
  end.
Proof.
  destruct (gl_after load_and_paint) as [[s g]|] eqn:E; [|vm_compute in E; discriminate E].
  exact (background_is_black example_fs load_and_paint s g E).
Defined.

Lemma destructor_releases_witness :
  match gl_after load_and_paint with
  | Some (s, g) =>
      gl_vbo g <> None /\
      gl_vbo (gl_run destructor_calls g) = None /\
      gl_vao (gl_run destructor_calls g) = None /\
      gl_current (gl_run destructor_calls g) = false /\
      gl_log (gl_run destructor_calls g) = gl_log g
  | None => False
  end.
Proof.
  destruct (gl_after load_and_paint) as [[s g]|] eqn:E; [|vm_compute in E; discriminate E].
  split; [|exact (destructor_releases example_fs load_and_paint s g E)].
  vm_compute in E. injection E as _ <-. discriminate.
Defined.

(** A load and two frames: the refused creation of the vertex array,
    then each frame cleared and drawn, the first with the depth test and
    the second without. *)
Lemma gl_log_is_expected_witness :
  match gl_after [EvLoadPts "a.pts"; EvPaint; EvPaint] with
  | Some (s, g) =>
      match gl_log g with
      | [Drawn d2 p2 e2; Cleared _; Drawn d1 p1 e1; Cleared _;
         Refused vao_create AlreadyCreated] =>
          dc_count d1 = 2 /\ p1 = [position_attribute; color_attribute] /\
          e1 = [GL_DEPTH_TEST; GL_PROGRAM_POINT_SIZE] /\ e2 = [GL_PROGRAM_POINT_SIZE]
      | _ => False
      end
  | None => False
  end.
Proof.
  destruct (gl_after _) as [[s g]|] eqn:E; [|vm_compute in E; discriminate E].
  assert (Q : snd (setupShaders program_new) = []) by reflexivity.
  rewrite (gl_log_is_expected example_fs _ s g Q E).
  vm_compute. repeat split.
Defined.

(** With a driver that compiles nothing the session goes on and a paint
    draws nothing. *)
Lemma refusing_driver_draws_nothing :
  match gl_session (GL := RefusingCompiler) example_fs load_and_paint example_start
          (gl_start (GL := RefusingCompiler)) with
  | Some (s, g) =>
      existsb (fun o => match o with Drawn _ _ _ => true | _ => false end) (gl_log g) = false /\
      existsb (fun o => match o with Refused program_bind NotLinked => true | _ => false end)
        (gl_log g) = true
  | None => False
  end.
Proof. vm_compute. split; reflexivity. Qed.

End OpenGLScenarios.
