(* ===== verification/Session.v ===== *)
(** * Session: what the window asks of the renderer, and of OpenGL

    The slots of [MainWindow] change the renderer only through its public
    functions: [loadPtsFile], [loadPlyFile], [resetView], [setViewport]
    and [update].  [slot_calls] is the list of these calls a slot makes,
    as events of the renderer, with the guards of the slot; an event of
    the renderer widget is itself.  [slot_calls] reads the same lines of
    [mainwindow.cpp] as the slots of [MainWindow] do, once more, as a
    trace instead of a state change: it is no specification of them, and
    [slot_calls_run] and [ui_trace_run] are the bookkeeping that keeps
    the two readings together (the renderer of the window after a session
    is the renderer after the calls of the session).  With them every
    state the renderer takes in the application is a reachable state of
    [Renderer] ([ui_reachable_renderer]), and what [OpenGL] proves of
    renderer sessions holds when [main] returns: the context
    holds the buffer of the renderer, no call was made without a context,
    and the destructor of the renderer destroys the buffer and the vertex
    array with the context current ([main_releases_context]). *)

From Stdlib Require Import ZArith NArith Lia Bool List String SpecFloat.
From S2P Require Import Prelude Float32 Vec3 Matrix Text IStream Cloud.
From S2P Require Import PtsParser PlyParser ViewportParameters Renderer.
From S2P Require Import ViewportObject MainWindow Shaders VertexBuffer Main OpenGL.
Import ListNotations.
Local Open Scope list_scope.
Local Open Scope string_scope.

Section Session.
Context {M : Type} `{Matrix4x4 M} {libm : Libm} {T2F : TokenToFloat} {NG : NumGet}.
Variable fs : FileSystem.

Local Abbreviation Window := (MainWindow M).
Local Abbreviation Renderer := (PointCloudRenderer M).

(** The calls of a slot that change the renderer, in order.
    [openPointCloudFile] calls the loader the suffix selects and, when it
    succeeds, [update]; [resetView] calls [resetView] and [update]; the
    first capture slot only reads; the second calls [setViewport] and
    [update] once the three dialogs were answered; a double click calls
    [applyViewport], which is [setViewport] and [update]. *)
Definition slot_calls (e : UiEvent M) (w : Window) : list (Event M) :=
  match e with
  | UiOpen filename =>
      if isEmpty filename then []
      else if endsWith_ci filename ".pts" then
        EvLoadPts filename ::
        (if snd (loadPtsFile fs filename (m_renderer w)) then [EvUpdate] else [])
      else if endsWith_ci filename ".ply" then
        EvLoadPly filename ::
        match loadPlyFile fs filename (m_renderer w) with
        | Some (_, true) => [EvUpdate]
        | _ => []
        end
      else []
  | UiResetView => [EvResetView; EvUpdate]
  | UiSaveViewport => []
  | UiSaveViewportWithCoords x y z =>
      let r := m_renderer w in
      let sceneSize := vec3_length (getBoundingBoxSize r) in
      if (getPointCount r =? 0)%nat then []
      else if f32_le sceneSize f32_zero then []
      else match x, y, z with
           | Some x, Some y, Some z =>
               [EvSetViewport
                  (with_center_distance
                     (mkVec3 (f32_of_f64 x) (f32_of_f64 y) (f32_of_f64 z))
                     (f32_mul sceneSize f32_1_5) (getViewportParameters r));
                EvUpdate]
           | _, _, _ => []
           end
  | UiDoubleClick item =>
      match nth_error (m_dbTreeWidget w) item with
      | Some it =>
          match item_data it with
          | Some ptr =>
              match nth_error (m_viewportList w) ptr with
              | Some viewport => [EvSetViewport (getParameters viewport); EvUpdate]
              | None => []
              end
          | None => []
          end
      | None => []
      end
  | UiRenderer e' => [e']
  end.

(** The calls of a session, slot after slot. *)
Fixpoint ui_trace (es : list (UiEvent M)) (w : Window) : list (Event M) :=
  match es with
  | [] => []
  | e :: es' =>
      slot_calls e w ++
      match ui_handle fs e w with
      | Some w' => ui_trace es' w'
      | None => []
      end
  end.

(** The context when [main] has shown the window and dispatched
    [events]. *)
Definition main_context {GL : GLCompiler} (events : list (AppEvent (M := M)))
    : option (Renderer * GLState M) :=
  gl_session fs (ui_trace (dispatched events) window_start) (initializeGL renderer_new)
    gl_start.

(** ** The window drives the renderer *)
Lemma run_app a b : forall s : Renderer,
  run fs (a ++ b) s = match run fs a s with Some s' => run fs b s' | None => None end.
Proof.
  induction a as [|e a IH]; intros s; cbn [app run]; [reflexivity|].
  destruct (handle fs e s); [apply IH | reflexivity].
Qed.

Lemma m_renderer_register p (w : Window) : m_renderer (register p w) = m_renderer w.
Proof.
  unfold register, addToDB, updateTreeWidget; cbn.
  now destruct (nth_error _ _).
Qed.

Lemma slot_calls_open filename (w w' : Window) :
  openPointCloudFile fs filename w = Some w' ->
  run fs (slot_calls (UiOpen filename) w) (m_renderer w) = Some (m_renderer w').
Proof.
  unfold openPointCloudFile; cbn [slot_calls].
  destruct (isEmpty filename); [now intros [= <-]|].
  destruct (endsWith_ci filename ".pts").
  - cbn [run handle]. destruct (loadPtsFile fs filename (m_renderer w)) as [r [|]];
      now intros [= <-].
  - destruct (endsWith_ci filename ".ply"); [|now intros [= <-]].
    cbn [run handle]. destruct (loadPlyFile fs filename (m_renderer w)) as [[r [|]]|];
      [now intros [= <-] .. | discriminate].
Qed.

(** One slot: the renderer after the slot is the renderer after its
    calls. *)
Lemma slot_calls_run e (w w' : Window) :
  ui_handle fs e w = Some w' ->
  run fs (slot_calls e w) (m_renderer w) = Some (m_renderer w').
Proof.
  destruct e as [filename| | |x y z|item|e']; cbn [ui_handle].
  - apply slot_calls_open.
  - now intros [= <-].
  - intros [= <-]. rewrite doActionSaveViewportAsObject_register.
    destruct (_ =? _)%nat; [reflexivity | now rewrite m_renderer_register].
  - intros [= <-]. rewrite doActionSaveViewportWithUserCoords_cases; cbv zeta.
    cbn [slot_calls]. destruct (_ =? _)%nat; [reflexivity|].
    destruct (f32_le _ _); [reflexivity|].
    destruct x, y, z; try reflexivity. now rewrite m_renderer_register.
  - intros [= <-]. unfold onTreeWidgetItemDoubleClicked; cbn [slot_calls].
    destruct (nth_error (m_dbTreeWidget w) item) as [it|]; [|reflexivity].
    destruct (item_data it) as [ptr|]; [|reflexivity].
    now destruct (nth_error (m_viewportList w) ptr).
  - cbn [slot_calls run]. destruct (handle fs e' (m_renderer w)); now intros [= <-].
Qed.

Lemma ui_trace_run es : forall w w' : Window,
  ui_run fs es w = Some w' ->
  run fs (ui_trace es w) (m_renderer w) = Some (m_renderer w').
Proof.
  induction es as [|e es IH]; intros w w'; cbn [ui_run ui_trace].
  - now intros [= <-].
  - destruct (ui_handle fs e w) as [w1|] eqn:E; [|discriminate].
    intros R. rewrite run_app, (slot_calls_run _ _ _ E). now apply IH.
Qed.

Lemma run_reachable es : forall s s' : Renderer,
  reachable fs s -> run fs es s = Some s' -> reachable fs s'.
Proof.
  induction es as [|e es IH]; intros s s' R; cbn [run]; [now intros [= <-]|].
  destruct (handle fs e s) as [s1|] eqn:E; [|discriminate].
  apply IH. eapply reach_step; eassumption.
Qed.

(** Every renderer of a session of the window is a reachable state of
    the renderer. *)
Lemma ui_reachable_renderer (w : Window) :
  ui_reachable fs w -> reachable fs (m_renderer w).
Proof.
  induction 1 as [|w e w' _ IH E]; [apply reach_init|].
  exact (run_reachable _ _ _ IH (slot_calls_run _ _ _ E)).
Qed.

(** ** When [main] returns *)

Context {GL : GLCompiler}.

(** C18: when the event loop is left, the context holds the buffer of the
    renderer of the window, no call of the session was refused for want
    of a context, and the destructor of the renderer then destroys the
    buffer and the vertex array with the context current and leaves it
    not current. *)
Theorem main_releases_context events (w : Window) :
  snd (main fs events) = Some w ->
  exists g,
    main_context events = Some (m_renderer w, g) /\
    gl_vbo g = Some (m_vbo (m_renderer w)) /\
    (forall c f, In (Refused c f) (gl_log g) -> f <> NoCurrentContext) /\
    gl_vbo (gl_run destructor_calls g) = None /\
    gl_vao (gl_run destructor_calls g) = None /\
    gl_current (gl_run destructor_calls g) = false /\
    gl_log (gl_run destructor_calls g) = gl_log g.
Proof.
  unfold main, main_context; cbn [snd]. rewrite exec_ui_run. intros R.
  apply ui_trace_run in R; cbn [m_renderer window_start] in R.
  destruct (gl_session_defined fs _ _ _ gl_start R) as (g & E).
  exists g. split; [exact E|].
  destruct (gl_session_steady fs _ _ _ E) as (cur & bound & u & log & -> & L).
  repeat split; try (destruct (existsb _ _); unfold steady; gl_eval; reflexivity).
  intros c f I ->. rewrite forallb_forall in L. discriminate (L _ I).
Qed.

End Session.

(** ** Open, zoom, capture, drag, replay, paint *)

Section SessionScenarios.

#[local] Existing Instance LibmUnitSteps.
#[local] Existing Instance QtTokenToFloat.
#[local] Existing Instance StdNumGet.
#[local] Existing Instance AcceptingCompiler.

Definition open_capture_replay : list (UiEvent SymMatrix) :=
  [UiOpen "a.pts"; UiRenderer (EvWheel 120); UiSaveViewport;
   UiRenderer (EvMouseMove true (3, 4)%Z); UiDoubleClick 0; UiRenderer EvPaint].

(** The calls of the session: the load and the window's [update], the
    wheel step, nothing for the capture, the drag, [setViewport] and
    [update] for the replay, the paint. *)
Lemma open_capture_replay_trace :
  exists p,
    ui_trace example_fs open_capture_replay window_start =
    [EvLoadPts "a.pts"; EvUpdate; EvWheel 120; EvMouseMove true (3, 4)%Z;
     EvSetViewport p; EvUpdate; EvPaint].
Proof. eexists. vm_compute. reflexivity. Qed.

Lemma main_releases_context_witness :
  match snd (main example_fs (map Dispatch open_capture_replay ++ [ActionExit])) with
  | Some w =>
      exists g,
        main_context example_fs (map Dispatch open_capture_replay ++ [ActionExit]) =
          Some (m_renderer w, g) /\
        gl_vbo g = Some (m_vbo (m_renderer w)) /\
        gl_vbo (gl_run destructor_calls g) = None /\
        gl_vao (gl_run destructor_calls g) = None
  | None => False
  end.
Proof.
  destruct (snd (main example_fs _)) as [w|] eqn:E; [|vm_compute in E; discriminate E].
  destruct (main_releases_context example_fs _ w E) as (g & C & B & _ & D & A & _).
  exists g. exact (conj C (conj B (conj D A))).
Defined.

End SessionScenarios.
