(* ===== verification/FloatOrder.v ===== *)
(** * FloatOrder: the comparisons of [float] on the values

    The handlers compare [float]s with [<], [<=], [std::min] and
    [std::max] ([f32_lt], [f32_le], on [SFcompare]); [Camera] and
    [Projection] read a [float] as its exact value [f32_R].  This file
    connects the two: on the values a [float] variable can hold
    ([f32_valid]: a mantissa of at most 24 bits, and of exactly 24 bits
    above the smallest exponent), [fle a b] implies that the value of [a]
    is at most the value of [b] ([fle_R]).  In particular what [qBound]
    leaves between [0.1f] and [1000.0f] is a number between one tenth and
    one thousand ([clamped_R]). *)

From Stdlib Require Import ZArith Lia Bool List String Reals Lra SpecFloat.
From S2P Require Import Prelude Float32 Vec3 Matrix Text IStream Cloud.
From S2P Require Import PtsParser PlyParser ViewportParameters Renderer Camera.
Local Open Scope bool_scope.

(** The values of the type [float]: the finite ones have a canonical
    mantissa and exponent. *)
Definition f32_valid (x : f32) : bool := valid_binary prec32 emax32 x.

(** ** Mantissa and exponent of a valid value *)
Lemma digits2_pos_size m : digits2_pos m = Pos.size m.
Proof. induction m; simpl; congruence. Qed.

(** The mantissa has at most 24 bits, the exponent is at least -149, and
    above -149 the mantissa has its leading bit. *)
Lemma bounded_mantissa m e :
  bounded prec32 emax32 m e = true ->
  (Zpos m < 2 ^ 24 /\ -149 <= e /\ (-149 < e -> 2 ^ 23 <= Zpos m))%Z.
Proof.
  unfold bounded, canonical_mantissa, fexp, emin, prec32, emax32.
  rewrite digits2_pos_size. intros B. apply andb_prop in B as [C _].
  apply Z.eqb_eq in C. pose proof (Pos.size_gt m) as G. pose proof (Pos.size_le m) as L.
  assert (Zpos m < 2 ^ Zpos (Pos.size m))%Z as G' by (rewrite <- Pos2Z.inj_pow; lia).
  assert (2 ^ Zpos (Pos.size m) <= 2 * Zpos m)%Z as L' by (rewrite <- Pos2Z.inj_pow; lia).
  assert (Zpos (Pos.size m) <= 24 -> 2 ^ Zpos (Pos.size m) <= 2 ^ 24)%Z as U
    by (intros; apply Z.pow_le_mono_r; lia).
  repeat split; [lia | lia |]. intros E.
  replace (Zpos (Pos.size m)) with 24%Z in L' by lia. lia.
Qed.

Local Open Scope R_scope.

(** ** Scaled integers *)
Lemma powerRZ_2_pos e : 0 < powerRZ 2 e.
Proof. apply powerRZ_lt; lra. Qed.

Lemma scaled_le m1 e1 m2 e2 :
  (e1 <= e2)%Z -> (m1 <= m2 * 2 ^ (e2 - e1))%Z ->
  IZR m1 * powerRZ 2 e1 <= IZR m2 * powerRZ 2 e2.
Proof.
  intros E L. replace e2 with ((e2 - e1) + e1)%Z at 1 by lia.
  rewrite powerRZ_add by lra. rewrite <- (Z2Nat.id (e2 - e1)) at 1 by lia.
  rewrite <- pow_powerRZ, pow_IZR, Z2Nat.id, <- Rmult_assoc, <- mult_IZR by lia.
  apply Rmult_le_compat_r; [apply Rlt_le, powerRZ_2_pos | now apply IZR_le].
Qed.

(** Of two valid positive values the one of the smaller exponent, or of
    the same exponent and the smaller mantissa, is the smaller. *)
Lemma bounded_le m1 e1 m2 e2 :
  bounded prec32 emax32 m1 e1 = true -> bounded prec32 emax32 m2 e2 = true ->
  lex3 (1, e1, Zpos m1)%Z (1, e2, Zpos m2)%Z <> Gt ->
  IZR (Zpos m1) * powerRZ 2 e1 <= IZR (Zpos m2) * powerRZ 2 e2.
Proof.
  intros B1 B2 L. apply bounded_mantissa in B1 as (U1 & E1 & _).
  apply bounded_mantissa in B2 as (_ & _ & N2). unfold lex3 in L; cbn in L.
  destruct (Z.compare_spec e1 e2) as [->|E|E]; [| |now elim L].
  - apply scaled_le; [lia|]. rewrite Z.sub_diag, Z.mul_1_r.
    destruct (Pos.compare_spec m1 m2); [lia | lia | now elim L].
  - apply scaled_le; [lia|].
    assert (2 ^ 1 <= 2 ^ (e2 - e1))%Z by (apply Z.pow_le_mono_r; lia). nia.
Qed.

(** ** The order of the values *)
Lemma f32_R_sign s m e :
  f32_R (S754_finite s m e) =
  if s then - (IZR (Zpos m) * powerRZ 2 e) else IZR (Zpos m) * powerRZ 2 e.
Proof. reflexivity. Qed.

Lemma f32_R_positive m e : 0 < IZR (Zpos m) * powerRZ 2 e.
Proof. apply Rmult_lt_0_compat; [now apply IZR_lt | apply powerRZ_2_pos]. Qed.

(** The key of two negative values compares as the values without
    their signs, the other way round. *)
Lemma lex3_negative e1 m1 e2 m2 :
  lex3 (-1, - e1, Zneg m1)%Z (-1, - e2, Zneg m2)%Z =
  lex3 (1, e2, Zpos m2)%Z (1, e1, Zpos m1)%Z.
Proof.
  unfold lex3; cbn. rewrite Z.compare_opp.
  destruct (e2 ?= e1)%Z; try reflexivity. symmetry; apply Pos.compare_antisym.
Qed.

Lemma not_Gt c : match c with Gt => false | _ => true end = true -> c <> Gt.
Proof. now destruct c. Qed.

(** Among valid finite values, [a <= b] on [float] is [<=] on the values. *)
Theorem fle_R a b :
  f32_valid a = true -> f32_valid b = true ->
  f32_finite a = true -> f32_finite b = true ->
  fle a b -> f32_R a <= f32_R b.
Proof.
  unfold fle; rewrite f32_le_key.
  destruct a as [sa|sa| |sa ma ea], b as [sb|sb| |sb mb eb]; try discriminate;
    intros VA VB _ _ L; cbn [f32_is_nan orb negb andb] in L; rewrite ?f32_R_sign;
    try pose proof (f32_R_positive ma ea); try pose proof (f32_R_positive mb eb).
  - cbn; lra.
  - destruct sb; [discriminate L | cbn [f32_R]; lra].
  - destruct sa; [cbn [f32_R]; lra | discriminate L].
  - apply not_Gt in L. destruct sa, sb; cbn [f32_key] in L; try lra.
    + rewrite lex3_negative in L. now apply Ropp_le_contravar, bounded_le.
    + now elim L.
    + now apply bounded_le.
Qed.

(** ** Evaluation of [float] constants *)

(** Replaces the value of the closed float [x] by its fraction. *)
Ltac f32_R_eval x :=
  let v := eval vm_compute in x in
  change x with v; cbn [f32_R]; unfold powerRZ;
  repeat match goal with |- context [Pos.to_nat ?p] =>
    let n := eval vm_compute in (Pos.to_nat p) in change (Pos.to_nat p) with n end;
  repeat match goal with |- context [IZR ?z ^ ?n] =>
    rewrite (pow_IZR z n);
    let v := eval vm_compute in (z ^ Z.of_nat n)%Z in change (z ^ Z.of_nat n)%Z with v end.

(** ** What [qBound] leaves *)
Lemma fle_finite a b c : fle a b -> fle b c -> f32_finite a = true ->
  f32_finite c = true -> f32_finite b = true.
Proof.
  unfold fle; rewrite !f32_le_key.
  destruct a as [| | |sa ma ea]; try discriminate;
    destruct c as [| | |sc mc ec]; try discriminate;
    destruct b as [sb|[]| |sb mb eb]; try reflexivity; try discriminate;
    try (now destruct sa); try (now destruct sc).
Qed.

(** A valid value between [0.1f] and [1000.0f] is a number between one
    tenth and one thousand. *)
Theorem clamped_R x :
  f32_valid x = true -> fle f32_0_1 x -> fle x f32_1000 ->
  f32_finite x = true /\ 1 / 10 <= f32_R x <= 1000.
Proof.
  intros V L U. assert (f32_finite x = true) as F by now apply (fle_finite f32_0_1 x f32_1000).
  split; [exact F|].
  pose proof (fle_R f32_0_1 x eq_refl V eq_refl F L) as A.
  pose proof (fle_R x f32_1000 V eq_refl F eq_refl U) as B.
  revert A B. f32_R_eval f32_0_1. f32_R_eval f32_1000. lra.
Qed.
