(* ===== verification/Projection.v ===== *)
(** * Projection: where the vertex shader puts a vertex

    The vertex shader computes [gl_Position = projection * modelView *
    vec4(position, 1.0)]; [resizeGL] sets [projection] to
    [perspective(45, w / h, 0.01, 1000)] on the identity.  OpenGL then
    keeps the vertices whose clip coordinates satisfy [-w <= x, y, z <= w].

    As in [Camera], a matrix is read in the real numbers, a [float] standing
    for its exact value.  [op_vec4] is what one call of [QMatrix4x4] does to
    a vector of four coordinates ([perspective] with the early returns of
    Qt: equal planes, a zero aspect ratio, a zero sine), [mat_vec4] the
    product of the matrix with a vector, [gl_Position] the shader's
    assignment, [in_depth] the condition on [z].

    Theorems: on vectors of [w = 1] the affine calls act as [Camera] says;
    the clip coordinate [w] of a vertex is its depth in front of the
    camera, and the vertex is within the depth range exactly when that
    depth is between the two planes ([vertex_in_depth_range]); the centre of
    the model is drawn on the axis of the view; a cloud within [r] of its
    centre is drawn whole when the camera distance is between [near + r]
    and [far - r] and the sphere of radius [r] lies in the cone of the
    vertical angle, and not at all when the distance is above [far + r]
    ([cloud_in_view]).  The loaders
    store one and a half diagonals as the distance without clamping it to
    the far plane: the two vertices of the scenario file, 1000 apart, are
    both beyond the far plane after the load ([far_cloud_is_clipped]).
    After a wheel event the centre of the model is within the depth
    range ([wheelEvent_center_in_depth]).  A replayed snapshot brings the
    projection of the size the widget had at the capture
    ([replay_keeps_captured_aspect]). *)

From Stdlib Require Import ZArith Bool List String Reals Lra SpecFloat.
From S2P Require Import Prelude Float32 Vec3 Matrix Text IStream Cloud.
From S2P Require Import PtsParser PlyParser ViewportParameters Renderer Camera FloatOrder.
Import ListNotations.
Local Open Scope bool_scope.
Local Open Scope R_scope.

(** ** Vectors of four coordinates *)

(** A [vec4] of GLSL, a [QVector4D] of Qt. *)
Record vec4 : Type := mkVec4 { cx : R; cy : R; cz : R; cw : R }.

(** [vec4(position, 1.0)]. *)
Definition vec4_of (position : point) : vec4 :=
  mkVec4 (px position) (py position) (pz position) 1.

Definition vec4_xyz (v : vec4) : point := mkPoint (cx v) (cy v) (cz v).

Definition vec4_with_xyz (p : point) (v : vec4) : vec4 :=
  mkVec4 (px p) (py p) (pz p) (cw v).

(** The product of the matrix [QMatrix4x4::perspective] constructs with a
    vector: [cotan / aspectRatio] and [cotan] on the diagonal,
    [-(nearPlane + farPlane) / clip] and [-(2 nearPlane farPlane) / clip]
    in the third row, [-1] in the fourth. *)
Definition perspective_vec4 (verticalAngle aspectRatio nearPlane farPlane : R)
    (v : vec4) : vec4 :=
  let angle := radians (verticalAngle / 2) in
  let cotan := cos angle / sin angle in
  let clip := farPlane - nearPlane in
  mkVec4 (cotan / aspectRatio * cx v) (cotan * cy v)
         (- (nearPlane + farPlane) / clip * cz v + - (2 * nearPlane * farPlane) / clip * cw v)
         (- cz v).

(** What one call does to a vector.  [perspective] leaves the matrix as it
    is when the planes are equal, when the aspect ratio is zero and when
    the sine of the half angle is zero. *)
Definition op_vec4 (op : mat_op) (v : vec4) : option vec4 :=
  match op with
  | OpTranslate x y z =>
      if vec3_finite (mkVec3 x y z) then
        Some (mkVec4 (cx v + f32_R x * cw v) (cy v + f32_R y * cw v)
                     (cz v + f32_R z * cw v) (cw v))
      else None
  | OpRotate angle x y z =>
      if f32_finite angle then
        match rotation_axis x y z with
        | Some AxisX => Some (vec4_with_xyz (rotate_x (f32_R angle) (vec4_xyz v)) v)
        | Some AxisY => Some (vec4_with_xyz (rotate_y (f32_R angle) (vec4_xyz v)) v)
        | _ => None
        end
      else None
  | OpPerspective verticalAngle aspectRatio nearPlane farPlane =>
      if f32_finite verticalAngle && f32_finite aspectRatio &&
         f32_finite nearPlane && f32_finite farPlane then
        if SFeqb nearPlane farPlane || SFeqb aspectRatio f32_zero then Some v
        else if Req_EM_T (sin (radians (f32_R verticalAngle / 2))) 0 then Some v
        else Some (perspective_vec4 (f32_R verticalAngle) (f32_R aspectRatio)
                     (f32_R nearPlane) (f32_R farPlane) v)
      else None
  end.

(** The product of the matrix the calls built with a vector: the last call
    acts first. *)
Fixpoint mat_vec4 (m : SymMatrix) (v : vec4) : option vec4 :=
  match m with
  | [] => Some v
  | op :: m' =>
      match mat_vec4 m' v with
      | Some u => op_vec4 op u
      | None => None
      end
  end.

(** [main] of the vertex shader: [gl_Position]. *)
Definition gl_Position (projection modelView : SymMatrix) (position : point)
    : option vec4 :=
  match mat_vec4 modelView (vec4_of position) with
  | Some v => mat_vec4 projection v
  | None => None
  end.

(** The position of a vertex of the buffer, when its coordinates are
    numbers. *)
Definition vertex_point (v : Vertex) : option point :=
  if vec3_finite (position v) then Some (vec3_R (position v)) else None.

(** The clipping of OpenGL on [z]: between the near and the far plane. *)
Definition in_depth (c : vec4) : Prop := - cw c <= cz c <= cw c.

(** The clip volume. *)
Definition in_clip_volume (c : vec4) : Prop :=
  - cw c <= cx c <= cw c /\ - cw c <= cy c <= cw c /\ in_depth c.

(** The planes [resizeGL] gives [perspective]. *)
Definition nearPlane : R := f32_R f32_0_01.
Definition farPlane : R := f32_R f32_1000.

(** Half the vertical angle [resizeGL] gives [perspective], in radians. *)
Definition half_angle : R := radians (45 / 2).

(** The projection [resizeGL] sets, by its aspect ratio. *)
Definition resized (aspect : f32) : SymMatrix :=
  mat_perspective mat_identity f32_45 aspect f32_0_01 f32_1000.

(** The depth of a point in front of the camera of distance [distance],
    rotation [rot] and centre [center]. *)
Definition depth (distance : f32) (rot center : QVector3D) (p : point) : R :=
  - pz (view_of distance rot center p).

(** The depth of a point for the camera of a state. *)
Definition depth_of (s : PointCloudRenderer SymMatrix) (p : point) : R :=
  depth (m_distance s) (m_rotation s) (m_modelCenter s) p.

(** [gl_Position] for each vertex a draw call processes. *)
Definition drawn_positions (d : DrawCall SymMatrix) : list (option vec4) :=
  map (fun v => match vertex_point v with
                | Some p => gl_Position (dc_projection d) (dc_modelView d) p
                | None => None
                end)
      (firstn (dc_count d) (dc_buffer d)).

(** The events that leave the projection as it is: all but a resize and
    the replay of a snapshot. *)
Definition keeps_projection (e : Event SymMatrix) : bool :=
  match e with
  | EvResize _ _ | EvSetViewport _ => false
  | _ => true
  end.

(** ** The planes and the angle *)
Lemma farPlane_value : farPlane = 1000.
Proof. unfold farPlane. f32_R_eval f32_1000. lra. Qed.

(** [0.01f] is a little below one hundredth. *)
Lemma nearPlane_value : 999 / 100000 < nearPlane < 1 / 100.
Proof. unfold nearPlane. f32_R_eval f32_0_01. lra. Qed.

Lemma planes_ordered : 0 < nearPlane < farPlane.
Proof. pose proof nearPlane_value. rewrite farPlane_value. lra. Qed.

Lemma verticalAngle_value : f32_R f32_45 = 45.
Proof. f32_R_eval f32_45. lra. Qed.

(** Half the vertical angle is an eighth of a half turn: its sine is not
    zero. *)
Lemma half_angle_sine : sin (radians (f32_R f32_45 / 2)) <> 0.
Proof.
  rewrite verticalAngle_value. unfold radians. pose proof PI_RGT_0 as P.
  apply Rgt_not_eq, sin_gt_0; lra.
Qed.

(** ** The affine calls *)
Lemma op_vec4_affine op p q :
  op_point op p = Some q -> op_vec4 op (vec4_of p) = Some (vec4_of q).
Proof.
  destruct op as [x y z|angle x y z|]; cbn [op_point op_vec4]; [| |discriminate].
  - destruct (vec3_finite _); [|discriminate]. intros [= <-].
    unfold vec4_of, padd, vec3_R; cbn. now rewrite !Rmult_1_r.
  - destruct (f32_finite angle); [|discriminate].
    destruct (rotation_axis x y z) as [[| |]|]; try discriminate; now intros [= <-].
Qed.

(** On [vec4(p, 1.0)] a matrix of translations and rotations acts as on
    the point. *)
Lemma mat_vec4_affine m : forall p q,
  mat_point m p = Some q -> mat_vec4 m (vec4_of p) = Some (vec4_of q).
Proof.
  induction m as [|op m IH]; intros p q; cbn [mat_point mat_vec4]; [now intros [= <-]|].
  destruct (mat_point m p) as [u|] eqn:E; [|discriminate].
  rewrite (IH _ _ E). apply op_vec4_affine.
Qed.

(** ** The projection of [resizeGL] *)

(** The matrix [resizeGL] sets is the perspective matrix when the aspect
    ratio is a number other than zero. *)
Lemma resized_vec4 aspect v :
  f32_finite aspect = true -> SFeqb aspect f32_zero = false ->
  mat_vec4 (resized aspect) v =
  Some (perspective_vec4 45 (f32_R aspect) nearPlane farPlane v).
Proof.
  intros F Z. change (resized aspect) with [OpPerspective f32_45 aspect f32_0_01 f32_1000].
  cbn [mat_vec4 op_vec4]. rewrite F, Z.
  change (f32_finite f32_45) with true. change (f32_finite f32_0_01) with true.
  change (f32_finite f32_1000) with true. change (SFeqb f32_0_01 f32_1000) with false.
  cbn [andb orb]. destruct (Req_EM_T _ _) as [E|_]; [now destruct half_angle_sine|].
  now rewrite verticalAngle_value.
Qed.

(** With [0 < near < far], the perspective matrix puts [z] between [-w]
    and [w] exactly when the depth [-z] of the point is between the
    planes. *)
Lemma scaled_sign c x : 0 < c -> (0 <= c * x <-> 0 <= x).
Proof. intros C; split; intros; nra. Qed.

Lemma perspective_depth verticalAngle aspectRatio near far q :
  0 < near < far ->
  in_depth (perspective_vec4 verticalAngle aspectRatio near far (vec4_of q)) <->
  near <= - pz q <= far.
Proof.
  intros [N F]; unfold in_depth, perspective_vec4; cbn.
  assert (0 < / (far - near)) as K by (apply Rinv_0_lt_compat; lra).
  set (c := _ + _).
  assert (c - - - pz q = 2 * far * / (far - near) * (- pz q - near)) as A
    by (unfold c; field; lra).
  assert (- pz q - c = 2 * near * / (far - near) * (far - - pz q)) as B
    by (unfold c; field; lra).
  assert (0 < 2 * far * / (far - near)) as PA by (apply Rmult_lt_0_compat; lra).
  assert (0 < 2 * near * / (far - near)) as PB by (apply Rmult_lt_0_compat; lra).
  pose proof (scaled_sign _ (- pz q - near) PA) as SA. rewrite <- A in SA.
  pose proof (scaled_sign _ (far - - pz q) PB) as SB. rewrite <- B in SB.
  split; intros [? ?]; split; lra.
Qed.

(** A point within [r] of the target of the camera has a depth within [r]
    of the camera distance. *)
Lemma depth_near_target d r q :
  0 <= r -> dist2 q (mkPoint 0 0 (- d)) <= r * r -> d - r <= - pz q <= d + r.
Proof.
  unfold dist2; cbn; intros R L.
  assert (0 <= (px q - 0) * (px q - 0)) by apply Rle_0_sqr.
  assert (0 <= (py q - 0) * (py q - 0)) by apply Rle_0_sqr.
  split; nra.
Qed.

(** ** The field of view *)
Lemma le_of_squares x r : 0 <= r -> x * x <= r * r -> x <= r.
Proof. intros R L. destruct (Rle_or_lt x r) as [|G]; [assumption | nra]. Qed.

(** A point [(y, u)] of the disc of radius [r] about [(0, d)] lies in the
    cone of sine [sn] about the axis when [r <= d sn]: the cone of the
    field of view holds the sphere. *)
Lemma in_cone sn cs y u r d :
  0 < sn -> sn * sn + cs * cs = 1 -> y * y + u * u <= r * r -> 0 <= r -> r <= d * sn ->
  - (d - u) <= cs / sn * y <= d - u.
Proof.
  intros S E L R D.
  assert ((cs * y + sn * u) * (cs * y + sn * u) + (cs * u - sn * y) * (cs * u - sn * y)
          = (sn * sn + cs * cs) * (y * y + u * u)) as A by ring.
  assert ((- cs * y + sn * u) * (- cs * y + sn * u) + (cs * u + sn * y) * (cs * u + sn * y)
          = (sn * sn + cs * cs) * (y * y + u * u)) as B by ring.
  rewrite E, Rmult_1_l in A, B.
  pose proof (Rle_0_sqr (cs * u - sn * y)) as QA. pose proof (Rle_0_sqr (cs * u + sn * y)) as QB.
  unfold Rsqr in QA, QB.
  assert (cs * y + sn * u <= r) as A' by (apply le_of_squares; lra).
  assert (- cs * y + sn * u <= r) as B' by (apply le_of_squares; lra).
  replace (cs / sn * y) with (cs * y * / sn) by (field; lra).
  assert (/ sn * sn = 1) as J by (apply Rinv_l; lra).
  split; apply (Rmult_le_reg_r sn); try lra; rewrite Rmult_assoc, J; lra.
Qed.

(** A window wider than high shows more to the sides than up and down. *)
Lemma narrower a t w : 1 <= a -> - w <= t <= w -> - w <= t / a <= w.
Proof.
  intros A [L U].
  assert (0 < / a <= 1) as [I J].
  { split; [apply Rinv_0_lt_compat; lra|]. rewrite <- Rinv_1. apply Rinv_le_contravar; lra. }
  unfold Rdiv. split; nra.
Qed.

(** The sine of the half angle, 22.5 degrees, is above three eighths. *)
Lemma quarter_turn_cos : cos (PI / 4) < 23 / 32.
Proof.
  pose proof (sin2_cos2 (PI / 4)) as E. unfold Rsqr in E. rewrite sin_cos_PI4 in E.
  assert (0 <= cos (PI / 4)) by (apply cos_ge_0; pose proof PI_RGT_0; lra).
  destruct (Rlt_or_le (cos (PI / 4)) (23 / 32)) as [|G]; [assumption | nra].
Qed.

Lemma half_angle_sin : 3 / 8 < sin half_angle.
Proof.
  unfold half_angle, radians. replace (45 / 2 * PI / 180) with (PI / 8) by lra.
  pose proof (cos_2a_sin (PI / 8)) as E. replace (2 * (PI / 8)) with (PI / 4) in E by lra.
  pose proof quarter_turn_cos.
  assert (0 < sin (PI / 8)) by (apply sin_gt_0; pose proof PI_RGT_0; lra).
  destruct (Rlt_or_le (3 / 8) (sin (PI / 8))) as [|G]; [assumption | nra].
Qed.

(** A point within [r] of the target of the camera is in the clip volume
    of the perspective matrix of [resizeGL] when the sphere of radius [r]
    about the target lies in the cone of the vertical angle and between
    the planes, in a window at least as wide as high. *)
Lemma perspective_in_view aspectRatio near far d r q :
  1 <= aspectRatio -> 0 < near < far -> 0 <= r ->
  dist2 q (mkPoint 0 0 (- d)) <= r * r ->
  r <= d * sin half_angle -> near + r <= d <= far - r ->
  in_clip_volume (perspective_vec4 45 aspectRatio near far (vec4_of q)).
Proof.
  intros A P R L S D. pose proof (depth_near_target d r q R L) as Z.
  pose proof half_angle_sin as H. pose proof (sin2_cos2 half_angle) as E.
  assert (px q * px q + py q * py q + (pz q + d) * (pz q + d) <= r * r) as L'
    by (unfold dist2 in L; cbn in L; nra).
  pose proof (Rle_0_sqr (px q)) as QX. pose proof (Rle_0_sqr (py q)) as QY.
  unfold Rsqr in E, QX, QY.
  assert (forall y, y * y + (pz q + d) * (pz q + d) <= r * r ->
            - (- pz q) <= cos half_angle / sin half_angle * y <= - pz q) as C.
  { intros y Y. replace (- pz q) with (d - (pz q + d)) by lra.
    apply (in_cone _ _ y (pz q + d) r d); lra. }
  split; [|split; [|apply perspective_depth; [exact P | lra]]];
    unfold perspective_vec4; cbn [cx cy cz cw vec4_of px py pz]; fold half_angle.
  - replace (cos half_angle / sin half_angle / aspectRatio * px q)
      with (cos half_angle / sin half_angle * px q / aspectRatio) by (field; lra).
    apply narrower; [exact A | apply C; lra].
  - apply C; lra.
Qed.

(** ** The vertices of the renderer in clip space *)

Section ProjectionTheory.
Context {libm : Libm} {T2F : TokenToFloat} {NG : NumGet}.

Local Abbreviation Renderer := (PointCloudRenderer SymMatrix).

(** [resizeGL] sets the projection of its aspect ratio, whatever the
    projection was. *)
Lemma resizeGL_resized w h (s : Renderer) :
  m_projection (resizeGL w h s) = resized (f32_div (f32_of_Z w) (f32_of_Z h)).
Proof. reflexivity. Qed.

(** The centre has the depth of the camera distance. *)
Lemma depth_of_center (s : Renderer) :
  depth_of s (vec3_R (m_modelCenter s)) = f32_R (m_distance s).
Proof. unfold depth_of, depth. rewrite view_of_center; cbn. lra. Qed.

(** Without rotation the depth of a point is the camera distance less its
    [z] from the centre. *)
Lemma depth_of_unrotated (s : Renderer) p :
  vx (m_rotation s) = f32_zero -> vy (m_rotation s) = f32_zero ->
  depth_of s p = f32_R (m_distance s) - (pz p - f32_R (vz (m_modelCenter s))).
Proof.
  intros X Y; unfold depth_of, depth, view_of. rewrite X, Y.
  change (f32_R f32_zero) with 0. rewrite rotate_y_0, rotate_x_0; cbn. lra.
Qed.

(** A state as [resizeGL] and the handlers of the camera leave it: the
    matrix of the view is the matrix of the camera values, these are
    numbers, and the projection is that of an aspect ratio other than
    zero. *)
Variable s : Renderer.
Variable aspect : f32.
Hypothesis consistent : view_consistent s.
Hypothesis finite : camera_finite s = true.
Hypothesis projection : m_projection s = resized aspect.
Hypothesis aspect_finite : f32_finite aspect = true.
Hypothesis aspect_nonzero : SFeqb aspect f32_zero = false.

Lemma gl_Position_view p :
  gl_Position (m_projection s) (m_modelView s) p =
  Some (perspective_vec4 45 (f32_R aspect) nearPlane farPlane
          (vec4_of (view_of (m_distance s) (m_rotation s) (m_modelCenter s) p))).
Proof.
  unfold gl_Position.
  rewrite (mat_vec4_affine _ _ _ (modelView_point s p consistent finite)), projection.
  now apply resized_vec4.
Qed.

(** C28: the clip coordinate [w] of a vertex is its depth in front of the
    camera, and the vertex passes the clipping on [z] exactly when its
    depth is between the near and the far plane of [resizeGL]. *)
Theorem vertex_in_depth_range p :
  exists c, gl_Position (m_projection s) (m_modelView s) p = Some c /\
    cw c = depth_of s p /\
    (in_depth c <-> nearPlane <= depth_of s p <= farPlane).
Proof.
  eexists; split; [apply gl_Position_view|]. split; [reflexivity|].
  apply perspective_depth, planes_ordered.
Qed.

(** The centre of the model is drawn on the axis of the view, and passes
    the clipping on [z] exactly when the camera distance is between the
    planes. *)
Theorem center_on_axis :
  exists c, gl_Position (m_projection s) (m_modelView s) (vec3_R (m_modelCenter s)) = Some c /\
    cx c = 0 /\ cy c = 0 /\ cw c = f32_R (m_distance s) /\
    (in_depth c <-> nearPlane <= f32_R (m_distance s) <= farPlane).
Proof.
  eexists; split; [apply gl_Position_view|]. rewrite view_of_center.
  do 3 (split; [cbn; lra|]).
  rewrite perspective_depth by apply planes_ordered. cbn. split; lra.
Qed.

(** The depth of a point within [r] of the centre is within [r] of the
    camera distance. *)
Lemma depth_of_near_center r p :
  0 <= r -> dist2 p (vec3_R (m_modelCenter s)) <= r * r ->
  f32_R (m_distance s) - r <= depth_of s p <= f32_R (m_distance s) + r.
Proof.
  intros R L. apply depth_near_target; [exact R|].
  rewrite <- (view_of_center (m_distance s) (m_rotation s) (m_modelCenter s)).
  now rewrite view_of_dist2.
Qed.

(** C27: a vertex within [r] of the model centre is in the clip volume, so
    drawn in the window, when the sphere of radius [r] about the centre
    lies in the cone of the vertical angle ([r] at most the camera
    distance times the sine of 22.5 degrees, which the distance of three
    radii the loaders choose satisfies), the camera distance is between
    [near + r] and [far - r], and the window is at least as wide as high;
    it is clipped when the camera distance is above [far + r]: a cloud is
    not drawn at all once the camera is more than the far plane and the
    radius away. *)
Theorem cloud_in_view r p :
  0 <= r -> dist2 p (vec3_R (m_modelCenter s)) <= r * r ->
  exists c, gl_Position (m_projection s) (m_modelView s) p = Some c /\
    (1 <= f32_R aspect -> r <= f32_R (m_distance s) * sin half_angle ->
     nearPlane + r <= f32_R (m_distance s) <= farPlane - r -> in_clip_volume c) /\
    (farPlane + r < f32_R (m_distance s) -> ~ in_clip_volume c).
Proof.
  intros R L. eexists; split; [apply gl_Position_view|]. split.
  - intros A S D. apply (perspective_in_view _ _ _ (f32_R (m_distance s)) r);
      try assumption; [apply planes_ordered|].
    rewrite <- (view_of_center (m_distance s) (m_rotation s) (m_modelCenter s)).
    now rewrite view_of_dist2.
  - intros G (_ & _ & I). apply perspective_depth in I; [|apply planes_ordered].
    pose proof (depth_of_near_center r p R L) as D. unfold depth_of, depth in D. lra.
Qed.

End ProjectionTheory.

(** ** Zoom *)

Section ProjectionZoom.
Context {libm : Libm} {T2F : TokenToFloat} {NG : NumGet}.

(** The clamp returns the lower bound, the upper bound or its argument:
    a value of the type [float] when its argument is one. *)
Lemma clamp_distance_valid d : f32_valid d = true -> f32_valid (clamp_distance d) = true.
Proof.
  intros V; unfold clamp_distance, std_max, std_min.
  destruct (f32_lt f32_1000 d); destruct (f32_lt _ _); trivial.
Qed.

(** C31: after a wheel event, whatever the distance was before and whatever
    [std::pow] returned, the model centre is drawn on the axis of the
    view at a depth between one tenth and one thousand, which is within
    the depth range: the bounds [qBound] keeps the distance in lie between
    the planes [resizeGL] gives [perspective], the upper one on the far
    plane. *)
Theorem wheelEvent_center_in_depth dy (s : PointCloudRenderer SymMatrix) aspect :
  f32_finite (vx (m_rotation s)) = true -> f32_finite (vy (m_rotation s)) = true ->
  vec3_finite (m_modelCenter s) = true ->
  m_projection s = resized aspect ->
  f32_finite aspect = true -> SFeqb aspect f32_zero = false ->
  f32_valid (m_distance (wheelEvent dy s)) = true ->
  exists c,
    gl_Position (m_projection (wheelEvent dy s)) (m_modelView (wheelEvent dy s))
      (vec3_R (m_modelCenter (wheelEvent dy s))) = Some c /\
    cx c = 0 /\ cy c = 0 /\ 1 / 10 <= cw c <= 1000 /\ in_depth c.
Proof.
  intros X Y C P A Z V.
  destruct (std_clamp_bounds f32_0_1 f32_1000
              (f32_mul (m_distance s) (powf f32_0_9 (f32_div (f32_of_Z dy) f32_120)))
              fle_0_1_1000) as [L U].
  destruct (clamped_R _ V L U) as [F B].
  destruct (center_on_axis (wheelEvent dy s) aspect) as (c & E & HX & HY & W & I);
    try assumption; [apply wheelEvent_consistent | |].
  - unfold camera_finite. rewrite F. cbn [m_rotation m_modelCenter wheelEvent]. 
    change (m_rotation (wheelEvent dy s)) with (m_rotation s).
    change (m_modelCenter (wheelEvent dy s)) with (m_modelCenter s).
    now rewrite X, Y, C.
  - exists c. rewrite W, I. pose proof nearPlane_value. rewrite farPlane_value.
    repeat split; trivial; lra.
Qed.

End ProjectionZoom.

(** ** The projection in a session *)

Section ProjectionSessions.
Context {libm : Libm} {T2F : TokenToFloat} {NG : NumGet}.
Variable fs : FileSystem.

Lemma frame_loaded_projection (s : PointCloudRenderer SymMatrix) :
  m_projection (frame_loaded s) = m_projection s.
Proof.
  unfold frame_loaded, setupVertexBuffers; cbn. now destruct (m_vertices s).
Qed.

Lemma handle_keeps_projection e (s s' : PointCloudRenderer SymMatrix) :
  keeps_projection e = true -> handle fs e s = Some s' ->
  m_projection s' = m_projection s.
Proof.
  destruct e as [| |filename|filename| | | | |leftButton pos| |]; try discriminate;
    intros _; cbn [handle]; try (intros [= <-]; reflexivity).
  - unfold paintGL. destruct (m_vertices s); now intros [= <-].
  - unfold loadPtsFile. destruct (fs filename); intros [= <-]; [|reflexivity].
    cbn [fst]. now rewrite frame_loaded_projection.
  - unfold loadPlyFile. destruct (fs filename); [|now intros [= <-]].
    destruct (ply_parse _); try discriminate; intros [= <-]; try reflexivity.
    cbn [fst]. now rewrite frame_loaded_projection.
  - unfold mouseMoveEvent. destruct leftButton; now intros [= <-].
Qed.

(** After a resize and any events but resizes and replays, the matrix of
    the view is consistent and the projection is that of the size given:
    the states the theorems above speak of are those of the sessions. *)
Theorem session_projection es w h : forall s s' : PointCloudRenderer SymMatrix,
  view_consistent s -> forallb keeps_projection es = true ->
  run fs (EvResize w h :: es) s = Some s' ->
  view_consistent s' /\
  m_projection s' = resized (f32_div (f32_of_Z w) (f32_of_Z h)).
Proof.
  cbn [run handle]. induction es as [|e es IH] using rev_ind; intros s s' V K.
  - intros [= <-]. split; [exact V | reflexivity].
  - rewrite forallb_app in K; cbn in K. apply andb_prop in K as [K E].
    rewrite run_snoc. destruct (run fs es (resizeGL w h s)) as [s1|] eqn:R; [|discriminate].
    intros H. destruct (IH s s1 V K R) as [V1 P1]. split.
    + exact (handle_consistent fs e s1 s' V1 H).
    + rewrite <- P1. apply (handle_keeps_projection e); [|exact H].
      now destruct (keeps_projection e).
Qed.

(** A replay gives the renderer the projection of the capture: when the
    widget was resized after the capture, the cloud is drawn with the
    aspect ratio of the old size until the next resize. *)
Theorem replay_keeps_captured_aspect w h w' h' (s1 s2 : PointCloudRenderer SymMatrix) :
  m_projection s1 = resized (f32_div (f32_of_Z w) (f32_of_Z h)) ->
  m_projection (setViewport (getViewportParameters s1) (resizeGL w' h' s2)) =
  resized (f32_div (f32_of_Z w) (f32_of_Z h)).
Proof. now intros <-. Qed.

End ProjectionSessions.

(** ** A cloud in front of the camera, and one beyond the far plane *)

Section ProjectionScenarios.

#[local] Existing Instance LibmUnitSteps.
#[local] Existing Instance QtTokenToFloat.
#[local] Existing Instance StdNumGet.

(** The scenario file loaded in a window of 800 by 600, and the file of
    two points 1000 apart. *)
Definition loaded_a : PointCloudRenderer SymMatrix :=
  resizeGL 800 600 (fst (loadPtsFile example_fs "a.pts"%string example_start)).

Definition loaded_far : PointCloudRenderer SymMatrix :=
  resizeGL 800 600 (fst (loadPtsFile example_fs "far.pts"%string example_start)).

Definition four_thirds : f32 := f32_div (f32_of_Z 800) (f32_of_Z 600).

Lemma vertex_in_depth_range_witness :
  exists c, gl_Position (m_projection loaded_a) (m_modelView loaded_a) (mkPoint 1 2 3) = Some c /\
    cw c = depth_of loaded_a (mkPoint 1 2 3) /\
    (in_depth c <-> nearPlane <= depth_of loaded_a (mkPoint 1 2 3) <= farPlane).
Proof.
  apply (vertex_in_depth_range loaded_a four_thirds); vm_compute; reflexivity.
Defined.

(** The values of the scenario: the centre of the box and the distance of
    one and a half diagonals, a little below 7.8. *)
Lemma loaded_a_values :
  vec3_R (m_modelCenter loaded_a) = mkPoint (5 / 2) (7 / 2) (9 / 2) /\
  779 / 100 < f32_R (m_distance loaded_a) < 78 / 10.
Proof.
  unfold vec3_R. split; [f_equal|].
  - f32_R_eval (vx (m_modelCenter loaded_a)). lra.
  - f32_R_eval (vy (m_modelCenter loaded_a)). lra.
  - f32_R_eval (vz (m_modelCenter loaded_a)). lra.
  - f32_R_eval (m_distance loaded_a). lra.
Qed.

Lemma four_thirds_value : 1 <= f32_R four_thirds.
Proof. f32_R_eval four_thirds. lra. Qed.

Lemma cloud_in_view_witness :
  exists c, gl_Position (m_projection loaded_a) (m_modelView loaded_a) (mkPoint 1 2 3) = Some c /\
    in_clip_volume c.
Proof.
  destruct loaded_a_values as [C D]. pose proof nearPlane_value as N.
  pose proof farPlane_value as F. pose proof half_angle_sin as H.
  destruct (cloud_in_view loaded_a four_thirds) with (r := 13 / 5) (p := mkPoint 1 2 3)
    as (c & E & I & _); try (vm_compute; reflexivity); [lra | |].
  - rewrite C; unfold dist2; cbn; lra.
  - exists c; split; [exact E | apply I; [apply four_thirds_value | nra | lra]].
Defined.

Lemma wheelEvent_center_in_depth_witness :
  exists c,
    gl_Position (m_projection (wheelEvent 120 loaded_a)) (m_modelView (wheelEvent 120 loaded_a))
      (vec3_R (m_modelCenter (wheelEvent 120 loaded_a))) = Some c /\
    cx c = 0 /\ cy c = 0 /\ 1 / 10 <= cw c <= 1000 /\ in_depth c.
Proof.
  apply (wheelEvent_center_in_depth 120 loaded_a four_thirds); vm_compute; reflexivity.
Defined.

(** A snapshot captured in a window of 800 by 600 and replayed after the
    window became 600 by 800 leaves the projection of four thirds, not
    that of three quarters. *)
Lemma replay_in_resized_window :
  let p := getViewportParameters loaded_a in
  option_map m_projection
    (run example_fs [EvResize 600 800; EvSetViewport p] loaded_a) =
    Some (resized four_thirds) /\
  resized four_thirds <> resized (f32_div (f32_of_Z 600) (f32_of_Z 800)).
Proof. split; [reflexivity | vm_compute; discriminate]. Qed.

(** The camera of the second file is 1500 from its centre and not
    rotated: a point of the plane [z = 0] has depth 1500. *)
Lemma loaded_far_depth p : pz p = 0 -> depth_of loaded_far p = 1500.
Proof.
  intros Z. rewrite depth_of_unrotated, Z by (vm_compute; reflexivity).
  f32_R_eval (m_distance loaded_far). f32_R_eval (vz (m_modelCenter loaded_far)). lra.
Qed.

(** The two vertices of the file 1000 apart are at depth 1500 after the
    load, beyond the far plane: the draw call of the first frame shows
    neither. *)
Theorem far_cloud_is_clipped :
  match drawn loaded_far with
  | Some d =>
      List.length (drawn_positions d) = 2%nat /\
      Forall (fun oc => exists c, oc = Some c /\ cw c = 1500 /\ ~ in_depth c)
             (drawn_positions d)
  | None => False
  end.
Proof.
  assert (drawn loaded_far =
          Some (mkDraw (m_projection loaded_far) (m_modelView loaded_far)
                       (m_pointSize loaded_far) 2 (m_vbo loaded_far))) as ->
    by (vm_compute; reflexivity).
  unfold drawn_positions; cbn [dc_count dc_buffer dc_projection dc_modelView].
  destruct (m_vbo loaded_far) as [|v1 [|v2 [|]]] eqn:B; try (vm_compute in B; discriminate B).
  vm_compute in B; injection B as <- <-. cbn [firstn map].
  split; [reflexivity|]. repeat constructor.
  all: unfold vertex_point; cbn [position vec3_finite vx vy vz f32_finite andb].
  all: eexists; split;
    [apply (gl_Position_view loaded_far four_thirds); vm_compute; reflexivity|].
  all: rewrite perspective_depth by apply planes_ordered.
  all: change (cw (perspective_vec4 _ _ _ _ (vec4_of ?q))) with (- pz q).
  all: change (- pz (view_of _ _ _ ?p)) with (depth_of loaded_far p).
  all: rewrite loaded_far_depth by reflexivity.
  all: rewrite farPlane_value; split; lra.
Qed.

End ProjectionScenarios.
