(* ===== verification/Validity.v ===== *)
(** * Validity: the values a binary file gives the cloud

    The binary record loop of [loadPlyFile] copies four bytes of the file
    into a [float] and widens one byte to a [float]; the coordinates go to
    the vertex and to the box, the colours are divided by [255.0f] when
    the red property is a [uchar].

    ** Definitions

    - [vec3_valid], [cloud_valid]: the coordinates of the vertices and of
      the two corners are values of the type [float] ([f32_valid]).
    - [is_uchar]: a [float] widened from a byte.
    - [unit_range]: a colour with its three channels in [[0, 1]].
    - [uchar_colours]: the header binds red, green and blue to [uchar]
      properties.

    ** Theorems

    - [f32_of_bits_valid], [binary_body_valid]: every pattern of 32 bits
      is a value of the type, so the record loop keeps the cloud valid.
      [f32_valid] and [cloud_valid] are conditions of the encoding of
      [float] in the model ([SpecFloat]), which every [float] of the
      program meets; they are what the order lemma [fle_R] asks for.
    - [box_bounds_R]: in a valid cloud that satisfies the invariant of the
      box, the exact value of every finite coordinate lies between the
      exact values of the corners.
    - [ply_binary_bounds_R]: the box [loadPlyFile] computes for a binary
      file, with [std::min] and [std::max] on [float], bounds the vertices
      it stored in the real numbers, the space the camera and the
      projection are read in, and its corners are numbers, when the
      coordinates of the file are.
    - [binary_uchar_colours]: with [uchar] colours every channel of every
      vertex of a binary file is in [[0, 1]].  The division is decided by
      the type of red alone ([mixed_colour_types]), and the simple format
      divides whatever the line holds ([pts_colour_above_one]). *)

From Stdlib Require Import ZArith NArith Lia Bool List String Ascii Reals Lra SpecFloat.
From S2P Require Import Prelude Float32 Vec3 Matrix Text IStream Cloud.
From S2P Require Import PtsParser PlyParser ViewportParameters Renderer Camera FloatOrder.
Import ListNotations.
Local Open Scope bool_scope.
Local Open Scope Z_scope.

(** ** Definitions *)

Definition vec3_valid (v : QVector3D) : bool :=
  f32_valid (vx v) && f32_valid (vy v) && f32_valid (vz v).

(** The coordinates of the vertices and of the corners are values of the
    type [float]. *)
Record cloud_valid (c : Cloud) : Prop := {
  cv_vertices : Forall (fun v => vec3_valid (position v) = true) (vertices c);
  cv_min : vec3_valid (bbMin c) = true;
  cv_max : vec3_valid (bbMax c) = true
}.

(** A [float] widened from an [unsigned char]. *)
Definition is_uchar (x : f32) : Prop := exists k, 0 <= k < 256 /\ x = f32_of_Z k.

(** What the inner loop stores for a property: a value of the type, and
    for a [uchar] property a widened byte. *)
Definition typed_value (p : PropertyInfo) (x : f32) : Prop :=
  f32_valid x = true /\ (prop_type p = PROP_UCHAR -> is_uchar x).

(** The coordinates the store holds are numbers. *)
Definition finite_cloud (c : Cloud) : Prop :=
  Forall (fun v => vec3_finite (position v) = true) (vertices c).

(** A colour with its channels in [[0, 1]]. *)
Definition unit_range (col : QVector3D) : Prop :=
  forall ax, f32_valid (coord ax col) = true /\
    fle f32_zero (coord ax col) /\ fle (coord ax col) f32_one.

(** The header binds the three colours to [uchar] properties. *)
Definition uchar_colours (h : PlyLocals) : Prop :=
  forall i, In i [redIndex h; greenIndex h; blueIndex h] ->
    0 <= i < Z.of_nat (List.length (properties h)) /\
    prop_type (property_at (properties h) i) = PROP_UCHAR.

(** What holds of a byte [k]: it and its quotient by 255 are values of the
    type, and the quotient is in [[0, 1]]. *)
Definition byte_ok (k : Z) : bool :=
  let q := f32_div (f32_of_Z k) f32_255 in
  f32_valid (f32_of_Z k) && f32_valid q && f32_le f32_zero q && f32_le q f32_one.

(** ** Patterns of 32 bits *)
Lemma size_of_range p k : 2 ^ (k - 1) <= Zpos p < 2 ^ k -> 0 < k -> Zpos (Pos.size p) = k.
Proof.
  intros [L U] K. pose proof (Pos.size_gt p) as G. pose proof (Pos.size_le p) as S.
  assert (Zpos p < 2 ^ Zpos (Pos.size p)) as G' by (rewrite <- Pos2Z.inj_pow; lia).
  assert (2 ^ Zpos (Pos.size p) <= 2 * Zpos p) as S' by (rewrite <- Pos2Z.inj_pow; lia).
  destruct (Z.lt_trichotomy (Zpos (Pos.size p)) k) as [H|[H|H]]; [|exact H|].
  - assert (2 ^ Zpos (Pos.size p) <= 2 ^ (k - 1)) by (apply Z.pow_le_mono_r; lia). lia.
  - assert (2 ^ (k + 1) <= 2 ^ Zpos (Pos.size p)) by (apply Z.pow_le_mono_r; lia).
    replace (2 ^ (k + 1)) with (2 * 2 ^ k) in * by (rewrite Z.pow_add_r; lia). lia.
Qed.

Lemma size_below p k : Zpos p < 2 ^ k -> 0 <= k -> Zpos (Pos.size p) <= k.
Proof.
  intros U K. pose proof (Pos.size_le p) as S.
  assert (2 ^ Zpos (Pos.size p) <= 2 * Zpos p) as S' by (rewrite <- Pos2Z.inj_pow; lia).
  destruct (Z.le_gt_cases (Zpos (Pos.size p)) k) as [H|H]; [exact H|].
  assert (2 ^ (k + 1) <= 2 ^ Zpos (Pos.size p)) by (apply Z.pow_le_mono_r; lia).
  replace (2 ^ (k + 1)) with (2 * 2 ^ k) in * by (rewrite Z.pow_add_r; lia). lia.
Qed.

(** The leading bit is set beside the fraction, not into it. *)
Lemma lor_leading m : 0 <= m < 2 ^ 23 -> Z.lor m (2 ^ 23) = m + 2 ^ 23.
Proof.
  intros M. rewrite <- Z.lxor_lor, <- Z.add_nocarry_lxor; trivial.
  all: apply Z.bits_inj'; intros i I; rewrite Z.land_spec, Z.bits_0, Z.pow2_bits_eqb by lia.
  all: destruct (Z.eqb_spec 23 i) as [<-|]; [|apply andb_false_r].
  all: rewrite andb_true_r; apply (Z.bits_above_log2 m 23); [lia|].
  all: destruct (Z.eq_dec m 0) as [->|]; [reflexivity | apply Z.log2_lt_pow2; lia].
Qed.

Lemma bounded_unfold m e :
  (Z.max (Zpos (Pos.size m) + e - 24) (-149) = e /\ e <= 104) ->
  f32_valid (S754_finite false m e) = true.
Proof.
  intros [C E].
  unfold f32_valid, valid_binary, bounded, canonical_mantissa, fexp, emin, prec32, emax32.
  rewrite digits2_pos_size.
  apply andb_true_intro; split; [apply Z.eqb_eq | apply Z.leb_le]; lia.
Qed.

(** Every pattern of 32 bits denotes a value of the type [float]: a
    subnormal number has the least exponent and at most 23 bits, a normal
    number exactly 24. *)
Theorem f32_of_bits_valid w : f32_valid (f32_of_bits w) = true.
Proof.
  unfold f32_of_bits.
  replace (Z.land w (2 ^ 23 - 1)) with (w mod 2 ^ 23)
    by (symmetry; apply (Z.land_ones w 23); lia).
  replace (Z.land (Z.shiftr w 23) 255) with (Z.shiftr w 23 mod 2 ^ 8)
    by (symmetry; apply (Z.land_ones _ 8); lia).
  pose proof (Z.mod_pos_bound w (2 ^ 23) ltac:(lia)) as M.
  pose proof (Z.mod_pos_bound (Z.shiftr w 23) (2 ^ 8) ltac:(lia)) as E.
  set (m := w mod 2 ^ 23) in *. set (e := Z.shiftr w 23 mod 2 ^ 8) in *.
  destruct (Z.eqb_spec e 255); [now destruct (m =? 0)|].
  destruct (Z.eqb_spec e 0).
  - destruct m as [|p|p] eqn:Em; try reflexivity.
    pose proof (size_below p 23 ltac:(lia) ltac:(lia)). apply (bounded_unfold p); lia.
  - rewrite lor_leading by lia. destruct (m + 2 ^ 23) as [|p|p] eqn:Em; try lia.
    apply (bounded_unfold p). rewrite (size_of_range p 24) by lia. lia.
Qed.

(** ** Bytes *)
Lemma all_bytes_ok : forallb byte_ok (map Z.of_nat (seq 0 256)) = true.
Proof. vm_compute. reflexivity. Qed.

Lemma byte_ok_range k : 0 <= k < 256 -> byte_ok k = true.
Proof.
  intros K. apply (proj1 (forallb_forall _ _) all_bytes_ok).
  rewrite <- (Z2Nat.id k) by lia. apply in_map, in_seq. lia.
Qed.

Lemma is_uchar_valid x : is_uchar x -> f32_valid x = true.
Proof.
  intros (k & K & ->). pose proof (byte_ok_range k K) as B. unfold byte_ok in B.
  cbv zeta in B. now repeat (apply andb_prop in B as [B _]).
Qed.

(** A byte divided by [255.0f] is a value of the type in [[0, 1]]. *)
Lemma uchar_quotient x :
  is_uchar x ->
  f32_valid (f32_div x f32_255) = true /\
  fle f32_zero (f32_div x f32_255) /\ fle (f32_div x f32_255) f32_one.
Proof.
  intros (k & K & ->). pose proof (byte_ok_range k K) as B. unfold byte_ok in B.
  cbv zeta in B. apply andb_prop in B as [B U]. apply andb_prop in B as [B L].
  apply andb_prop in B as [_ V]. now repeat split.
Qed.

Lemma f32_zero_typed p : typed_value p f32_zero.
Proof. split; [reflexivity|]. intros _. exists 0. split; [lia | reflexivity]. Qed.

(** ** The inner loop *)
Lemma take_bytes_length n : forall s l r,
  take_bytes n s = Some (l, r) -> List.length l = n.
Proof.
  induction n as [|n IH]; intros s l r; simpl; [now intros [= <- _]|].
  destruct s as [|c s]; [discriminate|].
  destruct (take_bytes n s) as [[l' r']|] eqn:E; [|discriminate].
  intros [= <- _]; simpl. f_equal. exact (IH _ _ _ E).
Qed.

(** [read] of one byte gives a byte. *)
Lemma stream_read_byte file file' bs :
  stream_read 1 file = (file', Some bs) -> 0 <= le_combine bs < 256.
Proof.
  unfold stream_read. destruct (good file); [|discriminate].
  destruct (take_bytes 1 (is_buf file)) as [[l r]|] eqn:E; [|discriminate].
  intros [= _ <-]. apply take_bytes_length in E.
  destruct l as [|b [|]]; try discriminate; simpl.
  pose proof (N_ascii_bounded b). lia.
Qed.

(** Each value the inner loop stores fits its property. *)
Lemma read_values_binary_typed props : forall file,
  Forall2 typed_value props (snd (read_values_binary props file)).
Proof.
  induction props as [|p ps IH]; intros file; simpl; [constructor|].
  destruct (prop_type p) eqn:T.
  - specialize (IH file). destruct (read_values_binary ps file); simpl in *.
    constructor; [apply f32_zero_typed | exact IH].
  - destruct (stream_read 4 file) as [f [bs|]]; specialize (IH f);
      destruct (read_values_binary ps f); simpl in *; (constructor; [|exact IH]).
    + split; [apply f32_of_bits_valid | congruence].
    + apply f32_zero_typed.
  - destruct (stream_read 1 file) as [f [bs|]] eqn:R; specialize (IH f);
      destruct (read_values_binary ps f); simpl in *; (constructor; [|exact IH]).
    + assert (is_uchar (f32_of_Z (le_combine bs))) as U
        by (eexists; split; [exact (stream_read_byte _ _ _ R) | reflexivity]).
      split; [now apply is_uchar_valid | now intros _].
    + apply f32_zero_typed.
Qed.

Lemma Forall2_nth {A B} (R : A -> B -> Prop) l1 l2 i d1 d2 :
  Forall2 R l1 l2 -> (i < List.length l1)%nat -> R (nth i l1 d1) (nth i l2 d2).
Proof.
  intros F; revert i; induction F as [|a b l1 l2 H F IH]; intros [|i] L; simpl in *;
    try lia; [exact H | apply IH; lia].
Qed.

(** The value at any index is a value of the type. *)
Lemma value_at_valid props values i :
  Forall2 typed_value props values -> f32_valid (value_at values i) = true.
Proof.
  intros F; unfold value_at.
  destruct (Nat.lt_ge_cases (Z.to_nat i) (List.length values)) as [L|L].
  - rewrite <- (Forall2_length F) in L.
    exact (proj1 (Forall2_nth _ _ _ _ (mkProp "" PROP_NONE) f32_zero F L)).
  - now rewrite nth_overflow.
Qed.

(** The value of a [uchar] property is a byte. *)
Lemma value_at_uchar props values i :
  Forall2 typed_value props values ->
  0 <= i < Z.of_nat (List.length props) ->
  prop_type (property_at props i) = PROP_UCHAR ->
  is_uchar (value_at values i).
Proof.
  intros F I T. unfold value_at, property_at in *.
  assert (Z.to_nat i < List.length props)%nat as L by lia.
  exact (proj2 (Forall2_nth _ _ _ _ (mkProp "" PROP_NONE) f32_zero F L) T).
Qed.

(** ** The vertex and the box *)
Lemma std_min_valid a b :
  f32_valid a = true -> f32_valid b = true -> f32_valid (std_min a b) = true.
Proof. unfold std_min; now destruct (f32_lt b a). Qed.

Lemma std_max_valid a b :
  f32_valid a = true -> f32_valid b = true -> f32_valid (std_max a b) = true.
Proof. unfold std_max; now destruct (f32_lt a b). Qed.

Lemma vec3_valid_coord v : vec3_valid v = true <-> forall ax, f32_valid (coord ax v) = true.
Proof.
  unfold vec3_valid; rewrite !andb_true_iff; split.
  - now intros [[X Y] Z] [].
  - intros H. exact (conj (conj (H AxisX) (H AxisY)) (H AxisZ)).
Qed.

Lemma cloud_reset_valid : cloud_valid cloud_reset.
Proof. constructor; [constructor | reflexivity | reflexivity]. Qed.

Lemma cloud_add_valid c x y z col :
  cloud_valid c -> vec3_valid (mkVec3 x y z) = true -> cloud_valid (cloud_add c x y z col).
Proof.
  intros [V Mn Mx] P. pose proof (proj1 (vec3_valid_coord _) P) as Q.
  constructor; simpl.
  - apply Forall_app; split; [exact V | now constructor].
  - apply vec3_valid_coord; intros ax. rewrite coord_bbox_extend_min.
    apply std_min_valid; [now apply vec3_valid_coord | apply Q].
  - apply vec3_valid_coord; intros ax. rewrite coord_bbox_extend_max.
    apply std_max_valid; [now apply vec3_valid_coord | apply Q].
Qed.

Lemma ply_add_vertex_valid h props values c :
  Forall2 typed_value props values -> cloud_valid c ->
  cloud_valid (ply_add_vertex h values c).
Proof.
  intros F V. apply cloud_add_valid; [exact V|]. unfold vec3_valid; simpl.
  now rewrite !(value_at_valid props).
Qed.

Lemma binary_body_valid n h : forall file c,
  cloud_valid c -> cloud_valid (snd (fst (binary_body n h file c))).
Proof.
  induction n as [|n IH]; intros file c V; simpl; [exact V|].
  pose proof (read_values_binary_typed (properties h) file) as F.
  destruct (read_values_binary (properties h) file) as [f vs]; simpl in F.
  destruct (is_fail f); [exact V|]. apply IH. now apply (ply_add_vertex_valid h (properties h)).
Qed.

(** ** The clouds of binary files *)

Section ValidityTheory.
Context {NG : NumGet}.

Lemma ply_color_unit h values :
  Forall2 typed_value (properties h) values -> uchar_colours h ->
  unit_range (ply_color h values).
Proof.
  intros F U; unfold ply_color.
  destruct (_ && _); [|intros []; repeat split; reflexivity].
  rewrite (proj2 (U (redIndex h) ltac:(simpl; auto))).
  assert (forall i, In i [redIndex h; greenIndex h; blueIndex h] ->
            is_uchar (value_at values i)) as V
    by (intros i I; destruct (U i I); now apply (value_at_uchar (properties h))).
  intros []; simpl; apply uchar_quotient, V; simpl; auto.
Qed.

Lemma binary_body_colours n h : uchar_colours h -> forall file c,
  Forall (fun v => unit_range (color v)) (vertices c) ->
  Forall (fun v => unit_range (color v)) (vertices (snd (fst (binary_body n h file c)))).
Proof.
  intros U; induction n as [|n IH]; intros file c V; simpl; [exact V|].
  pose proof (read_values_binary_typed (properties h) file) as F.
  destruct (read_values_binary (properties h) file) as [f vs]; simpl in F.
  destruct (is_fail f); [exact V|]. apply IH; simpl.
  apply Forall_app; split; [exact V|]. constructor; [|constructor].
  now apply ply_color_unit.
Qed.

(** C30: when the header of a binary file binds red, green and blue to
    [uchar] properties, every channel of the colour of every vertex the
    file leaves is a value between 0 and 1: a byte divided by [255.0f],
    rounded to [float], does not leave the range. *)
Theorem binary_uchar_colours content file h :
  ply_header content = Some (file, h) -> isBinary h = true -> uchar_colours h ->
  match ply_parse content with
  | PlyLoaded c | PlyReadError c => Forall (fun v => unit_range (color v)) (vertices c)
  | PlyInvalidHeader | PlyUndefined => True
  end.
Proof.
  intros H B U; unfold ply_parse, ply_body. rewrite H.
  destruct (header_valid h); [|exact I]. rewrite B; simpl.
  pose proof (binary_body_colours (Z.to_nat (numVertices h)) h U file cloud_reset
                (Forall_nil _)) as V.
  now destruct (binary_body _ h file cloud_reset) as [[f c] []].
Qed.

End ValidityTheory.

(** ** The box in the real numbers *)
Lemma vec3_finite_coord v : vec3_finite v = true -> forall ax, f32_finite (coord ax v) = true.
Proof.
  unfold vec3_finite; rewrite !andb_true_iff. now intros [[X Y] Z] [].
Qed.

Lemma f32_finite_number x : f32_finite x = true -> f32_is_nan x = false.
Proof. now destruct x. Qed.

(** A corner coordinate is the sentinel or a coordinate of a vertex: a
    number when the coordinates of the vertices are. *)
Lemma attained_finite c sentinel corner :
  attained c sentinel corner -> f32_finite sentinel = true ->
  Forall (fun v => vec3_finite (position v) = true) (vertices c) ->
  forall ax, f32_finite (coord ax corner) = true.
Proof.
  intros A S F ax. destruct (A ax) as [->|(v & I & <-)]; [exact S|].
  rewrite Forall_forall in F. now apply vec3_finite_coord, F.
Qed.

Local Open Scope R_scope.

(** The exact value of a coordinate of a vertex lies between the exact
    values of the corners. *)
Lemma box_bounds_R c v ax :
  cloud_inv c -> cloud_valid c ->
  Forall (fun v => vec3_finite (position v) = true) (vertices c) ->
  In v (vertices c) ->
  f32_R (coord ax (bbMin c)) <= f32_R (coord ax (position v)) <=
  f32_R (coord ax (bbMax c)).
Proof.
  intros I [V Mn Mx] F In.
  pose proof (attained_finite c _ _ (inv_min_attained c I) eq_refl F ax) as FMn.
  pose proof (attained_finite c _ _ (inv_max_attained c I) eq_refl F ax) as FMx.
  pose proof (inv_bounds c I) as B. rewrite Forall_forall in B, V, F.
  pose proof (vec3_finite_coord _ (F v In) ax) as Fv.
  destruct (B v In ax (f32_finite_number _ Fv)) as [L U].
  pose proof (proj1 (vec3_valid_coord _) (V v In) ax) as Vv.
  split; apply fle_R; trivial; now apply vec3_valid_coord.
Qed.

Local Close Scope R_scope.

(** The record loop of a binary file, from the empty cloud: the invariant
    of the box and the validity of the values together. *)
Lemma binary_body_cloud n h file :
  let c := snd (fst (binary_body n h file cloud_reset)) in
  cloud_inv c /\ cloud_valid c.
Proof.
  pose proof (binary_body_spec n h file cloud_reset) as B.
  pose proof (binary_body_valid n h file cloud_reset cloud_reset_valid) as V.
  destruct (binary_body n h file cloud_reset) as [[f c] ok]; simpl in *.
  split; [now apply B, cloud_reset_inv | exact V].
Qed.

Section BoxTheory.
Context {NG : NumGet}.

(** C29: the cloud [loadPlyFile] leaves for a binary file, after the last
    record or after a read error, when the coordinates it stored are
    numbers: the corners of the box are numbers, and the exact value of
    every coordinate of every vertex lies between the exact values of the
    corners.  The box the record loop computes with [std::min] and
    [std::max] on [float] bounds the cloud in the space the camera and the
    projection are read in. *)
Theorem ply_binary_bounds_R content file h :
  ply_header content = Some (file, h) -> isBinary h = true ->
  match ply_parse content with
  | PlyLoaded c | PlyReadError c =>
      finite_cloud c ->
      (forall ax, f32_finite (coord ax (bbMin c)) = true /\
                  f32_finite (coord ax (bbMax c)) = true) /\
      forall v ax, In v (vertices c) ->
        (f32_R (coord ax (bbMin c)) <= f32_R (coord ax (position v)) <=
         f32_R (coord ax (bbMax c)))%R
  | PlyInvalidHeader | PlyUndefined => True
  end.
Proof.
  intros H B; unfold ply_parse, ply_body. rewrite H.
  destruct (header_valid h); [|exact I]. rewrite B; simpl.
  pose proof (binary_body_cloud (Z.to_nat (numVertices h)) h file) as [Inv V].
  destruct (binary_body _ h file cloud_reset) as [[f c] ok]; simpl in Inv, V.
  assert (finite_cloud c ->
          (forall ax, f32_finite (coord ax (bbMin c)) = true /\
                      f32_finite (coord ax (bbMax c)) = true) /\
          forall v ax, In v (vertices c) ->
            (f32_R (coord ax (bbMin c)) <= f32_R (coord ax (position v)) <=
             f32_R (coord ax (bbMax c)))%R) as Goal_c.
  { intros F. split; [|intros v ax; now apply box_bounds_R].
    intros ax. split.
    - exact (attained_finite c _ _ (inv_min_attained c Inv) eq_refl F ax).
    - exact (attained_finite c _ _ (inv_max_attained c Inv) eq_refl F ax). }
  now destruct ok.
Qed.

End BoxTheory.

Local Open Scope R_scope.

(** The channels of a colour in the unit range are numbers between 0 and
    1. *)
Lemma unit_range_R col ax : unit_range col -> 0 <= f32_R (coord ax col) <= 1.
Proof.
  intros U. destruct (U ax) as (V & L & H).
  assert (f32_finite (coord ax col) = true) as F
    by now apply (fle_finite f32_zero _ f32_one).
  pose proof (fle_R f32_zero _ eq_refl V eq_refl F L) as A.
  pose proof (fle_R _ f32_one V eq_refl F eq_refl H) as B.
  revert A B. change (f32_R f32_zero) with 0. f32_R_eval f32_one. lra.
Qed.

(** ** A coloured record, and colours that leave the range *)

Section ValidityScenarios.

#[local] Existing Instance QtTokenToFloat.
#[local] Existing Instance StdNumGet.

Local Open Scope string_scope.

(** One record (1, 1, 1) with the colour bytes 255, 0, 128. *)
Definition coloured_binary : string :=
  ply_file "binary_little_endian" "1" xyz_rgb
    (one_le ++ one_le ++ one_le ++ byte 255 ++ byte 0 ++ byte 128).

Ltac header_of content :=
  destruct (ply_header content) as [[file h]|] eqn:E; [|vm_compute in E; discriminate E];
  pose proof E as E'; vm_compute in E'; injection E' as <- <-.

Lemma binary_uchar_colours_witness :
  match ply_parse coloured_binary with
  | PlyLoaded c | PlyReadError c => Forall (fun v => unit_range (color v)) (vertices c)
  | PlyInvalidHeader | PlyUndefined => True
  end.
Proof.
  header_of coloured_binary.
  refine (binary_uchar_colours coloured_binary _ _ E eq_refl _).
  intros i [<-|[<-|[<-|[]]]]; (split; [vm_compute; split; easy | reflexivity]).
Defined.

(** The file is loaded, with the colour (1, 0, 128/255). *)
Lemma coloured_binary_loaded :
  ply_parse coloured_binary =
  PlyLoaded (mkCloud [mkVertex (mkVec3 f32_one f32_one f32_one)
                        (mkVec3 f32_one f32_zero (f32_div (f32_of_Z 128) f32_255))]
               (mkVec3 f32_one f32_one f32_one) (mkVec3 f32_one f32_one f32_one)).
Proof. vm_compute. reflexivity. Qed.

Lemma ply_binary_bounds_R_witness :
  match ply_parse coloured_binary with
  | PlyLoaded c | PlyReadError c =>
      finite_cloud c ->
      (forall ax, f32_finite (coord ax (bbMin c)) = true /\
                  f32_finite (coord ax (bbMax c)) = true) /\
      forall v ax, In v (vertices c) ->
        (f32_R (coord ax (bbMin c)) <= f32_R (coord ax (position v)) <=
         f32_R (coord ax (bbMax c)))%R
  | PlyInvalidHeader | PlyUndefined => True
  end.
Proof.
  header_of coloured_binary.
  exact (ply_binary_bounds_R coloured_binary _ _ E eq_refl).
Defined.

(** The division by 255 is decided by the type of the red property alone:
    with a [float] red and [uchar] green and blue, the bytes are not
    divided, and a green byte of 255 gives the channel 255. *)
Theorem mixed_colour_types :
  ply_parse (ply_file "binary_little_endian" "1"
               ["float x"; "float y"; "float z"; "float red"; "uchar green"; "uchar blue"]
               (one_le ++ one_le ++ one_le ++ one_le ++ byte 255 ++ byte 0)) =
  PlyLoaded (mkCloud [mkVertex (mkVec3 f32_one f32_one f32_one)
                        (mkVec3 f32_one f32_255 f32_zero)]
               (mkVec3 f32_one f32_one f32_one) (mkVec3 f32_one f32_one f32_one)).
Proof. vm_compute. reflexivity. Qed.

(** The simple format divides whatever number the line holds: a red of
    300 gives a channel above 1. *)
Theorem pts_colour_above_one :
  match vertices (pts_parse ("0 0 0 300 0 0" ++ nl)) with
  | [v] => f32_lt f32_one (vx (color v)) = true
  | _ => False
  end.
Proof. vm_compute. reflexivity. Qed.

End ValidityScenarios.
