(* ===== verification/EndToEnd.v ===== *)
(** * EndToEnd: from a file to the points of the frame

    The layers of the program between the bytes of a file and the frame:
    the parser gives a cloud, the loader stores it, frames the camera and
    uploads the buffer, [resizeGL] sets the projection, [paintEvent] makes
    the draw call, the vertex shader gives each vertex of the buffer its
    clip position and its colour, the fragment shader writes the colour.
    Each layer has its theorem in its file; this file composes them.

    ** Definitions

    - [loads]: a load event that succeeds with a given cloud.
    - [framed_center], [framed_distance]: the centre and the distance the
      loaders compute from the box.
    - [framed_draw]: the draw call of the first frame after the load.
    - [vertex_output]: [main] of the vertex shader on vertex [i] of a draw
      call: the clip position and the colour handed to the fragment
      shader.

    ** Theorems

    - [drawn_after_load]: the renderer after load and resize draws
      [framed_draw].
    - [session_outputs_app]: the outputs of two sessions in sequence.
    - [log_after_load]: the latest output of the context is that draw.
    - [framed_vertex_output]: the clip position and colour of each
      vertex.
    - [box_decides_depth]: the box of the loader decides the clipping of
      the whole cloud on [z].
    - [point_box_clipped]: when the box is a point the camera is at
      distance zero and a vertex in the plane of the centre is clipped.
    - [file_on_screen]: the composition, after any session.
    - [open_file_on_screen]: the same from the Open action of the
      window, after any session of the window. *)

From Stdlib Require Import ZArith Lia Bool List String Reals Lra SpecFloat.
From S2P Require Import Prelude Float32 Vec3 Matrix Text IStream Cloud.
From S2P Require Import PtsParser PlyParser ViewportParameters Renderer ViewportObject MainWindow.
From S2P Require Import Shaders VertexBuffer Main OpenGL Session Camera FloatOrder Projection Validity.
Import ListNotations.
Local Open Scope bool_scope.
Local Open Scope list_scope.

(** ** Definitions *)

(** [(m_boundingBoxMin + m_boundingBoxMax) * 0.5f]. *)
Definition framed_center (c : Cloud) : QVector3D :=
  vec3_scale (vec3_add (bbMin c) (bbMax c)) f32_half.

(** [size.length() * 1.5f]. *)
Definition framed_distance (c : Cloud) : f32 :=
  f32_mul (vec3_length (vec3_sub (bbMax c) (bbMin c))) f32_1_5.

(** [main] of the vertex shader on vertex [i] of a draw call: the inputs
    are fetched through the two attributes, [gl_Position] is the product
    of the matrices with the position, [gl_PointSize] is the uniform
    [pointSize] and [vertexColor] is the colour.  The product is read in
    the real numbers: there is no output when a coordinate of the
    position is not a number. *)
Definition vertex_output (d : DrawCall SymMatrix) (i : nat)
    : option (vec4 * f32 * QVector3D) :=
  match shader_input (buffer_floats (dc_buffer d)) i with
  | Some (position, color) =>
      if vec3_finite position then
        match gl_Position (dc_projection d) (dc_modelView d) (vec3_R position) with
        | Some clip => Some (clip, dc_pointSize d, color)
        | None => None
        end
      else None
  | None => None
  end.

Section EndToEnd.
Context {libm : Libm} {T2F : TokenToFloat} {NG : NumGet} {GL : GLCompiler}.
Variable fs : FileSystem.

Local Abbreviation Renderer := (PointCloudRenderer SymMatrix).
Local Abbreviation start := (initializeGL (renderer_new (M := SymMatrix))).

(** The load event [e] succeeds, and its parser leaves the cloud [c]. *)
Definition loads (e : Event SymMatrix) (c : Cloud) : Prop :=
  match e with
  | EvLoadPts filename =>
      exists content, fs filename = Some content /\ pts_parse content = c
  | EvLoadPly filename =>
      exists content, fs filename = Some content /\ ply_parse content = PlyLoaded c
  | _ => False
  end.

(** The draw call of the frame after the load of [c] in a widget of [w]
    by [h]: the projection of the size, the view of the framed camera
    without rotation, all the vertices. *)
Definition framed_draw (c : Cloud) (w h : Z) (pointSize : f32) : DrawCall SymMatrix :=
  mkDraw (resized (f32_div (f32_of_Z w) (f32_of_Z h)))
         (view_matrix (framed_distance c) vec3_zero (framed_center c))
         pointSize (List.length (vertices c)) (vertices c).

(** ** The layers *)

Variable c : Cloud.
Variable load : Event SymMatrix.
Variables w h : Z.

Hypothesis loaded : loads load c.
Hypothesis some_vertices : vertices c <> [].
Hypothesis fits_int : fits (vertices c).

(** The loader: the state after the load. *)
Lemma loads_handle (s : Renderer) :
  handle fs load s = Some (frame_loaded (store_cloud c s)).
Proof.
  destruct load; try contradiction; cbn [handle loads] in *;
    destruct loaded as (content & F & P).
  - unfold loadPtsFile. now rewrite F, P.
  - unfold loadPlyFile. now rewrite F, P.
Qed.

(** The renderer: what the paint after load and resize hands to OpenGL. *)
Lemma drawn_after_load (s : Renderer) :
  drawn (resizeGL w h (frame_loaded (store_cloud c s))) =
  Some (framed_draw c w h (m_pointSize s)).
Proof.
  pose proof (allocate_fits (vertices c) (m_vbo s) fits_int) as A.
  unfold drawn, paintGL, framed_draw, frame_loaded, setupVertexBuffers, store_cloud.
  destruct (vertices c) as [|v vs] eqn:V; [now elim some_vertices|].
  simpl. now rewrite A.
Qed.

(** The session: load, resize and paint after any events. *)
Lemma session_after_load es (s0 : Renderer) :
  run fs es start = Some s0 ->
  run fs (es ++ [load; EvResize w h; EvPaint]) start =
  Some (set_updatePending false
          (fst (paintGL (resizeGL w h (frame_loaded (store_cloud c s0)))))).
Proof.
  intros R. rewrite run_app, R. cbn [run]. rewrite loads_handle. reflexivity.
Qed.

Lemma painted_vertices (s0 : Renderer) :
  m_vertices (set_updatePending false
                (fst (paintGL (resizeGL w h (frame_loaded (store_cloud c s0)))))) =
  vertices c.
Proof.
  unfold paintGL, frame_loaded, setupVertexBuffers, store_cloud; simpl.
  destruct (vertices c) as [|v vs]; reflexivity.
Qed.

(** The outputs of two sessions in sequence: those of the second come
    after those of the first, with the frames the first painted. *)
Lemma session_outputs_app a : forall b (s s' : Renderer) painted,
  run fs a s = Some s' ->
  session_outputs fs (a ++ b) s painted =
  session_outputs fs b s' (painted || existsb (is_paint (M := SymMatrix)) a)
    ++ session_outputs fs a s painted.
Proof.
  induction a as [|e a IH]; intros b s s' painted; cbn [app run session_outputs existsb].
  - intros [= <-]. now rewrite orb_false_r, app_nil_r.
  - destruct (handle fs e s) as [s1|]; [|discriminate]. intros R.
    now rewrite (IH b s1 s' _ R), orb_assoc, app_assoc.
Qed.

(** The outputs of the load, the resize and the paint: the draw call of
    the frame, the cleared frame, and what the load left. *)
Lemma load_paint_outputs (s0 : Renderer) painted :
  session_outputs fs [load; EvResize w h; EvPaint] s0 painted =
  [Drawn (framed_draw c w h (m_pointSize s0)) [position_attribute; color_attribute]
     (capabilities painted);
   Cleared clear_color] ++ event_outputs fs load s0 painted.
Proof.
  cbn [session_outputs]. rewrite loads_handle. cbn [handle event_outputs app].
  unfold paint_outputs. rewrite drawn_after_load.
  replace (painted || is_paint load || is_paint (EvResize w h)) with painted; [reflexivity|].
  destruct load; try contradiction; cbn [is_paint]; now rewrite !orb_false_r.
Qed.

(** The context: with a program that linked without a message, the latest
    output after the paint is the draw call of the frame. *)
Lemma log_after_load es (s0 s : Renderer) g :
  snd (setupShaders program_new) = [] ->
  run fs es start = Some s0 ->
  gl_session fs (es ++ [load; EvResize w h; EvPaint]) start gl_start = Some (s, g) ->
  exists rest,
    gl_log g =
    Drawn (framed_draw c w h (m_pointSize s0)) [position_attribute; color_attribute]
      (capabilities (existsb (is_paint (M := SymMatrix)) es)) :: rest.
Proof.
  intros Q R E. rewrite (gl_start_quiet Q) in E.
  apply (gl_session_linked fs _ start) in E as (cur & bound & u & ->).
  cbn [gl_log steady]. rewrite (session_outputs_app es _ _ _ _ R), load_paint_outputs.
  cbn [orb app]. eexists; reflexivity.
Qed.

(** ** The vertices of the frame *)

Hypothesis aspect_finite : f32_finite (f32_div (f32_of_Z w) (f32_of_Z h)) = true.
Hypothesis aspect_nonzero : SFeqb (f32_div (f32_of_Z w) (f32_of_Z h)) f32_zero = false.
Hypothesis center_finite : vec3_finite (framed_center c) = true.
Hypothesis distance_finite : f32_finite (framed_distance c) = true.

Local Open Scope R_scope.

(** The view of the framed camera: the offset from the centre, moved
    [framed_distance] away along the view axis. *)
Lemma framed_view p :
  view_of (framed_distance c) vec3_zero (framed_center c) p =
  padd (psub p (vec3_R (framed_center c))) (mkPoint 0 0 (- f32_R (framed_distance c))).
Proof.
  unfold view_of. change (f32_R (vx vec3_zero)) with 0. change (f32_R (vy vec3_zero)) with 0.
  now rewrite rotate_y_0, rotate_x_0.
Qed.

(** The clip position of a vertex of the frame. *)
Definition framed_clip (v : Cloud.Vertex) : vec4 :=
  perspective_vec4 45 (f32_R (f32_div (f32_of_Z w) (f32_of_Z h))) nearPlane farPlane
    (vec4_of (padd (psub (vec3_R (position v)) (vec3_R (framed_center c)))
                   (mkPoint 0 0 (- f32_R (framed_distance c))))).

(** The vertex shader: vertex [i] of the draw call is vertex [i] of the
    cloud, at its clip position, with its colour. *)
Lemma framed_vertex_output pointSize (i : nat) v :
  nth_error (vertices c) i = Some v -> vec3_finite (position v) = true ->
  vertex_output (framed_draw c w h pointSize) i = Some (framed_clip v, pointSize, color v).
Proof.
  intros N F. unfold vertex_output, framed_draw;
    cbn [dc_buffer dc_projection dc_modelView dc_pointSize].
  rewrite (shader_input_vertex _ _ _ N), F. unfold gl_Position.
  rewrite (mat_vec4_affine _ _ _
             (view_point _ vec3_zero _ _ distance_finite eq_refl eq_refl center_finite)).
  rewrite (resized_vec4 _ _ aspect_finite aspect_nonzero). now rewrite framed_view.
Qed.

(** The depth of a vertex of the frame is its clip coordinate [w], and it
    decides the clipping on [z]. *)
Lemma framed_clip_depth v :
  cw (framed_clip v) =
    f32_R (framed_distance c) - (f32_R (vz (position v)) - f32_R (vz (framed_center c))) /\
  (in_depth (framed_clip v) <-> nearPlane <= cw (framed_clip v) <= farPlane).
Proof.
  split; [cbn; lra|]. unfold framed_clip. rewrite (perspective_depth _ _ _ _ _ planes_ordered).
  reflexivity.
Qed.

(** The box decides the clipping of the cloud on [z]: when the depths of
    the two faces of the box across the view axis are between the planes,
    every vertex passes. *)
Lemma box_decides_depth :
  cloud_inv c -> cloud_valid c ->
  Forall (fun v => vec3_finite (position v) = true) (vertices c) ->
  nearPlane <= f32_R (framed_distance c) -
               (f32_R (vz (bbMax c)) - f32_R (vz (framed_center c))) ->
  f32_R (framed_distance c) -
    (f32_R (vz (bbMin c)) - f32_R (vz (framed_center c))) <= farPlane ->
  forall v, In v (vertices c) -> in_depth (framed_clip v).
Proof.
  intros I V F N U v In. destruct (framed_clip_depth v) as [W D]. apply D. rewrite W.
  pose proof (box_bounds_R c v AxisZ I V F In) as B. cbn [coord] in B. lra.
Qed.

(** *** A box that is a point *)

(** [x - x] is [+0] for every number. *)
Lemma f32_sub_self x : f32_finite x = true -> f32_sub x x = f32_zero.
Proof.
  destruct x as [[]|?| |s m e]; try discriminate; intros _; [reflexivity ..|].
  unfold f32_sub, SFsub. now rewrite Z.sub_diag.
Qed.

(** When the corners of the box are one point, as after a file whose
    vertices are all at one place, the loaders set the distance of the
    camera to zero. *)
Lemma point_box_distance :
  bbMin c = bbMax c -> vec3_finite (bbMax c) = true -> framed_distance c = f32_zero.
Proof.
  intros E F. unfold framed_distance, vec3_sub. rewrite E.
  pose proof (vec3_finite_coord _ F) as C.
  rewrite (f32_sub_self (vx (bbMax c)) (C AxisX)), (f32_sub_self (vy (bbMax c)) (C AxisY)),
    (f32_sub_self (vz (bbMax c)) (C AxisZ)).
  reflexivity.
Qed.

(** A vertex in the plane of the centre is then at depth zero, in front
    of the near plane: it is clipped. *)
Lemma point_box_clipped v :
  bbMin c = bbMax c -> vec3_finite (bbMax c) = true ->
  f32_R (vz (position v)) = f32_R (vz (framed_center c)) ->
  cw (framed_clip v) = 0 /\ ~ in_depth (framed_clip v).
Proof.
  intros E F P. destruct (framed_clip_depth v) as [W D].
  assert (cw (framed_clip v) = 0) as Z.
  { rewrite W, (point_box_distance E F), P. change (f32_R f32_zero) with 0. lra. }
  split; [exact Z|]. intros H. apply D in H. rewrite Z in H.
  pose proof nearPlane_value. lra.
Qed.

(** ** The composition *)

(** C13: from the file to the frame.  After any session, when a file is
    loaded with success, the widget is resized and the frame is painted,
    the session is defined, the renderer holds the vertices of the file
    and the latest output of the context is one draw call of all of them:
    vertex [i] of the call is given the position and the colour of vertex
    [i] of the parsed file and the point size the session left, its clip
    position is that of the framed camera with the projection of the new
    size, its clip coordinate [w]
    is its depth, it passes the clipping on [z] exactly when that depth
    is between the planes, and the fragment at the centre of its point is
    written with its colour and alpha 1. *)
Theorem file_on_screen es (s0 : Renderer) :
  snd (setupShaders program_new) = [] ->
  run fs es start = Some s0 ->
  exists s g rest,
    gl_session fs (es ++ [load; EvResize w h; EvPaint]) start gl_start = Some (s, g) /\
    m_vertices s = vertices c /\
    gl_log g =
      Drawn (framed_draw c w h (m_pointSize s0)) [position_attribute; color_attribute]
        (capabilities (existsb (is_paint (M := SymMatrix)) es)) :: rest /\
    dc_count (framed_draw c w h (m_pointSize s0)) = List.length (vertices c) /\
    forall (i : nat) v,
      nth_error (vertices c) i = Some v -> vec3_finite (position v) = true ->
      vertex_output (framed_draw c w h (m_pointSize s0)) i =
        Some (framed_clip v, m_pointSize s0, color v) /\
      cw (framed_clip v) =
        f32_R (framed_distance c) - (f32_R (vz (position v)) - f32_R (vz (framed_center c))) /\
      (in_depth (framed_clip v) <-> nearPlane <= cw (framed_clip v) <= farPlane) /\
      fragment_main (f32_half, f32_half) (color v) =
        Some (vx (color v), vy (color v), vz (color v), f32_one).
Proof.
  intros Q R. pose proof (session_after_load es s0 R) as A.
  destruct (gl_session_defined fs _ _ _ gl_start A) as (g & E).
  destruct (log_after_load es s0 _ g Q R E) as (rest & L).
  eexists _, g, rest. split; [exact E|]. split; [|split; [exact L|split; [reflexivity|]]].
  - apply painted_vertices.
  - intros i v N F. split; [now apply framed_vertex_output|].
    split; [apply framed_clip_depth|]. split; [apply framed_clip_depth | reflexivity].
Qed.

(** ** Through the window *)

(** The Open action: the dialog returns [filename], whose suffix selects
    the loader of [load]. *)
Variable filename : string.
Hypothesis named : isEmpty filename = false.
Hypothesis selected :
  (endsWith_ci filename ".pts" = true /\ load = EvLoadPts filename) \/
  (endsWith_ci filename ".pts" = false /\ endsWith_ci filename ".ply" = true /\
   load = EvLoadPly filename).

Local Abbreviation Window := (MainWindow SymMatrix).

(** The slot, then the resize and the paint Qt sends the widget. *)
Definition opening : list (UiEvent SymMatrix) :=
  [UiOpen filename; UiRenderer (EvResize w h); UiRenderer EvPaint].

(** [update()] after a load that succeeded requests the repaint the
    loader requested. *)
Lemma update_frame_loaded (s : Renderer) : update (frame_loaded s) = frame_loaded s.
Proof. unfold frame_loaded; cbv zeta. now destruct (resetView _). Qed.

Lemma run_skip_update rest (s0 : Renderer) :
  run fs (load :: EvUpdate :: rest) s0 = run fs (load :: rest) s0.
Proof. cbn [run]. rewrite loads_handle. cbn [handle]. now rewrite update_frame_loaded. Qed.

Lemma outputs_skip_update rest (s0 : Renderer) painted :
  session_outputs fs (load :: EvUpdate :: rest) s0 painted =
  session_outputs fs (load :: rest) s0 painted.
Proof.
  cbn [session_outputs]. rewrite loads_handle. cbn [handle event_outputs is_paint].
  now rewrite update_frame_loaded, orb_false_r, app_nil_r.
Qed.

(** The slot calls the loader the suffix selects, then [update]. *)
Lemma open_calls (w0 : Window) : slot_calls fs (UiOpen filename) w0 = [load; EvUpdate].
Proof.
  cbn [slot_calls]. rewrite named.
  destruct selected as [[P L]|(P & Q & L)]; rewrite P, ?Q; rewrite L in loaded |- *;
    destruct loaded as (content & F & E).
  - unfold loadPtsFile. now rewrite F.
  - unfold loadPlyFile. now rewrite F, E.
Qed.

Lemma open_handle (w0 : Window) :
  exists w', ui_handle fs (UiOpen filename) w0 = Some w' /\
             m_viewportList w' = m_viewportList w0 /\ shown w' = shown w0.
Proof.
  cbn [ui_handle]. unfold openPointCloudFile. rewrite named.
  destruct selected as [[P L]|(P & Q & L)]; rewrite P, ?Q; rewrite L in loaded;
    destruct loaded as (content & F & E).
  - unfold loadPtsFile. rewrite F. now eexists.
  - unfold loadPlyFile. rewrite F, E. now eexists.
Qed.

(** The calls of the slot and of the two events of the widget. *)
Lemma opening_trace (w0 : Window) :
  exists w1, ui_run fs opening w0 = Some w1 /\
             ui_trace fs opening w0 = [load; EvUpdate; EvResize w h; EvPaint] /\
             m_viewportList w1 = m_viewportList w0 /\ shown w1 = shown w0.
Proof.
  destruct (open_handle w0) as (w' & H & V & D).
  unfold opening. cbn [ui_run ui_trace]. rewrite H, open_calls.
  cbn [ui_handle handle option_map slot_calls app]. eexists. repeat split; assumption.
Qed.

(** The calls of two sessions of the window in sequence. *)
Lemma ui_trace_app a : forall b (w0 w1 : Window),
  ui_run fs a w0 = Some w1 ->
  ui_run fs (a ++ b) w0 = ui_run fs b w1 /\
  ui_trace fs (a ++ b) w0 = ui_trace fs a w0 ++ ui_trace fs b w1.
Proof.
  induction a as [|e a IH]; intros b w0 w1; cbn [app ui_run ui_trace].
  - now intros [= <-].
  - destruct (ui_handle fs e w0) as [w'|]; [|discriminate]. intros R.
    destruct (IH b w' w1 R) as [-> ->]. now rewrite app_assoc.
Qed.

(** C14: from the Open action to the frame.  After any session of the
    window, when the user opens a file whose suffix selects a loader
    that succeeds on it, and Qt then resizes and paints the widget: the
    session is defined, the list of snapshots and the dialogs shown are
    as before, the renderer of the window holds the vertices of the
    file, and the latest output of the OpenGL context is the draw call
    of the frame of that file, with the projection of the new size and
    the framed camera. *)
Theorem open_file_on_screen us (w0 : Window) :
  snd (setupShaders program_new) = [] ->
  ui_run fs us window_start = Some w0 ->
  exists w1 g rest,
    ui_run fs (us ++ opening) window_start = Some w1 /\
    gl_session fs (ui_trace fs (us ++ opening) window_start) start gl_start =
      Some (m_renderer w1, g) /\
    m_vertices (m_renderer w1) = vertices c /\
    m_viewportList w1 = m_viewportList w0 /\ shown w1 = shown w0 /\
    gl_log g =
      Drawn (framed_draw c w h (m_pointSize (m_renderer w0)))
        [position_attribute; color_attribute]
        (capabilities (existsb (is_paint (M := SymMatrix)) (ui_trace fs us window_start)))
      :: rest.
Proof.
  intros Q R. destruct (opening_trace w0) as (w1 & R1 & T1 & V & D).
  destruct (ui_trace_app us opening _ _ R) as [Ru Tu]. rewrite R1 in Ru.
  pose proof (ui_trace_run fs _ _ _ Ru) as Rr. rewrite Tu, T1 in Rr |- *.
  pose proof (ui_trace_run fs _ _ _ R) as R0. cbn [m_renderer window_start] in R0, Rr.
  destruct (gl_session_defined fs _ _ _ gl_start Rr) as (g & E).
  pose proof E as L. rewrite (gl_start_quiet Q) in L.
  apply (gl_session_linked fs _ start) in L as (cur & bound & u & G).
  rewrite run_app, R0, run_skip_update in Rr.
  cbn [run] in Rr. rewrite loads_handle in Rr. cbn [handle] in Rr. injection Rr as Rr.
  exists w1, g. eexists. repeat split; [exact Ru | exact E | | exact V | exact D |].
  - rewrite <- Rr. apply painted_vertices.
  - rewrite G. cbn [gl_log steady].
    rewrite (session_outputs_app _ _ _ _ _ R0), outputs_skip_update,
      load_paint_outputs. cbn [orb app]. reflexivity.
Qed.

End EndToEnd.

(** ** The scenario file after another session *)

Section EndToEndScenarios.

#[local] Existing Instance LibmUnitSteps.
#[local] Existing Instance QtTokenToFloat.
#[local] Existing Instance StdNumGet.
#[local] Existing Instance AcceptingCompiler.

Local Open Scope string_scope.

(** A frame, a load that is cut short and a turn of the wheel. *)
Definition earlier : list (Event SymMatrix) :=
  [EvPaint; EvLoadPly "cut.ply"; EvWheel 120].

Definition cloud_A : Cloud := pts_parse scenario_A.

Definition first_A : Cloud.Vertex :=
  {| position := mkVec3 f32_one f32_2 (f32_of_Z 3); color := red |}.

Lemma file_on_screen_witness :
  match run example_fs earlier (initializeGL renderer_new) with
  | Some s0 =>
      exists s g rest,
        gl_session example_fs
          (earlier ++ [EvLoadPts "a.pts"; EvResize 800 600; EvPaint])%list
          (initializeGL renderer_new) gl_start = Some (s, g) /\
        m_vertices s = vertices cloud_A /\
        gl_log g =
          Drawn (framed_draw cloud_A 800 600 (m_pointSize s0))
            [position_attribute; color_attribute] (capabilities true) :: rest /\
        vertex_output (framed_draw cloud_A 800 600 (m_pointSize s0)) 0 =
          Some (framed_clip cloud_A 800 600 first_A, m_pointSize s0, red)
  | None => False
  end.
Proof.
  destruct (run _ _ _) as [s0|] eqn:E; [|vm_compute in E; discriminate E].
  assert (loads example_fs (EvLoadPts "a.pts") cloud_A) as Ld
    by (exists scenario_A; split; reflexivity).
  assert (vertices cloud_A <> []) as Nv by (vm_compute; discriminate).
  assert (fits (vertices cloud_A)) as Ft by (vm_compute; discriminate).
  assert (Q : snd (setupShaders program_new) = []) by reflexivity.
  assert (f32_finite (f32_div (f32_of_Z 800) (f32_of_Z 600)) = true) as Af
    by (vm_compute; reflexivity).
  assert (SFeqb (f32_div (f32_of_Z 800) (f32_of_Z 600)) f32_zero = false) as Az
    by (vm_compute; reflexivity).
  assert (vec3_finite (framed_center cloud_A) = true) as Cf by (vm_compute; reflexivity).
  assert (f32_finite (framed_distance cloud_A) = true) as Df by (vm_compute; reflexivity).
  assert (nth_error (vertices cloud_A) 0 = Some first_A) as N0 by (vm_compute; reflexivity).
  destruct (file_on_screen example_fs cloud_A (EvLoadPts "a.pts") 800 600 Ld Nv Ft
              Af Az Cf Df earlier s0 Q E)
    as (s & g & rest & S & V & L & _ & O).
  exists s, g, rest.
  exact (conj S (conj V (conj L (proj1 (O 0%nat first_A N0 eq_refl))))).
Defined.

(** The numbers of the scenario: the first point of the file, three units
    in front of the centre plane, is drawn at a depth between 9.2 and
    9.4, inside the planes. *)
Lemma first_A_depth :
  (92 / 10 < cw (framed_clip cloud_A 800 600 first_A) < 94 / 10)%R /\
  in_depth (framed_clip cloud_A 800 600 first_A).
Proof.
  destruct (framed_clip_depth cloud_A 800 600 first_A) as [W D].
  assert (92 / 10 < cw (framed_clip cloud_A 800 600 first_A) < 94 / 10)%R as B.
  { rewrite W. f32_R_eval (vz (position first_A)). f32_R_eval (vz (framed_center cloud_A)).
    f32_R_eval (framed_distance cloud_A). lra. }
  split; [exact B|]. apply D. pose proof nearPlane_value. rewrite farPlane_value. lra.
Qed.

(** A load, a frame and a capture in the window, before the file is
    opened. *)
Definition before_opening : list (UiEvent SymMatrix) :=
  [UiOpen "one.pts"; UiRenderer EvPaint; UiSaveViewport].

Lemma open_file_on_screen_witness :
  match ui_run example_fs before_opening window_start with
  | Some w0 =>
      exists w1 g rest,
        ui_run example_fs (before_opening ++ opening 800 600 "a.pts")%list window_start =
          Some w1 /\
        gl_session example_fs
          (ui_trace example_fs (before_opening ++ opening 800 600 "a.pts")%list window_start)
          (initializeGL renderer_new) gl_start = Some (m_renderer w1, g) /\
        m_vertices (m_renderer w1) = vertices cloud_A /\
        m_viewportList w1 = m_viewportList w0 /\ shown w1 = shown w0 /\
        gl_log g =
          Drawn (framed_draw cloud_A 800 600 (m_pointSize (m_renderer w0)))
            [position_attribute; color_attribute]
            (capabilities (existsb (is_paint (M := SymMatrix))
                             (ui_trace example_fs before_opening window_start)))
          :: rest
  | None => False
  end.
Proof.
  destruct (ui_run example_fs before_opening window_start) as [w0|] eqn:E;
    [|vm_compute in E; discriminate E].
  assert (loads example_fs (EvLoadPts "a.pts") cloud_A) as Ld
    by (exists scenario_A; split; reflexivity).
  assert (vertices cloud_A <> []) as Nv by (vm_compute; discriminate).
  assert (fits (vertices cloud_A)) as Ft by (vm_compute; discriminate).
  assert (Q : snd (setupShaders program_new) = []) by reflexivity.
  exact (open_file_on_screen example_fs cloud_A (EvLoadPts "a.pts") 800 600 Ld Nv Ft
           "a.pts" eq_refl (or_introl (conj eq_refl eq_refl)) before_opening w0 Q E).
Defined.

(** The whole scenario file passes the clipping on [z], by its box: the
    faces of the box are at the depths 6.2 and 9.4 at most. *)
Lemma cloud_A_in_depth v :
  In v (vertices cloud_A) -> in_depth (framed_clip cloud_A 800 600 v).
Proof.
  apply box_decides_depth.
  - apply pts_parse_inv.
  - split; [repeat constructor| |]; reflexivity.
  - repeat constructor.
  - pose proof nearPlane_value. f32_R_eval (vz (bbMax cloud_A)).
    f32_R_eval (vz (framed_center cloud_A)). f32_R_eval (framed_distance cloud_A). lra.
  - rewrite farPlane_value. f32_R_eval (vz (bbMin cloud_A)).
    f32_R_eval (vz (framed_center cloud_A)). f32_R_eval (framed_distance cloud_A). lra.
Qed.

(** A file of one point: the box is the point, the distance of the
    camera is zero, the point is at depth zero, in front of the near
    plane, and is clipped. *)
Definition cloud_one : Cloud := pts_parse ("1 2 3" ++ nl).

Definition the_one : Cloud.Vertex :=
  {| position := mkVec3 f32_one f32_2 (f32_of_Z 3); color := white |}.

Lemma one_point_clipped :
  vertices cloud_one = [the_one] /\ framed_distance cloud_one = f32_zero /\
  cw (framed_clip cloud_one 800 600 the_one) = 0%R /\
  ~ in_depth (framed_clip cloud_one 800 600 the_one).
Proof.
  split; [reflexivity|]. split; [reflexivity|].
  apply point_box_clipped; [reflexivity ..|].
  f32_R_eval (vz (position the_one)). f32_R_eval (vz (framed_center cloud_one)). lra.
Qed.

(** The centre of a box beyond half the range of [float]: a cloud of one
    point at [3e38] on each axis has a finite box, and the sum of its
    corners is infinite, so the model centre is and the view of the
    camera is no matrix of numbers. *)
Definition distant : Cloud :=
  let x := f32_of_decimal false 3 38 in cloud_add cloud_reset x x x white.

Lemma framed_center_overflows :
  Forall (fun v => vec3_finite (position v) = true) (vertices distant) /\
  vec3_finite (bbMin distant) = true /\ vec3_finite (bbMax distant) = true /\
  vec3_finite (framed_center distant) = false /\
  mat_point (view_matrix (framed_distance distant) vec3_zero (framed_center distant))
    (mkPoint 0 0 0) = None.
Proof.
  split; [repeat constructor|]. repeat split; vm_compute; reflexivity.
Qed.

End EndToEndScenarios.
