(* ===== verification/Members.v ===== *)
(** * Members: the renderer object with every member

    [Renderer] keeps the members the handlers read and write.  The class
    of pointcloudrenderer.h declares more: the tool and display flags, the
    colour mode, the measured values and two more vertex vectors, none of
    which a member function of pointcloudrenderer.cpp assigns, and the
    constructor's initialiser list names none of them.  A member of
    scalar type without an initialiser has an indeterminate value
    ([None]); a [QVector] or a [QVector3D] is default-constructed.

    ** Definitions

    - [ColorMode], [ViewOrientation]: the enumerations of the class.
    - [Object]: the members of [Renderer], the size of the widget, and
      the members no handler assigns; [object_new] is the constructor.
    - The inline getters of the class; a getter of an indeterminate
      member has no value.
    - [object_handle], [object_run]: the handlers on the object, with
      [paintEvent] in the place of [paintGL]: a paint draws the scene
      and then tests [m_showCoordinateSystem] for the overlay.
    - [machine]: the object as a machine runs it, where the byte of the
      flag holds some value.

    ** Theorems

    - [object_run_state]: the handlers on the object act on the
      members of [Renderer] as [Renderer.run] does.
    - [object_run_unassigned]: no session changes a member no handler
      assigns.
    - [paint_undefined]: from the constructor every session with a
      paint reads the indeterminate flag.
    - [machine_paint], [machine_overlay_never]: on a machine a paint
      draws the overlay exactly when the storage of the flag holds
      [true]; when it holds [false] every session of [Renderer] is one
      of the object and no frame has the overlay. *)

From Stdlib Require Import ZArith Lia Bool List String SpecFloat.
From S2P Require Import Prelude Float32 Vec3 Matrix Text IStream Cloud.
From S2P Require Import PtsParser PlyParser ViewportParameters Renderer Overlay OpenGL.
Import ListNotations.
Local Open Scope list_scope.

(** ** Definitions *)

Inductive ColorMode : Type := Original | Unicolor | XGradient | YGradient | ZGradient.

Inductive ViewOrientation : Type := Custom | Top | Front | Side.

Section Members.
Context {M : Type} {MX : Matrix4x4 M} {MM : MatrixMap M}.
Context {libm : Libm} {T2F : TokenToFloat} {NG : NumGet}.

(** The object: [o_state] holds the members of [Renderer], [o_size] is
    [width()] and [height()] of the widget, [backgroundColor] is
    [m_backgroundColor]; the others carry their names. *)
Record Object : Type := mkObject {
  o_state : PointCloudRenderer M;
  o_size : Z * Z;
  m_filteredVertices : list Cloud.Vertex;
  m_originalVertices : list Cloud.Vertex;
  m_perspectiveMode : option bool;
  m_colorMode : option ColorMode;
  backgroundColor : QColor;
  m_showCoordinateSystem : option bool;
  m_showBoundingBox : option bool;
  m_measureToolEnabled : option bool;
  m_pickPointToolEnabled : option bool;
  m_isFirstPointSelected : option bool;
  m_measurePointStart : QVector3D;
  m_measurePointEnd : QVector3D;
  m_measuredDistance : option f32;
  m_pickedPoint : QVector3D
}.

Definition with_state (s : PointCloudRenderer M) (o : Object) : Object :=
  mkObject s (o_size o) (m_filteredVertices o) (m_originalVertices o)
    (m_perspectiveMode o) (m_colorMode o) (backgroundColor o)
    (m_showCoordinateSystem o) (m_showBoundingBox o) (m_measureToolEnabled o)
    (m_pickPointToolEnabled o) (m_isFirstPointSelected o) (m_measurePointStart o)
    (m_measurePointEnd o) (m_measuredDistance o) (m_pickedPoint o).

Definition with_size (size : Z * Z) (o : Object) : Object :=
  mkObject (o_state o) size (m_filteredVertices o) (m_originalVertices o)
    (m_perspectiveMode o) (m_colorMode o) (backgroundColor o)
    (m_showCoordinateSystem o) (m_showBoundingBox o) (m_measureToolEnabled o)
    (m_pickPointToolEnabled o) (m_isFirstPointSelected o) (m_measurePointStart o)
    (m_measurePointEnd o) (m_measuredDistance o) (m_pickedPoint o).

Definition with_showCoordinateSystem (show : option bool) (o : Object) : Object :=
  mkObject (o_state o) (o_size o) (m_filteredVertices o) (m_originalVertices o)
    (m_perspectiveMode o) (m_colorMode o) (backgroundColor o)
    show (m_showBoundingBox o) (m_measureToolEnabled o)
    (m_pickPointToolEnabled o) (m_isFirstPointSelected o) (m_measurePointStart o)
    (m_measurePointEnd o) (m_measuredDistance o) (m_pickedPoint o).

(** The constructor, for a widget of the size [size]: the initialiser
    list names the buffer, the distance, the point size, the rotation,
    the box and the background colour. *)
Definition object_new (size : Z * Z) : Object :=
  mkObject renderer_new size [] [] None None m_backgroundColor None None None None None
    vec3_zero vec3_zero None vec3_zero.

(** The members no member function assigns. *)
Definition unassigned (o : Object) :=
  (m_filteredVertices o, m_originalVertices o, m_perspectiveMode o, m_colorMode o,
   backgroundColor o, m_showCoordinateSystem o, m_showBoundingBox o,
   (m_measureToolEnabled o, m_pickPointToolEnabled o, m_isFirstPointSelected o,
    m_measurePointStart o, m_measurePointEnd o, m_measuredDistance o, m_pickedPoint o)).

(** *** The inline getters *)

Definition getPointSize (o : Object) : f32 := m_pointSize (o_state o).
Definition getColorMode (o : Object) : option ColorMode := m_colorMode o.
Definition isShowingCoordinateSystem (o : Object) : option bool := m_showCoordinateSystem o.
Definition isShowingBoundingBox (o : Object) : option bool := m_showBoundingBox o.
Definition isPerspectiveModeEnabled (o : Object) : option bool := m_perspectiveMode o.
Definition getBackgroundColor (o : Object) : QColor := backgroundColor o.
Definition getProjectionMatrix (o : Object) : M := m_projection (o_state o).
Definition getModelViewMatrix (o : Object) : M := m_modelView (o_state o).
Definition getCameraDistance (o : Object) : f32 := m_distance (o_state o).
Definition getRotation (o : Object) : QVector3D := m_rotation (o_state o).
Definition getModelCenter (o : Object) : QVector3D := m_modelCenter (o_state o).
Definition getMeasuredDistance (o : Object) : option f32 := m_measuredDistance o.
Definition getPickedPoint (o : Object) : QVector3D := m_pickedPoint o.

(** *** The handlers *)

Variable fs : FileSystem.

(** One handler on the object, with the commands it gives the painter.
    Qt resizes the widget and calls [resizeGL] with the new size; a paint
    request is served by [paintEvent]; the other handlers are those of
    [Renderer]. *)
Definition object_handle (e : Event M) (o : Object) : option (Object * list PaintCmd) :=
  match e with
  | EvPaint =>
      match paintEvent (m_showCoordinateSystem o) (fst (o_size o)) (snd (o_size o))
                       (o_state o) with
      | Some (s, _, cmds) => Some (with_state (set_updatePending false s) o, cmds)
      | None => None
      end
  | EvResize w h => Some (with_size (w, h) (with_state (resizeGL w h (o_state o)) o), [])
  | _ => option_map (fun s => (with_state s o, [])) (handle fs e (o_state o))
  end.

(** A session on the object, with the commands of its paints in order. *)
Fixpoint object_run (es : list (Event M)) (o : Object) : option (Object * list PaintCmd) :=
  match es with
  | [] => Some (o, [])
  | e :: es' =>
      match object_handle e o with
      | Some (o', cmds) =>
          option_map (fun r => (fst r, cmds ++ snd r)) (object_run es' o')
      | None => None
      end
  end.

(** The first show: [initializeGL] on the constructed object. *)
Definition object_start (size : Z * Z) : Object :=
  with_state (initializeGL renderer_new) (object_new size).

(** The object on a machine: the storage of the flag holds [show]. *)
Definition machine (show : bool) (size : Z * Z) : Object :=
  with_showCoordinateSystem (Some show) (object_start size).

End Members.

(** ** Theory *)

Section MembersTheory.
Context {M : Type} {MX : Matrix4x4 M} {MM : MatrixMap M}.
Context {libm : Libm} {T2F : TokenToFloat} {NG : NumGet}.
Variable fs : FileSystem.

Local Abbreviation Object := (Object (M := M)).

(** The hint [paintEvent] gives the painter when it draws no overlay. *)
Definition hints (es : list (Event M)) : list PaintCmd :=
  flat_map (fun e => if is_paint e then [SetRenderHint true] else []) es.

(** One handler: on the members of [Renderer] it is the handler of
    [Renderer], and it leaves the members no function assigns. *)
Lemma object_handle_state e (o o' : Object) cmds :
  object_handle fs e o = Some (o', cmds) ->
  handle fs e (o_state o) = Some (o_state o') /\ unassigned o' = unassigned o.
Proof.
  destruct e; cbn [object_handle handle];
    try (destruct (option_map fst _); cbn [option_map]);
    try (intros [= <- <-]; split; reflexivity); try discriminate.
  destruct (paintEvent _ _ _ _) as [[[s scene] c]|] eqn:P; [|discriminate].
  intros [= <- <-]. apply paintEvent_scene in P as [-> _]. split; reflexivity.
Qed.

(** The getters of the camera are the fields of the snapshot. *)
Lemma getViewportParameters_getters (o : Object) :
  getViewportParameters (o_state o) =
  mkParams (getModelViewMatrix o) (getProjectionMatrix o) (getCameraDistance o)
    (getRotation o) (getModelCenter o) (getPointSize o)
    (m_boundingBoxMin (o_state o)) (m_boundingBoxMax (o_state o)).
Proof. reflexivity. Qed.

(** The handlers on the object act on the members of [Renderer] as
    the session of [Renderer] does: a session that is defined on the
    object is defined there, with the same members. *)
Theorem object_run_state es : forall (o o' : Object) cmds,
  object_run fs es o = Some (o', cmds) -> run fs es (o_state o) = Some (o_state o').
Proof.
  induction es as [|e es IH]; intros o o' cmds; cbn [object_run run].
  - now intros [= <- _].
  - destruct (object_handle fs e o) as [[o1 c1]|] eqn:H; [|discriminate].
    apply object_handle_state in H as [-> _].
    destruct (object_run fs es o1) as [[o2 c2]|] eqn:R; [|discriminate].
    intros [= <- _]. exact (IH _ _ _ R).
Qed.

(** No session changes a member that no member function assigns. *)
Lemma object_run_unassigned es : forall (o o' : Object) cmds,
  object_run fs es o = Some (o', cmds) -> unassigned o' = unassigned o.
Proof.
  induction es as [|e es IH]; intros o o' cmds; cbn [object_run].
  - now intros [= <- _].
  - destruct (object_handle fs e o) as [[o1 c1]|] eqn:H; [|discriminate].
    apply object_handle_state in H as [_ <-].
    destruct (object_run fs es o1) as [[o2 c2]|] eqn:R; [|discriminate].
    intros [= <- _]. exact (IH _ _ _ R).
Qed.

Lemma unassigned_flag (o o' : Object) :
  unassigned o' = unassigned o -> m_showCoordinateSystem o' = m_showCoordinateSystem o.
Proof. unfold unassigned. now intros [= _ _ _ _ _ -> _]. Qed.

(** While the flag is indeterminate, a session with a paint has no
    defined behaviour. *)
Lemma indeterminate_paint es : forall o : Object,
  m_showCoordinateSystem o = None -> existsb is_paint es = true ->
  object_run fs es o = None.
Proof.
  induction es as [|e es IH]; intros o F; cbn [existsb object_run]; [discriminate|].
  destruct (object_handle fs e o) as [[o1 c1]|] eqn:H; [|reflexivity].
  destruct (is_paint e) eqn:P; cbn [orb].
  - destruct e; try discriminate P. cbn [object_handle] in H.
    now rewrite F, paintEvent_indeterminate in H.
  - intros E. rewrite (IH o1); [reflexivity | | exact E].
    apply object_handle_state in H as [_ U]. now rewrite (unassigned_flag _ _ U).
Qed.

(** C23: every session from the constructor that paints a frame reads
    [m_showCoordinateSystem] while it is indeterminate: the constructor
    gives the flag no value and no handler assigns it, so no such
    session has a defined behaviour, whatever the files and the size of
    the widget. *)
Theorem paint_undefined es size :
  existsb is_paint es = true -> object_run fs es (object_start size) = None.
Proof. now apply indeterminate_paint. Qed.

(** One paint on a machine: the overlay is drawn exactly when the storage
    of the flag holds [true]. *)
Lemma machine_paint (show : bool) (o : Object) :
  m_showCoordinateSystem o = Some show ->
  object_handle fs EvPaint o =
  let s := fst (paintGL (o_state o)) in
  option_map (fun cmds => (with_state (set_updatePending false s) o, SetRenderHint true :: cmds))
    (if show then drawCoordinateSystem (fst (o_size o)) (snd (o_size o)) s else Some []).
Proof.
  intros F. cbn [object_handle]. rewrite F. unfold paintEvent.
  destruct (paintGL (o_state o)) as [s scene]. cbn [fst].
  destruct show; [now destruct (drawCoordinateSystem _ _ s)|reflexivity].
Qed.

(** One handler on a machine that does not show the overlay: it is
    defined when the handler of [Renderer] is. *)
Lemma handle_never e (o : Object) s1 :
  m_showCoordinateSystem o = Some false -> handle fs e (o_state o) = Some s1 ->
  exists o1, object_handle fs e o =
               Some (o1, if is_paint e then [SetRenderHint true] else []) /\
             o_state o1 = s1 /\ m_showCoordinateSystem o1 = Some false.
Proof.
  intros F H. destruct e; cbn [is_paint];
    try (cbn [object_handle]; rewrite H; cbn [option_map]; eexists; repeat split; exact F).
  - injection H as <-. eexists; repeat split; exact F.
  - injection H as <-. rewrite (machine_paint false o F). cbn.
    eexists; repeat split; exact F.
Qed.

Lemma overlay_never es : forall (o : Object) s',
  m_showCoordinateSystem o = Some false -> run fs es (o_state o) = Some s' ->
  exists o', object_run fs es o = Some (o', hints es) /\ o_state o' = s'.
Proof.
  induction es as [|e es IH]; intros o s' F; cbn [object_run run hints flat_map].
  - intros [= <-]. now exists o.
  - destruct (handle fs e (o_state o)) as [s1|] eqn:H; [|discriminate]. intros R.
    destruct (handle_never e o s1 F H) as (o1 & -> & <- & F1).
    destruct (IH o1 s' F1 R) as (o' & -> & S'). now exists o'.
Qed.

(** On a machine whose storage of the flag holds [false], every
    session of the renderer is a session of the object, and the painter
    is given the hint of each frame and nothing else: no frame of the
    session has the overlay. *)
Theorem machine_overlay_never es size s' :
  run fs es (initializeGL renderer_new) = Some s' ->
  exists o', object_run fs es (machine false size) = Some (o', hints es) /\ o_state o' = s'.
Proof. intros R. now apply (overlay_never es (machine false size)). Qed.

End MembersTheory.

(** ** A window of 800 by 600 *)

Section MembersScenarios.

#[local] Existing Instance LibmUnitSteps.
#[local] Existing Instance QtTokenToFloat.
#[local] Existing Instance StdNumGet.

Local Open Scope string_scope.

Definition two_frames : list (Event SymMatrix) :=
  [EvLoadPts "a.pts"; EvResize 800 600; EvPaint; EvWheel 120; EvPaint].

Lemma paint_undefined_witness :
  object_run example_fs two_frames (object_start (800, 600)%Z) = None.
Proof. apply paint_undefined. reflexivity. Defined.

Lemma machine_overlay_never_witness :
  match run example_fs two_frames (initializeGL renderer_new) with
  | Some s' =>
      exists o', object_run example_fs two_frames (machine false (640, 480)%Z) =
                   Some (o', [SetRenderHint true; SetRenderHint true]) /\
                 o_state o' = s'
  | None => False
  end.
Proof.
  destruct (run _ _ _) as [s'|] eqn:E; [|vm_compute in E; discriminate E].
  exact (machine_overlay_never example_fs two_frames (640, 480)%Z s' E).
Defined.

(** Without a paint the session is defined, and the getters of the
    members without an initialiser have no value. *)
Lemma getters_indeterminate :
  match object_run example_fs [EvLoadPts "a.pts"; EvWheel 120] (object_start (800, 600)%Z) with
  | Some (o, cmds) =>
      cmds = [] /\ getColorMode o = None /\ isShowingCoordinateSystem o = None /\
      isShowingBoundingBox o = None /\ isPerspectiveModeEnabled o = None /\
      getMeasuredDistance o = None /\ getPickedPoint o = vec3_zero /\
      getBackgroundColor o = QColor_rgba 0 0 0 1 /\ getPointSize o = f32_2
  | None => False
  end.
Proof. vm_compute. repeat split. Qed.

(** On a machine that shows the overlay, the frame after a resize to 800
    by 600 has the axes of [overlay_800_600] in the corner of the new
    size. *)
Lemma machine_overlay_resized :
  match object_run example_fs [EvResize 800 600; EvPaint] (machine true (640, 480)%Z) with
  | Some (o, cmds) =>
      Some (tl cmds) = drawCoordinateSystem 800 600 fresh /\
      hd (SetRenderHint false) cmds = SetRenderHint true /\
      o_size o = (800, 600)%Z
  | None => False
  end.
Proof. vm_compute. repeat split. Qed.

End MembersScenarios.
