(* ===== verification/PlyLayout.v ===== *)
(** * PlyLayout: an ASCII record is its words, however they are spaced

    [PlyAscii] reads back the lines a printer writes, one space between
    two words.  The inner loop of the ASCII records extracts from the
    stream of a line with [operator>>], which skips the white space
    before a number: this file shows that the loop reads the words of
    the line ([split_ws]) whatever white space is before, between and
    after them, and that it does not look at the words after the last
    property.

    ** Definitions

    - [words_ok]: the first words of a line fit the properties; the
      line may hold more.
    - [ends_word]: a text that is empty or starts with white space.
    - [reads]: the words a stream holds for the extractions to come.
    - [text_of]: lines, each ended by a line feed.

    ** Theorems

    - [first_word]: a text after its leading white space is its first
      word and the rest.
    - [extract_num_words]: one extraction reads the next word.
    - [read_values_ascii_layout]: the inner loop on a line.
    - [ascii_body_layout]: the record loop on lines.
    - [ply_ascii_layout]: a file with a printed header and any such
      lines.
    - [ply_layouts_agree]: two files whose lines have the same words
      are loaded as the same cloud. *)

From Stdlib Require Import Arith ZArith NArith Lia Bool List String Ascii SpecFloat.
From S2P Require Import Prelude Float32 Vec3 Text IStream Cloud PlyParser PlyHeader PlyBody.
From S2P Require Import PtsParser PtsFile PtsWords PlyAscii.
Import ListNotations.
Local Open Scope list_scope.
Local Open Scope string_scope.

(** ** Definitions *)

(** A text that is empty or starts with white space: what follows a
    word. *)
Definition ends_word (r : string) : Prop :=
  r = "" \/ exists c r', r = String c r' /\ is_space c = true.

(** The stream holds the words [toks] for the extractions to come. *)
Definition reads (s : istream) (toks : list string) : Prop :=
  match toks with
  | [] => True
  | _ => good s = true /\ split_ws (is_buf s) = toks
  end.

(** Lines, each ended by a line feed. *)
Fixpoint text_of (lines : list string) : string :=
  match lines with
  | [] => ""
  | l :: ls => l ++ String newline (text_of ls)
  end.

Section Words.
Context {NG : NumGet}.

(** The words of a line fit the properties: a numeral of the kind the
    property is read with for each [float] and [uchar] property; the
    words after those are not looked at. *)
Fixpoint words_ok (props : list PropertyInfo) (toks : list string) : bool :=
  match props with
  | [] => true
  | p :: ps =>
      match prop_type p, toks with
      | PROP_NONE, _ => words_ok ps toks
      | PROP_FLOAT, t :: ts => reads_all get_float t && words_ok ps ts
      | PROP_UCHAR, t :: ts => reads_all get_int t && words_ok ps ts
      | _, [] => false
      end
  end.

(** A line of the body: no line feed in it, and words that fit. *)
Definition line_ok (props : list PropertyInfo) (l : string) : Prop :=
  no_newline l = true /\ words_ok props (split_ws l) = true.

End Words.

(** ** Words of a text *)
Lemma cut_word_spec s :
  s = fst (cut_word s) ++ snd (cut_word s) /\
  solid (fst (cut_word s)) = true /\ ends_word (snd (cut_word s)).
Proof.
  induction s as [|c s (E & S & R)]; cbn [cut_word].
  - split; [reflexivity|]. split; [reflexivity | now left].
  - destruct (is_space c) eqn:C.
    + split; [reflexivity|]. split; [reflexivity | right; now exists c, s].
    + destruct (cut_word s) as [w r]; cbn [fst snd append] in *.
      split; [now rewrite <- E|]. split; [|exact R].
      unfold solid in *; simpl. now rewrite C.
Qed.

(** A word and what follows it: the first word of the text. *)
Lemma split_ws_word w r :
  solid w = true -> isEmpty w = false -> ends_word r ->
  split_ws (w ++ r) = w :: split_ws r.
Proof.
  intros S E R; unfold split_ws. rewrite (split_from_solid w r "" S). cbn [append].
  destruct R as [->|(c & r' & -> & C)]; cbn [split_from]; now rewrite ?C, E.
Qed.

(** The text after its leading white space is its first word, then the
    text of the other words. *)
Lemma first_word s t ts :
  split_ws s = t :: ts ->
  exists r, ltrim s = t ++ r /\ solid t = true /\ isEmpty t = false /\
            ends_word r /\ split_ws r = ts.
Proof.
  rewrite <- split_ws_ltrim. pose proof (ltrim_solid s) as L.
  destruct (cut_word_spec (ltrim s)) as (E & S & R).
  destruct (cut_word (ltrim s)) as [w r]; cbn [fst snd] in *. intros W.
  assert (isEmpty w = false) as N.
  { destruct w; [|reflexivity]. cbn [append] in E. rewrite E in L, W.
    destruct R as [->|(c & r' & -> & C)]; [discriminate W|]. cbn in L. congruence. }
  rewrite E, (split_ws_word w r S N R) in W. injection W as <- <-.
  now exists r.
Qed.

(** ** One extraction *)

Section Extraction.
Context {A : Type} (get : string -> num_result A).
Hypothesis local : forall tok sp rest, is_space sp = true ->
  get (tok ++ String sp rest) = leave (get tok) (String sp rest).

(** [get] on a word and what follows it is [get] on the word. *)
Lemma get_word t r :
  ends_word r -> reads_all get t = true ->
  get (t ++ r) = (fst (fst (get t)), true, r).
Proof.
  unfold reads_all; intros R G. destruct (get t) as [[v ok] rest] eqn:E.
  apply andb_prop in G as [-> G]. apply isEmpty_true in G; subst rest.
  destruct R as [->|(c & r' & -> & C)]; [now rewrite string_app_empty|].
  now rewrite (local t c r' C), E.
Qed.

(** An extraction reads the next word of the stream, whatever white
    space is before it, and leaves the words after it. *)
Lemma extract_num_words s t ts :
  reads s (t :: ts) -> reads_all get t = true ->
  exists s', extract_num get s = (s', Some (fst (fst (get t)))) /\ reads s' ts.
Proof.
  intros [G W] R. destruct (first_word _ _ _ W) as (r & L & S & N & E & <-).
  unfold extract_num, sentry. rewrite G, L.
  destruct t as [|c t]; [discriminate N|]. cbn [append is_buf].
  change (String c (t ++ r)) with (String c t ++ r). rewrite (get_word _ r E R).
  eexists; split; [reflexivity|]. unfold reads.
  destruct (split_ws r) eqn:Sr; [exact I|]. split; [|exact Sr].
  destruct r; [discriminate Sr | reflexivity].
Qed.

End Extraction.

(** ** The loops *)

Section LayoutTheory.
Context {NG : NumGet} {NL : NumGetLocal NG}.

(** A record that fits its properties word for word fits them. *)
Lemma tokens_ok_words_ok props : forall toks,
  tokens_ok props toks = true -> words_ok props toks = true.
Proof.
  induction props as [|p ps IH]; intros toks T; cbn [tokens_ok words_ok] in *; [reflexivity|].
  destruct (prop_type p); [now apply IH| |];
    (destruct toks as [|t ts]; [discriminate T|]);
    apply andb_prop in T as [T T2]; apply andb_prop in T as [_ ->]; now apply IH.
Qed.

(** The inner loop on a stream that holds the words. *)
Lemma read_values_ascii_words props : forall s toks,
  words_ok props toks = true -> reads s toks ->
  read_values_ascii props s = Some (token_values props toks).
Proof.
  induction props as [|p ps IH]; intros s toks W H;
    cbn [words_ok read_values_ascii token_values] in *; [reflexivity|].
  destruct (prop_type p).
  - now rewrite (IH s toks W H).
  - destruct toks as [|t ts]; [discriminate W|]. apply andb_prop in W as [R W].
    destruct (extract_num_words get_float get_float_local s t ts H R) as (s' & E & H').
    unfold extract_float. rewrite E. now rewrite (IH s' ts W H').
  - destruct toks as [|t ts]; [discriminate W|]. apply andb_prop in W as [R W].
    destruct (extract_num_words get_int get_int_local s t ts H R) as (s' & E & H').
    unfold extract_int. rewrite E. now rewrite (IH s' ts W H').
Qed.

(** The inner loop on a line: the values of its words. *)
Lemma read_values_ascii_layout props l :
  words_ok props (split_ws l) = true ->
  read_values_ascii props (stream_of l) = Some (token_values props (split_ws l)).
Proof.
  intros W. apply read_values_ascii_words; [exact W|]. unfold reads.
  destruct (split_ws l) eqn:E; [exact I|]. rewrite <- E. now split.
Qed.

(** The record loop on lines, whatever follows them. *)
Lemma ascii_body_layout h lines : forall rest l c,
  Forall (line_ok (properties h)) lines ->
  exists l',
    ascii_body (List.length lines) h (stream_of (text_of lines ++ rest)) l c =
    Some (stream_of rest, l', add_lines h (map split_ws lines) c).
Proof.
  induction lines as [|r lines IH]; intros rest l c F; [now exists l|].
  inversion F as [|? ? [N W] F']; subst. cbn [List.length text_of ascii_body map].
  rewrite string_app_assoc; cbn [append].
  rewrite (getline_app _ _ _ N), (read_values_ascii_layout _ _ W).
  exact (IH rest _ _ F').
Qed.

Lemma ply_body_layout h lines rest :
  isBinary h = false -> numVertices h = Z.of_nat (List.length lines) ->
  Forall (line_ok (properties h)) lines ->
  ply_body h (stream_of (text_of lines ++ rest)) =
  PlyLoaded (add_lines h (map split_ws lines) cloud_reset).
Proof.
  intros B N F; unfold ply_body. rewrite B, N, Nat2Z.id; cbn [negb].
  now destruct (ascii_body_layout h lines rest (line h) cloud_reset F) as [l' ->].
Qed.

(** C10: an ASCII record is its words.  A file with a well-formed header
    that declares x, y and z, followed by the lines it announces, is
    loaded as the cloud of the words of its lines, one vertex per line in
    file order, whatever white space stands before, between and after
    the words, provided the first words of each line are numerals of the
    kind their property is read with; the words after the last property
    and the text after the last line are not read. *)
Theorem ply_ascii_layout hd lines rest :
  wf_props (hd_props hd) = true ->
  get_int (decimal_of_N (hd_count hd)) = (Z.of_N (hd_count hd), true, EmptyString) ->
  hd_format hd = FmtAscii ->
  declares "x" (hd_props hd) && declares "y" (hd_props hd) &&
    declares "z" (hd_props hd) = true ->
  hd_count hd = N.of_nat (List.length lines) ->
  Forall (line_ok (recognised (hd_props hd))) lines ->
  ply_parse (print_header hd ++ text_of lines ++ rest) =
  PlyLoaded (add_lines (expected hd) (map split_ws lines) cloud_reset).
Proof.
  intros W G Fm D Cn F.
  destruct (ply_parse_printed hd (text_of lines ++ rest) W G D) as (h & S & ->).
  destruct (printed_locals hd h S) as (P & N & B).
  rewrite ply_body_layout, (add_lines_same _ _ _ _ S); try reflexivity.
  - now rewrite B, Fm.
  - now rewrite N, Cn, nat_N_Z.
  - now rewrite P.
Qed.

(** Lines with the words of lines that fit do fit. *)
Lemma line_ok_same_words props lines : forall lines',
  Forall (line_ok props) lines ->
  Forall (fun l => no_newline l = true) lines' ->
  map split_ws lines' = map split_ws lines ->
  Forall (line_ok props) lines'.
Proof.
  induction lines as [|l lines IH]; intros [|l' lines'] F N E; try discriminate E;
    constructor; inversion F as [|? ? [_ W] F']; inversion N; subst;
    injection E as E1 E2.
  - split; [assumption | now rewrite E1].
  - now apply IH.
Qed.

(** Two bodies whose lines have the same words are loaded as the same
    cloud. *)
Lemma ply_layouts_agree hd lines lines' rest rest' :
  wf_props (hd_props hd) = true ->
  get_int (decimal_of_N (hd_count hd)) = (Z.of_N (hd_count hd), true, EmptyString) ->
  hd_format hd = FmtAscii ->
  declares "x" (hd_props hd) && declares "y" (hd_props hd) &&
    declares "z" (hd_props hd) = true ->
  hd_count hd = N.of_nat (List.length lines) ->
  Forall (line_ok (recognised (hd_props hd))) lines ->
  Forall (fun l => no_newline l = true) lines' ->
  map split_ws lines' = map split_ws lines ->
  ply_parse (print_header hd ++ text_of lines' ++ rest') =
  ply_parse (print_header hd ++ text_of lines ++ rest).
Proof.
  intros W G Fm D Cn F N E.
  pose proof (line_ok_same_words _ _ _ F N E) as F'.
  assert (List.length lines' = List.length lines) as L
    by now rewrite <- (length_map split_ws), E, length_map.
  destruct (ply_parse_printed hd (text_of lines ++ rest) W G D) as (h & S & ->).
  destruct (ply_parse_printed hd (text_of lines' ++ rest') W G D) as (h' & S' & ->).
  destruct (printed_locals hd h S) as (P & Nh & B).
  destruct (printed_locals hd h' S') as (P' & Nh' & B').
  rewrite !ply_body_layout; rewrite ?P, ?P', ?B, ?B', ?Fm, ?Nh, ?Nh', ?Cn, ?L, ?nat_N_Z;
    trivial.
  now rewrite E, (add_lines_same _ _ _ _ S), (add_lines_same _ _ _ _ S').
Qed.

End LayoutTheory.

(** ** Two lines in another layout *)

Section PlyLayoutScenarios.

#[local] Existing Instance StdNumGet.

(** The two records of [coloured_lines]: the first with blanks and a tab
    around its words, the second followed by words no property reads. *)
Definition loose_lines : list string :=
  ["  0 0" ++ tab ++ "0   255 0 0  ";
   "1 2.5 -3e0 0 128 255 and more words"].

Lemma ply_ascii_layout_witness :
  ply_parse (print_header coloured_header ++ text_of loose_lines ++ "") =
  PlyLoaded (add_lines (expected coloured_header) (map split_ws loose_lines) cloud_reset).
Proof.
  refine (ply_ascii_layout (NG := StdNumGet) coloured_header loose_lines ""
            eq_refl (std_get_int_printed 2 _) eq_refl eq_refl eq_refl _).
  - discriminate.
  - repeat constructor.
Defined.

(** The file in the loose layout is loaded as the printed file is. *)
Lemma loose_file_loaded :
  ply_parse (print_header coloured_header ++ text_of loose_lines) =
  ply_parse (print_header coloured_header ++ lines_of coloured_lines).
Proof. vm_compute; reflexivity. Qed.

(** A line with fewer words than properties does not fit: the extraction
    of the missing word stores nothing and the loop copies a variable
    without a value. *)
Lemma short_line_undefined :
  words_ok (recognised (hd_props coloured_header)) (split_ws "0 0 0 255") = false /\
  ply_parse (print_header (mkHeader FmtAscii 1 (hd_props coloured_header)) ++
             text_of ["0 0 0 255"]) = PlyUndefined.
Proof. split; vm_compute; reflexivity. Qed.

End PlyLayoutScenarios.
