(* ===== verification/PlyElements.v ===== *)
(** * PlyElements: the header loop by the words of a line

    The header loop of [loadPlyFile] puts each line in a string stream
    and extracts words from it.  This file gives the body of the loop as
    a function of the words of the line ([header_words]) and proves the
    stream code equal to it, whatever white space is in the line.  The
    only other thing the loop asks of a line is whether the text
    [vertex] occurs in it.

    The loop has no variable for the element a [property] line belongs
    to: an [element] line that does not contain [vertex] changes
    nothing, like a comment, so the properties declared after it are
    appended to the properties of the vertices.

    ** Definitions

    - [spent], [words_left]: the words a stream still holds, and a
      stream from which no word can be extracted.
    - [header_words]: the body of the header loop on the words of the
      line.
    - [ignored]: a line the loop does nothing with.

    ** Theorems

    - [extract_word_left], [extract_num_left]: an extraction takes the
      next word, or fails when none is left.
    - [header_line_words]: the body of the loop is [header_words].
    - [header_line_ignored], [header_fold_ignored]: an ignored line
      before [end_header] can be removed.
    - [ignored_line_removed]: an ASCII file with an ignored line in its
      header is loaded as the file without the line. *)

From Stdlib Require Import Arith ZArith NArith Lia Bool List String Ascii SpecFloat.
From S2P Require Import Prelude Float32 Vec3 Text IStream Cloud PlyParser PlyHeader PlyBody.
From S2P Require Import PtsParser PtsFile PtsWords PlyLines PlyAscii PlyLayout.
Import ListNotations.
Local Open Scope list_scope.
Local Open Scope string_scope.

(** ** Definitions *)

(** No word can be extracted: the stream is not good, or it holds white
    space only. *)
Definition spent (s : istream) : Prop :=
  good s = false \/ split_ws (is_buf s) = [].

(** The words the stream holds for the extractions to come. *)
Definition words_left (s : istream) (ws : list string) : Prop :=
  match ws with
  | [] => spent s
  | _ => good s = true /\ split_ws (is_buf s) = ws
  end.

(** The word an extraction into an empty string variable leaves there. *)
Definition word (ws : list string) : string := word_or_empty (hd_error ws).

Section Words.
Context {NG : NumGet}.

(** The body of the header loop on the words of the line; [vertex] says
    whether the text [vertex] occurs in the line. *)
Definition header_words (h : PlyLocals) (ws : list string) (vertex : bool)
    : PlyLocals * bool :=
  let keyword := word ws in
  if String.eqb keyword "end_header" then (set_headerEnd true h, true)
  else if String.eqb keyword "format" then (header_format h (word (tl ws)), false)
  else if String.eqb keyword "element" && vertex then
    (match hd_error (tl (tl ws)) with
     | Some n => set_numVertices (fst (fst (get_int n))) h
     | None => h
     end, false)
  else if String.eqb keyword "property" then
    (header_property h (word (tl ws)) (word (tl (tl ws))), false)
  else (h, false).

End Words.

(** A line the loop does nothing with: its first word is none of the
    four keywords, or it is [element] without the text [vertex]. *)
Definition ignored (l : string) : bool :=
  let keyword := word (split_ws l) in
  negb (String.eqb keyword "end_header") && negb (String.eqb keyword "format") &&
  negb (String.eqb keyword "element" && contains l "vertex") &&
  negb (String.eqb keyword "property").

(** The line does not end the header. *)
Definition goes_on (l : string) : bool :=
  negb (String.eqb (word (split_ws l)) "end_header").

(** ** Extractions by words *)

(** A text without words is white space. *)
Lemma split_ws_nil b : split_ws b = [] -> ltrim b = "".
Proof.
  rewrite <- split_ws_ltrim. pose proof (ltrim_solid b) as L.
  destruct (cut_word_spec (ltrim b)) as (E & S & R).
  destruct (cut_word (ltrim b)) as [[|c w] r]; cbn [fst snd append] in *.
  - destruct R as [R|(c & r' & R & C)]; rewrite R in E; [now rewrite E|].
    rewrite E in L. cbn in L. congruence.
  - rewrite E. change (String c (w ++ r)) with (String c w ++ r).
    now rewrite (split_ws_word _ r S eq_refl R).
Qed.

(** A word and what follows it are cut at the end of the word. *)
Lemma cut_word_word t r : solid t = true -> ends_word r -> cut_word (t ++ r) = (t, r).
Proof.
  intros S [->|(c & r' & -> & C)].
  - rewrite string_app_empty. now apply cut_word_all.
  - now apply cut_word_app.
Qed.

(** The stream an extraction leaves holds the words of the rest. *)
Lemma words_left_rest r : words_left (mkStream r (isEmpty r) false) (split_ws r).
Proof.
  destruct (split_ws r) eqn:W; cbn [words_left].
  - destruct r; [now left | now right].
  - split; [|exact W]. now destruct r.
Qed.

Lemma words_left_start l : words_left (stream_of l) (split_ws l).
Proof.
  destruct (split_ws l) eqn:W; cbn [words_left]; [now right | now split].
Qed.

Lemma spent_failed s : spent (set_failbit s).
Proof. left. unfold good, set_failbit; cbn. apply andb_false_r. Qed.

(** The state and the text of a stream when the sentry lets the
    extraction go on, and the stream it leaves when it does not. *)
Lemma sentry_left s ws :
  words_left s ws ->
  match ws with
  | [] => exists s', sentry s = (s', false) /\ spent s'
  | t :: ts =>
      exists r, sentry s = (mkStream (t ++ r) false false, true) /\
                solid t = true /\ ends_word r /\ split_ws r = ts
  end.
Proof.
  destruct ws as [|t ts]; cbn [words_left]; unfold sentry.
  - destruct (good s) eqn:G; [|intros _; eexists; split; [reflexivity | apply spent_failed]].
    intros [H|H]; [congruence|]. rewrite (split_ws_nil _ H).
    eexists; split; [reflexivity | now left].
  - intros [G W]. destruct (first_word _ _ _ W) as (r & L & S & N & E & T).
    rewrite G, L. exists r. destruct t; [discriminate N | now repeat split].
Qed.

(** An extraction of a word takes the next word of the stream, or fails
    when there is none. *)
Lemma extract_word_left s ws :
  words_left s ws ->
  exists s', extract_word s = (s', hd_error ws) /\ words_left s' (tl ws).
Proof.
  intros H. apply sentry_left in H. unfold extract_word.
  destruct ws as [|t ts]; cbn [hd_error tl].
  - destruct H as (s' & -> & H). now exists s'.
  - destruct H as (r & -> & S & E & <-). cbn [is_buf]. rewrite (cut_word_word t r S E).
    eexists; split; [reflexivity | apply words_left_rest].
Qed.

Section Numbers.
Context {A : Type} (get : string -> num_result A).
Hypothesis local : forall tok sp rest, is_space sp = true ->
  get (tok ++ String sp rest) = leave (get tok) (String sp rest).

(** The value [get] stores does not depend on what follows the word. *)
Lemma get_value t r : ends_word r -> fst (fst (get (t ++ r))) = fst (fst (get t)).
Proof.
  intros [->|(c & r' & -> & C)]; [now rewrite string_app_empty|].
  rewrite (local t c r' C). now destruct (get t) as [[v ok] rest].
Qed.

(** An extraction of a number stores the value of the next word, whether
    the word is a numeral or not, and nothing when no word is left. *)
Lemma extract_num_left s ws :
  words_left s ws ->
  snd (extract_num get s) = option_map (fun t => fst (fst (get t))) (hd_error ws).
Proof.
  intros H. apply sentry_left in H. unfold extract_num.
  destruct ws as [|t ts]; cbn [hd_error option_map].
  - now destruct H as (s' & -> & _).
  - destruct H as (r & -> & _ & E & _). cbn [is_buf]. rewrite <- (get_value t r E).
    now destruct (get (t ++ r)) as [[v ok] rest].
Qed.

End Numbers.

(** ** The body of the header loop *)

Section ElementsTheory.
Context {NG : NumGet} {NL : NumGetLocal NG}.

(** The body of the loop is a function of the words of the line and of
    the occurrence of [vertex] in it. *)
Lemma header_line_words h :
  header_line h = header_words h (split_ws (line h)) (contains (line h) "vertex").
Proof.
  unfold header_line, header_words, word.
  destruct (extract_word_left _ _ (words_left_start (line h))) as (s1 & -> & H1).
  destruct (extract_word_left _ _ H1) as (s2 & E2 & H2).
  destruct (String.eqb _ "end_header"); [reflexivity|].
  destruct (String.eqb _ "format"); [rewrite E2; now destruct (extract_word s2)|].
  destruct (String.eqb _ "element" && _).
  - rewrite E2. pose proof (extract_num_left get_int get_int_local s2 _ H2) as N.
    unfold extract_int. destruct (extract_num get_int s2) as [s3 n]; cbn [snd] in N.
    subst n. now destruct (hd_error (tl (tl _))).
  - destruct (String.eqb _ "property"); [|reflexivity]. rewrite E2.
    now destruct (extract_word_left _ _ H2) as (s3 & -> & _).
Qed.

(** The loop is left at a line whose first word is [end_header], and at
    no other. *)
Lemma header_line_break h :
  snd (header_line h) = negb (goes_on (line h)).
Proof.
  rewrite header_line_words. unfold header_words, goes_on. rewrite negb_involutive.
  destruct (String.eqb _ "end_header"); [reflexivity|].
  destruct (String.eqb _ "format"); [reflexivity|].
  destruct (_ && _); [reflexivity|]. now destruct (String.eqb _ "property").
Qed.

(** An ignored line changes the line variable only. *)
Lemma header_line_ignored h l :
  ignored l = true -> header_line (set_line l h) = (set_line l h, false).
Proof.
  unfold ignored; intros G. rewrite header_line_words. unfold header_words. cbn [line set_line].
  repeat (apply andb_prop in G as [G ?]).
  repeat match goal with H : negb _ = true |- _ => apply negb_true_iff in H; rewrite H end.
  reflexivity.
Qed.

(** ** Ignored lines in the header *)

(** The line variable is assigned before it is read. *)
Lemma header_fold_line l0 lines nl h :
  lines <> [] -> header_fold lines nl (set_line l0 h) = header_fold lines nl h.
Proof. destruct lines as [|l ls]; [easy | reflexivity]. Qed.

(** An ignored line before another line can be removed. *)
Lemma header_fold_ignored l post nl h :
  ignored l = true -> post <> [] ->
  header_fold (l :: post) nl h = header_fold post nl h.
Proof.
  intros G N. cbn [header_fold]. rewrite (header_line_ignored h l G).
  now apply header_fold_line.
Qed.

(** So can one after lines that do not end the header. *)
Lemma header_fold_ignored_in l post nl pre : forall h,
  forallb goes_on pre = true -> ignored l = true -> post <> [] ->
  header_fold (pre ++ l :: post)%list nl h = header_fold (pre ++ post)%list nl h.
Proof.
  induction pre as [|p pre IH]; intros h P G N; [now apply header_fold_ignored|].
  cbn [forallb] in P. apply andb_prop in P as [P1 P2]. cbn [app header_fold].
  pose proof (header_line_break (set_line p h)) as B. cbn [line set_line] in B.
  destruct (header_line (set_line p h)) as [h' brk]; cbn [snd] in B. rewrite B, P1.
  cbn [negb]. now apply IH.
Qed.

(** ** Files *)

(** The lines of a text written line by line. *)
Lemma text_lines_text_of lines :
  Forall (fun l => no_newline l = true) lines -> text_lines (text_of lines) = lines.
Proof.
  induction 1 as [|l ls N _ IH]; [reflexivity|]. cbn [text_of].
  now rewrite (text_lines_cons _ _ N), IH.
Qed.

Lemma ends_nl_app a b : b <> "" -> ends_nl (a ++ b) = ends_nl b.
Proof.
  intros N. induction a as [|c a IH]; [reflexivity|]. cbn [append ends_nl].
  rewrite IH. destruct (a ++ b) eqn:E; [|reflexivity].
  destruct a; [now elim N | discriminate E].
Qed.

Lemma ends_nl_text_of lines : ends_nl (text_of lines) = true.
Proof.
  induction lines as [|l ls IH]; [reflexivity|]. cbn [text_of].
  rewrite ends_nl_app by discriminate. cbn [ends_nl].
  destruct (text_of ls); [reflexivity | exact IH].
Qed.

(** The loader of an ASCII file is a function of what the header loop
    computes from the lines of the text. *)
Lemma ply_parse_by_fold content content' :
  header_fold (text_lines content) (ends_nl content) locals_init =
  header_fold (text_lines content') (ends_nl content') locals_init ->
  declared_binary content' = false ->
  ply_parse content = ply_parse content'.
Proof.
  unfold declared_binary, ply_parse, ply_body; intros F B.
  destruct (ply_header_lines content) as (file & -> & L & N).
  destruct (ply_header_lines content') as (file' & -> & L' & N').
  rewrite F in L, N |- *. clear F.
  destruct (header_fold _ _ _) as [[h rest] nl]; cbn [fst snd] in *.
  destruct (header_valid h); [|reflexivity]. rewrite B; cbn [negb].
  pose proof (ascii_body_lines (Z.to_nat (numVertices h)) h file (line h) cloud_reset) as A.
  pose proof (ascii_body_lines (Z.to_nat (numVertices h)) h file' (line h) cloud_reset) as A'.
  rewrite L, N in A. rewrite L', N', <- A in A'.
  destruct (ascii_body _ h file _ _) as [[[? ?] ?]|], (ascii_body _ h file' _ _) as [[[? ?] ?]|];
    cbn in A'; congruence.
Qed.

(** C12: the header loop keeps no element.  A line before [end_header]
    whose first word is none of [end_header], [format] and [property],
    and is not [element] in a line with the text [vertex] (a comment, an
    [element face] line), changes nothing: an ASCII file with such a
    line is loaded as the file without it.  The properties declared
    after an [element] line of another element are therefore read as
    properties of the vertices. *)
Theorem ignored_line_removed pre l post :
  Forall (fun x => no_newline x = true) (pre ++ l :: post)%list ->
  forallb goes_on pre = true -> ignored l = true -> post <> [] ->
  declared_binary (text_of (pre ++ post)%list) = false ->
  ply_parse (text_of (pre ++ l :: post)%list) = ply_parse (text_of (pre ++ post)%list).
Proof.
  intros N P G E B. apply ply_parse_by_fold; [|exact B].
  assert (Forall (fun x => no_newline x = true) (pre ++ post)%list) as N'.
  { apply Forall_app in N as [N1 N2]. apply Forall_app. split; [exact N1|].
    now inversion N2. }
  rewrite !text_lines_text_of, !ends_nl_text_of by assumption.
  now apply header_fold_ignored_in.
Qed.

End ElementsTheory.

(** ** A mesh with coloured faces *)

Section PlyElementsScenarios.

#[local] Existing Instance StdNumGet.

(** One vertex with x, y and z. *)
Definition vertex_part : list string :=
  ["ply"; "format ascii 1.0"; "comment one vertex"; "element vertex 1";
   "property float x"; "property float y"; "property float z"].

(** The declarations of coloured faces, and the end of the header with
    a record that has a word for each of the six properties. *)
Definition face_part : list string :=
  ["property list uchar int vertex_indices";
   "property uchar red"; "property uchar green"; "property uchar blue";
   "end_header"; "1 2 3 255 0 0"].

Lemma ignored_line_removed_witness :
  ply_parse (text_of (vertex_part ++ "element face 1" :: face_part)%list) =
  ply_parse (text_of (vertex_part ++ face_part)%list).
Proof.
  apply ignored_line_removed; try reflexivity; [repeat constructor | discriminate].
Defined.

(** The colours of the faces are bound as colours of the vertices: the
    header of the mesh is accepted with six properties. *)
Lemma face_colours_bound :
  match ply_header (text_of (vertex_part ++ "element face 1" :: face_part)%list) with
  | Some (_, h) =>
      map prop_name (properties h) = ["x"; "y"; "z"; "red"; "green"; "blue"] /\
      redIndex h = 3%Z /\ hasColors h = true /\ header_valid h = true
  | None => False
  end.
Proof. vm_compute. repeat split. Qed.

(** The mesh as a tool writes it, the record of the vertex with its
    three coordinates: the extraction of the red channel finds no word,
    and the loop copies a variable without a value. *)
Lemma mesh_with_face_colours_undefined :
  ply_parse (text_of (vertex_part ++
                      ["element face 1"; "property list uchar int vertex_indices";
                       "property uchar red"; "property uchar green"; "property uchar blue";
                       "end_header"; "1 2 3"; "3 0 0 0 255 0 0"])%list) = PlyUndefined.
Proof. vm_compute; reflexivity. Qed.

(** An element whose name contains [vertex] sets the number of records. *)
Lemma other_element_sets_count :
  match ply_header (text_of (vertex_part ++ ["element vertex_group 7"; "end_header"])%list) with
  | Some (_, h) => numVertices h = 7%Z
  | None => False
  end.
Proof. vm_compute; reflexivity. Qed.

(** White space in the lines of the header does not matter. *)
Lemma loose_header_loaded :
  ply_parse (text_of ["ply"; "  format   ascii 1.0 "; "element" ++ tab ++ "vertex  1";
                      "property  float x"; " property float  y"; "property float z  ";
                      "  end_header  "; "1 2 3"]) =
  ply_parse (text_of ["ply"; "format ascii 1.0"; "element vertex 1";
                      "property float x"; "property float y"; "property float z";
                      "end_header"; "1 2 3"]).
Proof. vm_compute; reflexivity. Qed.

End PlyElementsScenarios.
